(** * Device management and texture upload of the Vulkan renderer

    A shallow embedding of the graphics-device layer of the renderer:
    the mip-level count and the mip-chain recording of
    [load_image_texture2d] (vkimage.cpp), device scoring and selection,
    swapchain creation and recreation (vulkan_window.cpp), and the
    acquire/present handling of the render loop (main.cpp); further the
    instance and logical-device set-up and the destructor of the window
    (vulkan_window.cpp), the start-up of [main] (meshes, textures,
    descriptor sets, per-image frame objects), its render loop and the
    input callbacks (main.cpp), and the texture table of the asset baker
    (bake/main.cpp).

    Unsigned 32-bit values are integers in [0, 2^32) with the wrap-around
    written out.  Driver entry points are fields of a record of query
    functions; calls that change driver state are recorded in an event log. *)

From Stdlib Require Import ZArith Lia List Bool.
From stdpp Require Import base decidable list gmap strings.

Local Open Scope Z_scope.

(** ** Unsigned 32-bit arithmetic *)

Module U32.

Definition modulus : Z := 2 ^ 32.
Definition max_value : Z := 0xFFFFFFFF.

Definition wrap (z : Z) : Z := z mod modulus.
Definition add (a b : Z) : Z := wrap (a + b).
Definition sub (a b : Z) : Z := wrap (a - b).
Definition shl (a n : Z) : Z := wrap (Z.shiftl a n).
Definition shr (a n : Z) : Z := Z.shiftr a n.

Definition in_range (z : Z) : Prop := 0 <= z < modulus.

(** [std::uint32_t(i)] for an [int] i, and [int32_t(u)] for a uint32 u. *)
Definition of_int (i : Z) : Z := wrap i.
Definition to_int32 (u : Z) : Z := if u <? 2 ^ 31 then u else u - modulus.

End U32.

(** ** vkimage.cpp: leading zeros and the mip-level count *)

Definition countl_zero_ (aX : Z) : Z :=
  if aX =? 0 then 32 else
  let res := 0 in
  let '(res, aX) :=
    if Z.land aX 0xffff0000 =? 0 then (U32.add res 16, U32.shl aX 16) else (res, aX) in
  let '(res, aX) :=
    if Z.land aX 0xff000000 =? 0 then (U32.add res 8, U32.shl aX 8) else (res, aX) in
  let '(res, aX) :=
    if Z.land aX 0xf0000000 =? 0 then (U32.add res 4, U32.shl aX 4) else (res, aX) in
  let '(res, aX) :=
    if Z.land aX 0xc0000000 =? 0 then (U32.add res 2, U32.shl aX 2) else (res, aX) in
  let res :=
    if Z.land aX 0x80000000 =? 0 then U32.add res 1 else res in
  res.

Definition compute_mip_level_count (aWidth aHeight : Z) : Z :=
  let bits := Z.lor aWidth aHeight in
  let leadingZeros := countl_zero_ bits in
  U32.sub 32 leadingZeros.

(** The reference formula of the specification: one more than the floor of
    the binary logarithm of the larger dimension. *)
Definition mip_levels_reference (width height : Z) : Z :=
  1 + Z.log2 (Z.max width height).

(** ** Result codes, errors and outcomes *)

(** [VkResult] is a C enumeration: a signed 32-bit code. *)
Definition VkResult : Type := Z.
Definition VK_SUCCESS : VkResult := 0.
Definition VK_NOT_READY : VkResult := 1.
Definition VK_TIMEOUT : VkResult := 2.
Definition VK_SUBOPTIMAL_KHR : VkResult := 1000001003.
Definition VK_ERROR_OUT_OF_DATE_KHR : VkResult := -1000001004.
Definition VK_ERROR_DEVICE_LOST : VkResult := -4.
Definition VK_ERROR_SURFACE_LOST_KHR : VkResult := -1000000000.

(** [lut::Error]: the message names the failing operation; the driver's
    status, when there is one, is formatted into it by [to_string]. *)
Record Error : Type := MkError { what : string; status : option VkResult }.

(** A call returns, throws [lut::Error], or comes to an [assert] whose
    condition is false.  The embedding follows a build in which <cassert>
    checks the assertions (NDEBUG not defined), where the program aborts at
    that point.  A build with NDEBUG compiles the assertions out; it agrees
    with the embedding on every run that ends in [Ok] or [Throw], and what
    it does after a false condition is not followed here. *)
Inductive outcome (A : Type) : Type :=
| Ok (a : A)
| Throw (e : Error)
| AssertFailed (cond : string).
Arguments Ok {A} a.
Arguments Throw {A} e.
Arguments AssertFailed {A} cond.

Definition throw_result {A : Type} (msg : string) (res : VkResult) : outcome A :=
  Throw (MkError msg (Some res)).

Definition bind_outcome {A B : Type} (m : outcome A) (k : A -> outcome B) : outcome B :=
  match m with
  | Ok a => k a
  | Throw e => Throw e
  | AssertFailed c => AssertFailed c
  end.

(** [check res msg]: the idiom
    [if (auto const res = f(..); VK_SUCCESS != res) throw Error(msg, res)]. *)
Definition check (res : VkResult) (msg : string) : outcome unit :=
  if res =? VK_SUCCESS then Ok tt else throw_result msg res.

#[global] Instance outcome_ret : MRet outcome := fun _ a => Ok a.
#[global] Instance outcome_bind : MBind outcome := fun _ _ k m => bind_outcome m k.

(** ** vkimage.cpp: recording the texture upload *)

Inductive VkImageLayout : Type :=
| VK_IMAGE_LAYOUT_UNDEFINED
| VK_IMAGE_LAYOUT_TRANSFER_DST_OPTIMAL
| VK_IMAGE_LAYOUT_TRANSFER_SRC_OPTIMAL
| VK_IMAGE_LAYOUT_SHADER_READ_ONLY_OPTIMAL.

#[global] Instance VkImageLayout_eq_dec : EqDecision VkImageLayout.
Proof. solve_decision. Defined.

Inductive VkAccess : Type :=
| VK_ACCESS_NONE
| VK_ACCESS_TRANSFER_WRITE_BIT
| VK_ACCESS_TRANSFER_READ_BIT
| VK_ACCESS_SHADER_READ_BIT.

Inductive VkPipelineStage : Type :=
| VK_PIPELINE_STAGE_TOP_OF_PIPE_BIT
| VK_PIPELINE_STAGE_TRANSFER_BIT
| VK_PIPELINE_STAGE_FRAGMENT_SHADER_BIT.

Inductive VkFilter : Type := VK_FILTER_NEAREST | VK_FILTER_LINEAR.

(** The aspect is always the colour aspect and is left out. *)
Record VkImageSubresourceRange : Type := {
  baseMipLevel : Z;
  levelCount : Z;
  baseArrayLayer : Z;
  layerCount : Z
}.

Record VkOffset3D : Type := { off_x : Z; off_y : Z; off_z : Z }.

Record VkImageBlit : Type := {
  srcMipLevel : Z;
  srcOffsets0 : VkOffset3D;
  srcOffsets1 : VkOffset3D;
  dstMipLevel : Z;
  dstOffsets0 : VkOffset3D;
  dstOffsets1 : VkOffset3D
}.

Record VkBufferImageCopy : Type := {
  copyMipLevel : Z;
  copyOffset : VkOffset3D;
  copyWidth : Z;
  copyHeight : Z;
  copyDepth : Z
}.

(** Commands recorded into the one-shot command buffer, all on the image
    being uploaded. *)
Inductive Command : Type :=
| CmdPipelineBarrier (srcAccess dstAccess : VkAccess)
    (oldLayout newLayout : VkImageLayout)
    (srcStage dstStage : VkPipelineStage) (range : VkImageSubresourceRange)
| CmdCopyBufferToImage (dstLayout : VkImageLayout) (region : VkBufferImageCopy)
| CmdBlitImage (srcLayout dstLayout : VkImageLayout) (region : VkImageBlit)
    (filter : VkFilter).

(** Modelled from the spec: [image_barrier] lives in vkutil.cpp, which is not
    among the sources.  It records one pipeline barrier holding a single image
    memory barrier with the accesses, layouts, stages and subresource range it
    is given ("explicit layout-transition operations"). *)
Definition image_barrier (cbuff : list Command) (srcAccess dstAccess : VkAccess)
    (oldLayout newLayout : VkImageLayout) (srcStage dstStage : VkPipelineStage)
    (range : VkImageSubresourceRange) : list Command :=
  cbuff ++ [CmdPipelineBarrier srcAccess dstAccess oldLayout newLayout srcStage dstStage range].

Definition vkCmdCopyBufferToImage (cbuff : list Command) (dstLayout : VkImageLayout)
    (region : VkBufferImageCopy) : list Command :=
  cbuff ++ [CmdCopyBufferToImage dstLayout region].

Definition vkCmdBlitImage (cbuff : list Command) (srcLayout dstLayout : VkImageLayout)
    (region : VkImageBlit) (filter : VkFilter) : list Command :=
  cbuff ++ [CmdBlitImage srcLayout dstLayout region filter].

(** State of the loop [for (level = 1; level < mipLevels; ++level)]. *)
Record MipLoop : Type := {
  loop_level : Z;
  loop_width : Z;
  loop_height : Z;
  loop_cbuff : list Command
}.

(** One iteration of the loop body. *)
Definition mip_loop_body (st : MipLoop) : MipLoop :=
  let level := loop_level st in
  let width := loop_width st in
  let height := loop_height st in
  let srcOffsets1 :=
    {| off_x := U32.to_int32 width; off_y := U32.to_int32 height; off_z := 1 |} in
  let width := U32.shr width 1 in
  let width := if width =? 0 then 1 else width in
  let height := U32.shr height 1 in
  let height := if height =? 0 then 1 else height in
  let blit := {|
    srcMipLevel := U32.sub level 1;
    srcOffsets0 := {| off_x := 0; off_y := 0; off_z := 0 |};
    srcOffsets1 := srcOffsets1;
    dstMipLevel := level;
    dstOffsets0 := {| off_x := 0; off_y := 0; off_z := 0 |};
    dstOffsets1 :=
      {| off_x := U32.to_int32 width; off_y := U32.to_int32 height; off_z := 1 |}
  |} in
  let cbuff :=
    vkCmdBlitImage (loop_cbuff st)
      VK_IMAGE_LAYOUT_TRANSFER_SRC_OPTIMAL VK_IMAGE_LAYOUT_TRANSFER_DST_OPTIMAL
      blit VK_FILTER_LINEAR in
  let cbuff :=
    image_barrier cbuff
      VK_ACCESS_TRANSFER_WRITE_BIT VK_ACCESS_TRANSFER_READ_BIT
      VK_IMAGE_LAYOUT_TRANSFER_DST_OPTIMAL VK_IMAGE_LAYOUT_TRANSFER_SRC_OPTIMAL
      VK_PIPELINE_STAGE_TRANSFER_BIT VK_PIPELINE_STAGE_TRANSFER_BIT
      {| baseMipLevel := level; levelCount := 1; baseArrayLayer := 0; layerCount := 1 |} in
  {| loop_level := U32.add level 1; loop_width := width; loop_height := height;
     loop_cbuff := cbuff |}.

(** The loop runs while [level < mipLevels]; [fuel] bounds the number of
    iterations.  The caller passes [mipLevels] itself, which is more than the
    loop needs ([mip_loop_exits] below). *)
Fixpoint mip_loop (fuel : nat) (mipLevels : Z) (st : MipLoop) : MipLoop :=
  match fuel with
  | O => st
  | S fuel' =>
      if loop_level st <? mipLevels
      then mip_loop fuel' mipLevels (mip_loop_body st)
      else st
  end.

(** The commands [load_image_texture2d] records between
    [vkBeginCommandBuffer] and [vkEndCommandBuffer]. *)
Definition record_upload_commands (baseWidth baseHeight : Z) : MipLoop :=
  let cbuff := [] in
  let mipLevels := compute_mip_level_count baseWidth baseHeight in
  let cbuff :=
    image_barrier cbuff
      VK_ACCESS_NONE VK_ACCESS_TRANSFER_WRITE_BIT
      VK_IMAGE_LAYOUT_UNDEFINED VK_IMAGE_LAYOUT_TRANSFER_DST_OPTIMAL
      VK_PIPELINE_STAGE_TOP_OF_PIPE_BIT VK_PIPELINE_STAGE_TRANSFER_BIT
      {| baseMipLevel := 0; levelCount := mipLevels; baseArrayLayer := 0; layerCount := 1 |} in
  let copy := {|
    copyMipLevel := 0;
    copyOffset := {| off_x := 0; off_y := 0; off_z := 0 |};
    copyWidth := baseWidth; copyHeight := baseHeight; copyDepth := 1
  |} in
  let cbuff := vkCmdCopyBufferToImage cbuff VK_IMAGE_LAYOUT_TRANSFER_DST_OPTIMAL copy in
  let cbuff :=
    image_barrier cbuff
      VK_ACCESS_TRANSFER_WRITE_BIT VK_ACCESS_TRANSFER_READ_BIT
      VK_IMAGE_LAYOUT_TRANSFER_DST_OPTIMAL VK_IMAGE_LAYOUT_TRANSFER_SRC_OPTIMAL
      VK_PIPELINE_STAGE_TRANSFER_BIT VK_PIPELINE_STAGE_TRANSFER_BIT
      {| baseMipLevel := 0; levelCount := 1; baseArrayLayer := 0; layerCount := 1 |} in
  let st :=
    mip_loop (Z.to_nat mipLevels) mipLevels
      {| loop_level := 1; loop_width := baseWidth; loop_height := baseHeight;
         loop_cbuff := cbuff |} in
  let cbuff :=
    image_barrier (loop_cbuff st)
      VK_ACCESS_TRANSFER_READ_BIT VK_ACCESS_SHADER_READ_BIT
      VK_IMAGE_LAYOUT_TRANSFER_SRC_OPTIMAL VK_IMAGE_LAYOUT_SHADER_READ_ONLY_OPTIMAL
      VK_PIPELINE_STAGE_TRANSFER_BIT VK_PIPELINE_STAGE_FRAGMENT_SHADER_BIT
      {| baseMipLevel := 0; levelCount := mipLevels; baseArrayLayer := 0; layerCount := 1 |} in
  {| loop_level := loop_level st; loop_width := loop_width st;
     loop_height := loop_height st; loop_cbuff := cbuff |}.

(** [VkImageCreateInfo] as [create_image_texture2d] fills it in. *)
Record VkImageCreateInfo : Type := {
  info_width : Z;
  info_height : Z;
  info_depth : Z;
  info_mipLevels : Z;
  info_arrayLayers : Z;
  info_initialLayout : VkImageLayout
}.

(** What the upload depends on outside vkimage.cpp: the image decoder, the
    allocator, the driver, and three helpers of the repository whose sources
    (vkbuffer.cpp, vkutil.cpp) are not among the files, taken as parameters. *)
Record UploadDriver : Type := {
  stbi_load : string -> option (Z * Z);
  create_buffer : Z -> outcome unit;
  vmaMapMemory : VkResult;
  vmaCreateImage : VkImageCreateInfo -> VkResult;
  alloc_command_buffer : outcome unit;
  vkBeginCommandBuffer : VkResult;
  vkEndCommandBuffer : VkResult;
  create_fence : outcome unit;
  vkQueueSubmit : list Command -> VkResult;
  vkWaitForFences : VkResult
}.

Definition create_image_texture2d (drv : UploadDriver) (aWidth aHeight : Z)
    : outcome VkImageCreateInfo :=
  let mipLevels := compute_mip_level_count aWidth aHeight in
  let imageInfo := {|
    info_width := aWidth; info_height := aHeight; info_depth := 1;
    info_mipLevels := mipLevels; info_arrayLayers := 1;
    info_initialLayout := VK_IMAGE_LAYOUT_UNDEFINED
  |} in
  check (vmaCreateImage drv imageInfo) "Unable to allocate image." ≫= fun _ =>
  Ok imageInfo.

(** The image that was created and the command buffer that was submitted and
    waited for. *)
Record Upload : Type := {
  up_image : VkImageCreateInfo;
  up_stagingSize : Z;
  up_commands : list Command
}.

Definition load_image_texture2d (drv : UploadDriver) (aPath : string) : outcome Upload :=
  match stbi_load drv aPath with
  | None => Throw (MkError "unable to load texture base image" None)
  | Some (baseWidthi, baseHeighti) =>
      let baseWidth := U32.of_int baseWidthi in
      let baseHeight := U32.of_int baseHeighti in
      let sizeInBytes := U32.wrap (U32.wrap (baseWidth * baseHeight) * 4) in
      create_buffer drv sizeInBytes ≫= fun _ =>
      check (vmaMapMemory drv) "Mapping memory for writing" ≫= fun _ =>
      ret ← create_image_texture2d drv baseWidth baseHeight;
      alloc_command_buffer drv ≫= fun _ =>
      check (vkBeginCommandBuffer drv) "Beginning command buffer recording" ≫= fun _ =>
      let cbuff := loop_cbuff (record_upload_commands baseWidth baseHeight) in
      check (vkEndCommandBuffer drv) "Ending command buffer recording" ≫= fun _ =>
      create_fence drv ≫= fun _ =>
      check (vkQueueSubmit drv cbuff) "Submitting commands" ≫= fun _ =>
      check (vkWaitForFences drv) "Waiting for upload to complete" ≫= fun _ =>
      Ok {| up_image := ret; up_stagingSize := sizeInBytes; up_commands := cbuff |}
  end.

(** *** Execution of the recorded commands

    The device keeps one layout per mip level.  A barrier over a range of
    levels requires each of them to be in the barrier's old layout (an old
    layout of UNDEFINED is always allowed) and leaves them in its new layout;
    a copy or blit requires the levels it touches to be in the layouts it
    names.  [None] is a sequence the layout rules of Vulkan reject. *)

Definition level_range (range : VkImageSubresourceRange) : list nat :=
  seq (Z.to_nat (baseMipLevel range)) (Z.to_nat (levelCount range)).

Definition layout_accepts (oldLayout current : VkImageLayout) : bool :=
  bool_decide (oldLayout = VK_IMAGE_LAYOUT_UNDEFINED) || bool_decide (oldLayout = current).

Definition level_has (layouts : list VkImageLayout) (level : Z) (l : VkImageLayout) : bool :=
  (0 <=? level) && bool_decide (layouts !! Z.to_nat level = Some l).

Definition exec_barrier (oldLayout newLayout : VkImageLayout)
    (range : VkImageSubresourceRange) (layouts : list VkImageLayout)
    : option (list VkImageLayout) :=
  let levels := level_range range in
  if (0 <=? baseMipLevel range) &&
     forallb (fun l => match layouts !! l with
                       | Some cur => layout_accepts oldLayout cur
                       | None => false
                       end) levels
  then Some (foldr (fun l acc => <[l := newLayout]> acc) layouts levels)
  else None.

Definition exec_command (c : Command) (layouts : list VkImageLayout)
    : option (list VkImageLayout) :=
  match c with
  | CmdPipelineBarrier _ _ oldLayout newLayout _ _ range =>
      exec_barrier oldLayout newLayout range layouts
  | CmdCopyBufferToImage dstLayout region =>
      if bool_decide (dstLayout = VK_IMAGE_LAYOUT_TRANSFER_DST_OPTIMAL) &&
         level_has layouts (copyMipLevel region) dstLayout
      then Some layouts else None
  | CmdBlitImage srcLayout dstLayout region _ =>
      if bool_decide (srcLayout = VK_IMAGE_LAYOUT_TRANSFER_SRC_OPTIMAL) &&
         bool_decide (dstLayout = VK_IMAGE_LAYOUT_TRANSFER_DST_OPTIMAL) &&
         level_has layouts (srcMipLevel region) srcLayout &&
         level_has layouts (dstMipLevel region) dstLayout
      then Some layouts else None
  end.

Fixpoint execute (cmds : list Command) (layouts : list VkImageLayout)
    : option (list VkImageLayout) :=
  match cmds with
  | [] => Some layouts
  | c :: rest =>
      match exec_command c layouts with
      | Some layouts' => execute rest layouts'
      | None => None
      end
  end.

(** Layouts of a freshly created image: every level in the initial layout. *)
Definition initial_layouts (info : VkImageCreateInfo) : list VkImageLayout :=
  replicate (Z.to_nat (info_mipLevels info)) (info_initialLayout info).

(** Destination extent of the blit that writes [level], if one was recorded. *)
Fixpoint blit_extent (cmds : list Command) (level : Z) : option (Z * Z) :=
  match cmds with
  | [] => None
  | CmdBlitImage _ _ region _ :: rest =>
      if dstMipLevel region =? level
      then Some (off_x (dstOffsets1 region), off_y (dstOffsets1 region))
      else blit_extent rest level
  | _ :: rest => blit_extent rest level
  end.

(** [staged n k layouts]: there are [n] levels, the first [k] of them in
    transfer-source layout and the others in transfer-destination layout. *)
Definition staged (n k : nat) (layouts : list VkImageLayout) : Prop :=
  length layouts = n /\
  forall i : nat, (i < n)%nat ->
    layouts !! i = Some (if (i <? k)%nat then VK_IMAGE_LAYOUT_TRANSFER_SRC_OPTIMAL
                         else VK_IMAGE_LAYOUT_TRANSFER_DST_OPTIMAL).

(** A driver on which every call succeeds and the decoder reports the given
    dimensions for every path. *)
Definition succeeding_upload_driver (w h : Z) : UploadDriver := {|
  stbi_load := fun _ => Some (w, h);
  create_buffer := fun _ => Ok tt;
  vmaMapMemory := VK_SUCCESS;
  vmaCreateImage := fun _ => VK_SUCCESS;
  alloc_command_buffer := Ok tt;
  vkBeginCommandBuffer := VK_SUCCESS;
  vkEndCommandBuffer := VK_SUCCESS;
  create_fence := Ok tt;
  vkQueueSubmit := fun _ => VK_SUCCESS;
  vkWaitForFences := VK_SUCCESS
|}.

(** Every call the upload makes outside vkimage.cpp succeeds. *)
Definition upload_calls_succeed (drv : UploadDriver) : Prop :=
  (forall size, create_buffer drv size = Ok tt) /\
  vmaMapMemory drv = VK_SUCCESS /\
  (forall info, vmaCreateImage drv info = VK_SUCCESS) /\
  alloc_command_buffer drv = Ok tt /\
  vkBeginCommandBuffer drv = VK_SUCCESS /\
  vkEndCommandBuffer drv = VK_SUCCESS /\
  create_fence drv = Ok tt /\
  (forall cmds, vkQueueSubmit drv cmds = VK_SUCCESS) /\
  vkWaitForFences drv = VK_SUCCESS.

(** The barrier that ends the recording: the whole mip range from
    transfer-source to shader-read-only. *)
Definition final_barrier (mipLevels : Z) : Command :=
  CmdPipelineBarrier
    VK_ACCESS_TRANSFER_READ_BIT VK_ACCESS_SHADER_READ_BIT
    VK_IMAGE_LAYOUT_TRANSFER_SRC_OPTIMAL VK_IMAGE_LAYOUT_SHADER_READ_ONLY_OPTIMAL
    VK_PIPELINE_STAGE_TRANSFER_BIT VK_PIPELINE_STAGE_FRAGMENT_SHADER_BIT
    {| baseMipLevel := 0; levelCount := mipLevels; baseArrayLayer := 0; layerCount := 1 |}.

(** ** vulkan_window.cpp: device selection *)

(** Handles are opaque integers; [VK_NULL_HANDLE] is 0. *)
Definition Handle : Type := Z.
Definition VK_NULL_HANDLE : Handle := 0.

Inductive VkPhysicalDeviceType : Type :=
| VK_PHYSICAL_DEVICE_TYPE_OTHER
| VK_PHYSICAL_DEVICE_TYPE_INTEGRATED_GPU
| VK_PHYSICAL_DEVICE_TYPE_DISCRETE_GPU
| VK_PHYSICAL_DEVICE_TYPE_VIRTUAL_GPU
| VK_PHYSICAL_DEVICE_TYPE_CPU.

Record VkPhysicalDeviceProperties : Type := {
  apiVersion : Z;
  deviceType : VkPhysicalDeviceType;
  deviceName : string
}.

Record VkQueueFamilyProperties : Type := { queueFlags : Z; queueCount : Z }.

Definition VK_QUEUE_GRAPHICS_BIT : Z := 0x00000001.
Definition VK_KHR_SWAPCHAIN_EXTENSION_NAME : string := "VK_KHR_swapchain".

(** The version macros of vulkan_core.h. *)
Definition VK_API_VERSION_MAJOR (version : Z) : Z := Z.land (Z.shiftr version 22) 0x7F.
Definition VK_API_VERSION_MINOR (version : Z) : Z := Z.land (Z.shiftr version 12) 0x3FF.
Definition VK_MAKE_API_VERSION (variant major minor patch : Z) : Z :=
  Z.lor (Z.lor (Z.lor (Z.shiftl variant 29) (Z.shiftl major 22)) (Z.shiftl minor 12)) patch.

(** The queries device selection makes.  [get_device_extensions] is a helper
    of the repository (context_helpers) whose source is not among the files;
    it is taken as a parameter returning the set of extension names.  The
    count-then-fill pair of calls of an enumeration is one query here, whose
    result stands for both calls: the embedding follows the runs in which
    the two calls report the same result, and every theorem about
    [select_device] is about an enumeration that succeeded. *)
Record DeviceDriver : Type := {
  vkEnumeratePhysicalDevices : Handle -> VkResult * list Handle;
  vkGetPhysicalDeviceProperties : Handle -> VkPhysicalDeviceProperties;
  get_device_extensions : Handle -> gset string;
  vkGetPhysicalDeviceQueueFamilyProperties : Handle -> list VkQueueFamilyProperties;
  vkGetPhysicalDeviceSurfaceSupportKHR : Handle -> Z -> Handle -> VkResult * bool
}.

Section DeviceSelection.

Variable drv : DeviceDriver.

(** The loop [for (i = 0; i < numQueues; ++i)] of [find_queue_family],
    entered at index [i] with the families from [i] on. *)
Fixpoint find_queue_family_from (aPhysicalDev : Handle) (aQueueFlags : Z)
    (aSurface : Handle) (i : Z) (families : list VkQueueFamilyProperties)
    : option Z :=
  match families with
  | [] => None
  | family :: rest =>
      if aQueueFlags =? Z.land aQueueFlags (queueFlags family) then
        if VK_NULL_HANDLE =? aSurface then Some i
        else
          let '(res, supported) :=
            vkGetPhysicalDeviceSurfaceSupportKHR drv aPhysicalDev i aSurface in
          if (VK_SUCCESS =? res) && supported then Some i
          else find_queue_family_from aPhysicalDev aQueueFlags aSurface (i + 1) rest
      else find_queue_family_from aPhysicalDev aQueueFlags aSurface (i + 1) rest
  end.

Definition find_queue_family (aPhysicalDev : Handle) (aQueueFlags : Z)
    (aSurface : Handle) : option Z :=
  let families := vkGetPhysicalDeviceQueueFamilyProperties drv aPhysicalDev in
  find_queue_family_from aPhysicalDev aQueueFlags aSurface 0 families.

(** The score is a [float] in the source; the only values are -1, 0, 100
    and 500, which are exact, so the score is an integer here.  The
    diagnostics printed to stderr are left out. *)
Definition score_device (aPhysicalDev aSurface : Handle) : Z :=
  let props := vkGetPhysicalDeviceProperties drv aPhysicalDev in
  let major := VK_API_VERSION_MAJOR (apiVersion props) in
  let minor := VK_API_VERSION_MINOR (apiVersion props) in
  if (major <? 1) || ((major =? 1) && (minor <? 2)) then -1
  else
    let exts := get_device_extensions drv aPhysicalDev in
    if negb (bool_decide (VK_KHR_SWAPCHAIN_EXTENSION_NAME ∈ exts)) then -1
    else if negb (bool_decide (is_Some (find_queue_family aPhysicalDev 0 aSurface))) then -1
    else if negb (bool_decide (is_Some
              (find_queue_family aPhysicalDev VK_QUEUE_GRAPHICS_BIT VK_NULL_HANDLE))) then -1
    else
      let score := 0 in
      let score :=
        match deviceType props with
        | VK_PHYSICAL_DEVICE_TYPE_DISCRETE_GPU => score + 500
        | VK_PHYSICAL_DEVICE_TYPE_INTEGRATED_GPU => score + 100
        | _ => score
        end in
      score.

(** The loop of [select_device] over the enumerated devices, carrying
    [(bestScore, bestDevice)]. *)
Fixpoint select_loop (aSurface : Handle) (devices : list Handle)
    (best : Z * Handle) : Z * Handle :=
  match devices with
  | [] => best
  | device :: rest =>
      let score := score_device device aSurface in
      if fst best <? score
      then select_loop aSurface rest (score, device)
      else select_loop aSurface rest best
  end.

Definition select_device (aInstance aSurface : Handle) : outcome Handle :=
  let '(res, devices) := vkEnumeratePhysicalDevices drv aInstance in
  check res "Unable to get physical device count" ≫= fun _ =>
  check res "Unable to get physical device list" ≫= fun _ =>
  Ok (snd (select_loop aSurface devices (-1, VK_NULL_HANDLE))).

(** The four grounds for rejection, as properties of what the driver
    reports. *)
Definition version_below_minimum (dev : Handle) : Prop :=
  let v := apiVersion (vkGetPhysicalDeviceProperties drv dev) in
  VK_API_VERSION_MAJOR v < 1 \/ (VK_API_VERSION_MAJOR v = 1 /\ VK_API_VERSION_MINOR v < 2).

Definition lacks_swapchain_extension (dev : Handle) : Prop :=
  VK_KHR_SWAPCHAIN_EXTENSION_NAME ∉ get_device_extensions drv dev.

Definition no_present_family (dev surface : Handle) : Prop :=
  forall (i : nat) (family : VkQueueFamilyProperties),
    vkGetPhysicalDeviceQueueFamilyProperties drv dev !! i = Some family ->
    vkGetPhysicalDeviceSurfaceSupportKHR drv dev (Z.of_nat i) surface <> (VK_SUCCESS, true).

Definition no_graphics_family (dev : Handle) : Prop :=
  forall family : VkQueueFamilyProperties,
    family ∈ vkGetPhysicalDeviceQueueFamilyProperties drv dev ->
    Z.testbit (queueFlags family) 0 = false.

Definition rejected (dev surface : Handle) : Prop :=
  version_below_minimum dev \/ lacks_swapchain_extension dev \/
  no_present_family dev surface \/ no_graphics_family dev.

End DeviceSelection.

(** A machine with four adapters, in enumeration order: an integrated GPU
    (handle 11), two discrete GPUs (12 and 13), and a discrete GPU that only
    offers Vulkan 1.1 (14).  Every adapter has a compute-only family 0 and a
    graphics family 1 that can present to surface 7. *)
Definition sample_device_driver : DeviceDriver := {|
  vkEnumeratePhysicalDevices := fun _ => (VK_SUCCESS, [11; 12; 13; 14]);
  vkGetPhysicalDeviceProperties := fun dev =>
    {| apiVersion :=
         if dev =? 14 then VK_MAKE_API_VERSION 0 1 1 0 else VK_MAKE_API_VERSION 0 1 3 0;
       deviceType :=
         if dev =? 11 then VK_PHYSICAL_DEVICE_TYPE_INTEGRATED_GPU
         else VK_PHYSICAL_DEVICE_TYPE_DISCRETE_GPU;
       deviceName := "adapter" |};
  get_device_extensions := fun _ => {[ "VK_KHR_swapchain"; "VK_KHR_maintenance1" ]};
  vkGetPhysicalDeviceQueueFamilyProperties := fun _ =>
    [ {| queueFlags := 2; queueCount := 1 |}; {| queueFlags := 7; queueCount := 1 |} ];
  vkGetPhysicalDeviceSurfaceSupportKHR := fun _ i surf =>
    (VK_SUCCESS, (i =? 1) && (surf =? 7))
|}.

(** ** vulkan_window.cpp: swapchain creation *)

Definition VkFormat : Type := Z.
Definition VK_FORMAT_UNDEFINED : VkFormat := 0.
Definition VK_FORMAT_R8G8B8A8_UNORM : VkFormat := 37.
Definition VK_FORMAT_R8G8B8A8_SRGB : VkFormat := 43.
Definition VK_FORMAT_B8G8R8A8_UNORM : VkFormat := 44.
Definition VK_FORMAT_B8G8R8A8_SRGB : VkFormat := 50.

Definition VkColorSpaceKHR : Type := Z.
Definition VK_COLOR_SPACE_SRGB_NONLINEAR_KHR : VkColorSpaceKHR := 0.

Definition VkPresentModeKHR : Type := Z.
Definition VK_PRESENT_MODE_IMMEDIATE_KHR : VkPresentModeKHR := 0.
Definition VK_PRESENT_MODE_MAILBOX_KHR : VkPresentModeKHR := 1.
Definition VK_PRESENT_MODE_FIFO_KHR : VkPresentModeKHR := 2.
Definition VK_PRESENT_MODE_FIFO_RELAXED_KHR : VkPresentModeKHR := 3.

Inductive VkSharingMode : Type := VK_SHARING_MODE_EXCLUSIVE | VK_SHARING_MODE_CONCURRENT.

Record VkExtent2D : Type := { width : Z; height : Z }.

Record VkSurfaceFormatKHR : Type := { format : VkFormat; colorSpace : VkColorSpaceKHR }.

Record VkSurfaceCapabilitiesKHR : Type := {
  minImageCount : Z;
  maxImageCount : Z;
  currentExtent : VkExtent2D;
  minImageExtent : VkExtent2D;
  maxImageExtent : VkExtent2D;
  currentTransform : Z
}.

Record VkSwapchainCreateInfoKHR : Type := {
  chain_surface : Handle;
  chain_minImageCount : Z;
  chain_imageFormat : VkFormat;
  chain_imageColorSpace : VkColorSpaceKHR;
  chain_imageExtent : VkExtent2D;
  chain_imageArrayLayers : Z;
  chain_preTransform : Z;
  chain_presentMode : VkPresentModeKHR;
  chain_clipped : bool;
  chain_oldSwapchain : Handle;
  chain_imageSharingMode : VkSharingMode;
  chain_queueFamilyIndices : list Z
}.

Record VkImageViewCreateInfo : Type := {
  view_image : Handle;
  view_format : VkFormat;
  view_range : VkImageSubresourceRange
}.

(** The surface and swapchain entry points.  As above an enumeration is one
    query.  Entry points that create or destroy an object also leave an
    [Event] in the log; the query functions say what the driver answers. *)
Record WindowDriver : Type := {
  vkGetPhysicalDeviceSurfaceFormatsKHR : Handle -> Handle -> VkResult * list VkSurfaceFormatKHR;
  vkGetPhysicalDeviceSurfacePresentModesKHR : Handle -> Handle -> VkResult * list VkPresentModeKHR;
  vkGetPhysicalDeviceSurfaceCapabilitiesKHR : Handle -> Handle -> VkResult * VkSurfaceCapabilitiesKHR;
  glfwGetFramebufferSize : Handle -> Z * Z;
  vkCreateSwapchainKHR : Handle -> VkSwapchainCreateInfoKHR -> VkResult * Handle;
  vkGetSwapchainImagesKHR : Handle -> Handle -> VkResult * list Handle;
  vkCreateImageView : Handle -> VkImageViewCreateInfo -> VkResult * Handle
}.

Inductive Event : Type :=
| EvCreateSwapchain (info : VkSwapchainCreateInfoKHR) (res : VkResult) (chain : Handle)
| EvDestroySwapchain (device chain : Handle)
| EvCreateImageView (info : VkImageViewCreateInfo) (res : VkResult) (view : Handle)
| EvDestroyImageView (device view : Handle)
| EvDestroyImage (device image : Handle).

(** The fields of [VulkanWindow] (and of its base [VulkanContext]) that the
    swapchain code reads or writes. *)
Record VulkanWindow : Type := {
  physicalDevice : Handle;
  device : Handle;
  graphicsFamilyIndex : Z;
  window : Handle;
  surface : Handle;
  presentFamilyIndex : Z;
  swapchain : Handle;
  swapImages : list Handle;
  swapViews : list Handle;
  swapchainFormat : VkFormat;
  swapchainExtent : VkExtent2D
}.

Record SwapChanges : Type := { changedSize : bool; changedFormat : bool }.

(** *** Actions on the window and the event log *)

Record World : Type := { w_window : VulkanWindow; w_log : list Event }.

Definition Act (A : Type) : Type := World -> outcome A * World.

Definition act_ret {A : Type} (a : A) : Act A := fun w => (Ok a, w).

Definition act_bind {A B : Type} (m : Act A) (k : A -> Act B) : Act B :=
  fun w =>
    match m w with
    | (Ok a, w') => k a w'
    | (Throw e, w') => (Throw e, w')
    | (AssertFailed c, w') => (AssertFailed c, w')
    end.

Definition act_throw {A : Type} (e : Error) : Act A := fun w => (Throw e, w).

Definition act_check (res : VkResult) (msg : string) : Act unit :=
  fun w => (check res msg, w).

(** [assert(cond)] as a build without NDEBUG has it. *)
Definition act_assert (cond : bool) (text : string) : Act unit :=
  fun w => (if cond then Ok tt else AssertFailed text, w).

Definition emit (ev : Event) : Act unit :=
  fun w => (Ok tt, {| w_window := w_window w; w_log := w_log w ++ [ev] |}).

Definition get_window : Act VulkanWindow := fun w => (Ok (w_window w), w).

Definition set_window (win : VulkanWindow) : Act unit :=
  fun w => (Ok tt, {| w_window := win; w_log := w_log w |}).

(** [try { body } catch (...) { handler; throw; }]: a failed [assert] is not
    an exception and is not caught. *)
Definition try_catch_rethrow {A : Type} (body : Act A) (handler : Act unit) : Act A :=
  fun w =>
    match body w with
    | (Throw e, w') =>
        match handler w' with
        | (Ok _, w'') => (Throw e, w'')
        | (Throw e', w'') => (Throw e', w'')
        | (AssertFailed c, w'') => (AssertFailed c, w'')
        end
    | r => r
    end.

Notation "'do' x <- m ; k" := (act_bind m (fun x => k))
  (at level 10, x name, m at level 100, k at level 200,
   format "'[v' 'do'  x  <-  m ; '/' k ']'").
Notation "'run' m ; k" := (act_bind m (fun _ => k))
  (at level 10, m at level 100, k at level 200,
   format "'[v' 'run'  m ; '/' k ']'").

Definition with_swapchain (win : VulkanWindow) (chain : Handle) (fmt : VkFormat)
    (ext : VkExtent2D) : VulkanWindow :=
  {| physicalDevice := physicalDevice win; device := device win;
     graphicsFamilyIndex := graphicsFamilyIndex win; window := window win;
     surface := surface win; presentFamilyIndex := presentFamilyIndex win;
     swapchain := chain; swapImages := swapImages win; swapViews := swapViews win;
     swapchainFormat := fmt; swapchainExtent := ext |}.

Definition with_images (win : VulkanWindow) (images : list Handle) : VulkanWindow :=
  {| physicalDevice := physicalDevice win; device := device win;
     graphicsFamilyIndex := graphicsFamilyIndex win; window := window win;
     surface := surface win; presentFamilyIndex := presentFamilyIndex win;
     swapchain := swapchain win; swapImages := images; swapViews := swapViews win;
     swapchainFormat := swapchainFormat win; swapchainExtent := swapchainExtent win |}.

Definition with_views (win : VulkanWindow) (views : list Handle) : VulkanWindow :=
  {| physicalDevice := physicalDevice win; device := device win;
     graphicsFamilyIndex := graphicsFamilyIndex win; window := window win;
     surface := surface win; presentFamilyIndex := presentFamilyIndex win;
     swapchain := swapchain win; swapImages := swapImages win; swapViews := views;
     swapchainFormat := swapchainFormat win; swapchainExtent := swapchainExtent win |}.

(** [std::clamp(v, lo, hi)] of <algorithm>. *)
Definition std_clamp (v lo hi : Z) : Z :=
  if v <? lo then lo else if hi <? v then hi else v.

(** The image-count block of [create_swapchain]. *)
Definition swapchain_image_count (caps : VkSurfaceCapabilitiesKHR) : Z :=
  let imageCount := 2 in
  let imageCount :=
    if imageCount <? U32.add (minImageCount caps) 1
    then U32.add (minImageCount caps) 1 else imageCount in
  let imageCount :=
    if (0 <? maxImageCount caps) && (maxImageCount caps <? imageCount)
    then maxImageCount caps else imageCount in
  imageCount.

(** The count requested before the maximum is looked at. *)
Definition requested_image_count (caps : VkSurfaceCapabilitiesKHR) : Z :=
  let imageCount := 2 in
  if imageCount <? U32.add (minImageCount caps) 1
  then U32.add (minImageCount caps) 1 else imageCount.

(** The extent block of [create_swapchain]; [fb] is what
    [glfwGetFramebufferSize] writes into [width] and [height]. *)
Definition swapchain_extent (caps : VkSurfaceCapabilitiesKHR) (fb : Z * Z) : VkExtent2D :=
  let extent := currentExtent caps in
  if U32.max_value =? width extent then
    let '(fbWidth, fbHeight) := fb in
    let min := minImageExtent caps in
    let max := maxImageExtent caps in
    {| width := std_clamp (U32.of_int fbWidth) (width min) (width max);
       height := std_clamp (U32.of_int fbHeight) (height min) (height max) |}
  else extent.

(** The format loop of [create_swapchain]: [chosen] starts as [formats[0]]. *)
Fixpoint surface_format_loop (formats : list VkSurfaceFormatKHR)
    (chosen : VkSurfaceFormatKHR) : VkSurfaceFormatKHR :=
  match formats with
  | [] => chosen
  | fmt :: rest =>
      if (VK_FORMAT_R8G8B8A8_SRGB =? format fmt) &&
         (VK_COLOR_SPACE_SRGB_NONLINEAR_KHR =? colorSpace fmt) then fmt
      else if (VK_FORMAT_B8G8R8A8_SRGB =? format fmt) &&
              (VK_COLOR_SPACE_SRGB_NONLINEAR_KHR =? colorSpace fmt) then fmt
      else surface_format_loop rest chosen
  end.

(** The last block of [recreate_swapchain]: which properties changed. *)
Definition swap_changes (oldFormat : VkFormat) (oldExtent : VkExtent2D)
    (aWindow : VulkanWindow) : SwapChanges :=
  let ret := {| changedSize := false; changedFormat := false |} in
  let ret :=
    if negb (width oldExtent =? width (swapchainExtent aWindow)) ||
       negb (height oldExtent =? height (swapchainExtent aWindow))
    then {| changedSize := true; changedFormat := changedFormat ret |} else ret in
  let ret :=
    if negb (oldFormat =? swapchainFormat aWindow)
    then {| changedSize := changedSize ret; changedFormat := true |} else ret in
  ret.

(** The [viewInfo] that [create_swapchain_image_views] fills in for one
    image. *)
Definition swapchain_view_info (aSwapchainFormat : VkFormat) (image : Handle)
    : VkImageViewCreateInfo :=
  {| view_image := image;
     view_format := aSwapchainFormat;
     view_range :=
       {| baseMipLevel := 0; levelCount := 1; baseArrayLayer := 0; layerCount := 1 |} |}.

Section Swapchain.

Variable drv : WindowDriver.

Definition get_surface_formats (aPhysicalDev aSurface : Handle) : list VkSurfaceFormatKHR :=
  let '(res, formats) := vkGetPhysicalDeviceSurfaceFormatsKHR drv aPhysicalDev aSurface in
  if VK_SUCCESS =? res then formats else [].

Definition get_present_modes (aPhysicalDev aSurface : Handle) : gset VkPresentModeKHR :=
  let '(res, modes) := vkGetPhysicalDeviceSurfacePresentModesKHR drv aPhysicalDev aSurface in
  if VK_SUCCESS =? res then list_to_set modes else ∅.

Definition create_swapchain (aPhysicalDev aSurface aDevice aWindow : Handle)
    (aQueueFamilyIndices : list Z) (aOldSwapchain : Handle)
    : Act (Handle * VkFormat * VkExtent2D) :=
  let formats := get_surface_formats aPhysicalDev aSurface in
  let modes := get_present_modes aPhysicalDev aSurface in
  match formats with
  | [] => fun w => (AssertFailed "!formats.empty()", w)
  | first :: _ =>
      let chosen := surface_format_loop formats first in
      let presentMode :=
        if bool_decide (VK_PRESENT_MODE_FIFO_RELAXED_KHR ∈ modes)
        then VK_PRESENT_MODE_FIFO_RELAXED_KHR else VK_PRESENT_MODE_FIFO_KHR in
      let '(res, caps) := vkGetPhysicalDeviceSurfaceCapabilitiesKHR drv aPhysicalDev aSurface in
      run act_check res "Unable to get surface capabilities";
      let imageCount := swapchain_image_count caps in
      let extent := swapchain_extent caps (glfwGetFramebufferSize drv aWindow) in
      let chainInfo := {|
        chain_surface := aSurface;
        chain_minImageCount := imageCount;
        chain_imageFormat := format chosen;
        chain_imageColorSpace := colorSpace chosen;
        chain_imageExtent := extent;
        chain_imageArrayLayers := 1;
        chain_preTransform := currentTransform caps;
        chain_presentMode := presentMode;
        chain_clipped := true;
        chain_oldSwapchain := aOldSwapchain;
        chain_imageSharingMode :=
          if (Z.of_nat (length aQueueFamilyIndices) <=? 1)
          then VK_SHARING_MODE_EXCLUSIVE else VK_SHARING_MODE_CONCURRENT;
        chain_queueFamilyIndices :=
          if (Z.of_nat (length aQueueFamilyIndices) <=? 1) then [] else aQueueFamilyIndices
      |} in
      let '(res, chain) := vkCreateSwapchainKHR drv aDevice chainInfo in
      run emit (EvCreateSwapchain chainInfo res chain);
      run act_check res "Unable to create swap chain";
      act_ret (chain, format chosen, extent)
  end.

(** [aImages] is the window's [swapImages] at both call sites. *)
Definition get_swapchain_images (aDevice aSwapchain : Handle) : Act unit :=
  do win <- get_window;
  run act_assert (Z.of_nat (length (swapImages win)) =? 0) "0 == aImages.size()";
  let '(res, images) := vkGetSwapchainImagesKHR drv aDevice aSwapchain in
  if VK_SUCCESS =? res
  then set_window (with_images win (swapImages win ++ images))
  else act_ret tt.

(** The loop of [create_swapchain_image_views]; [aViews] is the window's
    [swapViews] at both call sites. *)
Fixpoint image_views_loop (aDevice : Handle) (aSwapchainFormat : VkFormat)
    (images : list Handle) : Act unit :=
  match images with
  | [] => act_ret tt
  | image :: rest =>
      let viewInfo := swapchain_view_info aSwapchainFormat image in
      let '(res, view) := vkCreateImageView drv aDevice viewInfo in
      run emit (EvCreateImageView viewInfo res view);
      run act_check res "Unable to create image view for swap chain image";
      do win <- get_window;
      run set_window (with_views win (swapViews win ++ [view]));
      image_views_loop aDevice aSwapchainFormat rest
  end.

Definition create_swapchain_image_views (aDevice : Handle) (aSwapchainFormat : VkFormat)
    (aImages : list Handle) : Act unit :=
  do win <- get_window;
  run act_assert (Z.of_nat (length (swapViews win)) =? 0) "0 == aViews.size()";
  run image_views_loop aDevice aSwapchainFormat aImages;
  do win <- get_window;
  act_assert (Z.of_nat (length (swapViews win)) =? Z.of_nat (length aImages))
    "aViews.size() == aImages.size()".

(** [for (auto view : aWindow.swapViews) vkDestroyImageView(...)]. *)
Fixpoint destroy_views (aDevice : Handle) (views : list Handle) : Act unit :=
  match views with
  | [] => act_ret tt
  | view :: rest =>
      run emit (EvDestroyImageView aDevice view);
      destroy_views aDevice rest
  end.

Definition recreate_swapchain : Act SwapChanges :=
  do aWindow <- get_window;
  let oldFormat := swapchainFormat aWindow in
  let oldExtent := swapchainExtent aWindow in
  let oldSwapchain := swapchain aWindow in
  run destroy_views (device aWindow) (swapViews aWindow);
  run set_window (with_images (with_views aWindow []) []);
  let queueFamilyIndices :=
    if negb (presentFamilyIndex aWindow =? graphicsFamilyIndex aWindow)
    then [graphicsFamilyIndex aWindow; presentFamilyIndex aWindow] else [] in
  run try_catch_rethrow
        (do created <- create_swapchain (physicalDevice aWindow) (surface aWindow)
                         (device aWindow) (window aWindow) queueFamilyIndices oldSwapchain;
         do win <- get_window;
         set_window (with_swapchain win (fst (fst created)) (snd (fst created)) (snd created)))
        (do win <- get_window;
         set_window (with_swapchain win oldSwapchain (swapchainFormat win) (swapchainExtent win)));
  do aWindow <- get_window;
  run emit (EvDestroySwapchain (device aWindow) oldSwapchain);
  run get_swapchain_images (device aWindow) (swapchain aWindow);
  do aWindow <- get_window;
  run create_swapchain_image_views (device aWindow) (swapchainFormat aWindow) (swapImages aWindow);
  do aWindow <- get_window;
  act_ret (swap_changes oldFormat oldExtent aWindow).

(** The world once [recreate_swapchain] has destroyed the views and cleared
    the two vectors, just before it calls [create_swapchain]. *)
Definition views_destroyed (w : World) : World :=
  {| w_window := with_images (with_views (w_window w) []) [];
     w_log := w_log w ++
              map (EvDestroyImageView (device (w_window w))) (swapViews (w_window w)) |}.

Definition recreate_queue_families (win : VulkanWindow) : list Z :=
  if negb (presentFamilyIndex win =? graphicsFamilyIndex win)
  then [graphicsFamilyIndex win; presentFamilyIndex win] else [].

(** The call of [create_swapchain] that [recreate_swapchain] makes. *)
Definition creation_attempt (w : World) : outcome (Handle * VkFormat * VkExtent2D) * World :=
  let win := w_window w in
  create_swapchain (physicalDevice win) (surface win) (device win) (window win)
    (recreate_queue_families win) (swapchain win) (views_destroyed w).

(** The view the driver hands out for an image of the chain. *)
Definition view_of (aDevice : Handle) (aSwapchainFormat : VkFormat) (image : Handle) : Handle :=
  snd (vkCreateImageView drv aDevice (swapchain_view_info aSwapchainFormat image)).

(** Every driver call of a recreation succeeds. *)
Definition recreate_calls_succeed (win : VulkanWindow) : Prop :=
  get_surface_formats (physicalDevice win) (surface win) <> [] /\
  fst (vkGetPhysicalDeviceSurfaceCapabilitiesKHR drv (physicalDevice win) (surface win))
    = VK_SUCCESS /\
  (forall info, fst (vkCreateSwapchainKHR drv (device win) info) = VK_SUCCESS) /\
  (forall chain, fst (vkGetSwapchainImagesKHR drv (device win) chain) = VK_SUCCESS) /\
  (forall info, fst (vkCreateImageView drv (device win) info) = VK_SUCCESS).

End Swapchain.

(** An event that destroys neither a chain nor an image. *)
Definition keeps_chains_and_images (ev : Event) : Prop :=
  match ev with
  | EvDestroySwapchain _ _ | EvDestroyImage _ _ => False
  | _ => True
  end.

(** A surface of undefined current extent that allows between 3 and 2
    images, a window whose framebuffer is 5000 by 10, and a driver that
    answers the creation request with [createRes]. *)
Definition sample_window_driver (createRes : VkResult) : WindowDriver := {|
  vkGetPhysicalDeviceSurfaceFormatsKHR := fun _ _ =>
    (VK_SUCCESS, [ {| format := VK_FORMAT_B8G8R8A8_UNORM; colorSpace := 0 |};
                   {| format := VK_FORMAT_B8G8R8A8_SRGB; colorSpace := 0 |} ]);
  vkGetPhysicalDeviceSurfacePresentModesKHR := fun _ _ =>
    (VK_SUCCESS, [VK_PRESENT_MODE_FIFO_KHR; VK_PRESENT_MODE_MAILBOX_KHR]);
  vkGetPhysicalDeviceSurfaceCapabilitiesKHR := fun _ _ =>
    (VK_SUCCESS,
     {| minImageCount := 3; maxImageCount := 2;
        currentExtent := {| width := 0xFFFFFFFF; height := 0xFFFFFFFF |};
        minImageExtent := {| width := 64; height := 64 |};
        maxImageExtent := {| width := 4096; height := 4096 |};
        currentTransform := 1 |});
  glfwGetFramebufferSize := fun _ => (5000, 10);
  vkCreateSwapchainKHR := fun _ _ =>
    (createRes, if createRes =? VK_SUCCESS then 101 else VK_NULL_HANDLE);
  vkGetSwapchainImagesKHR := fun _ _ => (VK_SUCCESS, [201; 202]);
  vkCreateImageView := fun _ info => (VK_SUCCESS, view_image info + 100)
|}.

(** A surface that reports a definite extent of 800 by 600 and puts no
    upper limit on the image count. *)
Definition steady_window_driver : WindowDriver := {|
  vkGetPhysicalDeviceSurfaceFormatsKHR := fun _ _ =>
    (VK_SUCCESS, [ {| format := VK_FORMAT_B8G8R8A8_SRGB; colorSpace := 0 |} ]);
  vkGetPhysicalDeviceSurfacePresentModesKHR := fun _ _ =>
    (VK_SUCCESS, [VK_PRESENT_MODE_FIFO_KHR; VK_PRESENT_MODE_FIFO_RELAXED_KHR]);
  vkGetPhysicalDeviceSurfaceCapabilitiesKHR := fun _ _ =>
    (VK_SUCCESS,
     {| minImageCount := 2; maxImageCount := 0;
        currentExtent := {| width := 800; height := 600 |};
        minImageExtent := {| width := 1; height := 1 |};
        maxImageExtent := {| width := 4096; height := 4096 |};
        currentTransform := 1 |});
  glfwGetFramebufferSize := fun _ => (800, 600);
  vkCreateSwapchainKHR := fun _ info => (VK_SUCCESS, chain_oldSwapchain info + 1);
  vkGetSwapchainImagesKHR := fun _ _ => (VK_SUCCESS, [201; 202; 203]);
  vkCreateImageView := fun _ info => (VK_SUCCESS, view_image info + 100)
|}.

Definition sample_window : VulkanWindow := {|
  physicalDevice := 1; device := 2; graphicsFamilyIndex := 0; window := 3;
  surface := 7; presentFamilyIndex := 0; swapchain := 100;
  swapImages := [191; 192]; swapViews := [291; 292];
  swapchainFormat := VK_FORMAT_B8G8R8A8_SRGB;
  swapchainExtent := {| width := 800; height := 600 |}
|}.

Definition sample_world : World := {| w_window := sample_window; w_log := [] |}.

(** ** main.cpp: acquisition and presentation in the render loop *)

(** What one pass through the body of the render loop gets from the driver,
    in the order of the calls.  [rebuild] stands for the recreation branch
    ([vkDeviceWaitIdle], [recreate_swapchain] and the rebuilding of the
    resources that depend on the swapchain), any of which may throw. *)
Record FrameDriver : Type := {
  rebuild : outcome unit;
  vkAcquireNextImageKHR : VkResult * Z;
  cbfences_size : Z;
  cbuffers_size : Z;
  framebuffers_size : Z;
  imguicbfences_size : Z;
  frame_vkWaitForFences : VkResult;
  frame_vkResetFences : VkResult;
  frame_vkBeginCommandBuffer : VkResult;
  frame_vkEndCommandBuffer : VkResult;
  frame_vkQueueSubmit : VkResult;
  imgui_vkWaitForFences : VkResult;
  imgui_vkResetFences : VkResult;
  imgui_vkBeginCommandBuffer : VkResult;
  imgui_vkEndCommandBuffer : VkResult;
  imgui_vkQueueSubmit : VkResult;
  vkQueuePresentKHR : VkResult;
  final_vkWaitForFences : VkResult
}.

(** [assert(cond)] as a build without NDEBUG has it, outside the actions
    on the window. *)
Definition assert_that (cond : bool) (text : string) : outcome unit :=
  if cond then Ok tt else AssertFailed text.

Definition submit_commands (submitRes : VkResult) : outcome unit :=
  check submitRes "Unable to submit command buffer to queue".

(** [aNeedToRecreateSwapchain] is passed by reference; the new value of the
    flag is returned. *)
Definition present_results (presentRes : VkResult) (aNeedToRecreateSwapchain : bool)
    : outcome bool :=
  if (VK_SUBOPTIMAL_KHR =? presentRes) || (VK_ERROR_OUT_OF_DATE_KHR =? presentRes)
  then Ok true
  else if negb (VK_SUCCESS =? presentRes)
  then throw_result "Unable to present swapchain image" presentRes
  else Ok aNeedToRecreateSwapchain.

(** How a pass through the loop body ends: by [continue] after recreation,
    by [continue] straight after acquisition, or at the end of the body. *)
Inductive FrameEnd : Type := FrameRecreated | FrameAbandoned | FramePresented.

(** One pass through the body of [while (!glfwWindowShouldClose(..))]; the
    result is the flag [recreateSwapchain] afterwards and how the pass ended. *)
Definition render_loop_body (drv : FrameDriver) (recreateSwapchain : bool)
    : outcome (bool * FrameEnd) :=
  if recreateSwapchain then
    rebuild drv ≫= fun _ =>
    let recreateSwapchain := false in
    Ok (recreateSwapchain, FrameRecreated)
  else
    let '(acquireRes, imageIndex) := vkAcquireNextImageKHR drv in
    if (VK_SUBOPTIMAL_KHR =? acquireRes) || (VK_ERROR_OUT_OF_DATE_KHR =? acquireRes) then
      let recreateSwapchain := true in
      Ok (recreateSwapchain, FrameAbandoned)
    else if negb (VK_SUCCESS =? acquireRes) then
      throw_result "Unable to acquire next swapchain image" acquireRes
    else
      assert_that (imageIndex <? cbfences_size drv) "imageIndex < cbfences.size()" ≫= fun _ =>
      check (frame_vkWaitForFences drv) "Unable to wait for command buffer fence" ≫= fun _ =>
      check (frame_vkResetFences drv) "Unable to reset command buffer fence" ≫= fun _ =>
      assert_that (imageIndex <? cbuffers_size drv) "imageIndex < cbuffers.size()" ≫= fun _ =>
      assert_that (imageIndex <? framebuffers_size drv) "imageIndex < framebuffers.size()" ≫= fun _ =>
      check (frame_vkBeginCommandBuffer drv) "Unable to begin recording command buffer" ≫= fun _ =>
      check (frame_vkEndCommandBuffer drv) "Unable to end recording command buffer" ≫= fun _ =>
      submit_commands (frame_vkQueueSubmit drv) ≫= fun _ =>
      assert_that (imageIndex <? imguicbfences_size drv) "imageIndex < imguicbfences.size()" ≫= fun _ =>
      check (imgui_vkWaitForFences drv) "Unable to wait for command buffer fence" ≫= fun _ =>
      check (imgui_vkResetFences drv) "Unable to reset command buffer fence" ≫= fun _ =>
      check (imgui_vkBeginCommandBuffer drv) "Unable to begin recording command buffer" ≫= fun _ =>
      check (imgui_vkEndCommandBuffer drv) "Unable to end recording command buffer" ≫= fun _ =>
      submit_commands (imgui_vkQueueSubmit drv) ≫= fun _ =>
      recreateSwapchain ← present_results (vkQueuePresentKHR drv) recreateSwapchain;
      check (final_vkWaitForFences drv) "Unable to wait for command buffer fence" ≫= fun _ =>
      Ok (recreateSwapchain, FramePresented).

(** A frame in which every call other than acquisition and presentation
    succeeds and every index is in range. *)
Definition frame_driver (acquireRes presentRes : VkResult) : FrameDriver := {|
  rebuild := Ok tt;
  vkAcquireNextImageKHR := (acquireRes, 0);
  cbfences_size := 3; cbuffers_size := 3; framebuffers_size := 3; imguicbfences_size := 3;
  frame_vkWaitForFences := VK_SUCCESS;
  frame_vkResetFences := VK_SUCCESS;
  frame_vkBeginCommandBuffer := VK_SUCCESS;
  frame_vkEndCommandBuffer := VK_SUCCESS;
  frame_vkQueueSubmit := VK_SUCCESS;
  imgui_vkWaitForFences := VK_SUCCESS;
  imgui_vkResetFences := VK_SUCCESS;
  imgui_vkBeginCommandBuffer := VK_SUCCESS;
  imgui_vkEndCommandBuffer := VK_SUCCESS;
  imgui_vkQueueSubmit := VK_SUCCESS;
  vkQueuePresentKHR := presentRes;
  final_vkWaitForFences := VK_SUCCESS
|}.

(** The rest of a frame goes through: the calls between acquisition and
    presentation succeed and the image index is in range. *)
Definition frame_work_succeeds (drv : FrameDriver) : Prop :=
  let i := snd (vkAcquireNextImageKHR drv) in
  i < cbfences_size drv /\ i < cbuffers_size drv /\ i < framebuffers_size drv /\
  i < imguicbfences_size drv /\
  frame_vkWaitForFences drv = VK_SUCCESS /\ frame_vkResetFences drv = VK_SUCCESS /\
  frame_vkBeginCommandBuffer drv = VK_SUCCESS /\ frame_vkEndCommandBuffer drv = VK_SUCCESS /\
  frame_vkQueueSubmit drv = VK_SUCCESS /\
  imgui_vkWaitForFences drv = VK_SUCCESS /\ imgui_vkResetFences drv = VK_SUCCESS /\
  imgui_vkBeginCommandBuffer drv = VK_SUCCESS /\ imgui_vkEndCommandBuffer drv = VK_SUCCESS /\
  imgui_vkQueueSubmit drv = VK_SUCCESS /\
  final_vkWaitForFences drv = VK_SUCCESS.

Definition is_stale (res : VkResult) : Prop :=
  res = VK_SUBOPTIMAL_KHR \/ res = VK_ERROR_OUT_OF_DATE_KHR.

(** What the blit loop has recorded when it stands at level [k]: the
    extents it carries are those of level [k - 1], and the levels written so
    far are 1 to [k - 1], each with the base extent shifted by its level. *)
Definition blits_recorded (w h : Z) (k : Z) (st : MipLoop) : Prop :=
  loop_level st = k /\
  loop_width st = Z.max 1 (Z.shiftr w (k - 1)) /\
  loop_height st = Z.max 1 (Z.shiftr h (k - 1)) /\
  forall level,
    blit_extent (loop_cbuff st) level =
      if (1 <=? level) && (level <? k)
      then Some (Z.max 1 (Z.shiftr w level), Z.max 1 (Z.shiftr h level))
      else None.

(** ** vulkan_window.cpp: queue families and the logical device *)

(** The test [find_queue_family] applies to the family at index [i]. *)
Definition family_matches (drv : DeviceDriver) (aPhysicalDev : Handle) (aQueueFlags : Z)
    (aSurface : Handle) (i : Z) (family : VkQueueFamilyProperties) : bool :=
  (aQueueFlags =? Z.land aQueueFlags (queueFlags family)) &&
  ((VK_NULL_HANDLE =? aSurface) ||
   (let '(res, supported) := vkGetPhysicalDeviceSurfaceSupportKHR drv aPhysicalDev i aSurface in
    (VK_SUCCESS =? res) && supported)).

(** The score [score_device] adds for a device type. *)
Definition type_score (t : VkPhysicalDeviceType) : Z :=
  match t with
  | VK_PHYSICAL_DEVICE_TYPE_DISCRETE_GPU => 500
  | VK_PHYSICAL_DEVICE_TYPE_INTEGRATED_GPU => 100
  | _ => 0
  end.

(** [queuePriorities] is the array [{ 1.f }]; the priority is written as the
    integer 1. *)
Record VkDeviceQueueCreateInfo : Type := {
  queueFamilyIndex : Z;
  queueInfo_queueCount : Z;
  queuePriorities : list Z
}.

Record VkDeviceCreateInfo : Type := {
  queueCreateInfos : list VkDeviceQueueCreateInfo;
  enabledExtensionNames : list string
}.

Record LogicalDeviceDriver : Type := {
  vkCreateDevice : Handle -> VkDeviceCreateInfo -> VkResult * Handle;
  vkGetDeviceQueue : Handle -> Z -> Z -> Handle
}.

Definition create_device (ldrv : LogicalDeviceDriver) (aPhysicalDev : Handle)
    (aQueues : list Z) (aEnabledExtensions : list string) : outcome Handle :=
  match aQueues with
  | [] => Throw (MkError "create_device(): no queues requested" None)
  | _ :: _ =>
      let queueInfos :=
        map (fun q => {| queueFamilyIndex := q; queueInfo_queueCount := 1;
                         queuePriorities := [1] |}) aQueues in
      let deviceInfo :=
        {| queueCreateInfos := queueInfos; enabledExtensionNames := aEnabledExtensions |} in
      let '(res, device) := vkCreateDevice ldrv aPhysicalDev deviceInfo in
      check res "Unable to create logical device" ≫= fun _ =>
      Ok device
  end.

(** What [make_vulkan_window] has put into [ret] once the queues are
    retrieved. *)
Record DeviceContext : Type := {
  ctx_physicalDevice : Handle;
  ctx_graphicsFamilyIndex : Z;
  ctx_presentFamilyIndex : Z;
  ctx_queueFamilyIndices : list Z;
  ctx_device : Handle;
  ctx_graphicsQueue : Handle;
  ctx_presentQueue : Handle
}.

(** The part of [make_vulkan_window] from the selection of the physical
    device to the retrieval of the queues.  [initialPresentFamilyIndex] is
    what the default constructor of [VulkanWindow] leaves in
    [presentFamilyIndex] (vulkan_window.hpp is not among the sources). *)
Definition make_vulkan_window_device (ddrv : DeviceDriver) (ldrv : LogicalDeviceDriver)
    (initialPresentFamilyIndex : Z) (instance surface : Handle) : outcome DeviceContext :=
  physicalDevice ← select_device ddrv instance surface;
  if VK_NULL_HANDLE =? physicalDevice
  then Throw (MkError "No suitable physical device found!" None)
  else
    let enabledDevExensions := [VK_KHR_SWAPCHAIN_EXTENSION_NAME] in
    families ←
      match find_queue_family ddrv physicalDevice VK_QUEUE_GRAPHICS_BIT surface with
      | Some index => Ok (index, initialPresentFamilyIndex, [index])
      | None =>
          let graphics :=
            find_queue_family ddrv physicalDevice VK_QUEUE_GRAPHICS_BIT VK_NULL_HANDLE in
          let present := find_queue_family ddrv physicalDevice 0 surface in
          match graphics, present with
          | Some g, Some p => Ok (g, p, [g; p])
          | _, _ => AssertFailed "graphics && present"
          end
      end;
    let '(graphicsFamilyIndex, presentFamilyIndex, queueFamilyIndices) := families in
    device ← create_device ldrv physicalDevice queueFamilyIndices enabledDevExensions;
    let graphicsQueue := vkGetDeviceQueue ldrv device graphicsFamilyIndex 0 in
    assert_that (negb (VK_NULL_HANDLE =? graphicsQueue)) "VK_NULL_HANDLE != ret.graphicsQueue" ≫= fun _ =>
    let '(presentFamilyIndex, presentQueue) :=
      if 2 <=? Z.of_nat (length queueFamilyIndices)
      then (presentFamilyIndex, vkGetDeviceQueue ldrv device presentFamilyIndex 0)
      else (graphicsFamilyIndex, graphicsQueue) in
    Ok {| ctx_physicalDevice := physicalDevice;
          ctx_graphicsFamilyIndex := graphicsFamilyIndex;
          ctx_presentFamilyIndex := presentFamilyIndex;
          ctx_queueFamilyIndices := queueFamilyIndices;
          ctx_device := device;
          ctx_graphicsQueue := graphicsQueue;
          ctx_presentQueue := presentQueue |}.

(** A family that has the graphics bit; one that can present to a surface. *)
Definition is_graphics_family (ddrv : DeviceDriver) (dev : Handle) (index : Z) : Prop :=
  exists (j : nat) (family : VkQueueFamilyProperties),
    index = Z.of_nat j /\
    vkGetPhysicalDeviceQueueFamilyProperties ddrv dev !! j = Some family /\
    Z.testbit (queueFlags family) 0 = true.

Definition is_present_family (ddrv : DeviceDriver) (dev surface : Handle) (index : Z) : Prop :=
  exists (j : nat) (family : VkQueueFamilyProperties),
    index = Z.of_nat j /\
    vkGetPhysicalDeviceQueueFamilyProperties ddrv dev !! j = Some family /\
    vkGetPhysicalDeviceSurfaceSupportKHR ddrv dev index surface = (VK_SUCCESS, true).

(** A driver that creates device 31 and hands out queue [100 + family]. *)
Definition sample_logical_driver : LogicalDeviceDriver := {|
  vkCreateDevice := fun _ _ => (VK_SUCCESS, 31);
  vkGetDeviceQueue := fun _ family _ => 100 + family
|}.

(** An adapter (handle 21) whose graphics family 0 cannot present and whose
    family 1 presents to surface 7 without graphics. *)
Definition split_device_driver : DeviceDriver := {|
  vkEnumeratePhysicalDevices := fun _ => (VK_SUCCESS, [21]);
  vkGetPhysicalDeviceProperties := fun _ =>
    {| apiVersion := VK_MAKE_API_VERSION 0 1 2 0;
       deviceType := VK_PHYSICAL_DEVICE_TYPE_INTEGRATED_GPU;
       deviceName := "split" |};
  get_device_extensions := fun _ => {[ "VK_KHR_swapchain" ]};
  vkGetPhysicalDeviceQueueFamilyProperties := fun _ =>
    [ {| queueFlags := 1; queueCount := 1 |}; {| queueFlags := 4; queueCount := 1 |} ];
  vkGetPhysicalDeviceSurfaceSupportKHR := fun _ i surf =>
    (VK_SUCCESS, (i =? 1) && (surf =? 7))
|}.

(** A machine whose only adapter offers Vulkan 1.0. *)
Definition old_device_driver : DeviceDriver := {|
  vkEnumeratePhysicalDevices := fun _ => (VK_SUCCESS, [21]);
  vkGetPhysicalDeviceProperties := fun _ =>
    {| apiVersion := VK_MAKE_API_VERSION 0 1 0 0;
       deviceType := VK_PHYSICAL_DEVICE_TYPE_DISCRETE_GPU;
       deviceName := "old" |};
  get_device_extensions := fun _ => {[ "VK_KHR_swapchain" ]};
  vkGetPhysicalDeviceQueueFamilyProperties := fun _ =>
    [ {| queueFlags := 7; queueCount := 1 |} ];
  vkGetPhysicalDeviceSurfaceSupportKHR := fun _ _ _ => (VK_SUCCESS, true)
|}.


(** ** vulkan_window.cpp: what the swapchain request holds *)

(** The two tests of the format loop of [create_swapchain]. *)
Definition is_preferred_format (fmt : VkSurfaceFormatKHR) : bool :=
  ((VK_FORMAT_R8G8B8A8_SRGB =? format fmt) &&
   (VK_COLOR_SPACE_SRGB_NONLINEAR_KHR =? colorSpace fmt)) ||
  ((VK_FORMAT_B8G8R8A8_SRGB =? format fmt) &&
   (VK_COLOR_SPACE_SRGB_NONLINEAR_KHR =? colorSpace fmt)).

(** A driver like [steady_window_driver], except that it gives [imagesRes]
    as the result of the image query and refuses to create a view for image
    [badImage]. *)
Definition faulty_window_driver (imagesRes : VkResult) (badImage : Handle) : WindowDriver := {|
  vkGetPhysicalDeviceSurfaceFormatsKHR := vkGetPhysicalDeviceSurfaceFormatsKHR steady_window_driver;
  vkGetPhysicalDeviceSurfacePresentModesKHR :=
    vkGetPhysicalDeviceSurfacePresentModesKHR steady_window_driver;
  vkGetPhysicalDeviceSurfaceCapabilitiesKHR :=
    vkGetPhysicalDeviceSurfaceCapabilitiesKHR steady_window_driver;
  glfwGetFramebufferSize := glfwGetFramebufferSize steady_window_driver;
  vkCreateSwapchainKHR := vkCreateSwapchainKHR steady_window_driver;
  vkGetSwapchainImagesKHR := fun _ _ => (imagesRes, [201; 202; 203]);
  vkCreateImageView := fun _ info =>
    if view_image info =? badImage then (VK_ERROR_DEVICE_LOST, VK_NULL_HANDLE)
    else (VK_SUCCESS, view_image info + 100)
|}.

(** ** vulkan_window.cpp: instance layers and extensions *)

(** The loop of [make_vulkan_window] over the instance extensions that GLFW
    requires. *)
Fixpoint required_extensions_loop (supportedExtensions : gset string)
    (requiredExt : list string) (enabledExensions : list string) : outcome (list string) :=
  match requiredExt with
  | [] => Ok enabledExensions
  | ext :: rest =>
      if negb (bool_decide (ext ∈ supportedExtensions))
      then Throw (MkError "GLFW/Vulkan: required instance extension not supported" None)
      else required_extensions_loop supportedExtensions rest (enabledExensions ++ [ext])
  end.

(** What [make_vulkan_window] passes to [create_instance]: the layers and
    extensions to enable and the flag [enableDebugUtils].  [debugBuild] is
    true when NDEBUG is not defined. *)
Definition instance_request (debugBuild : bool) (supportedLayers supportedExtensions : gset string)
    (requiredExt : list string) : outcome (list string * list string * bool) :=
  let enableDebugUtils := false in
  let enabledLayers := [] in
  let enabledExensions := [] in
  enabledExensions ← required_extensions_loop supportedExtensions requiredExt enabledExensions;
  let enabledLayers :=
    if debugBuild && bool_decide ("VK_LAYER_KHRONOS_validation"%string ∈ supportedLayers)
    then enabledLayers ++ ["VK_LAYER_KHRONOS_validation"%string] else enabledLayers in
  let '(enableDebugUtils, enabledExensions) :=
    if debugBuild && bool_decide ("VK_EXT_debug_utils"%string ∈ supportedExtensions)
    then (true, enabledExensions ++ ["VK_EXT_debug_utils"%string])
    else (enableDebugUtils, enabledExensions) in
  Ok (enabledLayers, enabledExensions, enableDebugUtils).

(** ** vulkan_window.cpp: the destructor and the balance of resources *)

(** The part of [~VulkanWindow] that destroys objects of the device: the
    views, then the swapchain if there is one.  The destruction of the
    surface and of the GLFW window, which follows, leaves no event in this
    log. *)
Definition VulkanWindow_destructor : Act unit :=
  do win <- get_window;
  run destroy_views (device win) (swapViews win);
  if negb (VK_NULL_HANDLE =? swapchain win)
  then emit (EvDestroySwapchain (device win) (swapchain win))
  else act_ret tt.

(** The views and swapchains that a log shows as created, with success, and
    as destroyed, in the order of the events. *)
Definition created_views (log : list Event) : list Handle :=
  omap (fun ev => match ev with
                  | EvCreateImageView _ res view =>
                      if res =? VK_SUCCESS then Some view else None
                  | _ => None
                  end) log.

Definition destroyed_views (log : list Event) : list Handle :=
  omap (fun ev => match ev with EvDestroyImageView _ view => Some view | _ => None end) log.

Definition created_chains (log : list Event) : list Handle :=
  omap (fun ev => match ev with
                  | EvCreateSwapchain _ res chain =>
                      if res =? VK_SUCCESS then Some chain else None
                  | _ => None
                  end) log.

Definition destroyed_chains (log : list Event) : list Handle :=
  omap (fun ev => match ev with EvDestroySwapchain _ chain => Some chain | _ => None end) log.

Definition destroyed_images (log : list Event) : list Handle :=
  omap (fun ev => match ev with EvDestroyImage _ image => Some image | _ => None end) log.

(** What a piece of the log shows: the views and chains it creates and
    destroys; it destroys no image. *)
Definition log_shows (evs : list Event) (cv dv cc dc : list Handle) : Prop :=
  created_views evs = cv /\ destroyed_views evs = dv /\
  created_chains evs = cc /\ destroyed_chains evs = dc /\ destroyed_images evs = [].

(** ** main.cpp: the input callbacks *)

Definition GLFW_RELEASE : Z := 0.
Definition GLFW_PRESS : Z := 1.
Definition GLFW_REPEAT : Z := 2.

Definition GLFW_KEY_A : Z := 65.
Definition GLFW_KEY_D : Z := 68.
Definition GLFW_KEY_E : Z := 69.
Definition GLFW_KEY_Q : Z := 81.
Definition GLFW_KEY_S : Z := 83.
Definition GLFW_KEY_W : Z := 87.
Definition GLFW_KEY_ESCAPE : Z := 256.
Definition GLFW_KEY_LEFT_SHIFT : Z := 340.
Definition GLFW_KEY_LEFT_CONTROL : Z := 341.
Definition GLFW_KEY_RIGHT_SHIFT : Z := 344.
Definition GLFW_KEY_RIGHT_CONTROL : Z := 345.

Definition GLFW_MOUSE_BUTTON_RIGHT : Z := 1.
Definition GLFW_CURSOR_NORMAL : Z := 0x00034001.
Definition GLFW_CURSOR_DISABLED : Z := 0x00034003.

Inductive EInputState : Type :=
| forward | backward | strafeLeft | strafeRight | levitate | sink | fast | slow | mousing.

(** [std::size_t(EInputState::x)]; [EInputState::max] is 9. *)
Definition input_index (s : EInputState) : nat :=
  match s with
  | forward => 0 | backward => 1 | strafeLeft => 2 | strafeRight => 3
  | levitate => 4 | sink => 5 | fast => 6 | slow => 7 | mousing => 8
  end.

Definition EInputState_max : nat := 9.

(** What the callbacks read and write: the array [inputMap] of [UserState]
    (its mouse position and camera are floating-point data and are left
    out), and the close flag and cursor mode that GLFW keeps for the
    window. *)
Record InputState : Type := {
  inputMap : list bool;
  windowShouldClose : bool;
  cursorMode : Z
}.

Definition initial_input : InputState :=
  {| inputMap := replicate EInputState_max false;
     windowShouldClose := false;
     cursorMode := GLFW_CURSOR_NORMAL |}.

Definition set_input (s : EInputState) (value : bool) (st : InputState) : InputState :=
  {| inputMap := <[input_index s := value]> (inputMap st);
     windowShouldClose := windowShouldClose st;
     cursorMode := cursorMode st |}.

Definition glfw_callback_key_press (aKey aAction : Z) (st : InputState) : InputState :=
  let st :=
    if (GLFW_KEY_ESCAPE =? aKey) && (GLFW_PRESS =? aAction)
    then {| inputMap := inputMap st; windowShouldClose := true; cursorMode := cursorMode st |}
    else st in
  let isReleased := GLFW_RELEASE =? aAction in
  if aKey =? GLFW_KEY_W then set_input forward (negb isReleased) st
  else if aKey =? GLFW_KEY_S then set_input backward (negb isReleased) st
  else if aKey =? GLFW_KEY_A then set_input strafeLeft (negb isReleased) st
  else if aKey =? GLFW_KEY_D then set_input strafeRight (negb isReleased) st
  else if aKey =? GLFW_KEY_E then set_input levitate (negb isReleased) st
  else if aKey =? GLFW_KEY_Q then set_input sink (negb isReleased) st
  else if (aKey =? GLFW_KEY_LEFT_SHIFT) || (aKey =? GLFW_KEY_RIGHT_SHIFT)
  then set_input fast (negb isReleased) st
  else if (aKey =? GLFW_KEY_LEFT_CONTROL) || (aKey =? GLFW_KEY_RIGHT_CONTROL)
  then set_input slow (negb isReleased) st
  else st.

(** [flag] is a reference to the array element; a slot that does not exist
    cannot occur in the source, where the array has [EInputState::max]
    elements. *)
Definition glfw_callback_button (aBut aAct : Z) (st : InputState) : InputState :=
  if (GLFW_MOUSE_BUTTON_RIGHT =? aBut) && (GLFW_PRESS =? aAct) then
    let flag := negb (default false (inputMap st !! input_index mousing)) in
    {| inputMap := <[input_index mousing := flag]> (inputMap st);
       windowShouldClose := windowShouldClose st;
       cursorMode := if flag then GLFW_CURSOR_DISABLED else GLFW_CURSOR_NORMAL |}
  else st.

(** The cursor is disabled exactly while the mousing slot is set. *)
Definition cursor_follows_mousing (st : InputState) : Prop :=
  length (inputMap st) = EInputState_max /\
  ((inputMap st !! input_index mousing = Some true /\ cursorMode st = GLFW_CURSOR_DISABLED) \/
   (inputMap st !! input_index mousing = Some false /\ cursorMode st = GLFW_CURSOR_NORMAL)).

(** ** main.cpp: the render loop *)

(** An input event that [glfwPollEvents] hands to a callback.  Cursor motion
    only stores the position, as floating-point numbers, and is left out. *)
Inductive InputEvent : Type :=
| KeyEvent (key action : Z)
| ButtonEvent (button action : Z).

Definition dispatch (ev : InputEvent) (st : InputState) : InputState :=
  match ev with
  | KeyEvent key action => glfw_callback_key_press key action st
  | ButtonEvent button action => glfw_callback_button button action st
  end.

Definition glfwPollEvents (events : list InputEvent) (st : InputState) : InputState :=
  foldl (fun st ev => dispatch ev st) st events.

(** One pass through the loop as the outside world shapes it: the events
    polled at its start and what the driver answers in its body. *)
Record Pass : Type := { polled : list InputEvent; frame : FrameDriver }.

(** How the run of the loop over a script of passes ends: by the window's
    close flag, or because the script has no further pass. *)
Inductive LoopExit : Type := WindowClosed | ScriptEnded.

Record LoopResult : Type := {
  loop_exit : LoopExit;
  loop_input : InputState;
  loop_recreateSwapchain : bool;
  loop_ends : list FrameEnd
}.

(** [while (!glfwWindowShouldClose(window.window)) { glfwPollEvents(); ... }];
    [ends] collects how the passes so far have ended. *)
Fixpoint main_loop (passes : list Pass) (st : InputState) (recreateSwapchain : bool)
    (ends : list FrameEnd) : outcome LoopResult :=
  if windowShouldClose st
  then Ok {| loop_exit := WindowClosed; loop_input := st;
             loop_recreateSwapchain := recreateSwapchain; loop_ends := ends |}
  else
    match passes with
    | [] => Ok {| loop_exit := ScriptEnded; loop_input := st;
                  loop_recreateSwapchain := recreateSwapchain; loop_ends := ends |}
    | pass :: rest =>
        let st := glfwPollEvents (polled pass) st in
        r ← render_loop_body (frame pass) recreateSwapchain;
        main_loop rest st (fst r) (ends ++ [snd r])
    end.

(** A pass in which nothing fails: rebuilding works, acquisition and
    presentation report success or a stale swapchain, and the rest of the
    frame goes through. *)
Definition pass_goes_through (pass : Pass) : Prop :=
  rebuild (frame pass) = Ok tt /\
  (fst (vkAcquireNextImageKHR (frame pass)) = VK_SUCCESS \/
   is_stale (fst (vkAcquireNextImageKHR (frame pass)))) /\
  (vkQueuePresentKHR (frame pass) = VK_SUCCESS \/ is_stale (vkQueuePresentKHR (frame pass))) /\
  frame_work_succeeds (frame pass).

(** The frame was presented to a stale swapchain or abandoned for one. *)
Definition pass_found_stale (pass : Pass) (how : FrameEnd) : Prop :=
  how = FrameAbandoned \/
  (how = FramePresented /\ is_stale (vkQueuePresentKHR (frame pass))).

Definition is_escape_press (ev : InputEvent) : bool :=
  match ev with
  | KeyEvent key action => (GLFW_KEY_ESCAPE =? key) && (GLFW_PRESS =? action)
  | ButtonEvent _ _ => false
  end.

(** A script of five passes: the second frame is presented to a swapchain
    that has become suboptimal, the fourth finds it out of date at
    acquisition, and Escape is pressed while the fifth is polled. *)
Definition sample_passes : list Pass :=
  [ {| polled := [KeyEvent GLFW_KEY_W GLFW_PRESS]; frame := frame_driver VK_SUCCESS VK_SUCCESS |};
    {| polled := []; frame := frame_driver VK_SUCCESS VK_SUBOPTIMAL_KHR |};
    {| polled := [ButtonEvent GLFW_MOUSE_BUTTON_RIGHT GLFW_PRESS];
       frame := frame_driver VK_SUCCESS VK_SUCCESS |};
    {| polled := []; frame := frame_driver VK_ERROR_OUT_OF_DATE_KHR VK_SUCCESS |};
    {| polled := [KeyEvent GLFW_KEY_W GLFW_RELEASE; KeyEvent GLFW_KEY_ESCAPE GLFW_PRESS];
       frame := frame_driver VK_SUCCESS VK_SUCCESS |} ].

(** ** main.cpp: the meshes of the model and the draws of a frame *)

(** The fields of the baked model that main.cpp reads (baked_model.hpp is
    not among the sources).  Vertex data are floating-point vectors; a mesh
    keeps their sizes. *)
Record BakedMaterialInfo : Type := {
  baseColorTextureId : Z;
  roughnessTextureId : Z;
  metalnessTextureId : Z;
  alphaMaskTextureId : Z;
  normalMapTextureId : Z
}.

Record BakedMeshData : Type := {
  materialId : Z;
  positions_size : Z;
  indices_size : Z
}.

(** [buffers] stands for the five buffers [create_mesh] fills. *)
Record MeshDetails : Type := {
  buffers : Handle;
  materialIndex : Z;
  indexCount : Z
}.

(** [create_mesh] with its uploads as one call [upload] that may throw;
    [call] counts the calls of [create_mesh] made so far, since each call
    creates buffers of its own.  [aMaterialIndex] is an [int] made from the
    mesh's unsigned id. *)
Definition create_mesh (upload : nat -> BakedMeshData -> outcome Handle) (call : nat)
    (mesh : BakedMeshData) : outcome MeshDetails :=
  bufs ← upload call mesh;
  Ok {| buffers := bufs;
        materialIndex := U32.to_int32 (materialId mesh);
        indexCount := indices_size mesh |}.

(** The loop that fills [alphaTextures], entered at index [i]. *)
Fixpoint alpha_textures_from (i : nat) (materials : list BakedMaterialInfo) : list Z :=
  match materials with
  | [] => []
  | material :: rest =>
      if negb (alphaMaskTextureId material =? 0xffffffff)
      then U32.of_int (Z.of_nat i) :: alpha_textures_from (S i) rest
      else alpha_textures_from (S i) rest
  end.

(** The inner loop over [alphaTextures]. *)
Fixpoint has_alpha_mask_loop (alphaTextures : list Z) (mesh : BakedMeshData)
    (hasAlphaMask : bool) : bool :=
  match alphaTextures with
  | [] => hasAlphaMask
  | index :: rest =>
      has_alpha_mask_loop rest mesh (if materialId mesh =? index then true else hasAlphaMask)
  end.

Record MeshLists : Type := {
  meshes : list MeshDetails;
  alphaMaskedMeshes : list MeshDetails;
  notAlphaMaskedMeshes : list MeshDetails
}.

(** The loop over [model.meshes]; [call] is the number of meshes created
    before the pass. *)
Fixpoint process_meshes (upload : nat -> BakedMeshData -> outcome Handle)
    (alphaTextures : list Z) (modelMeshes : list BakedMeshData) (call : nat)
    (lists : MeshLists) : outcome MeshLists :=
  match modelMeshes with
  | [] => Ok lists
  | mesh :: rest =>
      let hasAlphaMask := has_alpha_mask_loop alphaTextures mesh false in
      lists ←
        (if hasAlphaMask then
           created ← create_mesh upload call mesh;
           Ok {| meshes := meshes lists;
                 alphaMaskedMeshes := alphaMaskedMeshes lists ++ [created];
                 notAlphaMaskedMeshes := notAlphaMaskedMeshes lists |}
         else
           created ← create_mesh upload call mesh;
           Ok {| meshes := meshes lists ++ [created];
                 alphaMaskedMeshes := alphaMaskedMeshes lists;
                 notAlphaMaskedMeshes := notAlphaMaskedMeshes lists |});
      created ← create_mesh upload (S call) mesh;
      process_meshes upload alphaTextures rest (S (S call))
        {| meshes := meshes lists;
           alphaMaskedMeshes := alphaMaskedMeshes lists;
           notAlphaMaskedMeshes := notAlphaMaskedMeshes lists ++ [created] |}
  end.

Definition load_meshes (upload : nat -> BakedMeshData -> outcome Handle)
    (materials : list BakedMaterialInfo) (modelMeshes : list BakedMeshData)
    : outcome MeshLists :=
  let alphaTextures := alpha_textures_from 0 materials in
  process_meshes upload alphaTextures modelMeshes 0
    {| meshes := []; alphaMaskedMeshes := []; notAlphaMaskedMeshes := [] |}.

Inductive PipelineKind : Type := DefaultPipeline | AlphaPipeline.

(** The pipeline binds and the draws that a frame records.  [CmdDrawMesh]
    stands for the four calls that bind the mesh's material set, vertex
    buffers and index buffer and issue [vkCmdDrawIndexed]. *)
Inductive DrawCommand : Type :=
| CmdBindPipeline (pipeline : PipelineKind)
| CmdDrawMesh (mesh : MeshDetails).

Definition record_draws (alphaMasking : bool) (lists : MeshLists) : list DrawCommand :=
  [CmdBindPipeline DefaultPipeline] ++
  (if alphaMasking then
     map CmdDrawMesh (meshes lists) ++
     [CmdBindPipeline AlphaPipeline] ++
     map CmdDrawMesh (alphaMaskedMeshes lists)
   else map CmdDrawMesh (notAlphaMaskedMeshes lists)).

(** The meshes a command list draws, each with the pipeline bound when it
    is drawn. *)
Fixpoint drawn_with (bound : PipelineKind) (commands : list DrawCommand)
    : list (PipelineKind * MeshDetails) :=
  match commands with
  | [] => []
  | CmdBindPipeline pipeline :: rest => drawn_with pipeline rest
  | CmdDrawMesh mesh :: rest => (bound, mesh) :: drawn_with bound rest
  end.

(** The material of a mesh exists and names an alpha-mask texture. *)
Definition material_has_alpha_mask (materials : list BakedMaterialInfo) (mesh : BakedMeshData)
    : bool :=
  match materials !! Z.to_nat (materialId mesh) with
  | Some material => (0 <=? materialId mesh) && negb (alphaMaskTextureId material =? 0xffffffff)
  | None => false
  end.

(** The mesh that call number [call] of [create_mesh] returns for [mesh]
    when the upload works. *)
Definition mesh_details (upload : nat -> BakedMeshData -> outcome Handle) (call : nat)
    (mesh : BakedMeshData) : MeshDetails :=
  {| buffers := match upload call mesh with Ok bufs => bufs | _ => VK_NULL_HANDLE end;
     materialIndex := U32.to_int32 (materialId mesh);
     indexCount := indices_size mesh |}.

(** The meshes of the model with their positions in [model.meshes]. *)
Definition numbered_meshes (modelMeshes : list BakedMeshData) : list (nat * BakedMeshData) :=
  zip (seq 0 (length modelMeshes)) modelMeshes.

(** A model of three materials, the second with an alpha mask, and four
    meshes, the last of which names a material that does not exist. *)
Definition sample_materials : list BakedMaterialInfo :=
  [ {| baseColorTextureId := 0; roughnessTextureId := 1; metalnessTextureId := 2;
       alphaMaskTextureId := 0xffffffff; normalMapTextureId := 3 |};
    {| baseColorTextureId := 4; roughnessTextureId := 1; metalnessTextureId := 2;
       alphaMaskTextureId := 4; normalMapTextureId := 5 |};
    {| baseColorTextureId := 6; roughnessTextureId := 1; metalnessTextureId := 2;
       alphaMaskTextureId := 0xffffffff; normalMapTextureId := 0xffffffff |} ].

Definition sample_meshes : list BakedMeshData :=
  [ {| materialId := 1; positions_size := 4; indices_size := 6 |};
    {| materialId := 0; positions_size := 3; indices_size := 3 |};
    {| materialId := 1; positions_size := 8; indices_size := 36 |};
    {| materialId := 9; positions_size := 3; indices_size := 3 |} ].

Definition sample_upload (call : nat) (mesh : BakedMeshData) : outcome Handle :=
  Ok (500 + Z.of_nat call).

(** ** main.cpp: the textures of the model and the material descriptors *)

(** How a loop over vectors ends.  [PastTheEnd i] is an access with
    [operator[]] at an index [i] that the vector does not have, where the
    behaviour of the program is undefined; [StdOutOfRange i] is the
    exception [std::out_of_range] that [at(i)] throws; [OutOfFuel] is a run
    that the steps allowed did not bring to its end. *)
Inductive LoopOutcome (A : Type) : Type :=
| Finished (a : A)
| Raised (e : Error)
| Asserted (cond : string)
| StdOutOfRange (index : Z)
| PastTheEnd (index : nat)
| OutOfFuel.

Arguments Finished {A} a.
Arguments Raised {A} e.
Arguments Asserted {A} cond.
Arguments StdOutOfRange {A} index.
Arguments PastTheEnd {A} index.
Arguments OutOfFuel {A}.

Definition loop_bind {A B : Type} (m : LoopOutcome A) (k : A -> LoopOutcome B)
    : LoopOutcome B :=
  match m with
  | Finished a => k a
  | Raised e => Raised e
  | Asserted c => Asserted c
  | StdOutOfRange i => StdOutOfRange i
  | PastTheEnd i => PastTheEnd i
  | OutOfFuel => OutOfFuel
  end.

Definition of_outcome {A : Type} (o : outcome A) : LoopOutcome A :=
  match o with
  | Ok a => Finished a
  | Throw e => Raised e
  | AssertFailed c => Asserted c
  end.

(** The texture loop of [main] calls an overload of [load_image_texture2d]
    that takes the format of the image as a fifth argument, and
    [create_image_view_texture2d].  Neither is among the sources: the
    vkimage.cpp at hand defines the four-argument function only, and
    vkutil.cpp is missing.  Both are parameters here, giving for a path, or
    for an image, and a format what the call returns, which may be an error
    that it throws. *)
Record TextureDriver : Type := {
  load_image_texture2d_format : string -> VkFormat -> outcome Handle;
  create_image_view_texture2d : Handle -> VkFormat -> outcome Handle
}.

(** The vectors [images] and [imageViews] of [main]; an entry is nothing
    while it is as the vector's constructor left it.  Both are created with
    the size of [model.textures]. *)
Record TextureVectors : Type := {
  tex_images : list (option Handle);
  tex_imageViews : list (option Handle)
}.

(** The two statements of the loop body for index [k]:
    [images[k] = load_image_texture2d(model.textures[k].path..., format)] and
    [imageViews[k] = create_image_view_texture2d(..., images[k].image, format)].
    The path is read before anything is assigned, so an index that
    [model.textures] does not have is met there first; an index that it has
    the other two vectors have as well. *)
Definition load_texture_at (drv : TextureDriver) (textures : list string) (k : nat)
    (fmt : VkFormat) (v : TextureVectors) : LoopOutcome TextureVectors :=
  match textures !! k with
  | None => PastTheEnd k
  | Some path =>
      loop_bind (of_outcome (load_image_texture2d_format drv path fmt)) (fun image =>
      let v := {| tex_images := <[k := Some image]> (tex_images v);
                  tex_imageViews := tex_imageViews v |} in
      loop_bind (of_outcome (create_image_view_texture2d drv image fmt)) (fun view =>
      Finished {| tex_images := tex_images v;
                  tex_imageViews := <[k := Some view]> (tex_imageViews v) |}))
  end.

(** [for (size_t i = 0; i < model.textures.size(); i+=4)], entered at [i]. *)
Fixpoint load_textures_loop (fuel : nat) (drv : TextureDriver) (textures : list string)
    (i : nat) (v : TextureVectors) : LoopOutcome TextureVectors :=
  match fuel with
  | O => OutOfFuel
  | S fuel =>
      if (i <? length textures)%nat then
        loop_bind (load_texture_at drv textures i VK_FORMAT_R8G8B8A8_SRGB v) (fun v =>
        loop_bind (load_texture_at drv textures (i + 1) VK_FORMAT_R8G8B8A8_UNORM v) (fun v =>
        loop_bind (load_texture_at drv textures (i + 2) VK_FORMAT_R8G8B8A8_UNORM v) (fun v =>
        loop_bind (load_texture_at drv textures (i + 3) VK_FORMAT_R8G8B8A8_UNORM v) (fun v =>
        load_textures_loop fuel drv textures (i + 4) v))))
      else Finished v
  end.

Definition load_textures (drv : TextureDriver) (textures : list string)
    : LoopOutcome TextureVectors :=
  load_textures_loop (S (length textures)) drv textures 0
    {| tex_images := replicate (length textures) None;
       tex_imageViews := replicate (length textures) None |}.

(** The format the loop gives to the texture at index [k]. *)
Definition texture_format (k : nat) : VkFormat :=
  if (k mod 4 =? 0)%nat then VK_FORMAT_R8G8B8A8_SRGB else VK_FORMAT_R8G8B8A8_UNORM.

(** The texture at index [k] loads: the image and its view are created, in
    the format of the index. *)
Definition texture_loads (drv : TextureDriver) (textures : list string) (k : nat)
    (image view : Handle) : Prop :=
  exists path,
    textures !! k = Some path /\
    load_image_texture2d_format drv path (texture_format k) = Ok image /\
    create_image_view_texture2d drv image (texture_format k) = Ok view.

(** The texture at index [k] fails to load with the error [e]: either the
    image or, the image loaded, its view. *)
Definition texture_fails (drv : TextureDriver) (textures : list string) (k : nat)
    (e : Error) : Prop :=
  exists path,
    textures !! k = Some path /\
    (load_image_texture2d_format drv path (texture_format k) = Throw e \/
     exists image,
       load_image_texture2d_format drv path (texture_format k) = Ok image /\
       create_image_view_texture2d drv image (texture_format k) = Throw e).

(** The entries below [i] hold what the texture loop puts there, and the
    vectors have their size. *)
Definition vectors_filled (drv : TextureDriver) (textures : list string) (i : nat)
    (v : TextureVectors) : Prop :=
  length (tex_images v) = length textures /\
  length (tex_imageViews v) = length textures /\
  forall k : nat,
    (k < i)%nat -> (k < length textures)%nat ->
    exists image view,
      texture_loads drv textures k image view /\
      tex_images v !! k = Some (Some image) /\
      tex_imageViews v !! k = Some (Some view).

(** A driver that loads every texture but "missing.png", for which the
    decoder finds no file, and makes a view of every image. *)
Definition sample_texture_driver : TextureDriver := {|
  load_image_texture2d_format := fun path fmt =>
    if bool_decide (path = "missing.png"%string)
    then Throw (MkError "unable to load texture base image" None)
    else Ok (400 + Z.of_nat (String.length path));
  create_image_view_texture2d := fun image fmt => Ok (1000 * fmt + image)
|}.

(** The four views that the descriptor set of a material names, in the order
    of its bindings. *)
Definition at_ {A : Type} (v : list A) (n : Z) : LoopOutcome A :=
  if (0 <=? n) && (n <? Z.of_nat (length v))
  then match v !! Z.to_nat n with
       | Some x => Finished x
       | None => StdOutOfRange n
       end
  else StdOutOfRange n.

Definition material_image_views (imageViews : list Handle) (material : BakedMaterialInfo)
    : LoopOutcome (list Handle) :=
  loop_bind (at_ imageViews (baseColorTextureId material)) (fun base =>
  loop_bind (at_ imageViews (metalnessTextureId material)) (fun metalness =>
  loop_bind (at_ imageViews (roughnessTextureId material)) (fun roughness =>
  loop_bind (at_ imageViews (normalMapTextureId material)) (fun normalMap =>
  Finished [base; metalness; roughness; normalMap])))).

(** The loop that allocates and writes one descriptor set per material;
    [alloc_desc_set i] is what the allocation for material [i] gives.  The
    result lists, for each set, its handle and the views it was written
    with. *)
Fixpoint material_descriptor_sets (alloc_desc_set : nat -> outcome Handle)
    (imageViews : list Handle) (i : nat) (materials : list BakedMaterialInfo)
    : LoopOutcome (list (Handle * list Handle)) :=
  match materials with
  | [] => Finished []
  | material :: rest =>
      loop_bind (of_outcome (alloc_desc_set i)) (fun set =>
      loop_bind (material_image_views imageViews material) (fun views =>
      loop_bind (material_descriptor_sets alloc_desc_set imageViews (S i) rest) (fun sets =>
      Finished ((set, views) :: sets))))
  end.

(** Every texture id that the descriptor loop looks up is an index of
    [imageViews]. *)
Definition material_ids_in_range (size : nat) (material : BakedMaterialInfo) : Prop :=
  0 <= baseColorTextureId material < Z.of_nat size /\
  0 <= metalnessTextureId material < Z.of_nat size /\
  0 <= roughnessTextureId material < Z.of_nat size /\
  0 <= normalMapTextureId material < Z.of_nat size.

(** ** main.cpp: framebuffers, command buffers and fences *)

Record VkFramebufferCreateInfo : Type := {
  fb_renderPass : Handle;
  fb_attachments : list Handle;
  fb_width : Z;
  fb_height : Z;
  fb_layers : Z
}.

(** [lut_alloc_command_buffer] and [lut_create_fence] are the helpers of
    vkutil.cpp, which is not among the sources; their argument counts the
    calls made so far. *)
Record FrameObjectsDriver : Type := {
  vkCreateFramebuffer : Handle -> VkFramebufferCreateInfo -> VkResult * Handle;
  lut_alloc_command_buffer : nat -> outcome Handle;
  lut_create_fence : nat -> outcome Handle
}.

(** The loop of [create_swapchain_framebuffers] over the views from the
    current one on. *)
Fixpoint swapchain_framebuffers_loop (drv : FrameObjectsDriver) (aWindow : VulkanWindow)
    (aRenderPass aDepthView : Handle) (views : list Handle) (aFramebuffers : list Handle)
    : outcome (list Handle) :=
  match views with
  | [] => Ok aFramebuffers
  | view :: rest =>
      let fbInfo := {|
        fb_renderPass := aRenderPass;
        fb_attachments := [view; aDepthView];
        fb_width := width (swapchainExtent aWindow);
        fb_height := height (swapchainExtent aWindow);
        fb_layers := 1
      |} in
      let '(res, fb) := vkCreateFramebuffer drv (device aWindow) fbInfo in
      check res "Unable to create framebuffer for swap chain image" ≫= fun _ =>
      swapchain_framebuffers_loop drv aWindow aRenderPass aDepthView rest (aFramebuffers ++ [fb])
  end.

Definition create_swapchain_framebuffers (drv : FrameObjectsDriver) (aWindow : VulkanWindow)
    (aRenderPass : Handle) (aFramebuffers : list Handle) (aDepthView : Handle)
    : outcome (list Handle) :=
  assert_that (Z.of_nat (length aFramebuffers) =? 0) "aFramebuffers.empty()" ≫= fun _ =>
  aFramebuffers ←
    swapchain_framebuffers_loop drv aWindow aRenderPass aDepthView (swapViews aWindow)
      aFramebuffers;
  assert_that (Z.of_nat (length (swapViews aWindow)) =? Z.of_nat (length aFramebuffers))
    "aWindow.swapViews.size() == aFramebuffers.size()" ≫= fun _ =>
  Ok aFramebuffers.

Fixpoint imgui_framebuffers_loop (drv : FrameObjectsDriver) (aWindow : VulkanWindow)
    (aRenderPass : Handle) (views : list Handle) (aFramebuffers : list Handle)
    : outcome (list Handle) :=
  match views with
  | [] => Ok aFramebuffers
  | view :: rest =>
      let fbInfo := {|
        fb_renderPass := aRenderPass;
        fb_attachments := [view];
        fb_width := width (swapchainExtent aWindow);
        fb_height := height (swapchainExtent aWindow);
        fb_layers := 1
      |} in
      let '(res, fb) := vkCreateFramebuffer drv (device aWindow) fbInfo in
      check res "Unable to create imgui framebuffer for swap chain image" ≫= fun _ =>
      imgui_framebuffers_loop drv aWindow aRenderPass rest (aFramebuffers ++ [fb])
  end.

Definition create_imgui_framebuffers (drv : FrameObjectsDriver) (aWindow : VulkanWindow)
    (aRenderPass : Handle) (aFramebuffers : list Handle) : outcome (list Handle) :=
  assert_that (Z.of_nat (length aFramebuffers) =? 0) "aFramebuffers.empty()" ≫= fun _ =>
  aFramebuffers ←
    imgui_framebuffers_loop drv aWindow aRenderPass (swapViews aWindow) aFramebuffers;
  assert_that (Z.of_nat (length (swapViews aWindow)) =? Z.of_nat (length aFramebuffers))
    "aWindow.swapViews.size() == aFramebuffers.size()" ≫= fun _ =>
  Ok aFramebuffers.

(** [for (i = 0; i < framebuffers.size(); i++)] with [count] passes to go:
    one command buffer and one fence per pass. *)
Fixpoint buffers_and_fences_loop (drv : FrameObjectsDriver) (count call : nat)
    (buffers fences : list Handle) : outcome (list Handle * list Handle) :=
  match count with
  | O => Ok (buffers, fences)
  | S count =>
      buffer ← lut_alloc_command_buffer drv call;
      fence ← lut_create_fence drv call;
      buffers_and_fences_loop drv count (S call) (buffers ++ [buffer]) (fences ++ [fence])
  end.

(** The vectors of main() that are indexed by the swapchain image. *)
Record FrameResources : Type := {
  framebuffers : list Handle;
  cbuffers : list Handle;
  cbfences : list Handle;
  imguiFramebuffers : list Handle;
  imguicbuffers : list Handle;
  imguicbfences : list Handle
}.

(** What main() does to these vectors before the loop. *)
Definition create_frame_resources (drv : FrameObjectsDriver) (window : VulkanWindow)
    (renderPass depthBufferView imguiRenderPass : Handle) : outcome FrameResources :=
  let framebuffers := [] in
  framebuffers ← create_swapchain_framebuffers drv window renderPass framebuffers depthBufferView;
  created ← buffers_and_fences_loop drv (length framebuffers) 0 [] [];
  let imguiFramebuffers := [] in
  imguiFramebuffers ← create_imgui_framebuffers drv window imguiRenderPass imguiFramebuffers;
  imguiCreated ←
    buffers_and_fences_loop drv (length imguiFramebuffers) (length framebuffers) [] [];
  Ok {| framebuffers := framebuffers;
        cbuffers := fst created; cbfences := snd created;
        imguiFramebuffers := imguiFramebuffers;
        imguicbuffers := fst imguiCreated; imguicbfences := snd imguiCreated |}.

(** What the recreation branch of the loop does to them, [window] being the
    window after [recreate_swapchain]. *)
Definition rebuild_frame_resources (drv : FrameObjectsDriver) (window : VulkanWindow)
    (renderPass depthBufferView imguiRenderPass : Handle) (resources : FrameResources)
    : outcome FrameResources :=
  let framebuffers := [] in
  let imguiFramebuffers := [] in
  framebuffers ← create_swapchain_framebuffers drv window renderPass framebuffers depthBufferView;
  imguiFramebuffers ← create_imgui_framebuffers drv window imguiRenderPass imguiFramebuffers;
  Ok {| framebuffers := framebuffers;
        cbuffers := cbuffers resources; cbfences := cbfences resources;
        imguiFramebuffers := imguiFramebuffers;
        imguicbuffers := imguicbuffers resources; imguicbfences := imguicbfences resources |}.

(** A pass of the loop that finds the vectors as [resources] has them. *)
Definition frame_with (resources : FrameResources) (drv : FrameDriver) : FrameDriver := {|
  rebuild := rebuild drv;
  vkAcquireNextImageKHR := vkAcquireNextImageKHR drv;
  cbfences_size := Z.of_nat (length (cbfences resources));
  cbuffers_size := Z.of_nat (length (cbuffers resources));
  framebuffers_size := Z.of_nat (length (framebuffers resources));
  imguicbfences_size := Z.of_nat (length (imguicbfences resources));
  frame_vkWaitForFences := frame_vkWaitForFences drv;
  frame_vkResetFences := frame_vkResetFences drv;
  frame_vkBeginCommandBuffer := frame_vkBeginCommandBuffer drv;
  frame_vkEndCommandBuffer := frame_vkEndCommandBuffer drv;
  frame_vkQueueSubmit := frame_vkQueueSubmit drv;
  imgui_vkWaitForFences := imgui_vkWaitForFences drv;
  imgui_vkResetFences := imgui_vkResetFences drv;
  imgui_vkBeginCommandBuffer := imgui_vkBeginCommandBuffer drv;
  imgui_vkEndCommandBuffer := imgui_vkEndCommandBuffer drv;
  imgui_vkQueueSubmit := imgui_vkQueueSubmit drv;
  vkQueuePresentKHR := vkQueuePresentKHR drv;
  final_vkWaitForFences := final_vkWaitForFences drv
|}.

(** Every call that creates a framebuffer, command buffer or fence works. *)
Definition frame_objects_created (drv : FrameObjectsDriver) : Prop :=
  (forall dev info, fst (vkCreateFramebuffer drv dev info) = VK_SUCCESS) /\
  (forall call, exists buffer, lut_alloc_command_buffer drv call = Ok buffer) /\
  (forall call, exists fence, lut_create_fence drv call = Ok fence).

Definition sample_frame_objects_driver : FrameObjectsDriver := {|
  vkCreateFramebuffer := fun _ info =>
    (VK_SUCCESS, 1000 * Z.of_nat (length (fb_attachments info)) + hd 0 (fb_attachments info));
  lut_alloc_command_buffer := fun call => Ok (800 + Z.of_nat call);
  lut_create_fence := fun call => Ok (900 + Z.of_nat call)
|}.

(** A pass in which every call succeeds and the image acquired is
    [imageIndex]. *)
Definition acquiring (imageIndex : Z) : FrameDriver := {|
  rebuild := Ok tt;
  vkAcquireNextImageKHR := (VK_SUCCESS, imageIndex);
  cbfences_size := 0; cbuffers_size := 0; framebuffers_size := 0; imguicbfences_size := 0;
  frame_vkWaitForFences := VK_SUCCESS;
  frame_vkResetFences := VK_SUCCESS;
  frame_vkBeginCommandBuffer := VK_SUCCESS;
  frame_vkEndCommandBuffer := VK_SUCCESS;
  frame_vkQueueSubmit := VK_SUCCESS;
  imgui_vkWaitForFences := VK_SUCCESS;
  imgui_vkResetFences := VK_SUCCESS;
  imgui_vkBeginCommandBuffer := VK_SUCCESS;
  imgui_vkEndCommandBuffer := VK_SUCCESS;
  imgui_vkQueueSubmit := VK_SUCCESS;
  vkQueuePresentKHR := VK_SUCCESS;
  final_vkWaitForFences := VK_SUCCESS
|}.

(** * The asset baker (bake/main.cpp) *)

Module Bake.

(** The fields of the input model that the baker reads apart from vertex
    data (input_model.hpp is not among the sources). *)
Record InputMaterialInfo : Type := {
  baseColorTexturePath : string;
  roughnessTexturePath : string;
  metalnessTexturePath : string;
  alphaMaskTexturePath : string;
  normalMapTexturePath : string
}.

Record InputMesh : Type := {
  materialIndex : Z;
  vertexStartIndex : Z;
  vertexCount : Z
}.

Record InputModel : Type := {
  materials : list InputMaterialInfo;
  meshes : list InputMesh
}.

(** The sizes of the vectors of an indexed mesh. *)
Record IndexedMesh : Type := {
  vert_size : Z;
  indices_size : Z
}.

Definition kTextureFallbackR1 : string := "assets-src/src/r1.png".
Definition kTextureFallbackRGBA1111 : string := "assets-src/src/rgba1111.png".

(** [aString.empty()]. *)
Definition empty (aString : string) : bool := bool_decide (aString = ""%string).

Definition normalize_ (aModel : InputModel) : InputModel :=
  {| materials :=
       map (fun mat =>
              {| baseColorTexturePath :=
                   if empty (baseColorTexturePath mat) then kTextureFallbackRGBA1111
                   else baseColorTexturePath mat;
                 roughnessTexturePath :=
                   if empty (roughnessTexturePath mat) then kTextureFallbackR1
                   else roughnessTexturePath mat;
                 metalnessTexturePath :=
                   if empty (metalnessTexturePath mat) then kTextureFallbackR1
                   else metalnessTexturePath mat;
                 alphaMaskTexturePath := alphaMaskTexturePath mat;
                 normalMapTexturePath := normalMapTexturePath mat |})
         (materials aModel);
     meshes := meshes aModel |}.

Record TextureInfo_ : Type := {
  uniqueId : Z;
  channels : Z;
  newPath : string
}.

(** The lambda [add_unique_] of [find_unique_textures_], on the map
    [unique] and the counter [texid] that it captures by reference. *)
Definition add_unique_ (aPath : string) (aChannels : Z)
    (captured : gmap string TextureInfo_ * Z) : gmap string TextureInfo_ * Z :=
  let '(unique, texid) := captured in
  if empty aPath then (unique, texid)
  else
    let info := {| uniqueId := texid; channels := aChannels; newPath := "" |} in
    match unique !! aPath with
    | Some _ => (unique, texid)
    | None => (<[aPath := info]> unique, U32.add texid 1)
    end.

Definition add_material_textures (captured : gmap string TextureInfo_ * Z)
    (mat : InputMaterialInfo) : gmap string TextureInfo_ * Z :=
  let captured := add_unique_ (baseColorTexturePath mat) 4 captured in
  let captured := add_unique_ (roughnessTexturePath mat) 1 captured in
  let captured := add_unique_ (metalnessTexturePath mat) 1 captured in
  let captured := add_unique_ (alphaMaskTexturePath mat) 4 captured in
  let captured := add_unique_ (normalMapTexturePath mat) 3 captured in
  captured.

Definition find_unique_textures_ (aModel : InputModel) : gmap string TextureInfo_ :=
  fst (foldl add_material_textures (∅, 0) (materials aModel)).

(** [filename] and [append] stand for [std::filesystem::path::filename] and
    [operator/]. *)
Definition new_paths_ (filename : string -> string) (append : string -> string -> string)
    (aTextures : gmap string TextureInfo_) (aTexDir : string) : gmap string TextureInfo_ :=
  map_imap (fun path info =>
              Some {| uniqueId := uniqueId info; channels := channels info;
                      newPath := append aTexDir (filename path) |}) aTextures.

(** The five texture paths of a material, in the order the baker goes
    through them. *)
Definition texture_paths (mat : InputMaterialInfo) : list string :=
  [ baseColorTexturePath mat; roughnessTexturePath mat; metalnessTexturePath mat;
    alphaMaskTexturePath mat; normalMapTexturePath mat ].

(** *** The output file *)

Inductive RawData : Type :=
| Positions (mesh : nat) | Normals (mesh : nat) | Texcoords (mesh : nat)
| Tangents (mesh : nat) | Indices (mesh : nat).

(** What one call of [fwrite] puts into the file: an unsigned integer of
    four bytes or of one, a number of bytes taken from where a string
    starts, or a block of vertex or index data. *)
Inductive Item : Type :=
| ItemU32 (value : Z)
| ItemU8 (value : Z)
| ItemChars (bytes : Z) (text : string)
| ItemRaw (bytes : Z) (data : RawData).

(** A file with the items written so far and the bytes that still fit. *)
Record File : Type := { written : list Item; room : Z }.

Definition fwrite (aBytes : Z) (aOut : File) : Z := Z.min aBytes (room aOut).

Definition checked_write_ (aOut : File) (aBytes : Z) (aData : Item) : outcome File :=
  let ret := fwrite aBytes aOut in
  if negb (ret =? aBytes) then Throw (MkError "fwrite() failed" None)
  else Ok {| written := written aOut ++ [aData]; room := room aOut - aBytes |}.

(** [std::strlen]: the characters before the first zero. *)
Fixpoint strlen (aString : string) : Z :=
  match aString with
  | EmptyString => 0
  | String c rest => if Ascii.eqb c Ascii.zero then 0 else 1 + strlen rest
  end.

Definition write_string_ (aOut : File) (aString : string) : outcome File :=
  let length := U32.wrap (strlen aString + 1) in
  aOut ← checked_write_ aOut 4 (ItemU32 length);
  checked_write_ aOut length (ItemChars length aString).

Definition kFileMagic : string :=
  String Ascii.zero (String Ascii.zero "COMP5822Mmesh").
Definition kFileVariant : string := "sc20mh-tan".

(** The loop that fills [orderedUnqiue], over the entries of the map in the
    order [entries]; a null pointer is [None]. *)
Fixpoint fill_ordered (entries : list (string * TextureInfo_))
    (orderedUnqiue : list (option TextureInfo_)) : LoopOutcome (list (option TextureInfo_)) :=
  match entries with
  | [] => Finished orderedUnqiue
  | tex :: rest =>
      let i := Z.to_nat (uniqueId (snd tex)) in
      match orderedUnqiue !! i with
      | None => PastTheEnd i
      | Some (Some _) => Asserted "!orderedUnqiue[tex.second.uniqueId]"
      | Some None => fill_ordered rest (<[i := Some (snd tex)]> orderedUnqiue)
      end
  end.

(** The loop that writes the table of textures. *)
Fixpoint write_textures (aOut : File) (orderedUnqiue : list (option TextureInfo_))
    : LoopOutcome File :=
  match orderedUnqiue with
  | [] => Finished aOut
  | None :: _ => Asserted "tex"
  | Some tex :: rest =>
      loop_bind (of_outcome (write_string_ aOut (newPath tex))) (fun aOut =>
      loop_bind (of_outcome (checked_write_ aOut 1 (ItemU8 (channels tex)))) (fun aOut =>
      write_textures aOut rest))
  end.

(** The lambda [write_tex_] of [write_model_data_]. *)
Definition write_tex_ (aTextures : gmap string TextureInfo_) (aOut : File)
    (aTexturePath : string) : LoopOutcome File :=
  if empty aTexturePath then
    let sentinel := U32.max_value in
    of_outcome (checked_write_ aOut 4 (ItemU32 sentinel))
  else
    match aTextures !! aTexturePath with
    | None => Asserted "aTextures.end() != it"
    | Some info => of_outcome (checked_write_ aOut 4 (ItemU32 (uniqueId info)))
    end.

Fixpoint write_materials (aTextures : gmap string TextureInfo_) (aOut : File)
    (mats : list InputMaterialInfo) : LoopOutcome File :=
  match mats with
  | [] => Finished aOut
  | mat :: rest =>
      loop_bind (write_tex_ aTextures aOut (baseColorTexturePath mat)) (fun aOut =>
      loop_bind (write_tex_ aTextures aOut (roughnessTexturePath mat)) (fun aOut =>
      loop_bind (write_tex_ aTextures aOut (metalnessTexturePath mat)) (fun aOut =>
      loop_bind (write_tex_ aTextures aOut (alphaMaskTexturePath mat)) (fun aOut =>
      loop_bind (write_tex_ aTextures aOut (normalMapTexturePath mat)) (fun aOut =>
      write_materials aTextures aOut rest)))))
  end.

(** The loop over the meshes, entered at index [i]; [aTangents] holds the
    sizes of the vectors of tangents. *)
Fixpoint write_meshes (aOut : File) (i : nat) (modelMeshes : list InputMesh)
    (aIndexedMeshes : list IndexedMesh) (aTangents : list Z) : LoopOutcome File :=
  match modelMeshes with
  | [] => Finished aOut
  | mmesh :: rest =>
      let materialIndex := U32.wrap (materialIndex mmesh) in
      loop_bind (of_outcome (checked_write_ aOut 4 (ItemU32 materialIndex))) (fun aOut =>
      match aIndexedMeshes !! i with
      | None => PastTheEnd i
      | Some imesh =>
          let vertexCount := U32.wrap (vert_size imesh) in
          loop_bind (of_outcome (checked_write_ aOut 4 (ItemU32 vertexCount))) (fun aOut =>
          let indexCount := U32.wrap (indices_size imesh) in
          loop_bind (of_outcome (checked_write_ aOut 4 (ItemU32 indexCount))) (fun aOut =>
          loop_bind (of_outcome (checked_write_ aOut (12 * vertexCount) (ItemRaw (12 * vertexCount) (Positions i)))) (fun aOut =>
          loop_bind (of_outcome (checked_write_ aOut (12 * vertexCount) (ItemRaw (12 * vertexCount) (Normals i)))) (fun aOut =>
          loop_bind (of_outcome (checked_write_ aOut (8 * vertexCount) (ItemRaw (8 * vertexCount) (Texcoords i)))) (fun aOut =>
          match aTangents !! i with
          | None => StdOutOfRange (Z.of_nat i)
          | Some _ =>
              loop_bind (of_outcome (checked_write_ aOut (16 * vertexCount) (ItemRaw (16 * vertexCount) (Tangents i)))) (fun aOut =>
              loop_bind (of_outcome (checked_write_ aOut (4 * indexCount) (ItemRaw (4 * indexCount) (Indices i)))) (fun aOut =>
              write_meshes aOut (S i) rest aIndexedMeshes aTangents))
          end)))))
      end)
  end.

Definition write_model_data_ (aOut : File) (aModel : InputModel)
    (aIndexedMeshes : list IndexedMesh) (aTextures : gmap string TextureInfo_)
    (aTangents : list Z) : LoopOutcome File :=
  loop_bind (of_outcome (checked_write_ aOut 16 (ItemChars 16 kFileMagic))) (fun aOut =>
  loop_bind (of_outcome (checked_write_ aOut 16 (ItemChars 16 kFileVariant))) (fun aOut =>
  loop_bind (fill_ordered (map_to_list aTextures) (replicate (size aTextures) None))
    (fun orderedUnqiue =>
  let textureCount := U32.wrap (Z.of_nat (length orderedUnqiue)) in
  loop_bind (of_outcome (checked_write_ aOut 4 (ItemU32 textureCount))) (fun aOut =>
  loop_bind (write_textures aOut orderedUnqiue) (fun aOut =>
  let materialCount := U32.wrap (Z.of_nat (length (materials aModel))) in
  loop_bind (of_outcome (checked_write_ aOut 4 (ItemU32 materialCount))) (fun aOut =>
  loop_bind (write_materials aTextures aOut (materials aModel)) (fun aOut =>
  let meshCount := U32.wrap (Z.of_nat (length (meshes aModel))) in
  loop_bind (of_outcome (checked_write_ aOut 4 (ItemU32 meshCount))) (fun aOut =>
  loop_bind (if (length (meshes aModel) =? length aIndexedMeshes)%nat
             then Finished tt
             else Asserted "aModel.meshes.size() == aIndexedMeshes.size()") (fun _ =>
  write_meshes aOut 0 (meshes aModel) aIndexedMeshes aTangents))))))))).

(** The paths of a material with the channel counts that
    [find_unique_textures_] registers them with. *)
Definition registered (mat : InputMaterialInfo) : list (string * Z) :=
  [ (baseColorTexturePath mat, 4); (roughnessTexturePath mat, 1);
    (metalnessTexturePath mat, 1); (alphaMaskTexturePath mat, 4);
    (normalMapTexturePath mat, 3) ].

(** [add_unique_] over a list of paths and channel counts. *)
Definition add_all (l : list (string * Z)) (captured : gmap string TextureInfo_ * Z)
    : gmap string TextureInfo_ * Z :=
  foldl (fun captured pc => add_unique_ (fst pc) (snd pc) captured) captured l.

(** The ids of a map of textures are different from each other and are the
    numbers below its size. *)
Definition ids_dense (unique : gmap string TextureInfo_) : Prop :=
  (forall path info, unique !! path = Some info -> 0 <= uniqueId info < Z.of_nat (size unique)) /\
  (forall path path' info info',
     unique !! path = Some info -> unique !! path' = Some info' ->
     uniqueId info = uniqueId info' -> path = path') /\
  (forall i, 0 <= i < Z.of_nat (size unique) ->
     exists path info, unique !! path = Some info /\ uniqueId info = i).

(** The keys of a map of textures are the paths that the materials name,
    the empty path apart. *)
Definition keys_named (mats : list InputMaterialInfo) (unique : gmap string TextureInfo_)
    : Prop :=
  forall path, is_Some (unique !! path) <->
    path <> ""%string /\ exists mat, mat ∈ mats /\ path ∈ texture_paths mat.

(** A model of two materials that share their roughness and metalness
    textures; the second has neither base colour nor normal map. *)
Definition sample_model : InputModel :=
  {| materials :=
       [ {| baseColorTexturePath := "wall.png"; roughnessTexturePath := "rough.png";
            metalnessTexturePath := "metal.png"; alphaMaskTexturePath := "";
            normalMapTexturePath := "wall-n.png" |};
         {| baseColorTexturePath := ""; roughnessTexturePath := "rough.png";
            metalnessTexturePath := ""; alphaMaskTexturePath := "leaf.png";
            normalMapTexturePath := "" |} ];
     meshes := [ {| materialIndex := 1; vertexStartIndex := 0; vertexCount := 3 |} ] |}.

(** A stand-in for the path functions: the new path is the directory, a
    slash and the path itself. *)
Definition sample_filename (path : string) : string := path.
Definition sample_append (dir name : string) : string := (dir ++ "/" ++ name)%string.

End Bake.

(** * Properties *)

(** ** The leading-zero count *)

Section CountLeadingZeros.

(** Masking with the top [k] of [m + k] bits keeps exactly the part of [x]
    from bit [m] upwards. *)
Lemma land_top_bits (x m k : Z) :
  0 <= m -> 0 <= k -> 0 <= x < 2 ^ (m + k) ->
  Z.land x (Z.shiftl (Z.ones k) m) = Z.shiftl (Z.shiftr x m) m.
Proof.
  intros Hm Hk Hx.
  apply Z.bits_inj'; intros i Hi.
  rewrite Z.land_spec, !Z.shiftl_spec by lia.
  destruct (Z.ltb_spec i m) as [Hlt | Hge].
  - rewrite (Z.testbit_neg_r _ (i - m)) by lia.
    rewrite (Z.testbit_neg_r _ (i - m)) by lia.
    apply andb_false_r.
  - rewrite Z.shiftr_spec by lia.
    replace (i - m + m) with i by lia.
    destruct (Z.ltb_spec (i - m) k) as [Hin | Hout].
    + rewrite Z.ones_spec_low by lia. apply andb_true_r.
    + rewrite Z.ones_spec_high by lia. rewrite andb_false_r.
      symmetry. destruct (Z.eq_dec x 0) as [-> | Hnz]; [apply Z.bits_0 |].
      apply Z.bits_above_log2; [lia |].
      assert (Z.log2 x < m + k) by (apply Z.log2_lt_pow2; lia).
      lia.
Qed.

Lemma land_top_bits_zero (x m k : Z) :
  0 <= m -> 0 <= k -> 0 < x < 2 ^ (m + k) ->
  (Z.land x (Z.shiftl (Z.ones k) m) =? 0) = (Z.log2 x <? m).
Proof.
  intros Hm Hk Hx.
  rewrite land_top_bits by lia.
  rewrite Z.shiftl_mul_pow2, Z.shiftr_div_pow2 by lia.
  assert (Hp : 0 < 2 ^ m) by (apply Z.pow_pos_nonneg; lia).
  destruct (Z.ltb_spec (Z.log2 x) m) as [Hlt | Hge].
  - apply Z.eqb_eq.
    rewrite Z.div_small; [reflexivity |].
    split; [lia |]. apply Z.log2_lt_pow2; lia.
  - apply Z.eqb_neq.
    assert (2 ^ m <= x) by (apply Z.log2_le_pow2; lia).
    assert (1 <= x / 2 ^ m) by (apply Z.div_le_lower_bound; lia).
    nia.
Qed.

(** A left shift that pushes no set bit out of the word adds to the
    logarithm. *)
Lemma shl_log2 (x k : Z) :
  0 < x -> 0 <= k -> Z.log2 x + k < 32 ->
  U32.shl x k = x * 2 ^ k /\ Z.log2 (U32.shl x k) = Z.log2 x + k.
Proof.
  intros Hx Hk Hlog.
  pose proof (Z.log2_nonneg x) as Hnn.
  assert (Hv : U32.shl x k = x * 2 ^ k).
  { unfold U32.shl, U32.wrap, U32.modulus.
    rewrite Z.shiftl_mul_pow2 by lia.
    apply Z.mod_small.
    assert (0 < 2 ^ k) by (apply Z.pow_pos_nonneg; lia).
    split; [nia |].
    assert (x < 2 ^ (32 - k)) by (apply Z.log2_lt_pow2; lia).
    replace (2 ^ 32) with (2 ^ (32 - k) * 2 ^ k)
      by (rewrite <- Z.pow_add_r by lia; f_equal; lia).
    nia. }
  split; [exact Hv |].
  rewrite Hv, Z.log2_mul_pow2 by lia. lia.
Qed.

(** One narrowing step of [countl_zero_]: [w] is the width that is tested
    (16, 8, 4, 2), and before the step the leading zeros are fewer than
    [2 * w]. *)
Lemma clz_step (res x w : Z) :
  0 < w <= 16 -> 0 < x -> 32 - 2 * w <= Z.log2 x < 32 -> 0 <= res <= 32 ->
  let st :=
    if Z.land x (Z.shiftl (Z.ones w) (32 - w)) =? 0
    then (U32.add res w, U32.shl x w) else (res, x) in
  0 < snd st /\ 32 - w <= Z.log2 (snd st) < 32 /\
  fst st - Z.log2 (snd st) = res - Z.log2 x /\ 0 <= fst st <= res + w.
Proof.
  intros Hw Hx Hlog Hres st. subst st.
  rewrite land_top_bits_zero; try lia.
  2:{ replace (32 - w + w) with 32 by lia.
      split; [lia |]. apply Z.log2_lt_pow2; lia. }
  destruct (Z.ltb_spec (Z.log2 x) (32 - w)) as [Hlt | Hge]; cbn [fst snd].
  - destruct (shl_log2 x w) as [Hv Hl]; try lia.
    assert (Hadd : U32.add res w = res + w).
    { unfold U32.add, U32.wrap, U32.modulus. apply Z.mod_small. lia. }
    rewrite Hadd, Hl. split; [| lia].
    rewrite Hv. assert (0 < 2 ^ w) by (apply Z.pow_pos_nonneg; lia). nia.
  - lia.
Qed.

Lemma countl_zero_log2 (x : Z) :
  0 < x < U32.modulus -> countl_zero_ x = 31 - Z.log2 x.
Proof.
  intros [Hpos Hlt].
  assert (Hlog : 0 <= Z.log2 x < 32).
  { split; [apply Z.log2_nonneg |]. apply Z.log2_lt_pow2; [lia | exact Hlt]. }
  unfold countl_zero_.
  destruct (Z.eqb_spec x 0) as [-> | _]; [lia |].
  change 0xffff0000 with (Z.shiftl (Z.ones 16) (32 - 16)).
  change 0xff000000 with (Z.shiftl (Z.ones 8) (32 - 8)).
  change 0xf0000000 with (Z.shiftl (Z.ones 4) (32 - 4)).
  change 0xc0000000 with (Z.shiftl (Z.ones 2) (32 - 2)).
  change 0x80000000 with (Z.shiftl (Z.ones 1) (32 - 1)).
  pose proof (clz_step 0 x 16) as S16. cbv zeta in S16.
  destruct (if Z.land x (Z.shiftl (Z.ones 16) (32 - 16)) =? 0
            then (U32.add 0 16, U32.shl x 16) else (0, x)) as [r1 x1].
  cbn [fst snd] in S16.
  destruct S16 as (P1 & L1 & E1 & R1); try lia.
  pose proof (clz_step r1 x1 8) as S8. cbv zeta in S8.
  destruct (if Z.land x1 (Z.shiftl (Z.ones 8) (32 - 8)) =? 0
            then (U32.add r1 8, U32.shl x1 8) else (r1, x1)) as [r2 x2].
  cbn [fst snd] in S8.
  destruct S8 as (P2 & L2 & E2 & R2); try lia.
  pose proof (clz_step r2 x2 4) as S4. cbv zeta in S4.
  destruct (if Z.land x2 (Z.shiftl (Z.ones 4) (32 - 4)) =? 0
            then (U32.add r2 4, U32.shl x2 4) else (r2, x2)) as [r3 x3].
  cbn [fst snd] in S4.
  destruct S4 as (P3 & L3 & E3 & R3); try lia.
  pose proof (clz_step r3 x3 2) as S2. cbv zeta in S2.
  destruct (if Z.land x3 (Z.shiftl (Z.ones 2) (32 - 2)) =? 0
            then (U32.add r3 2, U32.shl x3 2) else (r3, x3)) as [r4 x4].
  cbn [fst snd] in S2.
  destruct S2 as (P4 & L4 & E4 & R4); try lia.
  rewrite land_top_bits_zero; try lia.
  2:{ replace (32 - 1 + 1) with 32 by lia.
      split; [lia |]. apply Z.log2_lt_pow2; lia. }
  destruct (Z.ltb_spec (Z.log2 x4) (32 - 1)) as [Hl | Hg].
  - unfold U32.add, U32.wrap, U32.modulus. rewrite Z.mod_small by lia. lia.
  - lia.
Qed.

End CountLeadingZeros.

(** ** The mip-level count *)

Section MipLevelCount.

Lemma log2_max (a b : Z) : Z.log2 (Z.max a b) = Z.max (Z.log2 a) (Z.log2 b).
Proof.
  destruct (Z.le_ge_cases a b) as [Hab | Hba].
  - rewrite Z.max_r by lia. pose proof (Z.log2_le_mono a b Hab). lia.
  - rewrite Z.max_l by lia. pose proof (Z.log2_le_mono b a Hba). lia.
Qed.

Lemma lor_in_range (w h : Z) :
  U32.in_range w -> U32.in_range h -> U32.in_range (Z.lor w h).
Proof.
  unfold U32.in_range, U32.modulus. intros Hw Hh.
  assert (Hnn : 0 <= Z.lor w h) by (apply Z.lor_nonneg; lia).
  split; [exact Hnn |].
  destruct (Z.eq_dec (Z.lor w h) 0) as [-> | Hnz]; [lia |].
  apply Z.log2_lt_pow2; [lia |].
  rewrite Z.log2_lor by lia.
  assert (Z.log2 w < 32).
  { destruct (Z.eq_dec w 0) as [-> | ?]; [cbn; lia |]. apply Z.log2_lt_pow2; lia. }
  assert (Z.log2 h < 32).
  { destruct (Z.eq_dec h 0) as [-> | ?]; [cbn; lia |]. apply Z.log2_lt_pow2; lia. }
  lia.
Qed.

Lemma mip_level_count_positive_case (w h : Z) :
  U32.in_range w -> U32.in_range h -> 1 <= Z.max w h ->
  compute_mip_level_count w h = 1 + Z.log2 (Z.max w h) /\
  1 <= compute_mip_level_count w h <= 32.
Proof.
  intros Hw Hh Hmax.
  pose proof (lor_in_range w h Hw Hh) as Hr.
  unfold U32.in_range in *.
  assert (Hnz : Z.lor w h <> 0).
  { intros Hz. apply Z.lor_eq_0_iff in Hz. lia. }
  unfold compute_mip_level_count.
  rewrite countl_zero_log2 by lia.
  rewrite Z.log2_lor by lia. rewrite log2_max.
  assert (Hb : 0 <= Z.log2 (Z.lor w h) < 32).
  { split; [apply Z.log2_nonneg |]. apply Z.log2_lt_pow2; unfold U32.modulus in *; lia. }
  rewrite Z.log2_lor in Hb by lia.
  unfold U32.sub, U32.wrap, U32.modulus.
  rewrite Z.mod_small by lia. lia.
Qed.

Lemma mip_level_count_zero : compute_mip_level_count 0 0 = 0.
Proof. reflexivity. Qed.

(** C1: for every width and height whose maximum is at least 1, the count
    computed as [32 - countl_zero_(width | height)] equals
    [1 + floor(log2(max(width, height)))], whether or not the dimensions are
    powers of two or equal; and the counts of 1x1, 256x256 and 300x1 are 1,
    9 and 9. *)
Theorem mip_level_count_reference (w h : Z) :
  U32.in_range w -> U32.in_range h -> 1 <= Z.max w h ->
  compute_mip_level_count w h = mip_levels_reference w h /\
  U32.sub 32 (countl_zero_ (Z.lor w h)) = 1 + Z.log2 (Z.max w h) /\
  compute_mip_level_count 1 1 = 1 /\
  compute_mip_level_count 256 256 = 9 /\
  compute_mip_level_count 300 1 = 9.
Proof.
  intros Hw Hh Hmax.
  destruct (mip_level_count_positive_case w h Hw Hh Hmax) as [Heq _].
  unfold mip_levels_reference.
  split; [exact Heq |].
  split; [exact Heq |].
  repeat split; reflexivity.
Qed.

Lemma mip_level_count_reference_witness :
  compute_mip_level_count 300 200 = mip_levels_reference 300 200 /\
  U32.sub 32 (countl_zero_ (Z.lor 300 200)) = 1 + Z.log2 (Z.max 300 200) /\
  compute_mip_level_count 1 1 = 1 /\
  compute_mip_level_count 256 256 = 9 /\
  compute_mip_level_count 300 1 = 9.
Proof.
  apply (mip_level_count_reference 300 200); unfold U32.in_range, U32.modulus; lia.
Defined.

(** C2, as amended: when the larger dimension is at least 1 the count is at
    least 1; the count never decreases when the larger dimension grows; and
    it is strictly larger once the larger dimension has at least doubled. *)
Theorem mip_level_count_monotone (w1 h1 w2 h2 : Z) :
  U32.in_range w1 -> U32.in_range h1 -> U32.in_range w2 -> U32.in_range h2 ->
  (1 <= Z.max w1 h1 -> 1 <= compute_mip_level_count w1 h1) /\
  (Z.max w1 h1 <= Z.max w2 h2 ->
   compute_mip_level_count w1 h1 <= compute_mip_level_count w2 h2) /\
  (1 <= Z.max w1 h1 -> 2 * Z.max w1 h1 <= Z.max w2 h2 ->
   compute_mip_level_count w1 h1 < compute_mip_level_count w2 h2).
Proof.
  intros H1 H2 H3 H4.
  split; [| split].
  - intros Hm. apply (mip_level_count_positive_case w1 h1); assumption.
  - intros Hle.
    destruct (Z.le_gt_cases 1 (Z.max w1 h1)) as [Hpos | Hzero].
    + destruct (mip_level_count_positive_case w1 h1) as [E1 _]; try assumption.
      destruct (mip_level_count_positive_case w2 h2) as [E2 _]; try assumption; [lia |].
      rewrite E1, E2.
      pose proof (Z.log2_le_mono _ _ Hle). lia.
    + unfold U32.in_range in *.
      assert (w1 = 0 /\ h1 = 0) as [-> ->] by lia.
      rewrite mip_level_count_zero.
      destruct (Z.le_gt_cases 1 (Z.max w2 h2)) as [Hpos2 | Hzero2].
      * destruct (mip_level_count_positive_case w2 h2) as [_ B]; try assumption. lia.
      * assert (w2 = 0 /\ h2 = 0) as [-> ->] by lia.
        rewrite mip_level_count_zero. lia.
  - intros Hpos Hdbl.
    destruct (mip_level_count_positive_case w1 h1) as [E1 _]; try assumption.
    destruct (mip_level_count_positive_case w2 h2) as [E2 _]; try assumption; [lia |].
    rewrite E1, E2.
    assert (Z.log2 (2 * Z.max w1 h1) <= Z.log2 (Z.max w2 h2))
      by (apply Z.log2_le_mono; exact Hdbl).
    rewrite Z.log2_double in H by lia. lia.
Qed.

Lemma mip_level_count_monotone_witness :
  (1 <= Z.max 3 2 -> 1 <= compute_mip_level_count 3 2) /\
  (Z.max 3 2 <= Z.max 5 7 ->
   compute_mip_level_count 3 2 <= compute_mip_level_count 5 7) /\
  (1 <= Z.max 3 2 -> 2 * Z.max 3 2 <= Z.max 5 7 ->
   compute_mip_level_count 3 2 < compute_mip_level_count 5 7).
Proof.
  apply (mip_level_count_monotone 3 2 5 7); unfold U32.in_range, U32.modulus; lia.
Defined.

(** C2 as stated fails: the count of 0x0 is 0, not at least 1; and the
    larger dimension grows from 2 to 3 while the count stays 2. *)
Lemma mip_level_count_not_strict :
  ~ (1 <= compute_mip_level_count 0 0) /\
  (Z.max 2 2 < Z.max 3 3 /\
   ~ (compute_mip_level_count 2 2 < compute_mip_level_count 3 3)).
Proof.
  assert (E0 : compute_mip_level_count 0 0 = 0) by reflexivity.
  assert (E2 : compute_mip_level_count 2 2 = 2) by reflexivity.
  assert (E3 : compute_mip_level_count 3 3 = 2) by reflexivity.
  rewrite E0, E2, E3. lia.
Qed.

(** C10: [countl_zero_(0)] is 32 and the count of 0x0 is 0; for dimensions
    whose maximum is at least 1 the count is at least 1; so the count fails
    to be positive at 0x0 only. *)
Theorem mip_level_count_zero_only (w h : Z) :
  U32.in_range w -> U32.in_range h ->
  countl_zero_ 0 = 32 /\
  compute_mip_level_count 0 0 = 0 /\
  (1 <= Z.max w h -> 1 <= compute_mip_level_count w h) /\
  (compute_mip_level_count w h <= 0 <-> w = 0 /\ h = 0).
Proof.
  intros Hw Hh.
  split; [reflexivity |]. split; [reflexivity |].
  split.
  - intros Hm. apply (mip_level_count_positive_case w h); assumption.
  - split.
    + intros Hle.
      destruct (Z.le_gt_cases 1 (Z.max w h)) as [Hpos | Hzero].
      * destruct (mip_level_count_positive_case w h) as [_ B]; try assumption. lia.
      * unfold U32.in_range in *. lia.
    + intros [-> ->]. rewrite mip_level_count_zero. lia.
Qed.

Lemma mip_level_count_zero_only_witness :
  countl_zero_ 0 = 32 /\
  compute_mip_level_count 0 0 = 0 /\
  (1 <= Z.max 0 7 -> 1 <= compute_mip_level_count 0 7) /\
  (compute_mip_level_count 0 7 <= 0 <-> 0 = 0 /\ 7 = 0).
Proof.
  apply (mip_level_count_zero_only 0 7); unfold U32.in_range, U32.modulus; lia.
Defined.

End MipLevelCount.

(** ** The texture upload *)

Section TextureUpload.

(** The fuel given to the blit loop is enough: the loop stops because its
    condition fails, not because the fuel runs out. *)
Lemma mip_loop_exits (fuel : nat) (mipLevels : Z) (st : MipLoop) :
  0 <= loop_level st -> mipLevels <= loop_level st + Z.of_nat fuel ->
  mipLevels < U32.modulus ->
  (loop_level (mip_loop fuel mipLevels st) <? mipLevels) = false.
Proof.
  revert st. induction fuel as [| fuel IH]; intros st Hlvl Hfuel Hmax; cbn [mip_loop].
  - apply Z.ltb_ge. lia.
  - destruct (Z.ltb_spec (loop_level st) mipLevels) as [Hlt | Hge].
    + apply IH; cbn [mip_loop_body loop_level]; try assumption;
        unfold U32.add, U32.wrap; rewrite Z.mod_small by lia; lia.
    + apply Z.ltb_ge. exact Hge.
Qed.

Lemma load_image_texture2d_succeeds (drv : UploadDriver) (path : string) (w h : Z) :
  stbi_load drv path = Some (w, h) -> upload_calls_succeed drv ->
  load_image_texture2d drv path =
    Ok {| up_image :=
            {| info_width := U32.of_int w; info_height := U32.of_int h; info_depth := 1;
               info_mipLevels := compute_mip_level_count (U32.of_int w) (U32.of_int h);
               info_arrayLayers := 1;
               info_initialLayout := VK_IMAGE_LAYOUT_UNDEFINED |};
          up_stagingSize := U32.wrap (U32.wrap (U32.of_int w * U32.of_int h) * 4);
          up_commands := loop_cbuff (record_upload_commands (U32.of_int w) (U32.of_int h)) |}.
Proof.
  intros Hload (Hbuf & Hmap & Himg & Hcb & Hbegin & Hend & Hfence & Hsubmit & Hwait).
  unfold load_image_texture2d, create_image_texture2d.
  rewrite Hload, Hbuf, Hmap, Himg, Hcb, Hbegin, Hend, Hfence, Hsubmit, Hwait.
  reflexivity.
Qed.

(** C3: uploading a 512x256 image creates an image of
    [compute_mip_level_count 512 256 = 10] levels; the blits of the loop
    write levels 1 to 9 with extents halved on each axis and kept at least 1,
    ending at 1x1 for level 9; the recording is a prefix that leaves all ten
    levels in transfer-source layout followed by one barrier over the whole
    range, after which all ten levels are in shader-read-only layout. *)
Theorem upload_512_256 (drv : UploadDriver) (path : string) :
  stbi_load drv path = Some (512, 256) -> upload_calls_succeed drv ->
  exists (up : Upload) (blits : list Command),
    load_image_texture2d drv path = Ok up /\
    info_mipLevels (up_image up) = compute_mip_level_count 512 256 /\
    compute_mip_level_count 512 256 = 10 /\
    map (blit_extent (up_commands up)) [1; 2; 3; 4; 5; 6; 7; 8; 9] =
      [Some (256, 128); Some (128, 64); Some (64, 32); Some (32, 16); Some (16, 8);
       Some (8, 4); Some (4, 2); Some (2, 1); Some (1, 1)] /\
    blit_extent (up_commands up) 9 = Some (1, 1) /\
    up_commands up = blits ++ [final_barrier 10] /\
    execute blits (initial_layouts (up_image up)) =
      Some (replicate 10 VK_IMAGE_LAYOUT_TRANSFER_SRC_OPTIMAL) /\
    execute (up_commands up) (initial_layouts (up_image up)) =
      Some (replicate 10 VK_IMAGE_LAYOUT_SHADER_READ_ONLY_OPTIMAL).
Proof.
  intros Hload Hok.
  eexists. exists (removelast (loop_cbuff (record_upload_commands 512 256))).
  split; [apply (load_image_texture2d_succeeds drv path 512 256 Hload Hok) |].
  cbn [up_image up_commands info_mipLevels].
  split; [vm_compute; reflexivity |].
  split; [vm_compute; reflexivity |].
  split; [vm_compute; reflexivity |].
  split; [vm_compute; reflexivity |].
  split; [vm_compute; reflexivity |].
  split; vm_compute; reflexivity.
Qed.

Lemma upload_512_256_witness :
  exists (up : Upload) (blits : list Command),
    load_image_texture2d (succeeding_upload_driver 512 256) "sponza.png" = Ok up /\
    info_mipLevels (up_image up) = compute_mip_level_count 512 256 /\
    compute_mip_level_count 512 256 = 10 /\
    map (blit_extent (up_commands up)) [1; 2; 3; 4; 5; 6; 7; 8; 9] =
      [Some (256, 128); Some (128, 64); Some (64, 32); Some (32, 16); Some (16, 8);
       Some (8, 4); Some (4, 2); Some (2, 1); Some (1, 1)] /\
    blit_extent (up_commands up) 9 = Some (1, 1) /\
    up_commands up = blits ++ [final_barrier 10] /\
    execute blits (initial_layouts (up_image up)) =
      Some (replicate 10 VK_IMAGE_LAYOUT_TRANSFER_SRC_OPTIMAL) /\
    execute (up_commands up) (initial_layouts (up_image up)) =
      Some (replicate 10 VK_IMAGE_LAYOUT_SHADER_READ_ONLY_OPTIMAL).
Proof.
  apply (upload_512_256 (succeeding_upload_driver 512 256) "sponza.png").
  - reflexivity.
  - unfold upload_calls_succeed, succeeding_upload_driver; cbn.
    split; [intros; reflexivity |].
    split; [reflexivity |].
    split; [intros; reflexivity |].
    split; [reflexivity |].
    split; [reflexivity |].
    split; [reflexivity |].
    split; [reflexivity |].
    split; [intros; reflexivity | reflexivity].
Defined.

End TextureUpload.

(** ** The texture upload for any dimensions *)

Section UploadLayouts.

Lemma execute_app (cmds1 cmds2 : list Command) (layouts : list VkImageLayout) :
  execute (cmds1 ++ cmds2) layouts =
    match execute cmds1 layouts with
    | Some layouts' => execute cmds2 layouts'
    | None => None
    end.
Proof.
  revert layouts. induction cmds1 as [| c rest IH]; intros layouts; cbn [execute app].
  - reflexivity.
  - destruct (exec_command c layouts); [apply IH | reflexivity].
Qed.

Lemma set_levels_length (x : VkImageLayout) (layouts : list VkImageLayout) (levels : list nat) :
  length (foldr (fun l acc => <[l := x]> acc) layouts levels) = length layouts.
Proof.
  induction levels as [| l rest IH]; cbn [foldr]; [reflexivity |].
  rewrite length_insert. exact IH.
Qed.

Lemma set_levels_lookup (x : VkImageLayout) (layouts : list VkImageLayout) (a m i : nat) :
  foldr (fun l acc => <[l := x]> acc) layouts (seq a m) !! i =
    if decide ((a <= i < a + m)%nat /\ (i < length layouts)%nat) then Some x
    else layouts !! i.
Proof.
  revert a. induction m as [| m IH]; intros a; cbn [seq foldr].
  - destruct (decide _) as [[H _] | _]; [lia | reflexivity].
  - destruct (decide (a = i)) as [-> | Hne].
    + destruct (decide ((i < length layouts)%nat)) as [Hin | Hout].
      * rewrite list_lookup_insert_eq by (rewrite set_levels_length; exact Hin).
        destruct (decide _) as [_ | Hn]; [reflexivity | exfalso; apply Hn; lia].
      * rewrite lookup_ge_None_2 by (rewrite length_insert, set_levels_length; lia).
        destruct (decide _) as [[_ H] | _]; [lia |].
        symmetry. apply lookup_ge_None_2. lia.
    + rewrite list_lookup_insert_ne by exact Hne.
      rewrite IH.
      destruct (decide ((S a <= i < S a + m)%nat /\ (i < length layouts)%nat)) as [H1 | H1];
        destruct (decide ((a <= i < a + S m)%nat /\ (i < length layouts)%nat)) as [H2 | H2];
        try reflexivity; exfalso; [apply H2 | apply H1]; lia.
Qed.

(** A barrier over levels that exist and are in a layout it accepts moves
    exactly those levels to its new layout. *)
Lemma exec_barrier_run (oldLayout newLayout : VkImageLayout)
    (range : VkImageSubresourceRange) (base count : nat) (layouts : list VkImageLayout) :
  baseMipLevel range = Z.of_nat base -> levelCount range = Z.of_nat count ->
  (base + count <= length layouts)%nat ->
  (forall i cur, (base <= i < base + count)%nat -> layouts !! i = Some cur ->
     layout_accepts oldLayout cur = true) ->
  exists layouts',
    exec_barrier oldLayout newLayout range layouts = Some layouts' /\
    length layouts' = length layouts /\
    forall i : nat,
      layouts' !! i =
        if decide ((base <= i < base + count)%nat) then Some newLayout else layouts !! i.
Proof.
  intros Hbase Hcount Hlen Hacc.
  unfold exec_barrier, level_range. rewrite Hbase, Hcount.
  rewrite !Nat2Z.id.
  assert (Hall : forallb (fun l => match layouts !! l with
                                   | Some cur => layout_accepts oldLayout cur
                                   | None => false
                                   end) (seq base count) = true).
  { apply forallb_forall. intros l Hl. apply in_seq in Hl.
    destruct (layouts !! l) as [cur |] eqn:Hcur.
    - apply (Hacc l cur); [lia | exact Hcur].
    - apply lookup_ge_None_1 in Hcur. lia. }
  rewrite Hall.
  assert (Hb : (0 <=? Z.of_nat base) = true) by (apply Z.leb_le; lia).
  rewrite Hb. cbn [andb].
  eexists. split; [reflexivity |].
  split; [apply set_levels_length |].
  intros i. rewrite set_levels_lookup.
  destruct (decide ((base <= i < base + count)%nat /\ (i < length layouts)%nat)) as [H1 | H1];
    destruct (decide ((base <= i < base + count)%nat)) as [H2 | H2];
    try reflexivity; exfalso; [apply H2; lia | apply H1; lia].
Qed.

Lemma level_has_lookup (layouts : list VkImageLayout) (level : Z) (i : nat)
    (l : VkImageLayout) :
  level = Z.of_nat i -> layouts !! i = Some l -> level_has layouts level l = true.
Proof.
  intros -> H. unfold level_has. rewrite Nat2Z.id.
  apply andb_true_iff. split; [apply Z.leb_le; lia |].
  apply bool_decide_eq_true. exact H.
Qed.

Lemma halve_bound (x m : Z) :
  1 <= m -> 1 <= x < 2 ^ (m + 1) ->
  1 <= (if U32.shr x 1 =? 0 then 1 else U32.shr x 1) < 2 ^ m.
Proof.
  intros Hm Hx. unfold U32.shr.
  rewrite Z.shiftr_div_pow2 by lia. change (2 ^ 1) with 2.
  assert (Hp : 2 ^ (m + 1) = 2 * 2 ^ m) by (rewrite Z.pow_add_r by lia; lia).
  assert (H2 : 2 <= 2 ^ m).
  { change 2 with (2 ^ 1) at 1. apply Z.pow_le_mono_r; lia. }
  assert (Hd : 0 <= x / 2 < 2 ^ m).
  { split; [apply Z.div_pos; lia |]. apply Z.div_lt_upper_bound; lia. }
  destruct (Z.eqb_spec (x / 2) 0); lia.
Qed.

(** One turn of the blit loop at level [k]: level [k - 1] is read, level [k]
    is written and then joins the levels in transfer-source layout. *)
Lemma mip_loop_body_run (n k : nat) (st : MipLoop) (init layouts : list VkImageLayout) :
  loop_level st = Z.of_nat k -> (1 <= k < n)%nat -> Z.of_nat n < U32.modulus ->
  execute (loop_cbuff st) init = Some layouts -> staged n k layouts ->
  exists layouts',
    execute (loop_cbuff (mip_loop_body st)) init = Some layouts' /\
    staged n (S k) layouts' /\
    loop_level (mip_loop_body st) = Z.of_nat (S k).
Proof.
  intros Hlevel Hk Hn Hexec [Hlen Hst].
  unfold mip_loop_body, vkCmdBlitImage, image_barrier. cbn [loop_cbuff loop_level].
  rewrite Hlevel.
  assert (Hsub : U32.sub (Z.of_nat k) 1 = Z.of_nat (k - 1)).
  { unfold U32.sub, U32.wrap. rewrite Z.mod_small by lia. lia. }
  assert (Hadd : U32.add (Z.of_nat k) 1 = Z.of_nat (S k)).
  { unfold U32.add, U32.wrap. rewrite Z.mod_small by lia. lia. }
  rewrite Hsub, Hadd.
  rewrite !execute_app, Hexec. cbn [execute exec_command srcMipLevel dstMipLevel].
  rewrite (level_has_lookup layouts _ (k - 1) VK_IMAGE_LAYOUT_TRANSFER_SRC_OPTIMAL eq_refl).
  2:{ rewrite Hst by lia.
      assert (Hlt : (k - 1 <? k)%nat = true) by (apply Nat.ltb_lt; lia).
      rewrite Hlt. reflexivity. }
  rewrite (level_has_lookup layouts _ k VK_IMAGE_LAYOUT_TRANSFER_DST_OPTIMAL eq_refl).
  2:{ rewrite Hst by lia. rewrite Nat.ltb_irrefl. reflexivity. }
  rewrite !bool_decide_eq_true_2 by reflexivity. cbn [andb].
  destruct (exec_barrier_run VK_IMAGE_LAYOUT_TRANSFER_DST_OPTIMAL
              VK_IMAGE_LAYOUT_TRANSFER_SRC_OPTIMAL
              {| baseMipLevel := Z.of_nat k; levelCount := 1;
                 baseArrayLayer := 0; layerCount := 1 |} k 1 layouts)
    as (layouts' & Hrun & Hlen' & Hlook).
  { reflexivity. }
  { reflexivity. }
  { lia. }
  { intros i cur Hi Hcur. assert (i = k) by lia. subst i.
    rewrite Hst in Hcur by lia. rewrite Nat.ltb_irrefl in Hcur.
    injection Hcur as <-. reflexivity. }
  rewrite Hrun.
  exists layouts'. split; [reflexivity |].
  split; [| reflexivity].
  split; [lia |].
  intros i Hi. rewrite Hlook.
  destruct (decide ((k <= i < k + 1)%nat)) as [Hin | Hout].
  - assert (Hlt : (i <? S k)%nat = true) by (apply Nat.ltb_lt; lia).
    rewrite Hlt. reflexivity.
  - rewrite Hst by exact Hi.
    destruct (Nat.ltb_spec i k) as [H1 | H1]; destruct (Nat.ltb_spec i (S k)) as [H2 | H2];
      try reflexivity; lia.
Qed.

Lemma mip_loop_run (fuel n : nat) :
  forall (k : nat) (st : MipLoop) (init layouts : list VkImageLayout),
    loop_level st = Z.of_nat k -> (1 <= k <= n)%nat -> (n <= k + fuel)%nat ->
    Z.of_nat n < U32.modulus ->
    execute (loop_cbuff st) init = Some layouts -> staged n k layouts ->
    1 <= loop_width st < 2 ^ (Z.of_nat (n - k) + 1) ->
    1 <= loop_height st < 2 ^ (Z.of_nat (n - k) + 1) ->
    exists layouts',
      execute (loop_cbuff (mip_loop fuel (Z.of_nat n) st)) init = Some layouts' /\
      staged n n layouts' /\
      loop_level (mip_loop fuel (Z.of_nat n) st) = Z.of_nat n /\
      loop_width (mip_loop fuel (Z.of_nat n) st) = 1 /\
      loop_height (mip_loop fuel (Z.of_nat n) st) = 1.
Proof.
  induction fuel as [| fuel IH];
    intros k st init layouts Hlevel Hk Hfuel Hn Hexec Hst Hw Hh; cbn [mip_loop].
  - assert (k = n) by lia. subst k.
    replace (Z.of_nat (n - n) + 1) with 1 in Hw, Hh by lia.
    change (2 ^ 1) with 2 in Hw, Hh.
    exists layouts. repeat split; try assumption; try apply Hst; lia.
  - rewrite Hlevel.
    destruct (Z.ltb_spec (Z.of_nat k) (Z.of_nat n)) as [Hlt | Hge].
    + destruct (mip_loop_body_run n k st init layouts Hlevel) as (layouts' & Hexec' & Hst' & Hlevel');
        try assumption; [lia |].
      apply (IH (S k) (mip_loop_body st) init layouts'); try assumption; try lia.
      * cbn [mip_loop_body loop_width].
        replace (Z.of_nat (n - k) + 1) with (Z.of_nat (n - S k) + 1 + 1) in Hw by lia.
        apply halve_bound; [lia | exact Hw].
      * cbn [mip_loop_body loop_height].
        replace (Z.of_nat (n - k) + 1) with (Z.of_nat (n - S k) + 1 + 1) in Hh by lia.
        apply halve_bound; [lia | exact Hh].
    + assert (k = n) by lia. subst k.
      replace (Z.of_nat (n - n) + 1) with 1 in Hw, Hh by lia.
      change (2 ^ 1) with 2 in Hw, Hh.
      exists layouts. repeat split; try assumption; try apply Hst; lia.
Qed.

(** X2: for every image of positive dimensions the recorded commands are
    accepted by the layout rules and leave every level of the image in
    shader-read-only layout, and the blit loop ends at level [mipLevels] with
    a 1x1 extent. *)
Lemma upload_reaches_shader_read (w h : Z) :
  1 <= w < U32.modulus -> 1 <= h < U32.modulus ->
  let mipLevels := compute_mip_level_count w h in
  let st := record_upload_commands w h in
  execute (loop_cbuff st) (replicate (Z.to_nat mipLevels) VK_IMAGE_LAYOUT_UNDEFINED) =
    Some (replicate (Z.to_nat mipLevels) VK_IMAGE_LAYOUT_SHADER_READ_ONLY_OPTIMAL) /\
  loop_level st = mipLevels /\ loop_width st = 1 /\ loop_height st = 1.
Proof.
  intros Hw Hh. cbv zeta.
  destruct (mip_level_count_positive_case w h) as [Hcount Hrange];
    [unfold U32.in_range; lia | unfold U32.in_range; lia | lia |].
  assert (Hpow : Z.max w h < 2 ^ compute_mip_level_count w h).
  { rewrite Hcount, Z.add_comm. apply Z.log2_spec. lia. }
  remember (Z.to_nat (compute_mip_level_count w h)) as n eqn:Hn.
  assert (HnZ : compute_mip_level_count w h = Z.of_nat n) by lia.
  unfold record_upload_commands, vkCmdCopyBufferToImage, image_barrier.
  cbn [loop_cbuff loop_level loop_width loop_height app].
  rewrite HnZ, Nat2Z.id.
  destruct (exec_barrier_run VK_IMAGE_LAYOUT_UNDEFINED VK_IMAGE_LAYOUT_TRANSFER_DST_OPTIMAL
              {| baseMipLevel := 0; levelCount := Z.of_nat n;
                 baseArrayLayer := 0; layerCount := 1 |}
              0 n (replicate n VK_IMAGE_LAYOUT_UNDEFINED))
    as (l0 & Hrun0 & Hlen0 & Hlook0).
  { reflexivity. }
  { reflexivity. }
  { rewrite length_replicate. lia. }
  { intros i cur _ _. reflexivity. }
  rewrite length_replicate in Hlen0.
  destruct (exec_barrier_run VK_IMAGE_LAYOUT_TRANSFER_DST_OPTIMAL
              VK_IMAGE_LAYOUT_TRANSFER_SRC_OPTIMAL
              {| baseMipLevel := 0; levelCount := 1; baseArrayLayer := 0; layerCount := 1 |}
              0 1 l0)
    as (l1 & Hrun1 & Hlen1 & Hlook1).
  { reflexivity. }
  { reflexivity. }
  { lia. }
  { intros i cur Hi Hcur. rewrite Hlook0 in Hcur.
    destruct (decide _) as [_ | Hout]; [| exfalso; apply Hout; lia].
    injection Hcur as <-. reflexivity. }
  assert (Hst1 : staged n 1 l1).
  { split; [lia |]. intros i Hi. rewrite Hlook1, Hlook0.
    destruct (decide ((0 <= i < 0 + 1)%nat)) as [H0 | H0].
    - assert (i = 0%nat) by lia. subst i. reflexivity.
    - destruct (decide ((0 <= i < 0 + n)%nat)) as [H1 | H1]; [| lia].
      destruct (Nat.ltb_spec i 1); [lia | reflexivity]. }
  assert (Hexec1 :
    execute
      [CmdPipelineBarrier VK_ACCESS_NONE VK_ACCESS_TRANSFER_WRITE_BIT
         VK_IMAGE_LAYOUT_UNDEFINED VK_IMAGE_LAYOUT_TRANSFER_DST_OPTIMAL
         VK_PIPELINE_STAGE_TOP_OF_PIPE_BIT VK_PIPELINE_STAGE_TRANSFER_BIT
         {| baseMipLevel := 0; levelCount := Z.of_nat n; baseArrayLayer := 0; layerCount := 1 |};
       CmdCopyBufferToImage VK_IMAGE_LAYOUT_TRANSFER_DST_OPTIMAL
         {| copyMipLevel := 0; copyOffset := {| off_x := 0; off_y := 0; off_z := 0 |};
            copyWidth := w; copyHeight := h; copyDepth := 1 |};
       CmdPipelineBarrier VK_ACCESS_TRANSFER_WRITE_BIT VK_ACCESS_TRANSFER_READ_BIT
         VK_IMAGE_LAYOUT_TRANSFER_DST_OPTIMAL VK_IMAGE_LAYOUT_TRANSFER_SRC_OPTIMAL
         VK_PIPELINE_STAGE_TRANSFER_BIT VK_PIPELINE_STAGE_TRANSFER_BIT
         {| baseMipLevel := 0; levelCount := 1; baseArrayLayer := 0; layerCount := 1 |}]
      (replicate n VK_IMAGE_LAYOUT_UNDEFINED) = Some l1).
  { cbn [execute exec_command copyMipLevel].
    rewrite Hrun0.
    rewrite (level_has_lookup l0 0 0%nat VK_IMAGE_LAYOUT_TRANSFER_DST_OPTIMAL eq_refl).
    2:{ rewrite Hlook0. destruct (decide _) as [_ | Hout]; [reflexivity | exfalso; apply Hout; lia]. }
    rewrite !bool_decide_eq_true_2 by reflexivity. cbn [andb].
    rewrite Hrun1. reflexivity. }
  destruct (mip_loop_run n n 1
              {| loop_level := 1; loop_width := w; loop_height := h;
                 loop_cbuff :=
                   [CmdPipelineBarrier VK_ACCESS_NONE VK_ACCESS_TRANSFER_WRITE_BIT
                      VK_IMAGE_LAYOUT_UNDEFINED VK_IMAGE_LAYOUT_TRANSFER_DST_OPTIMAL
                      VK_PIPELINE_STAGE_TOP_OF_PIPE_BIT VK_PIPELINE_STAGE_TRANSFER_BIT
                      {| baseMipLevel := 0; levelCount := Z.of_nat n;
                         baseArrayLayer := 0; layerCount := 1 |};
                    CmdCopyBufferToImage VK_IMAGE_LAYOUT_TRANSFER_DST_OPTIMAL
                      {| copyMipLevel := 0;
                         copyOffset := {| off_x := 0; off_y := 0; off_z := 0 |};
                         copyWidth := w; copyHeight := h; copyDepth := 1 |};
                    CmdPipelineBarrier VK_ACCESS_TRANSFER_WRITE_BIT VK_ACCESS_TRANSFER_READ_BIT
                      VK_IMAGE_LAYOUT_TRANSFER_DST_OPTIMAL VK_IMAGE_LAYOUT_TRANSFER_SRC_OPTIMAL
                      VK_PIPELINE_STAGE_TRANSFER_BIT VK_PIPELINE_STAGE_TRANSFER_BIT
                      {| baseMipLevel := 0; levelCount := 1;
                         baseArrayLayer := 0; layerCount := 1 |}] |}
              (replicate n VK_IMAGE_LAYOUT_UNDEFINED) l1)
    as (l2 & Hexec2 & [Hlen2 Hst2] & Hlevel2 & Hwidth2 & Hheight2);
    try assumption; try reflexivity; cbn [loop_width loop_height]; try lia.
  { unfold U32.modulus. lia. }
  { replace (Z.of_nat (n - 1) + 1) with (compute_mip_level_count w h) by lia. lia. }
  { replace (Z.of_nat (n - 1) + 1) with (compute_mip_level_count w h) by lia. lia. }
  rewrite execute_app, Hexec2. cbn [execute exec_command].
  destruct (exec_barrier_run VK_IMAGE_LAYOUT_TRANSFER_SRC_OPTIMAL
              VK_IMAGE_LAYOUT_SHADER_READ_ONLY_OPTIMAL
              {| baseMipLevel := 0; levelCount := Z.of_nat n;
                 baseArrayLayer := 0; layerCount := 1 |} 0 n l2)
    as (l3 & Hrun3 & Hlen3 & Hlook3).
  { reflexivity. }
  { reflexivity. }
  { lia. }
  { intros i cur Hi Hcur. rewrite Hst2 in Hcur by lia.
    assert (Hlt : (i <? n)%nat = true) by (apply Nat.ltb_lt; lia).
    rewrite Hlt in Hcur. injection Hcur as <-. reflexivity. }
  rewrite Hrun3.
  split; [| repeat split; assumption].
  f_equal. apply list_eq. intros i. rewrite Hlook3.
  destruct (decide ((0 <= i < 0 + n)%nat)) as [Hin | Hout].
  - symmetry. apply lookup_replicate_2. lia.
  - rewrite !lookup_ge_None_2; [reflexivity | rewrite length_replicate; lia | lia].
Qed.

End UploadLayouts.

(** ** Device selection *)

Section DeviceSelectionProperties.

Variable drv : DeviceDriver.

Lemma land_graphics_bit (flags : Z) :
  (VK_QUEUE_GRAPHICS_BIT =? Z.land VK_QUEUE_GRAPHICS_BIT flags) = Z.testbit flags 0.
Proof.
  unfold VK_QUEUE_GRAPHICS_BIT.
  rewrite Z.land_comm.
  change 1 with (Z.ones 1). rewrite Z.land_ones by lia.
  change (2 ^ 1) with 2. rewrite <- Z.bit0_mod.
  destruct (Z.testbit flags 0); reflexivity.
Qed.

(** With a surface and no required flags the search fails exactly when no
    family can present. *)
Lemma find_present_family_none (dev surface : Handle) (families : list VkQueueFamilyProperties)
    (start : Z) :
  surface <> VK_NULL_HANDLE ->
  find_queue_family_from drv dev 0 surface start families = None <->
  (forall (j : nat) (family : VkQueueFamilyProperties),
     families !! j = Some family ->
     vkGetPhysicalDeviceSurfaceSupportKHR drv dev (start + Z.of_nat j) surface
       <> (VK_SUCCESS, true)).
Proof.
  intros Hsurf. revert start.
  induction families as [| family rest IH]; intros start; cbn [find_queue_family_from].
  - split; [intros _ j f Hj; destruct j; discriminate Hj | reflexivity].
  - rewrite Z.land_0_l. cbn [Z.eqb].
    destruct (Z.eqb_spec VK_NULL_HANDLE surface) as [Heq | _]; [congruence |].
    destruct (vkGetPhysicalDeviceSurfaceSupportKHR drv dev start surface)
      as [res supported] eqn:Hq.
    destruct (Z.eqb_spec VK_SUCCESS res) as [<- | Hres]; cbn [andb].
    + destruct supported.
      * split; [discriminate |].
        intros Hall. exfalso. apply (Hall 0%nat family eq_refl).
        rewrite Z.add_0_r. exact Hq.
      * rewrite IH. split.
        -- intros Hall [| j] f Hj.
           ++ rewrite Z.add_0_r, Hq. discriminate.
           ++ replace (start + Z.of_nat (S j)) with (start + 1 + Z.of_nat j) by lia.
              apply (Hall j f Hj).
        -- intros Hall j f Hj.
           replace (start + 1 + Z.of_nat j) with (start + Z.of_nat (S j)) by lia.
           apply (Hall (S j) f Hj).
    + rewrite IH. split.
      * intros Hall [| j] f Hj.
        -- rewrite Z.add_0_r, Hq. intros [= E _]. congruence.
        -- replace (start + Z.of_nat (S j)) with (start + 1 + Z.of_nat j) by lia.
           apply (Hall j f Hj).
      * intros Hall j f Hj.
        replace (start + 1 + Z.of_nat j) with (start + Z.of_nat (S j)) by lia.
        apply (Hall (S j) f Hj).
Qed.

(** Without a surface the search for a graphics family fails exactly when no
    family has the graphics bit. *)
Lemma find_graphics_family_none (dev : Handle) (families : list VkQueueFamilyProperties)
    (start : Z) :
  find_queue_family_from drv dev VK_QUEUE_GRAPHICS_BIT VK_NULL_HANDLE start families = None <->
  (forall family, family ∈ families -> Z.testbit (queueFlags family) 0 = false).
Proof.
  revert start.
  induction families as [| family rest IH]; intros start; cbn [find_queue_family_from].
  - split; [intros _ f Hf; inversion Hf | reflexivity].
  - rewrite land_graphics_bit. cbn [Z.eqb VK_NULL_HANDLE].
    destruct (Z.testbit (queueFlags family) 0) eqn:Hbit.
    + split; [discriminate |].
      intros Hall.
      assert (Hin : family ∈ family :: rest) by (apply elem_of_cons; left; reflexivity).
      specialize (Hall family Hin). congruence.
    + rewrite IH. split.
      * intros Hall f Hf. apply elem_of_cons in Hf as [-> | Hf]; [exact Hbit | auto].
      * intros Hall f Hf. apply Hall. apply elem_of_cons. right. exact Hf.
Qed.

Lemma is_Some_false {A : Type} (o : option A) :
  ~ is_Some o <-> o = None.
Proof.
  destruct o; split; intros H; try reflexivity; try discriminate.
  - exfalso. apply H. eauto.
  - intros [x Hx]. discriminate.
Qed.

Lemma version_test (major minor : Z) :
  (major <? 1) || ((major =? 1) && (minor <? 2)) = true <->
  major < 1 \/ (major = 1 /\ minor < 2).
Proof.
  rewrite orb_true_iff, andb_true_iff, !Z.ltb_lt, Z.eqb_eq. reflexivity.
Qed.

(** The score is the rejection value exactly for the rejected adapters, and
    is not negative otherwise. *)
Lemma score_device_rejected (dev surface : Handle) :
  surface <> VK_NULL_HANDLE ->
  (score_device drv dev surface = -1 <-> rejected drv dev surface) /\
  (score_device drv dev surface = -1 \/ 0 <= score_device drv dev surface).
Proof.
  intros Hsurf.
  unfold score_device, rejected, version_below_minimum, lacks_swapchain_extension,
    no_present_family, no_graphics_family, find_queue_family.
  set (v := apiVersion (vkGetPhysicalDeviceProperties drv dev)).
  set (families := vkGetPhysicalDeviceQueueFamilyProperties drv dev).
  cbv zeta.
  pose proof (find_present_family_none dev surface families 0 Hsurf) as Hpres.
  pose proof (find_graphics_family_none dev families 0) as Hgfx.
  pose proof (version_test (VK_API_VERSION_MAJOR v) (VK_API_VERSION_MINOR v)) as Hver.
  cbn [Z.add] in Hpres.
  destruct ((VK_API_VERSION_MAJOR v <? 1) ||
            ((VK_API_VERSION_MAJOR v =? 1) && (VK_API_VERSION_MINOR v <? 2))).
  { split; [| left; reflexivity].
    split; [intros _; left; apply Hver; reflexivity | reflexivity]. }
  destruct (bool_decide_reflect
              (VK_KHR_SWAPCHAIN_EXTENSION_NAME ∈ get_device_extensions drv dev))
    as [Hext | Hext]; cbn [negb].
  2:{ split; [| left; reflexivity].
      split; [intros _; right; left; exact Hext | reflexivity]. }
  destruct (bool_decide_reflect
              (is_Some (find_queue_family_from drv dev 0 surface 0 families)))
    as [Hp | Hp]; cbn [negb].
  2:{ split; [| left; reflexivity].
      split; [| reflexivity]. intros _. right; right; left.
      apply Hpres. apply is_Some_false. exact Hp. }
  destruct (bool_decide_reflect
              (is_Some (find_queue_family_from drv dev VK_QUEUE_GRAPHICS_BIT
                          VK_NULL_HANDLE 0 families)))
    as [Hg | Hg]; cbn [negb].
  2:{ split; [| left; reflexivity].
      split; [| reflexivity]. intros _. right; right; right.
      apply Hgfx. apply is_Some_false. exact Hg. }
  assert (Hnot : ~ ((VK_API_VERSION_MAJOR v < 1 \/
                     VK_API_VERSION_MAJOR v = 1 /\ VK_API_VERSION_MINOR v < 2) \/
                    VK_KHR_SWAPCHAIN_EXTENSION_NAME ∉ get_device_extensions drv dev \/
                    (forall (i : nat) (family : VkQueueFamilyProperties),
                       families !! i = Some family ->
                       vkGetPhysicalDeviceSurfaceSupportKHR drv dev (Z.of_nat i) surface
                         <> (VK_SUCCESS, true)) \/
                    (forall family : VkQueueFamilyProperties,
                       family ∈ families -> Z.testbit (queueFlags family) 0 = false))).
  { intros [Hv | [? | [Hn | Hn]]]; try contradiction.
    - apply Hver in Hv. discriminate Hv.
    - apply Hpres in Hn. rewrite Hn in Hp. destruct Hp as [? ?]; discriminate.
    - apply Hgfx in Hn. rewrite Hn in Hg. destruct Hg as [? ?]; discriminate. }
  destruct (deviceType (vkGetPhysicalDeviceProperties drv dev));
    (split; [split; [intros ?; lia | intros ?; contradiction] | right; lia]).
Qed.

(** The selection loop keeps the first adapter of the highest score above
    the starting score, or the starting pair when no score exceeds it. *)
Lemma select_loop_spec (surface : Handle) (devices : list Handle) (s0 : Z) (d0 : Handle) :
  let best := select_loop drv surface devices (s0, d0) in
  s0 <= fst best /\
  (forall d, d ∈ devices -> score_device drv d surface <= fst best) /\
  ((best = (s0, d0) /\ forall d, d ∈ devices -> score_device drv d surface <= s0) \/
   (exists before after,
      devices = before ++ snd best :: after /\
      score_device drv (snd best) surface = fst best /\
      s0 < fst best /\
      forall d, d ∈ before -> score_device drv d surface < fst best)).
Proof.
  revert s0 d0.
  induction devices as [| device rest IH]; intros s0 d0; cbn [select_loop fst snd].
  - split; [lia |]. split; [intros d Hd; inversion Hd |].
    left. split; [reflexivity | intros d Hd; inversion Hd].
  - destruct (Z.ltb_spec s0 (score_device drv device surface)) as [Hlt | Hge].
    + specialize (IH (score_device drv device surface) device).
      cbv zeta in IH. destruct IH as (Hle & Hall & Hcase).
      split; [lia |].
      split.
      { intros d Hd. apply elem_of_cons in Hd as [-> | Hd]; [exact Hle | auto]. }
      right. destruct Hcase as [[Heq Hrest] | (before & after & Hsplit & Hscore & Hgt & Hbefore)].
      * rewrite Heq. cbn [fst snd]. exists [], rest.
        split; [reflexivity |]. split; [reflexivity |]. split; [exact Hlt |].
        intros d Hd. inversion Hd.
      * exists (device :: before), after.
        split; [rewrite <- app_comm_cons; f_equal; exact Hsplit |].
        split; [exact Hscore |]. split; [lia |].
        intros d Hd. apply elem_of_cons in Hd as [-> | Hd]; [exact Hgt | auto].
    + specialize (IH s0 d0). cbv zeta in IH. destruct IH as (Hle & Hall & Hcase).
      split; [exact Hle |].
      split.
      { intros d Hd. apply elem_of_cons in Hd as [-> | Hd]; [lia | auto]. }
      destruct Hcase as [[Heq Hrest] | (before & after & Hsplit & Hscore & Hgt & Hbefore)].
      * left. split; [exact Heq |].
        intros d Hd. apply elem_of_cons in Hd as [-> | Hd]; [exact Hge | auto].
      * right. exists (device :: before), after.
        split; [rewrite <- app_comm_cons; f_equal; exact Hsplit |].
        split; [exact Hscore |]. split; [exact Hgt |].
        intros d Hd. apply elem_of_cons in Hd as [-> | Hd]; [lia | auto].
Qed.


End DeviceSelectionProperties.

Lemma sample_adapter_accepted (dev : Handle) :
  dev ∈ [11; 12; 13] -> ~ rejected sample_device_driver dev 7.
Proof.
  intros Hin Hrej.
  apply (score_device_rejected sample_device_driver dev 7) in Hrej; [| discriminate].
  repeat (apply elem_of_cons in Hin as [-> | Hin]; [vm_compute in Hrej; discriminate Hrej |]).
  inversion Hin.
Qed.


Example select_device_sample :
  select_device sample_device_driver 1 7 = Ok 12 /\
  map (fun d => score_device sample_device_driver d 7) [11; 12; 13; 14] = [100; 500; 500; -1].
Proof. split; vm_compute; reflexivity. Qed.

(** ** Swapchain creation *)

Section SwapchainCreation.

Variable drv : WindowDriver.

(** What a call of [create_swapchain] does once the surface has a format and
    the capabilities query succeeds: it makes one creation request, logged,
    and returns or throws according to the driver's answer. *)
Lemma create_swapchain_run (pd surf dev win : Handle) (qfi : list Z) (old : Handle)
    (w : World) (first : VkSurfaceFormatKHR) (rest : list VkSurfaceFormatKHR)
    (caps : VkSurfaceCapabilitiesKHR) :
  get_surface_formats drv pd surf = first :: rest ->
  vkGetPhysicalDeviceSurfaceCapabilitiesKHR drv pd surf = (VK_SUCCESS, caps) ->
  exists info : VkSwapchainCreateInfoKHR,
    chain_minImageCount info = swapchain_image_count caps /\
    chain_imageExtent info = swapchain_extent caps (glfwGetFramebufferSize drv win) /\
    chain_imageFormat info = format (surface_format_loop (first :: rest) first) /\
    chain_oldSwapchain info = old /\
    create_swapchain drv pd surf dev win qfi old w =
      (if fst (vkCreateSwapchainKHR drv dev info) =? VK_SUCCESS
       then Ok (snd (vkCreateSwapchainKHR drv dev info),
                chain_imageFormat info, chain_imageExtent info)
       else throw_result "Unable to create swap chain" (fst (vkCreateSwapchainKHR drv dev info)),
       {| w_window := w_window w;
          w_log := w_log w ++ [EvCreateSwapchain info
                                 (fst (vkCreateSwapchainKHR drv dev info))
                                 (snd (vkCreateSwapchainKHR drv dev info))] |}).
Proof.
  intros Hfmt Hcaps.
  unfold create_swapchain. rewrite Hfmt, Hcaps.
  match goal with
  | |- context [vkCreateSwapchainKHR drv dev ?i] => exists i
  end.
  cbn [chain_minImageCount chain_imageExtent chain_imageFormat chain_oldSwapchain].
  repeat (split; [reflexivity |]).
  match goal with
  | |- context [vkCreateSwapchainKHR drv dev ?i] =>
      destruct (vkCreateSwapchainKHR drv dev i) as [res chain]
  end.
  cbn [fst snd].
  unfold act_bind, act_check, emit, act_ret, check. cbn [VK_SUCCESS Z.eqb].
  destruct (res =? VK_SUCCESS); reflexivity.
Qed.

Lemma wrap_small (z : Z) : U32.in_range z -> U32.wrap z = z.
Proof. unfold U32.in_range, U32.wrap. intros H. apply Z.mod_small. exact H. Qed.

Lemma wrap_in_range (z : Z) : U32.in_range (U32.wrap z).
Proof.
  unfold U32.in_range, U32.wrap, U32.modulus.
  apply Z.mod_pos_bound. lia.
Qed.

(** The arithmetic of the image-count block. *)
Lemma image_count_bounds (caps : VkSurfaceCapabilitiesKHR) :
  U32.in_range (minImageCount caps) -> U32.in_range (maxImageCount caps) ->
  let requested := requested_image_count caps in
  let chosen := swapchain_image_count caps in
  (2 <= requested /\ U32.add (minImageCount caps) 1 <= requested /\
   (minImageCount caps < U32.max_value -> minImageCount caps + 1 <= requested)) /\
  (maxImageCount caps = 0 -> chosen = requested) /\
  (0 < maxImageCount caps ->
   chosen = Z.min requested (maxImageCount caps) /\ chosen <= maxImageCount caps) /\
  (0 < maxImageCount caps <= minImageCount caps ->
   chosen < minImageCount caps + 1 /\ chosen <= maxImageCount caps /\
   (minImageCount caps < U32.max_value -> chosen = maxImageCount caps)).
Proof.
  intros Hmin Hmax. cbv zeta.
  unfold swapchain_image_count, requested_image_count.
  pose proof (wrap_in_range (minImageCount caps + 1)) as Hw.
  assert (Hadd : minImageCount caps < U32.max_value ->
                 U32.add (minImageCount caps) 1 = minImageCount caps + 1).
  { intros Hlt. unfold U32.add. apply wrap_small.
    unfold U32.in_range, U32.max_value, U32.modulus in *. lia. }
  unfold U32.add in *.
  set (m1 := U32.wrap (minImageCount caps + 1)) in *.
  unfold U32.in_range, U32.max_value, U32.modulus in *.
  destruct (Z.ltb_spec 2 m1) as [H2 | H2];
    destruct (Z.ltb_spec 0 (maxImageCount caps)) as [H0 | H0]; cbn [andb].
  - destruct (Z.ltb_spec (maxImageCount caps) m1) as [Hc | Hc]; lia.
  - lia.
  - destruct (Z.ltb_spec (maxImageCount caps) 2) as [Hc | Hc]; lia.
  - lia.
Qed.

(** C5: the count [create_swapchain] asks for starts from a request of at
    least 2 and at least [minImageCount + 1]; a maximum of 0 leaves the
    request as it is, a non-zero maximum clamps it down to that maximum; and
    when the maximum is non-zero and at most [minImageCount], the count that
    is passed on is below [minImageCount + 1] and is not raised again. *)
Theorem create_swapchain_image_count (pd surf dev win : Handle) (qfi : list Z)
    (old : Handle) (w : World) (first : VkSurfaceFormatKHR)
    (rest : list VkSurfaceFormatKHR) (caps : VkSurfaceCapabilitiesKHR) :
  get_surface_formats drv pd surf = first :: rest ->
  vkGetPhysicalDeviceSurfaceCapabilitiesKHR drv pd surf = (VK_SUCCESS, caps) ->
  U32.in_range (minImageCount caps) -> U32.in_range (maxImageCount caps) ->
  exists (info : VkSwapchainCreateInfoKHR) (res : VkResult) (chain : Handle),
    w_log (snd (create_swapchain drv pd surf dev win qfi old w)) =
      w_log w ++ [EvCreateSwapchain info res chain] /\
    let requested := requested_image_count caps in
    let chosen := chain_minImageCount info in
    (2 <= requested /\ U32.add (minImageCount caps) 1 <= requested /\
     (minImageCount caps < U32.max_value -> minImageCount caps + 1 <= requested)) /\
    (maxImageCount caps = 0 -> chosen = requested) /\
    (0 < maxImageCount caps ->
     chosen = Z.min requested (maxImageCount caps) /\ chosen <= maxImageCount caps) /\
    (0 < maxImageCount caps <= minImageCount caps ->
     chosen < minImageCount caps + 1 /\ chosen <= maxImageCount caps /\
     (minImageCount caps < U32.max_value -> chosen = maxImageCount caps)).
Proof.
  intros Hfmt Hcaps Hmin Hmax.
  destruct (create_swapchain_run pd surf dev win qfi old w first rest caps Hfmt Hcaps)
    as (info & Hcount & _ & _ & _ & Hrun).
  exists info, (fst (vkCreateSwapchainKHR drv dev info)),
    (snd (vkCreateSwapchainKHR drv dev info)).
  rewrite Hrun. cbn [snd w_log].
  split; [reflexivity |].
  cbv zeta. rewrite Hcount.
  exact (image_count_bounds caps Hmin Hmax).
Qed.

Lemma clamp_within (v lo hi : Z) : lo <= hi -> lo <= std_clamp v lo hi <= hi.
Proof.
  intros H. unfold std_clamp.
  destruct (Z.ltb_spec v lo); [lia |].
  destruct (Z.ltb_spec hi v); lia.
Qed.

(** C6: the extent [create_swapchain] asks for, and returns when the driver
    creates the chain, is the surface's current extent unless the width of
    that extent is 0xFFFFFFFF; then it is the framebuffer size of the window,
    with width and height clamped separately to the surface's minimum and
    maximum extent. *)
Theorem create_swapchain_extent (pd surf dev win : Handle) (qfi : list Z)
    (old : Handle) (w : World) (first : VkSurfaceFormatKHR)
    (rest : list VkSurfaceFormatKHR) (caps : VkSurfaceCapabilitiesKHR) :
  get_surface_formats drv pd surf = first :: rest ->
  vkGetPhysicalDeviceSurfaceCapabilitiesKHR drv pd surf = (VK_SUCCESS, caps) ->
  exists (info : VkSwapchainCreateInfoKHR) (res : VkResult) (chain : Handle),
    vkCreateSwapchainKHR drv dev info = (res, chain) /\
    w_log (snd (create_swapchain drv pd surf dev win qfi old w)) =
      w_log w ++ [EvCreateSwapchain info res chain] /\
    (res = VK_SUCCESS ->
     fst (create_swapchain drv pd surf dev win qfi old w) =
       Ok (chain, chain_imageFormat info, chain_imageExtent info)) /\
    let extent := chain_imageExtent info in
    let fb := glfwGetFramebufferSize drv win in
    (width (currentExtent caps) <> 0xFFFFFFFF -> extent = currentExtent caps) /\
    (width (currentExtent caps) = 0xFFFFFFFF ->
     width extent =
       std_clamp (U32.of_int (fst fb))
         (width (minImageExtent caps)) (width (maxImageExtent caps)) /\
     height extent =
       std_clamp (U32.of_int (snd fb))
         (height (minImageExtent caps)) (height (maxImageExtent caps)) /\
     (width (minImageExtent caps) <= width (maxImageExtent caps) ->
      width (minImageExtent caps) <= width extent <= width (maxImageExtent caps)) /\
     (height (minImageExtent caps) <= height (maxImageExtent caps) ->
      height (minImageExtent caps) <= height extent <= height (maxImageExtent caps))).
Proof.
  intros Hfmt Hcaps.
  destruct (create_swapchain_run pd surf dev win qfi old w first rest caps Hfmt Hcaps)
    as (info & _ & Hext & _ & _ & Hrun).
  exists info, (fst (vkCreateSwapchainKHR drv dev info)),
    (snd (vkCreateSwapchainKHR drv dev info)).
  rewrite Hrun. cbn [fst snd w_log].
  split; [destruct (vkCreateSwapchainKHR drv dev info); reflexivity |].
  split; [reflexivity |].
  split; [intros ->; reflexivity |].
  cbv zeta. rewrite Hext. unfold swapchain_extent, U32.max_value.
  destruct (glfwGetFramebufferSize drv win) as [fbw fbh]. cbn [fst snd].
  destruct (Z.eqb_spec 0xFFFFFFFF (width (currentExtent caps))) as [Hundef | Hdef].
  - split; [intros Hne; congruence |].
    intros _. cbn [width height].
    split; [reflexivity |]. split; [reflexivity |].
    split; intros Hle; apply clamp_within; exact Hle.
  - split; [reflexivity |]. intros Heq. congruence.
Qed.

End SwapchainCreation.

Lemma create_swapchain_image_count_witness :
  exists (info : VkSwapchainCreateInfoKHR) (res : VkResult) (chain : Handle),
    w_log (snd (create_swapchain (sample_window_driver VK_SUCCESS) 1 7 2 3 [] 100
                  sample_world)) =
      w_log sample_world ++ [EvCreateSwapchain info res chain] /\
    let caps := snd (vkGetPhysicalDeviceSurfaceCapabilitiesKHR
                       (sample_window_driver VK_SUCCESS) 1 7) in
    let requested := requested_image_count caps in
    let chosen := chain_minImageCount info in
    (2 <= requested /\ U32.add (minImageCount caps) 1 <= requested /\
     (minImageCount caps < U32.max_value -> minImageCount caps + 1 <= requested)) /\
    (maxImageCount caps = 0 -> chosen = requested) /\
    (0 < maxImageCount caps ->
     chosen = Z.min requested (maxImageCount caps) /\ chosen <= maxImageCount caps) /\
    (0 < maxImageCount caps <= minImageCount caps ->
     chosen < minImageCount caps + 1 /\ chosen <= maxImageCount caps /\
     (minImageCount caps < U32.max_value -> chosen = maxImageCount caps)).
Proof.
  apply (create_swapchain_image_count (sample_window_driver VK_SUCCESS) 1 7 2 3 [] 100
           sample_world
           {| format := VK_FORMAT_B8G8R8A8_UNORM; colorSpace := 0 |}
           [ {| format := VK_FORMAT_B8G8R8A8_SRGB; colorSpace := 0 |} ]).
  - reflexivity.
  - reflexivity.
  - unfold U32.in_range, U32.modulus; cbn; lia.
  - unfold U32.in_range, U32.modulus; cbn; lia.
Defined.

Example sample_image_count :
  swapchain_image_count
    (snd (vkGetPhysicalDeviceSurfaceCapabilitiesKHR (sample_window_driver VK_SUCCESS) 1 7)) = 2.
Proof. reflexivity. Qed.

Lemma create_swapchain_extent_witness :
  exists (info : VkSwapchainCreateInfoKHR) (res : VkResult) (chain : Handle),
    vkCreateSwapchainKHR (sample_window_driver VK_SUCCESS) 2 info = (res, chain) /\
    w_log (snd (create_swapchain (sample_window_driver VK_SUCCESS) 1 7 2 3 [] 100
                  sample_world)) =
      w_log sample_world ++ [EvCreateSwapchain info res chain] /\
    (res = VK_SUCCESS ->
     fst (create_swapchain (sample_window_driver VK_SUCCESS) 1 7 2 3 [] 100 sample_world) =
       Ok (chain, chain_imageFormat info, chain_imageExtent info)) /\
    let caps := snd (vkGetPhysicalDeviceSurfaceCapabilitiesKHR
                       (sample_window_driver VK_SUCCESS) 1 7) in
    let extent := chain_imageExtent info in
    let fb := glfwGetFramebufferSize (sample_window_driver VK_SUCCESS) 3 in
    (width (currentExtent caps) <> 0xFFFFFFFF -> extent = currentExtent caps) /\
    (width (currentExtent caps) = 0xFFFFFFFF ->
     width extent =
       std_clamp (U32.of_int (fst fb))
         (width (minImageExtent caps)) (width (maxImageExtent caps)) /\
     height extent =
       std_clamp (U32.of_int (snd fb))
         (height (minImageExtent caps)) (height (maxImageExtent caps)) /\
     (width (minImageExtent caps) <= width (maxImageExtent caps) ->
      width (minImageExtent caps) <= width extent <= width (maxImageExtent caps)) /\
     (height (minImageExtent caps) <= height (maxImageExtent caps) ->
      height (minImageExtent caps) <= height extent <= height (maxImageExtent caps))).
Proof.
  apply (create_swapchain_extent (sample_window_driver VK_SUCCESS) 1 7 2 3 [] 100
           sample_world
           {| format := VK_FORMAT_B8G8R8A8_UNORM; colorSpace := 0 |}
           [ {| format := VK_FORMAT_B8G8R8A8_SRGB; colorSpace := 0 |} ]).
  - reflexivity.
  - reflexivity.
Defined.

Example sample_extent :
  swapchain_extent
    (snd (vkGetPhysicalDeviceSurfaceCapabilitiesKHR (sample_window_driver VK_SUCCESS) 1 7))
    (5000, 10) = {| width := 4096; height := 64 |}.
Proof. reflexivity. Qed.

(** ** Swapchain recreation *)

Section SwapchainRecreation.

Variable drv : WindowDriver.

Lemma with_swapchain_same (win : VulkanWindow) :
  with_swapchain win (swapchain win) (swapchainFormat win) (swapchainExtent win) = win.
Proof. destruct win; reflexivity. Qed.

Lemma destroy_views_run (dev : Handle) (views : list Handle) (w : World) :
  destroy_views dev views w =
    (Ok tt, {| w_window := w_window w;
               w_log := w_log w ++ map (EvDestroyImageView dev) views |}).
Proof.
  revert w. induction views as [| view rest IH]; intros w; cbn [destroy_views map].
  - unfold act_ret. rewrite app_nil_r. destruct w; reflexivity.
  - unfold act_bind, emit. rewrite IH. cbn [w_window w_log].
    rewrite <- app_assoc. reflexivity.
Qed.

(** [create_swapchain] leaves the window alone and logs at most the one
    creation request; it returns a chain only if the driver reported success
    for that request. *)
Lemma create_swapchain_cases (pd surf dev win : Handle) (qfi : list Z) (old : Handle)
    (w : World) :
  let r := create_swapchain drv pd surf dev win qfi old w in
  w_window (snd r) = w_window w /\
  match fst r with
  | Ok (chain, fmt, ext) =>
      exists info,
        w_log (snd r) = w_log w ++ [EvCreateSwapchain info VK_SUCCESS chain] /\
        chain_oldSwapchain info = old /\
        fmt = chain_imageFormat info /\ ext = chain_imageExtent info
  | Throw e =>
      w_log (snd r) = w_log w \/
      exists info res chain,
        res <> VK_SUCCESS /\ w_log (snd r) = w_log w ++ [EvCreateSwapchain info res chain]
  | AssertFailed _ => w_log (snd r) = w_log w
  end.
Proof.
  cbv zeta. unfold create_swapchain.
  destruct (get_surface_formats drv pd surf) as [| first rest].
  { cbn. split; reflexivity. }
  set (chosen := surface_format_loop (first :: rest) first).
  destruct (vkGetPhysicalDeviceSurfaceCapabilitiesKHR drv pd surf) as [capsRes caps].
  match goal with
  | |- context [vkCreateSwapchainKHR drv dev ?i] =>
      set (info := i); destruct (vkCreateSwapchainKHR drv dev info) as [res chain] eqn:Hcreate
  end.
  unfold act_bind, act_check, check, emit, act_ret, throw_result.
  destruct (Z.eqb_spec capsRes VK_SUCCESS) as [Hcaps | Hcaps]; cbn [fst snd w_window w_log].
  2:{ split; [reflexivity | left; reflexivity]. }
  destruct (Z.eqb_spec res VK_SUCCESS) as [-> | Hres]; cbn [fst snd w_window w_log].
  - split; [reflexivity |]. exists info. repeat split; reflexivity.
  - split; [reflexivity |]. right. exists info, res, chain. split; [exact Hres | reflexivity].
Qed.

Lemma get_swapchain_images_quiet (dev chain : Handle) (w : World) :
  let r := get_swapchain_images drv dev chain w in
  w_log (snd r) = w_log w /\ swapchain (w_window (snd r)) = swapchain (w_window w).
Proof.
  cbv zeta. unfold get_swapchain_images, act_bind, get_window, act_assert.
  destruct (Z.of_nat (length (swapImages (w_window w))) =? 0); [| split; reflexivity].
  destruct (vkGetSwapchainImagesKHR drv dev chain) as [res images].
  destruct (VK_SUCCESS =? res); split; reflexivity.
Qed.

(** One turn of the view loop. *)
Lemma image_views_loop_step (dev : Handle) (fmt : VkFormat) (image : Handle)
    (rest : list Handle) (w : World) :
  image_views_loop drv dev fmt (image :: rest) w =
    let created := vkCreateImageView drv dev (swapchain_view_info fmt image) in
    let ev := EvCreateImageView (swapchain_view_info fmt image) (fst created) (snd created) in
    if fst created =? VK_SUCCESS
    then image_views_loop drv dev fmt rest
           {| w_window := with_views (w_window w) (swapViews (w_window w) ++ [snd created]);
              w_log := w_log w ++ [ev] |}
    else (throw_result "Unable to create image view for swap chain image" (fst created),
          {| w_window := w_window w; w_log := w_log w ++ [ev] |}).
Proof.
  cbn [image_views_loop].
  destruct (vkCreateImageView drv dev (swapchain_view_info fmt image)) as [res view].
  cbv zeta. cbn [fst snd].
  unfold act_bind, emit, act_check, check, get_window, set_window.
  cbn [fst snd w_window w_log].
  destruct (res =? VK_SUCCESS); reflexivity.
Qed.

Lemma image_views_loop_quiet (dev : Handle) (fmt : VkFormat) (images : list Handle)
    (w : World) :
  let r := image_views_loop drv dev fmt images w in
  swapchain (w_window (snd r)) = swapchain (w_window w) /\
  exists evs, w_log (snd r) = w_log w ++ evs /\ Forall keeps_chains_and_images evs.
Proof.
  cbv zeta. revert w.
  induction images as [| image rest IH]; intros w.
  - cbn. split; [reflexivity |]. exists []. rewrite app_nil_r.
    split; [reflexivity | constructor].
  - rewrite image_views_loop_step. cbv zeta.
    destruct (vkCreateImageView drv dev (swapchain_view_info fmt image)) as [res view].
    cbn [fst snd].
    destruct (res =? VK_SUCCESS).
    + match goal with
      | |- context [image_views_loop drv dev fmt rest ?w1] =>
          destruct (IH w1) as (Hchain & evs & Hlog & Hkeep)
      end.
      cbn [w_window w_log with_views swapchain] in Hchain, Hlog.
      split; [exact Hchain |].
      exists (EvCreateImageView (swapchain_view_info fmt image) res view :: evs).
      rewrite Hlog, <- app_assoc. split; [reflexivity |].
      constructor; [exact I | exact Hkeep].
    + cbn [fst snd w_window w_log]. split; [reflexivity |].
      exists [EvCreateImageView (swapchain_view_info fmt image) res view].
      split; [reflexivity |]. constructor; [exact I | constructor].
Qed.

Lemma create_swapchain_image_views_eq (dev : Handle) (fmt : VkFormat)
    (images : list Handle) (w : World) :
  create_swapchain_image_views drv dev fmt images w =
    if Z.of_nat (length (swapViews (w_window w))) =? 0 then
      match image_views_loop drv dev fmt images w with
      | (Ok _, w1) =>
          (assert_that
             (Z.of_nat (length (swapViews (w_window w1))) =? Z.of_nat (length images))
             "aViews.size() == aImages.size()", w1)
      | (Throw e, w1) => (Throw e, w1)
      | (AssertFailed c, w1) => (AssertFailed c, w1)
      end
    else (AssertFailed "0 == aViews.size()", w).
Proof.
  unfold create_swapchain_image_views, act_bind, get_window, act_assert, assert_that.
  destruct (Z.of_nat (length (swapViews (w_window w))) =? 0); [| reflexivity].
  destruct (image_views_loop drv dev fmt images w) as [[[] | e | c] w1]; reflexivity.
Qed.

Lemma create_swapchain_image_views_quiet (dev : Handle) (fmt : VkFormat)
    (images : list Handle) (w : World) :
  let r := create_swapchain_image_views drv dev fmt images w in
  swapchain (w_window (snd r)) = swapchain (w_window w) /\
  exists evs, w_log (snd r) = w_log w ++ evs /\ Forall keeps_chains_and_images evs.
Proof.
  cbv zeta. rewrite create_swapchain_image_views_eq.
  destruct (Z.of_nat (length (swapViews (w_window w))) =? 0).
  2:{ cbn [fst snd]. split; [reflexivity |]. exists []. rewrite app_nil_r.
      split; [reflexivity | constructor]. }
  destruct (image_views_loop_quiet dev fmt images w) as (Hchain & evs & Hlog & Hkeep).
  destruct (image_views_loop drv dev fmt images w) as [[[] | e | c] w1];
    cbn [fst snd] in *; (split; [exact Hchain |]); exists evs; split; assumption.
Qed.

(** The recreation up to the end of its [try] block. *)
Lemma recreate_swapchain_failure (w : World) (e : Error) :
  fst (creation_attempt drv w) = Throw e ->
  recreate_swapchain drv w =
    (Throw e, {| w_window := w_window (views_destroyed w);
                 w_log := w_log (snd (creation_attempt drv w)) |}).
Proof.
  intros Hfail.
  pose proof (create_swapchain_cases
                (physicalDevice (w_window w)) (surface (w_window w))
                (device (w_window w)) (window (w_window w))
                (recreate_queue_families (w_window w)) (swapchain (w_window w))
                (views_destroyed w)) as Hcases.
  cbv zeta in Hcases. destruct Hcases as [Hwin _].
  unfold recreate_swapchain.
  unfold act_bind at 1. unfold get_window at 1.
  unfold act_bind at 1. rewrite destroy_views_run.
  unfold act_bind at 1. unfold set_window at 1. cbn [w_window w_log].
  unfold act_bind at 1. unfold try_catch_rethrow.
  unfold act_bind at 1.
  unfold creation_attempt, views_destroyed, recreate_queue_families in Hfail, Hwin |- *.
  destruct (create_swapchain drv _ _ _ _ _ _ _) as [[created | e' | c] w2];
    cbn [fst snd] in Hfail, Hwin; try discriminate Hfail.
  injection Hfail as ->.
  unfold act_bind, get_window, set_window. cbn [fst snd w_window w_log].
  rewrite Hwin. reflexivity.
Qed.

(** The recreation after its [try] block, when the chain was created. *)
Lemma recreate_swapchain_success (w : World) (chain : Handle) (fmt : VkFormat)
    (ext : VkExtent2D) :
  fst (creation_attempt drv w) = Ok (chain, fmt, ext) ->
  let win := w_window w in
  let w3 := {| w_window := with_swapchain (w_window (views_destroyed w)) chain fmt ext;
               w_log := w_log (snd (creation_attempt drv w)) ++
                        [EvDestroySwapchain (device win) (swapchain win)] |} in
  recreate_swapchain drv w =
    match get_swapchain_images drv (device win) chain w3 with
    | (Ok _, w4) =>
        match create_swapchain_image_views drv (device (w_window w4))
                (swapchainFormat (w_window w4)) (swapImages (w_window w4)) w4 with
        | (Ok _, w5) =>
            (Ok (swap_changes (swapchainFormat win) (swapchainExtent win) (w_window w5)), w5)
        | (Throw e, w5) => (Throw e, w5)
        | (AssertFailed c, w5) => (AssertFailed c, w5)
        end
    | (Throw e, w4) => (Throw e, w4)
    | (AssertFailed c, w4) => (AssertFailed c, w4)
    end.
Proof.
  intros Hok.
  pose proof (create_swapchain_cases
                (physicalDevice (w_window w)) (surface (w_window w))
                (device (w_window w)) (window (w_window w))
                (recreate_queue_families (w_window w)) (swapchain (w_window w))
                (views_destroyed w)) as Hcases.
  cbv zeta in Hcases. destruct Hcases as [Hwin _].
  cbv zeta.
  unfold recreate_swapchain.
  unfold act_bind at 1. unfold get_window at 1.
  unfold act_bind at 1. rewrite destroy_views_run.
  unfold act_bind at 1. unfold set_window at 1. cbn [w_window w_log].
  unfold act_bind at 1. unfold try_catch_rethrow.
  unfold act_bind at 1.
  unfold creation_attempt, views_destroyed, recreate_queue_families in Hok, Hwin |- *.
  destruct (create_swapchain drv _ _ _ _ _ _ _) as [[created | e' | c] w2];
    cbn [fst snd] in Hok, Hwin; try discriminate Hok.
  injection Hok as ->.
  unfold act_bind, get_window, set_window, emit, act_ret.
  cbn [fst snd w_window w_log].
  rewrite Hwin.
  cbn [w_window w_log device with_swapchain with_images with_views swapchain].
  match goal with
  | |- context [get_swapchain_images drv ?d ?c ?w0] =>
      destruct (get_swapchain_images drv d c w0) as [[[] | e | c0] w4]
  end; reflexivity.
Qed.

Lemma get_swapchain_images_ok (dev chain : Handle) (w : World) (images : list Handle) :
  swapImages (w_window w) = [] ->
  vkGetSwapchainImagesKHR drv dev chain = (VK_SUCCESS, images) ->
  get_swapchain_images drv dev chain w =
    (Ok tt, {| w_window := with_images (w_window w) images; w_log := w_log w |}).
Proof.
  intros Hempty Hq.
  unfold get_swapchain_images, act_bind, get_window, act_assert, set_window.
  rewrite Hempty, Hq. reflexivity.
Qed.

Lemma image_views_loop_ok (dev : Handle) (fmt : VkFormat) (images : list Handle)
    (w : World) :
  (forall info, fst (vkCreateImageView drv dev info) = VK_SUCCESS) ->
  image_views_loop drv dev fmt images w =
    (Ok tt,
     {| w_window :=
          with_views (w_window w) (swapViews (w_window w) ++ map (view_of drv dev fmt) images);
        w_log :=
          w_log w ++
          map (fun image => EvCreateImageView (swapchain_view_info fmt image) VK_SUCCESS
                              (view_of drv dev fmt image)) images |}).
Proof.
  intros Hviews. revert w.
  induction images as [| image rest IH]; intros w.
  - cbn. unfold act_ret. rewrite !app_nil_r.
    destruct w as [win log]. destruct win. reflexivity.
  - rewrite image_views_loop_step. cbv zeta. rewrite Hviews. cbn [Z.eqb VK_SUCCESS].
    rewrite IH. cbn [w_window w_log with_views swapViews map].
    unfold view_of at 3 5. rewrite <- !app_assoc. reflexivity.
Qed.

(** C7: when the call of [create_swapchain] throws, [recreate_swapchain]
    throws the same error, the window holds the old chain handle (and the old
    format and extent) with its views and images cleared, and nothing but the
    views was destroyed; when the call returns a chain, the old chain is
    destroyed right after the successful creation request, which named it as
    the old chain, and no other chain and no image is destroyed. *)
Theorem recreate_swapchain_old_chain (w : World) :
  let win := w_window w in
  let r := recreate_swapchain drv w in
  let viewsGone := map (EvDestroyImageView (device win)) (swapViews win) in
  (forall e : Error,
     fst (creation_attempt drv w) = Throw e ->
     fst r = Throw e /\
     w_window (snd r) = with_images (with_views win []) [] /\
     swapchain (w_window (snd r)) = swapchain win /\
     exists attempt,
       w_log (snd r) = w_log w ++ viewsGone ++ attempt /\
       Forall keeps_chains_and_images attempt) /\
  (forall (chain : Handle) (fmt : VkFormat) (ext : VkExtent2D),
     fst (creation_attempt drv w) = Ok (chain, fmt, ext) ->
     exists info later,
       w_log (snd r) =
         w_log w ++ viewsGone ++
         [EvCreateSwapchain info VK_SUCCESS chain;
          EvDestroySwapchain (device win) (swapchain win)] ++ later /\
       chain_oldSwapchain info = swapchain win /\
       Forall keeps_chains_and_images later /\
       swapchain (w_window (snd r)) = chain).
Proof.
  cbv zeta.
  pose proof (create_swapchain_cases
                (physicalDevice (w_window w)) (surface (w_window w))
                (device (w_window w)) (window (w_window w))
                (recreate_queue_families (w_window w)) (swapchain (w_window w))
                (views_destroyed w)) as Hcases.
  cbv zeta in Hcases. fold (creation_attempt drv w) in Hcases.
  destruct Hcases as [_ Hlog].
  split.
  - intros e Hfail.
    rewrite (recreate_swapchain_failure w e Hfail). cbn [fst snd w_window w_log].
    split; [reflexivity |]. split; [reflexivity |]. split; [reflexivity |].
    rewrite Hfail in Hlog.
    destruct Hlog as [Hsame | (info & res & chain & Hres & Hone)].
    + exists []. rewrite Hsame, app_nil_r. split; [reflexivity | constructor].
    + exists [EvCreateSwapchain info res chain].
      rewrite Hone. cbn [views_destroyed w_log]. rewrite <- app_assoc.
      split; [reflexivity |].
      constructor; [exact I | constructor].
  - intros chain fmt ext Hok.
    rewrite (recreate_swapchain_success w chain fmt ext Hok).
    rewrite Hok in Hlog. destruct Hlog as (info & Hone & Hold & _ & _).
    exists info.
    match goal with
    | |- context [get_swapchain_images drv ?d ?c ?w0] =>
        pose proof (get_swapchain_images_quiet d c w0) as Himg;
        destruct (get_swapchain_images drv d c w0) as [[[] | e | c0] w4]
    end; cbv zeta in Himg; cbn [fst snd w_window w_log with_swapchain swapchain] in Himg;
      destruct Himg as [Hlog4 Hchain4].
    + pose proof (create_swapchain_image_views_quiet (device (w_window w4))
                    (swapchainFormat (w_window w4)) (swapImages (w_window w4)) w4) as Hviews.
      cbv zeta in Hviews.
      destruct (create_swapchain_image_views drv _ _ _ w4) as [[[] | e | c0] w5];
        (cbn [fst snd] in Hviews |- *;
         destruct Hviews as (Hchain5 & evs & Hlog5 & Hkeep);
         exists evs; rewrite Hlog5, Hlog4, Hone, Hchain5, Hchain4;
         cbn [views_destroyed w_log]; rewrite <- !app_assoc;
         split; [reflexivity |]; split; [exact Hold |]; split; [exact Hkeep | reflexivity]).
    + exists []. cbn [fst snd]. rewrite Hlog4, Hone, Hchain4.
      cbn [views_destroyed w_log]. rewrite <- !app_assoc.
      split; [reflexivity |]. split; [exact Hold |]. split; [constructor | reflexivity].
    + exists []. cbn [fst snd]. rewrite Hlog4, Hone, Hchain4.
      cbn [views_destroyed w_log]. rewrite <- !app_assoc.
      split; [reflexivity |]. split; [exact Hold |]. split; [constructor | reflexivity].
Qed.

Lemma swap_changes_spec (oldFormat : VkFormat) (oldExtent : VkExtent2D)
    (aWindow : VulkanWindow) :
  let changes := swap_changes oldFormat oldExtent aWindow in
  (changedSize changes = true <->
   width (swapchainExtent aWindow) <> width oldExtent \/
   height (swapchainExtent aWindow) <> height oldExtent) /\
  (changedFormat changes = true <-> swapchainFormat aWindow <> oldFormat).
Proof.
  cbv zeta. unfold swap_changes.
  destruct (Z.eqb_spec (width oldExtent) (width (swapchainExtent aWindow))) as [Hw | Hw];
    destruct (Z.eqb_spec (height oldExtent) (height (swapchainExtent aWindow))) as [Hh | Hh];
    destruct (Z.eqb_spec oldFormat (swapchainFormat aWindow)) as [Hf | Hf];
    cbn [negb orb changedSize changedFormat];
    (split; split; intros H; try discriminate H; try reflexivity;
     try (destruct H as [H | H]; congruence); try congruence;
     try (left; congruence); try (right; congruence)).
Qed.

End SwapchainRecreation.

Section SwapchainRecreationResult.

Variable drv : WindowDriver.

(** [create_swapchain_run] with the surface of the request. *)
Lemma create_swapchain_sent (pd surf dev win : Handle) (qfi : list Z) (old : Handle)
    (w : World) (first : VkSurfaceFormatKHR) (rest : list VkSurfaceFormatKHR)
    (caps : VkSurfaceCapabilitiesKHR) :
  get_surface_formats drv pd surf = first :: rest ->
  vkGetPhysicalDeviceSurfaceCapabilitiesKHR drv pd surf = (VK_SUCCESS, caps) ->
  exists info : VkSwapchainCreateInfoKHR,
    chain_surface info = surf /\
    chain_imageExtent info = swapchain_extent caps (glfwGetFramebufferSize drv win) /\
    chain_imageFormat info = format (surface_format_loop (first :: rest) first) /\
    chain_oldSwapchain info = old /\
    create_swapchain drv pd surf dev win qfi old w =
      (if fst (vkCreateSwapchainKHR drv dev info) =? VK_SUCCESS
       then Ok (snd (vkCreateSwapchainKHR drv dev info),
                chain_imageFormat info, chain_imageExtent info)
       else throw_result "Unable to create swap chain" (fst (vkCreateSwapchainKHR drv dev info)),
       {| w_window := w_window w;
          w_log := w_log w ++ [EvCreateSwapchain info
                                 (fst (vkCreateSwapchainKHR drv dev info))
                                 (snd (vkCreateSwapchainKHR drv dev info))] |}).
Proof.
  intros Hfmt Hcaps.
  unfold create_swapchain. rewrite Hfmt, Hcaps.
  match goal with
  | |- context [vkCreateSwapchainKHR drv dev ?i] => exists i
  end.
  cbn [chain_surface chain_imageExtent chain_imageFormat chain_oldSwapchain].
  repeat (split; [reflexivity |]).
  match goal with
  | |- context [vkCreateSwapchainKHR drv dev ?i] =>
      destruct (vkCreateSwapchainKHR drv dev i) as [res chain]
  end.
  cbn [fst snd].
  unfold act_bind, act_check, emit, act_ret, check. cbn [VK_SUCCESS Z.eqb].
  destruct (res =? VK_SUCCESS); reflexivity.
Qed.

(** C8: when the driver calls of a recreation succeed, [recreate_swapchain]
    returns; [changedSize] is set exactly when the new width or the new
    height differs from the old one, [changedFormat] exactly when the new
    format differs from the old one, so both are false when neither changed;
    and the window holds the images of the new chain and one view per image,
    in the same order.  The new chain, format and extent in the window are
    those of the one creation request that [create_swapchain] sent for the
    window's surface with the old chain as [oldSwapchain]: the chain is the
    handle the driver returned for it, the format is the one chosen among the
    surface's formats and the extent the one computed from the surface's
    capabilities.  The log shows the old views destroyed, the request, the
    old chain destroyed and one view created per image, and nothing else of
    the window changes. *)
Theorem recreate_swapchain_changes (w : World) :
  recreate_calls_succeed drv (w_window w) ->
  exists (changes : SwapChanges) (w' : World),
    recreate_swapchain drv w = (Ok changes, w') /\
    let old := w_window w in
    let new := w_window w' in
    (changedSize changes = true <->
     width (swapchainExtent new) <> width (swapchainExtent old) \/
     height (swapchainExtent new) <> height (swapchainExtent old)) /\
    (changedFormat changes = true <-> swapchainFormat new <> swapchainFormat old) /\
    (swapchainFormat new = swapchainFormat old ->
     swapchainExtent new = swapchainExtent old ->
     changedFormat changes = false /\ changedSize changes = false) /\
    swapImages new = snd (vkGetSwapchainImagesKHR drv (device old) (swapchain new)) /\
    swapViews new = map (view_of drv (device old) (swapchainFormat new)) (swapImages new) /\
    length (swapViews new) = length (swapImages new) /\
    fst (creation_attempt drv w) =
      Ok (swapchain new, swapchainFormat new, swapchainExtent new) /\
    (exists (info : VkSwapchainCreateInfoKHR) (first : VkSurfaceFormatKHR)
            (rest : list VkSurfaceFormatKHR) (caps : VkSurfaceCapabilitiesKHR),
       get_surface_formats drv (physicalDevice old) (surface old) = first :: rest /\
       vkGetPhysicalDeviceSurfaceCapabilitiesKHR drv (physicalDevice old) (surface old) =
         (VK_SUCCESS, caps) /\
       chain_surface info = surface old /\
       chain_oldSwapchain info = swapchain old /\
       chain_imageFormat info = format (surface_format_loop (first :: rest) first) /\
       chain_imageExtent info =
         swapchain_extent caps (glfwGetFramebufferSize drv (window old)) /\
       vkCreateSwapchainKHR drv (device old) info = (VK_SUCCESS, swapchain new) /\
       swapchainFormat new = chain_imageFormat info /\
       swapchainExtent new = chain_imageExtent info /\
       w_log w' =
         w_log w ++
         map (EvDestroyImageView (device old)) (swapViews old) ++
         [EvCreateSwapchain info VK_SUCCESS (swapchain new);
          EvDestroySwapchain (device old) (swapchain old)] ++
         map (fun image =>
                EvCreateImageView (swapchain_view_info (swapchainFormat new) image)
                  VK_SUCCESS (view_of drv (device old) (swapchainFormat new) image))
             (swapImages new)) /\
    physicalDevice new = physicalDevice old /\ device new = device old /\
    graphicsFamilyIndex new = graphicsFamilyIndex old /\ window new = window old /\
    surface new = surface old /\ presentFamilyIndex new = presentFamilyIndex old.
Proof.
  intros (Hfmt & Hcaps & Hcreate & Himages & Hviews).
  destruct (get_surface_formats drv (physicalDevice (w_window w)) (surface (w_window w)))
    as [| first rest] eqn:Hformats; [congruence |].
  destruct (vkGetPhysicalDeviceSurfaceCapabilitiesKHR drv (physicalDevice (w_window w))
              (surface (w_window w))) as [capsRes caps] eqn:Hq.
  cbn [fst] in Hcaps. subst capsRes.
  destruct (create_swapchain_sent
              (physicalDevice (w_window w)) (surface (w_window w))
              (device (w_window w)) (window (w_window w))
              (recreate_queue_families (w_window w)) (swapchain (w_window w))
              (views_destroyed w) first rest caps Hformats Hq)
    as (info & Hsurf & Hext & Hform & Hold & Hrun).
  fold (creation_attempt drv w) in Hrun.
  pose proof (Hcreate info) as Hres.
  destruct (vkCreateSwapchainKHR drv (device (w_window w)) info) as [res chain] eqn:Hdrv.
  cbn [fst snd] in Hres, Hrun. subst res. cbn [Z.eqb VK_SUCCESS] in Hrun.
  assert (Hok : fst (creation_attempt drv w) =
                Ok (chain, chain_imageFormat info, chain_imageExtent info))
    by (rewrite Hrun; reflexivity).
  rewrite (recreate_swapchain_success drv w _ _ _ Hok). cbv zeta.
  rewrite Hrun.
  unfold views_destroyed.
  cbn [fst snd w_window w_log with_images with_swapchain with_views device swapchainFormat
       swapImages swapViews].
  destruct (vkGetSwapchainImagesKHR drv (device (w_window w)) chain) as [imgRes images]
    eqn:Hget.
  pose proof (Himages chain) as HimgRes. rewrite Hget in HimgRes. cbn [fst] in HimgRes.
  subst imgRes.
  rewrite (get_swapchain_images_ok drv (device (w_window w)) chain _ images);
    [| reflexivity | exact Hget].
  cbn [w_window w_log with_images with_swapchain with_views device swapchainFormat swapImages].
  rewrite create_swapchain_image_views_eq.
  cbn [w_window w_log with_images with_swapchain with_views swapViews length Nat2Z.inj_0].
  cbn [Z.of_nat Z.eqb].
  rewrite image_views_loop_ok by exact Hviews.
  cbn [w_window w_log with_images with_swapchain with_views swapViews app].
  rewrite length_map, !Z.eqb_refl. cbn [assert_that].
  eexists. eexists. split; [reflexivity |].
  cbv zeta. cbn [w_window w_log with_views swapchainFormat swapchainExtent swapImages swapViews
                 swapchain device].
  match goal with
  | |- context [swap_changes ?f ?e ?win] => pose proof (swap_changes_spec f e win) as Hspec
  end.
  cbv zeta in Hspec.
  cbn [w_window with_views with_images with_swapchain swapchainFormat
       swapchainExtent] in Hspec |- *.
  destruct Hspec as [Hsize Hformat].
  split; [exact Hsize |]. split; [exact Hformat |].
  split.
  { intros Hf He. split.
    - apply not_true_is_false. intros E. apply Hformat in E. exact (E Hf).
    - apply not_true_is_false. intros E. apply Hsize in E. rewrite He in E.
      destruct E as [E | E]; apply E; reflexivity. }
  cbn [w_window with_views with_images with_swapchain swapchain swapImages swapViews
       swapchainFormat swapchainExtent device physicalDevice graphicsFamilyIndex window
       surface presentFamilyIndex].
  rewrite Hget. cbn [snd].
  split; [reflexivity |]. split; [reflexivity |].
  split; [apply length_map |].
  split; [reflexivity |].
  split.
  { exists info, first, rest, caps.
    split; [exact Hformats |]. split; [exact Hq |].
    split; [exact Hsurf |]. split; [exact Hold |]. split; [exact Hform |].
    split; [exact Hext |]. split; [exact Hdrv |].
    split; [reflexivity |]. split; [reflexivity |].
    rewrite <- !app_assoc. reflexivity. }
  repeat (split; [reflexivity |]). reflexivity.
Qed.

End SwapchainRecreationResult.

Lemma recreate_swapchain_old_chain_witness :
  exists e : Error,
    fst (creation_attempt (sample_window_driver VK_ERROR_DEVICE_LOST) sample_world) = Throw e /\
    fst (recreate_swapchain (sample_window_driver VK_ERROR_DEVICE_LOST) sample_world) = Throw e /\
    swapchain (w_window (snd (recreate_swapchain (sample_window_driver VK_ERROR_DEVICE_LOST)
                                sample_world))) = 100.
Proof.
  exists {| what := "Unable to create swap chain"; status := Some VK_ERROR_DEVICE_LOST |}.
  assert (Hfail : fst (creation_attempt (sample_window_driver VK_ERROR_DEVICE_LOST)
                         sample_world) =
                  Throw {| what := "Unable to create swap chain";
                           status := Some VK_ERROR_DEVICE_LOST |})
    by reflexivity.
  split; [exact Hfail |].
  destruct (recreate_swapchain_old_chain (sample_window_driver VK_ERROR_DEVICE_LOST)
              sample_world) as [Hthrow _].
  destruct (Hthrow _ Hfail) as (Hres & _ & Hchain & _).
  split; [exact Hres | exact Hchain].
Defined.

Example recreate_failure_log :
  w_log (snd (recreate_swapchain (sample_window_driver VK_ERROR_DEVICE_LOST) sample_world)) =
    [EvDestroyImageView 2 291; EvDestroyImageView 2 292;
     EvCreateSwapchain
       {| chain_surface := 7; chain_minImageCount := 2;
          chain_imageFormat := VK_FORMAT_B8G8R8A8_SRGB; chain_imageColorSpace := 0;
          chain_imageExtent := {| width := 4096; height := 64 |};
          chain_imageArrayLayers := 1; chain_preTransform := 1;
          chain_presentMode := VK_PRESENT_MODE_FIFO_KHR; chain_clipped := true;
          chain_oldSwapchain := 100;
          chain_imageSharingMode := VK_SHARING_MODE_EXCLUSIVE;
          chain_queueFamilyIndices := [] |}
       VK_ERROR_DEVICE_LOST VK_NULL_HANDLE].
Proof. vm_compute. reflexivity. Qed.

Lemma steady_calls_succeed : recreate_calls_succeed steady_window_driver sample_window.
Proof.
  unfold recreate_calls_succeed.
  split; [discriminate |].
  split; [reflexivity |].
  split; [intros; reflexivity |].
  split; intros; reflexivity.
Qed.

Lemma recreate_swapchain_changes_witness :
  exists (changes : SwapChanges) (w' : World),
    recreate_swapchain steady_window_driver sample_world = (Ok changes, w') /\
    let old := w_window sample_world in
    let new := w_window w' in
    (changedSize changes = true <->
     width (swapchainExtent new) <> width (swapchainExtent old) \/
     height (swapchainExtent new) <> height (swapchainExtent old)) /\
    (changedFormat changes = true <-> swapchainFormat new <> swapchainFormat old) /\
    (swapchainFormat new = swapchainFormat old ->
     swapchainExtent new = swapchainExtent old ->
     changedFormat changes = false /\ changedSize changes = false) /\
    swapImages new = snd (vkGetSwapchainImagesKHR steady_window_driver (device old) (swapchain new)) /\
    swapViews new = map (view_of steady_window_driver (device old) (swapchainFormat new)) (swapImages new) /\
    length (swapViews new) = length (swapImages new) /\
    fst (creation_attempt steady_window_driver sample_world) =
      Ok (swapchain new, swapchainFormat new, swapchainExtent new) /\
    (exists (info : VkSwapchainCreateInfoKHR) (first : VkSurfaceFormatKHR)
            (rest : list VkSurfaceFormatKHR) (caps : VkSurfaceCapabilitiesKHR),
       get_surface_formats steady_window_driver (physicalDevice old) (surface old) = first :: rest /\
       vkGetPhysicalDeviceSurfaceCapabilitiesKHR steady_window_driver (physicalDevice old) (surface old) =
         (VK_SUCCESS, caps) /\
       chain_surface info = surface old /\
       chain_oldSwapchain info = swapchain old /\
       chain_imageFormat info = format (surface_format_loop (first :: rest) first) /\
       chain_imageExtent info =
         swapchain_extent caps (glfwGetFramebufferSize steady_window_driver (window old)) /\
       vkCreateSwapchainKHR steady_window_driver (device old) info = (VK_SUCCESS, swapchain new) /\
       swapchainFormat new = chain_imageFormat info /\
       swapchainExtent new = chain_imageExtent info /\
       w_log w' =
         w_log sample_world ++
         map (EvDestroyImageView (device old)) (swapViews old) ++
         [EvCreateSwapchain info VK_SUCCESS (swapchain new);
          EvDestroySwapchain (device old) (swapchain old)] ++
         map (fun image =>
                EvCreateImageView (swapchain_view_info (swapchainFormat new) image)
                  VK_SUCCESS (view_of steady_window_driver (device old) (swapchainFormat new) image))
             (swapImages new)) /\
    physicalDevice new = physicalDevice old /\ device new = device old /\
    graphicsFamilyIndex new = graphicsFamilyIndex old /\ window new = window old /\
    surface new = surface old /\ presentFamilyIndex new = presentFamilyIndex old.
Proof.
  apply (recreate_swapchain_changes steady_window_driver sample_world).
  exact steady_calls_succeed.
Defined.

Example recreate_unchanged :
  recreate_swapchain steady_window_driver sample_world =
    (Ok {| changedSize := false; changedFormat := false |},
     {| w_window :=
          {| physicalDevice := 1; device := 2; graphicsFamilyIndex := 0; window := 3;
             surface := 7; presentFamilyIndex := 0; swapchain := 101;
             swapImages := [201; 202; 203]; swapViews := [301; 302; 303];
             swapchainFormat := VK_FORMAT_B8G8R8A8_SRGB;
             swapchainExtent := {| width := 800; height := 600 |} |};
        w_log := w_log (snd (recreate_swapchain steady_window_driver sample_world)) |}).
Proof. vm_compute. reflexivity. Qed.

(** ** Acquisition and presentation *)

Section AcquirePresent.

Lemma is_stale_test (res : VkResult) :
  (VK_SUBOPTIMAL_KHR =? res) || (VK_ERROR_OUT_OF_DATE_KHR =? res) = true <-> is_stale res.
Proof.
  unfold is_stale.
  rewrite orb_true_iff, !Z.eqb_eq. split; intros [H | H]; auto.
Qed.

Lemma bind_Ok {A B : Type} (m : outcome A) (k : A -> outcome B) (b : B) :
  m ≫= k = Ok b -> exists a, m = Ok a /\ k a = Ok b.
Proof.
  destruct m as [a | e | c]; intros H; try discriminate H.
  exists a. split; [reflexivity | exact H].
Qed.

Lemma present_results_cases (res : VkResult) (flag : bool) :
  (is_stale res -> present_results res flag = Ok true) /\
  (res = VK_SUCCESS -> present_results res flag = Ok flag) /\
  (~ is_stale res -> res <> VK_SUCCESS ->
   present_results res flag = throw_result "Unable to present swapchain image" res).
Proof.
  unfold present_results.
  pose proof (is_stale_test res) as Hstale.
  destruct ((VK_SUBOPTIMAL_KHR =? res) || (VK_ERROR_OUT_OF_DATE_KHR =? res)).
  - assert (Hs : is_stale res) by (apply Hstale; reflexivity).
    split; [reflexivity |]. split.
    + intros ->. destruct Hs as [Hs | Hs]; discriminate Hs.
    + intros Hn. contradiction.
  - assert (Hs : ~ is_stale res) by (intros Hs; apply Hstale in Hs; discriminate Hs).
    split; [intros; contradiction |].
    destruct (Z.eqb_spec VK_SUCCESS res) as [Heq | Hne]; cbn [negb].
    + split; [reflexivity |]. intros _ Hn. congruence.
    + split; [intros; congruence | reflexivity].
Qed.

Lemma present_results_sets_flag (res : VkResult) :
  present_results res false = Ok true -> is_stale res.
Proof.
  unfold present_results. intros H.
  apply is_stale_test.
  destruct ((VK_SUBOPTIMAL_KHR =? res) || (VK_ERROR_OUT_OF_DATE_KHR =? res));
    [reflexivity |].
  destruct (negb (VK_SUCCESS =? res)); discriminate H.
Qed.

(** What [present_results] and a pass that starts with the flag clear make
    of the results of presentation and of acquisition. *)
Lemma render_loop_body_results (drv : FrameDriver) (flag : bool) :
  let acquireRes := fst (vkAcquireNextImageKHR drv) in
  let presentRes := vkQueuePresentKHR drv in
  (is_stale presentRes -> present_results presentRes flag = Ok true) /\
  (presentRes = VK_SUCCESS -> present_results presentRes flag = Ok flag) /\
  (~ is_stale presentRes -> presentRes <> VK_SUCCESS ->
   present_results presentRes flag =
     Throw (MkError "Unable to present swapchain image" (Some presentRes))) /\
  (is_stale acquireRes -> render_loop_body drv false = Ok (true, FrameAbandoned)) /\
  (~ is_stale acquireRes -> acquireRes <> VK_SUCCESS ->
   render_loop_body drv false =
     Throw (MkError "Unable to acquire next swapchain image" (Some acquireRes))) /\
  (acquireRes = VK_SUCCESS -> frame_work_succeeds drv ->
   render_loop_body drv false =
     present_results presentRes false ≫= fun recreate => Ok (recreate, FramePresented)) /\
  (acquireRes = VK_SUCCESS -> presentRes = VK_SUCCESS -> frame_work_succeeds drv ->
   render_loop_body drv false = Ok (false, FramePresented)) /\
  (forall how : FrameEnd,
     render_loop_body drv false = Ok (true, how) ->
     is_stale acquireRes \/ is_stale presentRes).
Proof.
  cbv zeta.
  destruct (present_results_cases (vkQueuePresentKHR drv) flag) as (P1 & P2 & P3).
  split; [exact P1 |]. split; [exact P2 |]. split; [exact P3 |].
  unfold render_loop_body.
  destruct (vkAcquireNextImageKHR drv) as [acquireRes imageIndex] eqn:Hacq. cbn [fst].
  pose proof (is_stale_test acquireRes) as Hstale.
  destruct ((VK_SUBOPTIMAL_KHR =? acquireRes) || (VK_ERROR_OUT_OF_DATE_KHR =? acquireRes)).
  { assert (Hs : is_stale acquireRes) by (apply Hstale; reflexivity).
    split; [reflexivity |].
    split; [intros; contradiction |].
    split; [intros ->; destruct Hs as [Hs | Hs]; discriminate Hs |].
    split; [intros ->; destruct Hs as [Hs | Hs]; discriminate Hs |].
    intros how _. left. exact Hs. }
  assert (Hs : ~ is_stale acquireRes) by (intros Hs; apply Hstale in Hs; discriminate Hs).
  split; [intros; contradiction |].
  destruct (Z.eqb_spec VK_SUCCESS acquireRes) as [Heq | Hne]; cbn [negb].
  2:{ split; [reflexivity |].
      split; [intros; congruence |]. split; [intros; congruence |].
      intros how H. discriminate H. }
  split; [intros _ Hn; congruence |].
  assert (Hwork : frame_work_succeeds drv ->
          forall k : outcome (bool * FrameEnd),
            (assert_that (imageIndex <? cbfences_size drv) "imageIndex < cbfences.size()" ≫= fun _ =>
             check (frame_vkWaitForFences drv) "Unable to wait for command buffer fence" ≫= fun _ =>
             check (frame_vkResetFences drv) "Unable to reset command buffer fence" ≫= fun _ =>
             assert_that (imageIndex <? cbuffers_size drv) "imageIndex < cbuffers.size()" ≫= fun _ =>
             assert_that (imageIndex <? framebuffers_size drv) "imageIndex < framebuffers.size()" ≫= fun _ =>
             check (frame_vkBeginCommandBuffer drv) "Unable to begin recording command buffer" ≫= fun _ =>
             check (frame_vkEndCommandBuffer drv) "Unable to end recording command buffer" ≫= fun _ =>
             submit_commands (frame_vkQueueSubmit drv) ≫= fun _ =>
             assert_that (imageIndex <? imguicbfences_size drv) "imageIndex < imguicbfences.size()" ≫= fun _ =>
             check (imgui_vkWaitForFences drv) "Unable to wait for command buffer fence" ≫= fun _ =>
             check (imgui_vkResetFences drv) "Unable to reset command buffer fence" ≫= fun _ =>
             check (imgui_vkBeginCommandBuffer drv) "Unable to begin recording command buffer" ≫= fun _ =>
             check (imgui_vkEndCommandBuffer drv) "Unable to end recording command buffer" ≫= fun _ =>
             submit_commands (imgui_vkQueueSubmit drv) ≫= fun _ => k) = k).
  { unfold frame_work_succeeds. rewrite Hacq. cbv zeta. cbn [snd].
    intros (I1 & I2 & I3 & I4 & C1 & C2 & C3 & C4 & C5 & C6 & C7 & C8 & C9 & C10 & _) k.
    apply Z.ltb_lt in I1, I2, I3, I4.
    rewrite I1, I2, I3, I4, C1, C2, C3, C4, C5, C6, C7, C8, C9, C10.
    reflexivity. }
  assert (Hfinal : frame_work_succeeds drv -> final_vkWaitForFences drv = VK_SUCCESS).
  { unfold frame_work_succeeds. cbv zeta. intros H. decompose [and] H. assumption. }
  split.
  { intros _ Hok. rewrite (Hwork Hok). rewrite (Hfinal Hok).
    destruct (present_results (vkQueuePresentKHR drv) false); reflexivity. }
  split.
  { intros _ Hp Hok. rewrite (Hwork Hok). rewrite (Hfinal Hok).
    destruct (present_results_cases (vkQueuePresentKHR drv) false) as (_ & Q2 & _).
    rewrite (Q2 Hp). reflexivity. }
  intros how H. right.
  do 14 (apply bind_Ok in H; destruct H as (? & _ & H)).
  apply bind_Ok in H. destruct H as (recreate & Hpres & H).
  apply bind_Ok in H. destruct H as (? & _ & H).
  injection H as -> _.
  apply present_results_sets_flag. exact Hpres.
Qed.

Lemma check_Ok (res : VkResult) (msg : string) (u : unit) :
  check res msg = Ok u -> res = VK_SUCCESS.
Proof.
  unfold check. destruct (Z.eqb_spec res VK_SUCCESS) as [E | E]; [intros _; exact E |].
  intros H. discriminate H.
Qed.

(** A pass of the loop body that starts with the flag clear and comes to
    its end has acquired an image, submitted both command buffers and then
    looked at the result of presentation. *)
Lemma render_loop_body_presented (drv : FrameDriver) (flag : bool) :
  render_loop_body drv false = Ok (flag, FramePresented) ->
  fst (vkAcquireNextImageKHR drv) = VK_SUCCESS /\
  frame_vkQueueSubmit drv = VK_SUCCESS /\
  imgui_vkQueueSubmit drv = VK_SUCCESS /\
  present_results (vkQueuePresentKHR drv) false = Ok flag.
Proof.
  unfold render_loop_body.
  destruct (vkAcquireNextImageKHR drv) as [acquireRes imageIndex]. cbn [fst].
  destruct ((VK_SUBOPTIMAL_KHR =? acquireRes) || (VK_ERROR_OUT_OF_DATE_KHR =? acquireRes));
    [intros H; discriminate H |].
  destruct (Z.eqb_spec VK_SUCCESS acquireRes) as [Heq | Hne]; cbn [negb];
    [| intros H; discriminate H].
  intros H. split; [symmetry; exact Heq |].
  do 7 (apply bind_Ok in H; destruct H as (? & _ & H)).
  apply bind_Ok in H. destruct H as (u1 & Hsub1 & H).
  do 5 (apply bind_Ok in H; destruct H as (? & _ & H)).
  apply bind_Ok in H. destruct H as (u2 & Hsub2 & H).
  apply bind_Ok in H. destruct H as (recreate & Hpres & H).
  apply bind_Ok in H. destruct H as (? & _ & H).
  injection H as ->.
  split; [exact (check_Ok _ _ _ Hsub1) |].
  split; [exact (check_Ok _ _ _ Hsub2) | exact Hpres].
Qed.

(** Only a stale acquisition ends a pass by abandoning the frame. *)
Lemma render_loop_body_abandoned (drv : FrameDriver) (flag : bool) :
  render_loop_body drv false = Ok (flag, FrameAbandoned) ->
  is_stale (fst (vkAcquireNextImageKHR drv)) /\ flag = true.
Proof.
  unfold render_loop_body.
  destruct (vkAcquireNextImageKHR drv) as [acquireRes imageIndex]. cbn [fst].
  pose proof (is_stale_test acquireRes) as Hstale.
  destruct ((VK_SUBOPTIMAL_KHR =? acquireRes) || (VK_ERROR_OUT_OF_DATE_KHR =? acquireRes)).
  { intros H. injection H as <-. split; [apply Hstale; reflexivity | reflexivity]. }
  destruct (negb (VK_SUCCESS =? acquireRes)); [intros H; discriminate H |].
  intros H.
  do 16 (apply bind_Ok in H; destruct H as (? & _ & H)).
  discriminate H.
Qed.





End AcquirePresent.

(** * Further properties *)

(** ** vkimage.cpp *)

Section LeadingZerosAgain.

(** X1: for a non-zero 32-bit value, [countl_zero_] is at most 31, the bit
    at position [31 - countl_zero_(x)] is set and every higher bit is clear;
    so x lies between [2^(31 - n)] and [2^(32 - n)] for that count n. *)
Theorem countl_zero_leading_bit (x : Z) :
  0 < x < U32.modulus ->
  0 <= countl_zero_ x <= 31 /\
  Z.testbit x (31 - countl_zero_ x) = true /\
  (forall i, 31 - countl_zero_ x < i -> Z.testbit x i = false) /\
  2 ^ (31 - countl_zero_ x) <= x < 2 ^ (32 - countl_zero_ x).
Proof.
  intros Hx.
  rewrite (countl_zero_log2 x Hx).
  destruct Hx as [Hpos Hlt].
  assert (Hlog : 0 <= Z.log2 x < 32).
  { split; [apply Z.log2_nonneg |]. apply Z.log2_lt_pow2; [lia | exact Hlt]. }
  replace (31 - (31 - Z.log2 x)) with (Z.log2 x) by lia.
  replace (32 - (31 - Z.log2 x)) with (Z.succ (Z.log2 x)) by lia.
  split; [lia |].
  split; [apply Z.bit_log2; lia |].
  split; [intros i Hi; apply Z.bits_above_log2; lia |].
  apply Z.log2_spec. lia.
Qed.

Lemma countl_zero_leading_bit_witness :
  0 <= countl_zero_ 300 <= 31 /\
  Z.testbit 300 (31 - countl_zero_ 300) = true /\
  (forall i, 31 - countl_zero_ 300 < i -> Z.testbit 300 i = false) /\
  2 ^ (31 - countl_zero_ 300) <= 300 < 2 ^ (32 - countl_zero_ 300).
Proof.
  apply (countl_zero_leading_bit 300). unfold U32.modulus. lia.
Defined.

End LeadingZerosAgain.

Section UploadAgain.

Lemma upload_reaches_shader_read_witness :
  let mipLevels := compute_mip_level_count 300 7 in
  let st := record_upload_commands 300 7 in
  execute (loop_cbuff st) (replicate (Z.to_nat mipLevels) VK_IMAGE_LAYOUT_UNDEFINED) =
    Some (replicate (Z.to_nat mipLevels) VK_IMAGE_LAYOUT_SHADER_READ_ONLY_OPTIMAL) /\
  loop_level st = mipLevels /\ loop_width st = 1 /\ loop_height st = 1.
Proof.
  apply (upload_reaches_shader_read 300 7); unfold U32.modulus; lia.
Defined.

Lemma blit_extent_app (cmds1 cmds2 : list Command) (level : Z) :
  blit_extent (cmds1 ++ cmds2) level =
    match blit_extent cmds1 level with
    | Some e => Some e
    | None => blit_extent cmds2 level
    end.
Proof.
  induction cmds1 as [| c rest IH]; cbn [app blit_extent]; [reflexivity |].
  destruct c as [? ? ? ? ? ? ? | ? ? | ? ? region ?]; try exact IH.
  destruct (dstMipLevel region =? level); [reflexivity | exact IH].
Qed.

(** Halving with the floor at 1 commutes with the floor at 1. *)
Lemma halve_max (a : Z) :
  0 <= a ->
  (if U32.shr (Z.max 1 a) 1 =? 0 then 1 else U32.shr (Z.max 1 a) 1) =
    Z.max 1 (Z.shiftr a 1).
Proof.
  intros Ha. unfold U32.shr. rewrite !Z.shiftr_div_pow2 by lia. change (2 ^ 1) with 2.
  destruct (Z.le_gt_cases 1 a) as [H1 | H0].
  - rewrite Z.max_r by lia.
    assert (0 <= a / 2) by (apply Z.div_pos; lia).
    destruct (Z.eqb_spec (a / 2) 0); lia.
  - assert (a = 0) by lia. subst a. reflexivity.
Qed.

Lemma to_int32_small (u : Z) : 0 <= u < 2 ^ 31 -> U32.to_int32 u = u.
Proof.
  intros H. unfold U32.to_int32.
  destruct (Z.ltb_spec u (2 ^ 31)); [reflexivity | lia].
Qed.

Lemma max_shiftr_bound (a k : Z) :
  0 <= a < 2 ^ 31 -> 0 <= k -> 0 <= Z.max 1 (Z.shiftr a k) < 2 ^ 31.
Proof.
  intros Ha Hk.
  rewrite Z.shiftr_div_pow2 by lia.
  assert (Hp : 0 < 2 ^ k) by (apply Z.pow_pos_nonneg; lia).
  assert (0 <= a / 2 ^ k) by (apply Z.div_pos; lia).
  assert (a / 2 ^ k <= a) by (apply Z.div_le_upper_bound; nia).
  lia.
Qed.

Lemma mip_loop_body_blits (w h k : Z) (st : MipLoop) :
  0 <= w < 2 ^ 31 -> 0 <= h < 2 ^ 31 -> 1 <= k < U32.modulus - 1 ->
  blits_recorded w h k st -> blits_recorded w h (k + 1) (mip_loop_body st).
Proof.
  intros Hw Hh Hk (Hlevel & Hwidth & Hheight & Hblits).
  unfold mip_loop_body, vkCmdBlitImage, image_barrier.
  unfold blits_recorded. cbn [loop_level loop_width loop_height loop_cbuff].
  rewrite Hlevel, Hwidth, Hheight.
  rewrite !halve_max by (apply Z.shiftr_nonneg; lia).
  rewrite !Z.shiftr_shiftr by lia.
  replace (k - 1 + 1) with k by lia. replace (k + 1 - 1) with k by lia.
  split; [unfold U32.add, U32.wrap; apply Z.mod_small; unfold U32.modulus in *; lia |].
  split; [reflexivity |]. split; [reflexivity |].
  intros level.
  rewrite !blit_extent_app, Hblits. cbn [blit_extent dstMipLevel dstOffsets1 off_x off_y].
  rewrite !to_int32_small by (apply max_shiftr_bound; lia).
  destruct (Z.leb_spec 1 level) as [H1 | H1]; cbn [andb].
  - destruct (Z.ltb_spec level k) as [H2 | H2];
      destruct (Z.ltb_spec level (k + 1)) as [H3 | H3]; try lia; try reflexivity.
    + assert (level = k) by lia. subst level. rewrite Z.eqb_refl. reflexivity.
    + destruct (Z.eqb_spec k level); [lia | reflexivity].
  - destruct (Z.eqb_spec k level); [lia | reflexivity].
Qed.

Lemma mip_loop_blits (w h n : Z) (fuel : nat) :
  forall (k : Z) (st : MipLoop),
    0 <= w < 2 ^ 31 -> 0 <= h < 2 ^ 31 -> 1 <= k <= n -> n < U32.modulus ->
    n <= k + Z.of_nat fuel ->
    blits_recorded w h k st -> blits_recorded w h n (mip_loop fuel n st).
Proof.
  induction fuel as [| fuel IH]; intros k st Hw Hh Hk Hn Hfuel Hrec; cbn [mip_loop].
  - assert (E : n = k) by lia. rewrite E. exact Hrec.
  - destruct Hrec as (Hlevel & Hrest). rewrite Hlevel.
    destruct (Z.ltb_spec k n) as [Hlt | Hge].
    + apply (IH (k + 1)); try assumption; try lia.
      apply mip_loop_body_blits; try assumption; [lia |].
      split; assumption.
    + assert (E : n = k) by lia. rewrite E. split; assumption.
Qed.

(** X3: for an image of positive dimensions below 2^31, the blit loop
    writes level L, for every L from 1 to [mipLevels - 1] and for no other,
    with the extent [max(1, width >> L)] by [max(1, height >> L)]. *)
Theorem blit_extent_per_level (w h level : Z) :
  1 <= w < 2 ^ 31 -> 1 <= h < 2 ^ 31 ->
  blit_extent (loop_cbuff (record_upload_commands w h)) level =
    if (1 <=? level) && (level <? compute_mip_level_count w h)
    then Some (Z.max 1 (Z.shiftr w level), Z.max 1 (Z.shiftr h level))
    else None.
Proof.
  intros Hw Hh.
  destruct (mip_level_count_positive_case w h) as [_ Hrange];
    [unfold U32.in_range, U32.modulus; lia | unfold U32.in_range, U32.modulus; lia | lia |].
  unfold record_upload_commands, vkCmdCopyBufferToImage, image_barrier.
  cbn [loop_cbuff app].
  set (n := compute_mip_level_count w h) in *.
  match goal with
  | |- context [mip_loop ?f n ?s] =>
      destruct (mip_loop_blits w h n f 1 s) as (_ & _ & _ & Hblits)
  end; try lia.
  { unfold U32.modulus. lia. }
  { split; [reflexivity |]. cbn [loop_width loop_height loop_cbuff].
    replace (1 - 1) with 0 by lia. rewrite !Z.shiftr_0_r.
    split; [lia |]. split; [lia |].
    intros l. cbn [blit_extent].
    destruct (Z.leb_spec 1 l); destruct (Z.ltb_spec l 1); cbn [andb]; try reflexivity; lia. }
  rewrite blit_extent_app, Hblits. cbn [blit_extent].
  destruct ((1 <=? level) && (level <? n)); reflexivity.
Qed.

Lemma blit_extent_per_level_witness :
  blit_extent (loop_cbuff (record_upload_commands 300 7)) 3 =
    if (1 <=? 3) && (3 <? compute_mip_level_count 300 7)
    then Some (Z.max 1 (Z.shiftr 300 3), Z.max 1 (Z.shiftr 7 3))
    else None.
Proof.
  apply (blit_extent_per_level 300 7 3); lia.
Defined.

End UploadAgain.

Section StagingSize.

(** X4: when the decoder reports a width and a height and every call
    succeeds, the staging buffer is created with [4 * width * height] bytes
    reduced modulo 2^32, while the image keeps the full dimensions: the two
    agree when [4 * width * height] is below 2^32, and the staging buffer is
    smaller than the pixel data otherwise. *)
Theorem staging_size_wraps (drv : UploadDriver) (path : string) (w h : Z) :
  stbi_load drv path = Some (w, h) -> upload_calls_succeed drv ->
  0 <= w < 2 ^ 31 -> 0 <= h < 2 ^ 31 ->
  exists up : Upload,
    load_image_texture2d drv path = Ok up /\
    info_width (up_image up) = w /\ info_height (up_image up) = h /\
    up_stagingSize up = (4 * w * h) mod 2 ^ 32 /\
    (4 * w * h < 2 ^ 32 -> up_stagingSize up = 4 * w * h) /\
    (2 ^ 32 <= 4 * w * h -> up_stagingSize up < 4 * w * h).
Proof.
  intros Hload Hok Hw Hh.
  eexists. split; [apply (load_image_texture2d_succeeds drv path w h Hload Hok) |].
  cbn [up_image up_stagingSize info_width info_height].
  assert (Ew : U32.of_int w = w).
  { unfold U32.of_int, U32.wrap, U32.modulus. apply Z.mod_small. lia. }
  assert (Eh : U32.of_int h = h).
  { unfold U32.of_int, U32.wrap, U32.modulus. apply Z.mod_small. lia. }
  rewrite Ew, Eh.
  assert (Esize : U32.wrap (U32.wrap (w * h) * 4) = (4 * w * h) mod 2 ^ 32).
  { unfold U32.wrap, U32.modulus. rewrite Z.mul_mod_idemp_l by lia. f_equal. lia. }
  rewrite Esize.
  split; [reflexivity |]. split; [reflexivity |]. split; [reflexivity |].
  split.
  - intros Hsmall. apply Z.mod_small. nia.
  - intros Hbig. pose proof (Z.mod_pos_bound (4 * w * h) (2 ^ 32)). lia.
Qed.

Lemma staging_size_wraps_witness :
  exists up : Upload,
    load_image_texture2d (succeeding_upload_driver 40000 40000) "big.png" = Ok up /\
    info_width (up_image up) = 40000 /\ info_height (up_image up) = 40000 /\
    up_stagingSize up = (4 * 40000 * 40000) mod 2 ^ 32 /\
    (4 * 40000 * 40000 < 2 ^ 32 -> up_stagingSize up = 4 * 40000 * 40000) /\
    (2 ^ 32 <= 4 * 40000 * 40000 -> up_stagingSize up < 4 * 40000 * 40000).
Proof.
  apply (staging_size_wraps (succeeding_upload_driver 40000 40000) "big.png" 40000 40000).
  - reflexivity.
  - unfold upload_calls_succeed, succeeding_upload_driver; cbn.
    split; [intros; reflexivity |].
    split; [reflexivity |].
    split; [intros; reflexivity |].
    split; [reflexivity |].
    split; [reflexivity |].
    split; [reflexivity |].
    split; [reflexivity |].
    split; [intros; reflexivity | reflexivity].
  - lia.
  - lia.
Defined.

End StagingSize.

(** ** vulkan_window.cpp: queue families, device selection and setup *)

Section QueueFamilies.

Variable drv : DeviceDriver.

Lemma find_queue_family_from_step (dev : Handle) (flags : Z) (surf : Handle) (start : Z)
    (family : VkQueueFamilyProperties) (rest : list VkQueueFamilyProperties) :
  find_queue_family_from drv dev flags surf start (family :: rest) =
    if family_matches drv dev flags surf start family then Some start
    else find_queue_family_from drv dev flags surf (start + 1) rest.
Proof.
  cbn [find_queue_family_from]. unfold family_matches.
  destruct (flags =? Z.land flags (queueFlags family)); cbn [andb]; [| reflexivity].
  destruct (VK_NULL_HANDLE =? surf); cbn [orb]; [reflexivity |].
  destruct (vkGetPhysicalDeviceSurfaceSupportKHR drv dev start surf) as [res supported].
  destruct ((VK_SUCCESS =? res) && supported); reflexivity.
Qed.

Lemma find_queue_family_from_first (dev : Handle) (flags : Z) (surf : Handle)
    (families : list VkQueueFamilyProperties) (start : Z) :
  match find_queue_family_from drv dev flags surf start families with
  | Some i =>
      exists (j : nat) (family : VkQueueFamilyProperties),
        i = start + Z.of_nat j /\ families !! j = Some family /\
        family_matches drv dev flags surf i family = true /\
        forall (j' : nat) (family' : VkQueueFamilyProperties),
          (j' < j)%nat -> families !! j' = Some family' ->
          family_matches drv dev flags surf (start + Z.of_nat j') family' = false
  | None =>
      forall (j : nat) (family : VkQueueFamilyProperties),
        families !! j = Some family ->
        family_matches drv dev flags surf (start + Z.of_nat j) family = false
  end.
Proof.
  revert start. induction families as [| family rest IH]; intros start.
  - cbn. intros j family Hj. destruct j; discriminate Hj.
  - rewrite find_queue_family_from_step.
    destruct (family_matches drv dev flags surf start family) eqn:Hm.
    + exists 0%nat, family. rewrite Z.add_0_r.
      split; [reflexivity |]. split; [reflexivity |]. split; [exact Hm |].
      intros j' f' Hlt. lia.
    + specialize (IH (start + 1)).
      destruct (find_queue_family_from drv dev flags surf (start + 1) rest) as [i |].
      * destruct IH as (j & fam & Hi & Hj & Hmatch & Hearlier).
        exists (S j), fam.
        split; [lia |]. split; [exact Hj |]. split; [exact Hmatch |].
        intros [| j'] f' Hlt Hf'.
        -- cbn in Hf'. injection Hf' as <-. rewrite Z.add_0_r. exact Hm.
        -- replace (start + Z.of_nat (S j')) with (start + 1 + Z.of_nat j') by lia.
           apply (Hearlier j' f'); [lia | exact Hf'].
      * intros [| j] f Hf.
        -- cbn in Hf. injection Hf as <-. rewrite Z.add_0_r. exact Hm.
        -- replace (start + Z.of_nat (S j)) with (start + 1 + Z.of_nat j) by lia.
           apply (IH j f Hf).
Qed.

(** What [find_queue_family] returns, in terms of the test on a family. *)
Lemma find_queue_family_spec (dev : Handle) (flags : Z) (surf : Handle) :
  let families := vkGetPhysicalDeviceQueueFamilyProperties drv dev in
  match find_queue_family drv dev flags surf with
  | Some i =>
      exists (j : nat) (family : VkQueueFamilyProperties),
        i = Z.of_nat j /\ families !! j = Some family /\
        family_matches drv dev flags surf i family = true /\
        forall (j' : nat) (family' : VkQueueFamilyProperties),
          (j' < j)%nat -> families !! j' = Some family' ->
          family_matches drv dev flags surf (Z.of_nat j') family' = false
  | None =>
      forall (j : nat) (family : VkQueueFamilyProperties),
        families !! j = Some family ->
        family_matches drv dev flags surf (Z.of_nat j) family = false
  end.
Proof.
  cbv zeta. unfold find_queue_family.
  pose proof (find_queue_family_from_first dev flags surf
                (vkGetPhysicalDeviceQueueFamilyProperties drv dev) 0) as H.
  destruct (find_queue_family_from drv dev flags surf 0
              (vkGetPhysicalDeviceQueueFamilyProperties drv dev)) as [i |].
  - destruct H as (j & fam & Hi & Hj & Hm & Hearlier).
    exists j, fam.
    split; [lia |]. split; [exact Hj |]. split; [exact Hm |].
    intros j' f' Hlt Hf'. apply (Hearlier j' f' Hlt Hf').
  - intros j f Hf. apply (H j f Hf).
Qed.

(** X5: [find_queue_family] returns the index of the first family that has
    all the requested flags and, when a surface is given, can present to it;
    it returns nothing exactly when no family passes that test. *)
Theorem find_queue_family_first (dev : Handle) (flags : Z) (surf : Handle) :
  let families := vkGetPhysicalDeviceQueueFamilyProperties drv dev in
  match find_queue_family drv dev flags surf with
  | Some i =>
      exists (j : nat) (family : VkQueueFamilyProperties),
        i = Z.of_nat j /\ families !! j = Some family /\
        family_matches drv dev flags surf i family = true /\
        forall (j' : nat) (family' : VkQueueFamilyProperties),
          (j' < j)%nat -> families !! j' = Some family' ->
          family_matches drv dev flags surf (Z.of_nat j') family' = false
  | None =>
      forall (j : nat) (family : VkQueueFamilyProperties),
        families !! j = Some family ->
        family_matches drv dev flags surf (Z.of_nat j) family = false
  end.
Proof. apply find_queue_family_spec. Qed.

Example find_queue_family_sample :
  find_queue_family sample_device_driver 12 VK_QUEUE_GRAPHICS_BIT 7 = Some 1 /\
  find_queue_family sample_device_driver 12 VK_QUEUE_GRAPHICS_BIT 8 = None /\
  find_queue_family sample_device_driver 12 2 VK_NULL_HANDLE = Some 0.
Proof. repeat split; reflexivity. Qed.

End QueueFamilies.

Section DeviceSetup.

Variable ddrv : DeviceDriver.

(** An adapter that is not rejected scores by its type alone, and both
    searches [score_device] makes have found a family. *)
Lemma score_device_accepted (dev surface : Handle) :
  surface <> VK_NULL_HANDLE ->
  ~ rejected ddrv dev surface ->
  score_device ddrv dev surface = type_score (deviceType (vkGetPhysicalDeviceProperties ddrv dev)) /\
  is_Some (find_queue_family ddrv dev 0 surface) /\
  is_Some (find_queue_family ddrv dev VK_QUEUE_GRAPHICS_BIT VK_NULL_HANDLE).
Proof.
  intros Hsurf Hacc.
  assert (Hne : score_device ddrv dev surface <> -1).
  { intros E. apply Hacc. apply (score_device_rejected ddrv dev surface Hsurf). exact E. }
  revert Hne. unfold score_device. cbv zeta.
  destruct ((VK_API_VERSION_MAJOR (apiVersion (vkGetPhysicalDeviceProperties ddrv dev)) <? 1) ||
            ((VK_API_VERSION_MAJOR (apiVersion (vkGetPhysicalDeviceProperties ddrv dev)) =? 1) &&
             (VK_API_VERSION_MINOR (apiVersion (vkGetPhysicalDeviceProperties ddrv dev)) <? 2)));
    [intros H; contradiction H; reflexivity |].
  destruct (bool_decide (VK_KHR_SWAPCHAIN_EXTENSION_NAME ∈ get_device_extensions ddrv dev));
    cbn [negb]; [| intros H; contradiction H; reflexivity].
  destruct (bool_decide_reflect (is_Some (find_queue_family ddrv dev 0 surface))) as [Hp | _];
    cbn [negb]; [| intros H; contradiction H; reflexivity].
  destruct (bool_decide_reflect
              (is_Some (find_queue_family ddrv dev VK_QUEUE_GRAPHICS_BIT VK_NULL_HANDLE)))
    as [Hg | _]; cbn [negb]; [| intros H; contradiction H; reflexivity].
  intros _. split; [| split; assumption].
  destruct (deviceType (vkGetPhysicalDeviceProperties ddrv dev)); reflexivity.
Qed.

Lemma type_score_bounds (t : VkPhysicalDeviceType) :
  0 <= type_score t <= 500 /\
  (type_score t = 500 <-> t = VK_PHYSICAL_DEVICE_TYPE_DISCRETE_GPU).
Proof.
  destruct t; cbn; (split; [lia |]); split; intros H; try reflexivity; try discriminate H.
Qed.

(** What [select_device] returns when some enumerated adapter is accepted:
    an enumerated, accepted adapter of the highest score. *)
Lemma select_device_accepted (instance surface : Handle) (devices : list Handle)
    (good : Handle) :
  surface <> VK_NULL_HANDLE ->
  vkEnumeratePhysicalDevices ddrv instance = (VK_SUCCESS, devices) ->
  good ∈ devices -> ~ rejected ddrv good surface ->
  exists best,
    select_device ddrv instance surface = Ok best /\
    best ∈ devices /\ ~ rejected ddrv best surface /\
    forall d, d ∈ devices -> score_device ddrv d surface <= score_device ddrv best surface.
Proof.
  intros Hsurf Henum Hin Hgood.
  unfold select_device. rewrite Henum. cbn.
  pose proof (select_loop_spec ddrv surface devices (-1) VK_NULL_HANDLE) as Hspec.
  cbv zeta in Hspec.
  destruct (select_loop ddrv surface devices (-1, VK_NULL_HANDLE)) as [bs bd].
  cbn [fst snd] in *.
  destruct Hspec as (Hle & Hall & Hcase).
  destruct (score_device_accepted good surface Hsurf Hgood) as (Hscore & _ & _).
  pose proof (type_score_bounds (deviceType (vkGetPhysicalDeviceProperties ddrv good))) as [Hb _].
  destruct Hcase as [[Heq Hrest] | (before & after & Hsplit & Hbest & Hgt & _)].
  - specialize (Hrest good Hin). lia.
  - exists bd. split; [reflexivity |].
    split; [rewrite Hsplit; apply elem_of_app; right; apply elem_of_cons; left; reflexivity |].
    split.
    + intros Hrej. apply (score_device_rejected ddrv bd surface Hsurf) in Hrej. lia.
    + intros d Hd. rewrite Hbest. apply Hall. exact Hd.
Qed.


Variable ldrv : LogicalDeviceDriver.

(** With the enumeration done, [select_device] returns the null handle
    exactly when every enumerated adapter is rejected. *)
Lemma select_device_null (instance surface : Handle) (devices : list Handle) :
  surface <> VK_NULL_HANDLE ->
  vkEnumeratePhysicalDevices ddrv instance = (VK_SUCCESS, devices) ->
  exists best,
    select_device ddrv instance surface = Ok best /\
    ((forall dev, dev ∈ devices -> rejected ddrv dev surface) -> best = VK_NULL_HANDLE) /\
    (VK_NULL_HANDLE ∉ devices -> best = VK_NULL_HANDLE ->
     forall dev, dev ∈ devices -> rejected ddrv dev surface).
Proof.
  intros Hsurf Henum.
  unfold select_device. rewrite Henum. cbn [check Z.eqb VK_SUCCESS].
  change (check VK_SUCCESS "Unable to get physical device count") with (Ok tt : outcome unit).
  change (check VK_SUCCESS "Unable to get physical device list") with (Ok tt : outcome unit).
  cbn.
  pose proof (select_loop_spec ddrv surface devices (-1) VK_NULL_HANDLE) as Hspec.
  cbv zeta in Hspec.
  destruct (select_loop ddrv surface devices (-1, VK_NULL_HANDLE)) as [bs bd].
  cbn [fst snd] in *.
  exists bd. split; [reflexivity |].
  destruct Hspec as (_ & _ & [[Heq Hle] | (before & after & Hsplit & Hbest & Hgt & _)]).
  - injection Heq as -> ->.
    split; [intros _; reflexivity |].
    intros _ _ dev Hin.
    destruct (score_device_rejected ddrv dev surface Hsurf) as [Hiff Hcases].
    apply Hiff. specialize (Hle dev Hin). lia.
  - assert (Hin : bd ∈ devices).
    { rewrite Hsplit. apply elem_of_app. right. apply elem_of_cons. left. reflexivity. }
    split.
    + intros Hall. exfalso.
      apply Hall in Hin. apply (score_device_rejected ddrv bd surface Hsurf) in Hin. lia.
    + intros Hnull ->. contradiction.
Qed.

(** X7: when the enumeration succeeds, [make_vulkan_window] throws the
    error "No suitable physical device found!" exactly when every enumerated
    adapter is rejected (or there is none), which is when [select_device]
    returns the null handle; this is so whatever the driver would answer to
    the request for a logical device. *)
Theorem no_suitable_device (initialPresentFamilyIndex instance surface : Handle)
    (devices : list Handle) :
  surface <> VK_NULL_HANDLE ->
  vkEnumeratePhysicalDevices ddrv instance = (VK_SUCCESS, devices) ->
  VK_NULL_HANDLE ∉ devices ->
  ((forall dev, dev ∈ devices -> rejected ddrv dev surface) <->
   select_device ddrv instance surface = Ok VK_NULL_HANDLE) /\
  ((forall dev, dev ∈ devices -> rejected ddrv dev surface) <->
   make_vulkan_window_device ddrv ldrv initialPresentFamilyIndex instance surface =
     Throw (MkError "No suitable physical device found!" None)).
Proof.
  intros Hsurf Henum Hnull.
  destruct (select_device_null instance surface devices Hsurf Henum)
    as (best & Hsel & Hall & Hback).
  split.
  - split.
    + intros H. rewrite Hsel, (Hall H). reflexivity.
    + intros H. rewrite Hsel in H. injection H as ->. apply Hback; [exact Hnull | reflexivity].
  - unfold make_vulkan_window_device. rewrite Hsel. cbn [mbind outcome_bind bind_outcome].
    destruct (Z.eqb_spec VK_NULL_HANDLE best) as [<- | Hne].
    + split; [intros _; reflexivity |].
      intros _. apply Hback; [exact Hnull | reflexivity].
    + split.
      * intros H. exfalso. apply Hne. symmetry. apply Hall. exact H.
      * intros H. exfalso.
        match type of H with
        | (?m ≫= _) = _ => destruct m as [[[g p] qfi] | e | c] eqn:Hfam
        end;
          cbn [mbind outcome_bind bind_outcome] in H; try discriminate H.
        { assert (Hq : exists q rest, qfi = q :: rest).
          { destruct (find_queue_family ddrv best VK_QUEUE_GRAPHICS_BIT surface).
            - injection Hfam as _ _ <-. eauto.
            - destruct (find_queue_family ddrv best VK_QUEUE_GRAPHICS_BIT VK_NULL_HANDLE);
                [| discriminate Hfam].
              destruct (find_queue_family ddrv best 0 surface); [| discriminate Hfam].
              injection Hfam as _ _ <-. eauto. }
          destruct Hq as (q & rest & ->).
          unfold create_device in H.
          match type of H with
          | context [vkCreateDevice ldrv best ?i] =>
              destruct (vkCreateDevice ldrv best i) as [res device]
          end.
          unfold check, throw_result in H.
          destruct (res =? VK_SUCCESS); cbn [mbind outcome_bind bind_outcome] in H;
            [| discriminate H].
          unfold assert_that in H.
          destruct (negb (VK_NULL_HANDLE =? vkGetDeviceQueue ldrv device g 0));
            cbn [mbind outcome_bind bind_outcome] in H; [| discriminate H].
          destruct (2 <=? Z.of_nat (length (q :: rest))); discriminate H. }
        { destruct (find_queue_family ddrv best VK_QUEUE_GRAPHICS_BIT surface);
            [discriminate Hfam |].
          destruct (find_queue_family ddrv best VK_QUEUE_GRAPHICS_BIT VK_NULL_HANDLE);
            [| discriminate Hfam].
          destruct (find_queue_family ddrv best 0 surface); discriminate Hfam. }
Qed.

End DeviceSetup.


Lemma old_adapter_rejected (dev : Handle) :
  rejected old_device_driver dev 7.
Proof.
  apply (score_device_rejected old_device_driver dev 7); [discriminate |].
  vm_compute. reflexivity.
Qed.

Lemma no_suitable_device_witness :
  ((forall dev, dev ∈ [21] -> rejected old_device_driver dev 7) <->
   select_device old_device_driver 1 7 = Ok VK_NULL_HANDLE) /\
  ((forall dev, dev ∈ [21] -> rejected old_device_driver dev 7) <->
   make_vulkan_window_device old_device_driver sample_logical_driver 0 1 7 =
     Throw (MkError "No suitable physical device found!" None)).
Proof.
  apply (no_suitable_device old_device_driver sample_logical_driver 0 1 7 [21]).
  - discriminate.
  - reflexivity.
  - intros H. apply elem_of_cons in H as [H | H]; [discriminate H | inversion H].
Defined.

Section DeviceSetupSuccess.

Variable ddrv : DeviceDriver.
Variable ldrv : LogicalDeviceDriver.

Lemma family_matches_graphics (dev surf : Handle) (i : Z) (family : VkQueueFamilyProperties) :
  family_matches ddrv dev VK_QUEUE_GRAPHICS_BIT surf i family = true ->
  Z.testbit (queueFlags family) 0 = true.
Proof.
  unfold family_matches. rewrite land_graphics_bit.
  intros H. apply andb_true_iff in H as [H _]. exact H.
Qed.

Lemma family_matches_present (dev surf : Handle) (flags i : Z)
    (family : VkQueueFamilyProperties) :
  surf <> VK_NULL_HANDLE ->
  family_matches ddrv dev flags surf i family = true ->
  vkGetPhysicalDeviceSurfaceSupportKHR ddrv dev i surf = (VK_SUCCESS, true).
Proof.
  intros Hsurf. unfold family_matches.
  destruct (Z.eqb_spec VK_NULL_HANDLE surf) as [E | _]; [congruence |].
  cbn [orb].
  destruct (vkGetPhysicalDeviceSurfaceSupportKHR ddrv dev i surf) as [res supported].
  intros H. apply andb_true_iff in H as [_ H]. apply andb_true_iff in H as [Hres ->].
  apply Z.eqb_eq in Hres. rewrite <- Hres. reflexivity.
Qed.

Lemma family_matches_both (dev surf : Handle) (i : Z) (family : VkQueueFamilyProperties) :
  family_matches ddrv dev VK_QUEUE_GRAPHICS_BIT VK_NULL_HANDLE i family = true ->
  family_matches ddrv dev 0 surf i family = true ->
  family_matches ddrv dev VK_QUEUE_GRAPHICS_BIT surf i family = true.
Proof.
  unfold family_matches. intros Hg Hp.
  apply andb_true_iff in Hg as [Hg _]. apply andb_true_iff in Hp as [_ Hp].
  rewrite Hg, Hp. reflexivity.
Qed.

Lemma create_device_run (dev : Handle) (q : Z) (rest : list Z) (exts : list string) :
  (forall pd info, fst (vkCreateDevice ldrv pd info) = VK_SUCCESS) ->
  exists device, create_device ldrv dev (q :: rest) exts = Ok device.
Proof.
  intros Hcreate. unfold create_device. cbv zeta.
  match goal with
  | |- context [vkCreateDevice ldrv ?pd ?info] =>
      pose proof (Hcreate pd info) as Hres;
      destruct (vkCreateDevice ldrv pd info) as [res device]
  end.
  cbn [fst] in Hres. subst res. exists device. reflexivity.
Qed.

(** What the second half of [make_vulkan_window_device] returns once the
    families are settled. *)
Lemma device_setup_tail (initial instance surface best g p : Z) (indices : list Z) :
  (forall pd info, fst (vkCreateDevice ldrv pd info) = VK_SUCCESS) ->
  (forall device, vkGetDeviceQueue ldrv device g 0 <> VK_NULL_HANDLE) ->
  select_device ddrv instance surface = Ok best ->
  best <> VK_NULL_HANDLE ->
  match find_queue_family ddrv best VK_QUEUE_GRAPHICS_BIT surface with
  | Some index => g = index /\ p = initial /\ indices = [index]
  | None =>
      find_queue_family ddrv best VK_QUEUE_GRAPHICS_BIT VK_NULL_HANDLE = Some g /\
      find_queue_family ddrv best 0 surface = Some p /\ indices = [g; p]
  end ->
  exists device,
    make_vulkan_window_device ddrv ldrv initial instance surface =
      Ok {| ctx_physicalDevice := best;
            ctx_graphicsFamilyIndex := g;
            ctx_presentFamilyIndex := if 2 <=? Z.of_nat (length indices) then p else g;
            ctx_queueFamilyIndices := indices;
            ctx_device := device;
            ctx_graphicsQueue := vkGetDeviceQueue ldrv device g 0;
            ctx_presentQueue :=
              vkGetDeviceQueue ldrv device
                (if 2 <=? Z.of_nat (length indices) then p else g) 0 |}.
Proof.
  intros Hcreate Hqueue Hsel Hbest Hfam.
  unfold make_vulkan_window_device. rewrite Hsel. cbn [mbind outcome_bind bind_outcome].
  destruct (Z.eqb_spec VK_NULL_HANDLE best) as [E | _]; [congruence |].
  assert (Hassert : forall device,
            assert_that (negb (VK_NULL_HANDLE =? vkGetDeviceQueue ldrv device g 0))
              "VK_NULL_HANDLE != ret.graphicsQueue" = Ok tt).
  { intros device. specialize (Hqueue device).
    destruct (Z.eqb_spec VK_NULL_HANDLE (vkGetDeviceQueue ldrv device g 0)) as [E | _];
      [congruence | reflexivity]. }
  destruct (find_queue_family ddrv best VK_QUEUE_GRAPHICS_BIT surface) as [index |].
  - destruct Hfam as (<- & -> & ->).
    destruct (create_device_run best g [] [VK_KHR_SWAPCHAIN_EXTENSION_NAME] Hcreate)
      as [device Hdev].
    exists device. cbn [mbind outcome_bind bind_outcome]. rewrite Hdev.
    cbn [mbind outcome_bind bind_outcome]. rewrite Hassert. reflexivity.
  - destruct Hfam as (Hg & Hp & ->). rewrite Hg, Hp.
    destruct (create_device_run best g [p] [VK_KHR_SWAPCHAIN_EXTENSION_NAME] Hcreate)
      as [device Hdev].
    exists device. cbn [mbind outcome_bind bind_outcome]. rewrite Hdev.
    cbn [mbind outcome_bind bind_outcome]. rewrite Hassert. reflexivity.
Qed.

(** X8: on a machine where some enumerated adapter is accepted, the driver
    creates the logical device and hands out queues, [make_vulkan_window]
    gets through device setup: the assertion "graphics && present" holds,
    queues are requested, the graphics family has the graphics bit and the
    present family can present to the surface.  It uses one family when some
    family does both (then the present queue is the graphics queue), and two
    distinct families otherwise. *)
Theorem device_setup_families (initial instance surface : Handle) (devices : list Handle)
    (good : Handle) :
  surface <> VK_NULL_HANDLE ->
  vkEnumeratePhysicalDevices ddrv instance = (VK_SUCCESS, devices) ->
  VK_NULL_HANDLE ∉ devices ->
  good ∈ devices -> ~ rejected ddrv good surface ->
  (forall pd info, fst (vkCreateDevice ldrv pd info) = VK_SUCCESS) ->
  (forall device family,
     0 <= family -> vkGetDeviceQueue ldrv device family 0 <> VK_NULL_HANDLE) ->
  exists ctx,
    make_vulkan_window_device ddrv ldrv initial instance surface = Ok ctx /\
    ctx_physicalDevice ctx ∈ devices /\
    ~ rejected ddrv (ctx_physicalDevice ctx) surface /\
    is_graphics_family ddrv (ctx_physicalDevice ctx) (ctx_graphicsFamilyIndex ctx) /\
    is_present_family ddrv (ctx_physicalDevice ctx) surface (ctx_presentFamilyIndex ctx) /\
    ctx_graphicsQueue ctx =
      vkGetDeviceQueue ldrv (ctx_device ctx) (ctx_graphicsFamilyIndex ctx) 0 /\
    ctx_presentQueue ctx =
      vkGetDeviceQueue ldrv (ctx_device ctx) (ctx_presentFamilyIndex ctx) 0 /\
    ((ctx_queueFamilyIndices ctx = [ctx_graphicsFamilyIndex ctx] /\
      ctx_presentFamilyIndex ctx = ctx_graphicsFamilyIndex ctx /\
      ctx_presentQueue ctx = ctx_graphicsQueue ctx) \/
     (ctx_queueFamilyIndices ctx = [ctx_graphicsFamilyIndex ctx; ctx_presentFamilyIndex ctx] /\
      ctx_presentFamilyIndex ctx <> ctx_graphicsFamilyIndex ctx /\
      find_queue_family ddrv (ctx_physicalDevice ctx) VK_QUEUE_GRAPHICS_BIT surface = None)).
Proof.
  intros Hsurf Henum Hnull Hin Hgood Hcreate Hqueue.
  destruct (select_device_accepted ddrv instance surface devices good Hsurf Henum Hin Hgood)
    as (best & Hsel & Hbest & Hok & _).
  assert (Hne : best <> VK_NULL_HANDLE) by (intros ->; contradiction).
  destruct (score_device_accepted ddrv best surface Hsurf Hok) as (_ & [p Hp] & [g Hg]).
  pose proof (find_queue_family_spec ddrv best VK_QUEUE_GRAPHICS_BIT surface) as Hboth.
  pose proof (find_queue_family_spec ddrv best VK_QUEUE_GRAPHICS_BIT VK_NULL_HANDLE) as Hgfx.
  pose proof (find_queue_family_spec ddrv best 0 surface) as Hpres.
  cbv zeta in Hboth, Hgfx, Hpres. rewrite Hg in Hgfx. rewrite Hp in Hpres.
  destruct (find_queue_family ddrv best VK_QUEUE_GRAPHICS_BIT surface) as [index |] eqn:Hfind.
  - destruct Hboth as (j & family & Hj & Hlook & Hmatch & _).
    destruct (device_setup_tail initial instance surface best index initial [index]
                Hcreate) as [device Hrun]; [| exact Hsel | exact Hne | |].
    { intros device. apply Hqueue. lia. }
    { rewrite Hfind. repeat split; reflexivity. }
    eexists. split; [exact Hrun |]. cbn.
    split; [exact Hbest |]. split; [exact Hok |].
    split; [exists j, family; split; [exact Hj |]; split; [exact Hlook |];
            apply (family_matches_graphics _ _ _ _ Hmatch) |].
    split; [exists j, family; split; [exact Hj |]; split; [exact Hlook |];
            apply (family_matches_present _ _ _ _ _ Hsurf Hmatch) |].
    split; [reflexivity |]. split; [reflexivity |].
    left. repeat split; reflexivity.
  - destruct Hgfx as (jg & fg & Hjg & Hlookg & Hmatchg & _).
    destruct Hpres as (jp & fp & Hjp & Hlookp & Hmatchp & _).
    destruct (device_setup_tail initial instance surface best g p [g; p]
                Hcreate) as [device Hrun]; [| exact Hsel | exact Hne | |].
    { intros device. apply Hqueue. lia. }
    { rewrite Hfind. repeat split; assumption. }
    eexists. split; [exact Hrun |]. cbn.
    split; [exact Hbest |]. split; [exact Hok |].
    split; [exists jg, fg; split; [exact Hjg |]; split; [exact Hlookg |];
            apply (family_matches_graphics _ _ _ _ Hmatchg) |].
    split; [exists jp, fp; split; [exact Hjp |]; split; [exact Hlookp |];
            apply (family_matches_present _ _ _ _ _ Hsurf Hmatchp) |].
    split; [reflexivity |]. split; [reflexivity |].
    right. split; [reflexivity |]. split; [| exact Hfind].
    intros Heq. change (p = g) in Heq.
    assert (jp = jg) by (apply Nat2Z.inj; congruence). subst jp.
    rewrite Hlookg in Hlookp. injection Hlookp as <-.
    pose proof (Hboth jg fg Hlookg) as Hnone.
    rewrite <- Hjg in Hnone. rewrite Heq in Hmatchp.
    rewrite (family_matches_both _ _ _ _ Hmatchg Hmatchp) in Hnone. discriminate Hnone.
Qed.

End DeviceSetupSuccess.

Lemma split_adapter_accepted :
  ~ rejected split_device_driver 21 7.
Proof.
  intros Hrej.
  apply (score_device_rejected split_device_driver 21 7) in Hrej; [| discriminate].
  vm_compute in Hrej. discriminate Hrej.
Qed.

Lemma device_setup_families_witness :
  exists ctx,
    make_vulkan_window_device split_device_driver sample_logical_driver 0 1 7 = Ok ctx /\
    ctx_physicalDevice ctx ∈ [21] /\
    ~ rejected split_device_driver (ctx_physicalDevice ctx) 7 /\
    is_graphics_family split_device_driver (ctx_physicalDevice ctx)
      (ctx_graphicsFamilyIndex ctx) /\
    is_present_family split_device_driver (ctx_physicalDevice ctx) 7
      (ctx_presentFamilyIndex ctx) /\
    ctx_graphicsQueue ctx =
      vkGetDeviceQueue sample_logical_driver (ctx_device ctx) (ctx_graphicsFamilyIndex ctx) 0 /\
    ctx_presentQueue ctx =
      vkGetDeviceQueue sample_logical_driver (ctx_device ctx) (ctx_presentFamilyIndex ctx) 0 /\
    ((ctx_queueFamilyIndices ctx = [ctx_graphicsFamilyIndex ctx] /\
      ctx_presentFamilyIndex ctx = ctx_graphicsFamilyIndex ctx /\
      ctx_presentQueue ctx = ctx_graphicsQueue ctx) \/
     (ctx_queueFamilyIndices ctx = [ctx_graphicsFamilyIndex ctx; ctx_presentFamilyIndex ctx] /\
      ctx_presentFamilyIndex ctx <> ctx_graphicsFamilyIndex ctx /\
      find_queue_family split_device_driver (ctx_physicalDevice ctx)
        VK_QUEUE_GRAPHICS_BIT 7 = None)).
Proof.
  apply (device_setup_families split_device_driver sample_logical_driver 0 1 7 [21] 21).
  - discriminate.
  - reflexivity.
  - intros H. apply elem_of_cons in H as [H | H]; [discriminate H | inversion H].
  - apply elem_of_cons. left. reflexivity.
  - apply split_adapter_accepted.
  - intros pd info. reflexivity.
  - intros device family Hfamily. cbn. unfold VK_NULL_HANDLE. lia.
Defined.

(** ** vulkan_window.cpp: the swapchain request *)

Section SwapchainRequest.

Variable drv : WindowDriver.

Lemma surface_format_loop_step (fmt : VkSurfaceFormatKHR) (rest : list VkSurfaceFormatKHR)
    (chosen : VkSurfaceFormatKHR) :
  surface_format_loop (fmt :: rest) chosen =
    if is_preferred_format fmt then fmt else surface_format_loop rest chosen.
Proof.
  cbn [surface_format_loop]. unfold is_preferred_format.
  destruct ((VK_FORMAT_R8G8B8A8_SRGB =? format fmt) &&
            (VK_COLOR_SPACE_SRGB_NONLINEAR_KHR =? colorSpace fmt)); [reflexivity |].
  destruct ((VK_FORMAT_B8G8R8A8_SRGB =? format fmt) &&
            (VK_COLOR_SPACE_SRGB_NONLINEAR_KHR =? colorSpace fmt)); reflexivity.
Qed.

Lemma surface_format_loop_first (formats : list VkSurfaceFormatKHR)
    (chosen : VkSurfaceFormatKHR) :
  (surface_format_loop formats chosen = chosen /\
   forall fmt, fmt ∈ formats -> is_preferred_format fmt = false) \/
  (exists before after,
     formats = before ++ surface_format_loop formats chosen :: after /\
     is_preferred_format (surface_format_loop formats chosen) = true /\
     forall fmt, fmt ∈ before -> is_preferred_format fmt = false).
Proof.
  induction formats as [| fmt rest IH].
  - left. split; [reflexivity |]. intros fmt Hin. inversion Hin.
  - rewrite surface_format_loop_step.
    destruct (is_preferred_format fmt) eqn:Hpref.
    + right. exists [], rest. split; [reflexivity |]. split; [exact Hpref |].
      intros f Hin. inversion Hin.
    + destruct IH as [[Heq Hnone] | (before & after & Hsplit & Hchosen & Hbefore)].
      * left. split; [exact Heq |].
        intros f Hin. apply elem_of_cons in Hin as [-> | Hin]; [exact Hpref | auto].
      * right. exists (fmt :: before), after.
        split; [rewrite <- app_comm_cons; f_equal; exact Hsplit |].
        split; [exact Hchosen |].
        intros f Hin. apply elem_of_cons in Hin as [-> | Hin]; [exact Hpref | auto].
Qed.

(** X9: the surface format [create_swapchain] picks from a non-empty list is
    the first entry that is 8-bit RGBA or BGRA sRGB in the sRGB non-linear
    colour space, if there is one, and the first entry of the list
    otherwise; it is always an entry of the list. *)
Theorem surface_format_choice (first : VkSurfaceFormatKHR) (rest : list VkSurfaceFormatKHR) :
  let formats := first :: rest in
  let chosen := surface_format_loop formats first in
  chosen ∈ formats /\
  ((forall fmt, fmt ∈ formats -> is_preferred_format fmt = false) -> chosen = first) /\
  (forall fmt, fmt ∈ formats -> is_preferred_format fmt = true ->
     exists before after,
       formats = before ++ chosen :: after /\
       is_preferred_format chosen = true /\
       (format chosen = VK_FORMAT_R8G8B8A8_SRGB \/ format chosen = VK_FORMAT_B8G8R8A8_SRGB) /\
       colorSpace chosen = VK_COLOR_SPACE_SRGB_NONLINEAR_KHR /\
       forall f, f ∈ before -> is_preferred_format f = false).
Proof.
  cbv zeta.
  destruct (surface_format_loop_first (first :: rest) first)
    as [[Heq Hnone] | (before & after & Hsplit & Hchosen & Hbefore)].
  - rewrite Heq. split; [apply elem_of_cons; left; reflexivity |].
    split; [reflexivity |].
    intros fmt Hin Hpref. rewrite (Hnone fmt Hin) in Hpref. discriminate Hpref.
  - set (chosen := surface_format_loop (first :: rest) first) in *.
    assert (Hin : chosen ∈ first :: rest).
    { rewrite Hsplit. apply elem_of_app. right. apply elem_of_cons. left. reflexivity. }
    split; [exact Hin |]. split.
    + intros Hnone. rewrite (Hnone chosen Hin) in Hchosen. discriminate Hchosen.
    + intros fmt _ _. exists before, after.
      split; [exact Hsplit |]. split; [exact Hchosen |].
      unfold is_preferred_format in Hchosen.
      apply orb_true_iff in Hchosen as [H | H];
        apply andb_true_iff in H as [Hf Hc]; apply Z.eqb_eq in Hf, Hc.
      * split; [left; symmetry; exact Hf |]. split; [symmetry; exact Hc | exact Hbefore].
      * split; [right; symmetry; exact Hf |]. split; [symmetry; exact Hc | exact Hbefore].
Qed.

Lemma present_mode_listed (pd surf : Handle) :
  VK_PRESENT_MODE_FIFO_RELAXED_KHR ∈ get_present_modes drv pd surf <->
  fst (vkGetPhysicalDeviceSurfacePresentModesKHR drv pd surf) = VK_SUCCESS /\
  VK_PRESENT_MODE_FIFO_RELAXED_KHR ∈ snd (vkGetPhysicalDeviceSurfacePresentModesKHR drv pd surf).
Proof.
  unfold get_present_modes.
  destruct (vkGetPhysicalDeviceSurfacePresentModesKHR drv pd surf) as [res modes].
  cbn [fst snd].
  destruct (Z.eqb_spec VK_SUCCESS res) as [<- | Hres].
  - rewrite elem_of_list_to_set. split; [intros H; split; [reflexivity | exact H] | intros [_ H]; exact H].
  - split; [intros H; apply elem_of_empty in H; contradiction | intros [E _]; congruence].
Qed.

(** X10: when the surface has a format and its capabilities can be read,
    [create_swapchain] sends exactly one creation request.  The request is
    for the given surface and old chain, one array layer, clipping on and the
    surface's current transform; its present mode is FIFO_RELAXED when the
    mode query succeeded and lists it and FIFO in every other case, never
    MAILBOX or IMMEDIATE; and the images are shared concurrently between the
    given queue families when there are two or more of them and are
    exclusive, with no family listed, otherwise. *)
Theorem create_swapchain_request (pd surf dev win : Handle) (qfi : list Z) (old : Handle)
    (w : World) (first : VkSurfaceFormatKHR) (rest : list VkSurfaceFormatKHR)
    (caps : VkSurfaceCapabilitiesKHR) :
  get_surface_formats drv pd surf = first :: rest ->
  vkGetPhysicalDeviceSurfaceCapabilitiesKHR drv pd surf = (VK_SUCCESS, caps) ->
  exists info res chain,
    vkCreateSwapchainKHR drv dev info = (res, chain) /\
    w_log (snd (create_swapchain drv pd surf dev win qfi old w)) =
      w_log w ++ [EvCreateSwapchain info res chain] /\
    chain_surface info = surf /\ chain_oldSwapchain info = old /\
    chain_imageArrayLayers info = 1 /\ chain_clipped info = true /\
    chain_preTransform info = currentTransform caps /\
    chain_imageFormat info = format (surface_format_loop (first :: rest) first) /\
    chain_imageColorSpace info = colorSpace (surface_format_loop (first :: rest) first) /\
    (chain_presentMode info = VK_PRESENT_MODE_FIFO_RELAXED_KHR \/
     chain_presentMode info = VK_PRESENT_MODE_FIFO_KHR) /\
    (chain_presentMode info = VK_PRESENT_MODE_FIFO_RELAXED_KHR <->
     fst (vkGetPhysicalDeviceSurfacePresentModesKHR drv pd surf) = VK_SUCCESS /\
     VK_PRESENT_MODE_FIFO_RELAXED_KHR ∈
       snd (vkGetPhysicalDeviceSurfacePresentModesKHR drv pd surf)) /\
    ((length qfi <= 1)%nat ->
     chain_imageSharingMode info = VK_SHARING_MODE_EXCLUSIVE /\
     chain_queueFamilyIndices info = []) /\
    ((2 <= length qfi)%nat ->
     chain_imageSharingMode info = VK_SHARING_MODE_CONCURRENT /\
     chain_queueFamilyIndices info = qfi).
Proof.
  intros Hfmt Hcaps.
  unfold create_swapchain. rewrite Hfmt, Hcaps.
  match goal with
  | |- context [vkCreateSwapchainKHR drv dev ?i] =>
      set (info := i); destruct (vkCreateSwapchainKHR drv dev info) as [res chain] eqn:Hcreate
  end.
  exists info, res, chain.
  split; [exact Hcreate |].
  split.
  { unfold act_bind, act_check, emit, act_ret, check. cbn [VK_SUCCESS Z.eqb].
    destruct (res =? VK_SUCCESS); reflexivity. }
  subst info.
  cbn [chain_surface chain_oldSwapchain chain_imageArrayLayers chain_clipped chain_preTransform
       chain_imageFormat chain_imageColorSpace chain_presentMode chain_imageSharingMode
       chain_queueFamilyIndices].
  do 7 (split; [reflexivity |]).
  pose proof (present_mode_listed pd surf) as Hmode.
  destruct (bool_decide_reflect
              (VK_PRESENT_MODE_FIFO_RELAXED_KHR ∈ get_present_modes drv pd surf)) as [Hin | Hout].
  - split; [left; reflexivity |]. split.
    + split; [intros _; apply Hmode; exact Hin | reflexivity].
    + split; intros Hlen.
      * destruct (Z.leb_spec (Z.of_nat (length qfi)) 1); [split; reflexivity | lia].
      * destruct (Z.leb_spec (Z.of_nat (length qfi)) 1); [lia | split; reflexivity].
  - split; [right; reflexivity |]. split.
    + split; [intros H; discriminate H | intros H; exfalso; apply Hout, Hmode, H].
    + split; intros Hlen.
      * destruct (Z.leb_spec (Z.of_nat (length qfi)) 1); [split; reflexivity | lia].
      * destruct (Z.leb_spec (Z.of_nat (length qfi)) 1); [lia | split; reflexivity].
Qed.

End SwapchainRequest.

Section SwapchainFailures.

Variable drv : WindowDriver.

(** X11: on a surface that reports at least one format, [create_swapchain]
    fails only by throwing an error that carries the driver's result code.
    When the capabilities query fails it throws "Unable to get surface
    capabilities" and no creation request reaches the driver; when the query
    succeeds it sends exactly one request and throws "Unable to create swap
    chain" exactly when the driver refuses it.  It returns exactly when both
    calls succeed, and whether it returns or throws it leaves the window as
    it was. *)
Theorem create_swapchain_failures (pd surf dev win : Handle) (qfi : list Z)
    (old : Handle) (w : World) (first : VkSurfaceFormatKHR)
    (rest : list VkSurfaceFormatKHR) :
  get_surface_formats drv pd surf = first :: rest ->
  let r := create_swapchain drv pd surf dev win qfi old w in
  let capsRes := fst (vkGetPhysicalDeviceSurfaceCapabilitiesKHR drv pd surf) in
  w_window (snd r) = w_window w /\
  (capsRes <> VK_SUCCESS ->
   r = (Throw (MkError "Unable to get surface capabilities" (Some capsRes)), w)) /\
  (capsRes = VK_SUCCESS ->
   exists info res chain,
     vkCreateSwapchainKHR drv dev info = (res, chain) /\
     w_log (snd r) = w_log w ++ [EvCreateSwapchain info res chain] /\
     (res <> VK_SUCCESS ->
      fst r = Throw (MkError "Unable to create swap chain" (Some res))) /\
     (res = VK_SUCCESS ->
      fst r = Ok (chain, chain_imageFormat info, chain_imageExtent info))) /\
  ((exists created, fst r = Ok created) <->
   capsRes = VK_SUCCESS /\
   exists info, w_log (snd r) = w_log w ++ [EvCreateSwapchain info VK_SUCCESS
                                              (snd (vkCreateSwapchainKHR drv dev info))]) /\
  (forall text, fst r <> AssertFailed text).
Proof.
  intros Hfmt. cbv zeta.
  unfold create_swapchain. rewrite Hfmt.
  destruct (vkGetPhysicalDeviceSurfaceCapabilitiesKHR drv pd surf) as [cres caps].
  cbn [fst].
  match goal with
  | |- context [vkCreateSwapchainKHR drv dev ?i] =>
      set (info := i); destruct (vkCreateSwapchainKHR drv dev info) as [res chain] eqn:Hdrv
  end.
  unfold act_bind, act_check, check, emit, act_ret, throw_result.
  destruct (Z.eqb_spec cres VK_SUCCESS) as [Hc | Hc]; cbn [fst snd w_window w_log].
  - destruct (Z.eqb_spec res VK_SUCCESS) as [Hr | Hr]; cbn [fst snd w_window w_log].
    + split; [reflexivity |]. split; [intros H; contradiction |].
      split.
      { intros _. exists info, res, chain.
        split; [exact Hdrv |]. split; [reflexivity |].
        split; [intros H; contradiction | intros _; reflexivity]. }
      split.
      { split.
        - intros _. split; [exact Hc |]. exists info. rewrite Hdrv, Hr. reflexivity.
        - intros _. eexists. reflexivity. }
      intros text H. discriminate H.
    + split; [reflexivity |]. split; [intros H; contradiction |].
      split.
      { intros _. exists info, res, chain.
        split; [exact Hdrv |]. split; [reflexivity |].
        split; [intros _; reflexivity | intros H; contradiction]. }
      split.
      { split.
        - intros [created H]. discriminate H.
        - intros [_ [info' H]]. exfalso.
          apply app_inv_head in H. injection H as _ H _. contradiction. }
      intros text H. discriminate H.
  - split; [reflexivity |]. split; [intros _; reflexivity |].
    split; [intros H; contradiction |].
    split.
    { split.
      - intros [created H]. discriminate H.
      - intros [H _]. contradiction. }
    intros text H. discriminate H.
Qed.

(** The view loop up to an image whose view the driver refuses. *)
Lemma image_views_loop_partial (dev : Handle) (fmt : VkFormat) (before : list Handle)
    (bad : Handle) (after : list Handle) (w : World) :
  (forall image, image ∈ before ->
     fst (vkCreateImageView drv dev (swapchain_view_info fmt image)) = VK_SUCCESS) ->
  fst (vkCreateImageView drv dev (swapchain_view_info fmt bad)) <> VK_SUCCESS ->
  image_views_loop drv dev fmt (before ++ bad :: after) w =
    (Throw (MkError "Unable to create image view for swap chain image"
              (Some (fst (vkCreateImageView drv dev (swapchain_view_info fmt bad))))),
     {| w_window :=
          with_views (w_window w) (swapViews (w_window w) ++ map (view_of drv dev fmt) before);
        w_log :=
          w_log w ++
          map (fun image => EvCreateImageView (swapchain_view_info fmt image) VK_SUCCESS
                              (view_of drv dev fmt image)) before ++
          [EvCreateImageView (swapchain_view_info fmt bad)
             (fst (vkCreateImageView drv dev (swapchain_view_info fmt bad)))
             (snd (vkCreateImageView drv dev (swapchain_view_info fmt bad)))] |}).
Proof.
  intros Hbefore Hbad. revert w.
  induction before as [| image rest IH]; intros w.
  - cbn [app map]. rewrite image_views_loop_step. cbv zeta.
    destruct (Z.eqb_spec (fst (vkCreateImageView drv dev (swapchain_view_info fmt bad)))
                VK_SUCCESS) as [E | _]; [congruence |].
    unfold throw_result. rewrite app_nil_r.
    destruct w as [win log]. destruct win. reflexivity.
  - cbn [app map]. rewrite image_views_loop_step. cbv zeta.
    rewrite (Hbefore image) by (apply elem_of_cons; left; reflexivity).
    cbn [Z.eqb VK_SUCCESS].
    rewrite IH by (intros i Hi; apply Hbefore; apply elem_of_cons; right; exact Hi).
    cbn [w_window w_log with_views swapViews].
    unfold view_of at 3 5.
    rewrite <- !app_assoc. reflexivity.
Qed.

(** X12: when the driver refuses the view of one swapchain image,
    [create_swapchain_image_views] throws with the driver's result code, asks
    for no view of a later image, and leaves in [aViews] the views of the
    images before it, none of which it destroys. *)
Theorem create_swapchain_image_views_partial (dev : Handle) (fmt : VkFormat)
    (before : list Handle) (bad : Handle) (after : list Handle) (w : World) :
  swapViews (w_window w) = [] ->
  (forall image, image ∈ before ->
     fst (vkCreateImageView drv dev (swapchain_view_info fmt image)) = VK_SUCCESS) ->
  fst (vkCreateImageView drv dev (swapchain_view_info fmt bad)) <> VK_SUCCESS ->
  let r := create_swapchain_image_views drv dev fmt (before ++ bad :: after) w in
  let refused := vkCreateImageView drv dev (swapchain_view_info fmt bad) in
  fst r = Throw (MkError "Unable to create image view for swap chain image"
                   (Some (fst refused))) /\
  swapViews (w_window (snd r)) = map (view_of drv dev fmt) before /\
  length (swapViews (w_window (snd r))) = length before /\
  swapImages (w_window (snd r)) = swapImages (w_window w) /\
  w_log (snd r) =
    w_log w ++
    map (fun image => EvCreateImageView (swapchain_view_info fmt image) VK_SUCCESS
                        (view_of drv dev fmt image)) before ++
    [EvCreateImageView (swapchain_view_info fmt bad) (fst refused) (snd refused)].
Proof.
  intros Hempty Hbefore Hbad. cbv zeta.
  rewrite create_swapchain_image_views_eq, Hempty. cbn [length Z.of_nat Z.eqb].
  rewrite (image_views_loop_partial dev fmt before bad after w Hbefore Hbad).
  cbn [fst snd w_window w_log with_views swapViews swapImages].
  rewrite Hempty. cbn [app].
  split; [reflexivity |]. split; [reflexivity |]. split; [apply length_map |].
  split; reflexivity.
Qed.

Lemma get_swapchain_images_failed (dev chain : Handle) (w : World) :
  swapImages (w_window w) = [] ->
  fst (vkGetSwapchainImagesKHR drv dev chain) <> VK_SUCCESS ->
  get_swapchain_images drv dev chain w = (Ok tt, w).
Proof.
  intros Hempty Hq.
  unfold get_swapchain_images, act_bind, get_window, act_assert, act_ret.
  rewrite Hempty. cbn [length Z.of_nat Z.eqb].
  destruct (vkGetSwapchainImagesKHR drv dev chain) as [res images].
  cbn [fst] in Hq.
  destruct (Z.eqb_spec VK_SUCCESS res) as [E | _]; [congruence | reflexivity].
Qed.

(** X13: when the new chain was created but the driver fails the query for
    its images, [recreate_swapchain] does not fail: it returns its report of
    what changed, with the old chain destroyed, the new chain in the window,
    and no swapchain image and no view at all. *)
Theorem recreate_swapchain_without_images (w : World) (chain : Handle) (fmt : VkFormat)
    (ext : VkExtent2D) :
  fst (creation_attempt drv w) = Ok (chain, fmt, ext) ->
  fst (vkGetSwapchainImagesKHR drv (device (w_window w)) chain) <> VK_SUCCESS ->
  let win := w_window w in
  let r := recreate_swapchain drv w in
  fst r = Ok {| changedSize :=
                  negb (width (swapchainExtent win) =? width ext) ||
                  negb (height (swapchainExtent win) =? height ext);
                changedFormat := negb (swapchainFormat win =? fmt) |} /\
  swapchain (w_window (snd r)) = chain /\
  swapImages (w_window (snd r)) = [] /\
  swapViews (w_window (snd r)) = [] /\
  w_log (snd r) =
    w_log (snd (creation_attempt drv w)) ++ [EvDestroySwapchain (device win) (swapchain win)].
Proof.
  intros Hok Himages. cbv zeta.
  rewrite (recreate_swapchain_success drv w chain fmt ext Hok). cbv zeta.
  rewrite get_swapchain_images_failed by (try reflexivity; exact Himages).
  rewrite create_swapchain_image_views_eq.
  unfold views_destroyed, swap_changes, act_ret, assert_that.
  cbn -[creation_attempt Z.eqb negb orb].
  change (Z.of_nat 0) with 0. cbn [Z.eqb fst snd w_window w_log swapchain swapImages swapViews
                                   with_swapchain swapchainExtent swapchainFormat].
  split; [| repeat split; reflexivity].
  destruct (negb (width (swapchainExtent (w_window w)) =? width ext) ||
            negb (height (swapchainExtent (w_window w)) =? height ext));
    destruct (negb (swapchainFormat (w_window w) =? fmt)); reflexivity.
Qed.

End SwapchainFailures.

Lemma create_swapchain_failures_witness :
  let r := create_swapchain (sample_window_driver VK_ERROR_DEVICE_LOST) 1 7 2 3 [] 100
             sample_world in
  fst r = Throw (MkError "Unable to create swap chain" (Some VK_ERROR_DEVICE_LOST)) /\
  w_window (snd r) = sample_window /\
  exists info, w_log (snd r) = [EvCreateSwapchain info VK_ERROR_DEVICE_LOST VK_NULL_HANDLE].
Proof.
  cbv zeta.
  destruct (create_swapchain_failures (sample_window_driver VK_ERROR_DEVICE_LOST)
              1 7 2 3 [] 100 sample_world
              {| format := VK_FORMAT_B8G8R8A8_UNORM; colorSpace := 0 |}
              [ {| format := VK_FORMAT_B8G8R8A8_SRGB; colorSpace := 0 |} ] eq_refl)
    as (Hwin & _ & Hsent & _).
  destruct (Hsent eq_refl) as (info & res & chain & Hdrv & Hlog & Hthrow & _).
  injection Hdrv as <- <-.
  split; [apply Hthrow; discriminate |].
  split; [exact Hwin |].
  exists info. exact Hlog.
Defined.

Lemma create_swapchain_request_witness :
  exists info res chain,
    vkCreateSwapchainKHR steady_window_driver 2 info = (res, chain) /\
    w_log (snd (create_swapchain steady_window_driver 1 7 2 3 [0; 1] 100 sample_world)) =
      w_log sample_world ++ [EvCreateSwapchain info res chain] /\
    chain_surface info = 7 /\ chain_oldSwapchain info = 100 /\
    chain_imageArrayLayers info = 1 /\ chain_clipped info = true /\
    chain_preTransform info = 1 /\
    chain_imageFormat info = VK_FORMAT_B8G8R8A8_SRGB /\
    chain_imageColorSpace info = 0 /\
    (chain_presentMode info = VK_PRESENT_MODE_FIFO_RELAXED_KHR \/
     chain_presentMode info = VK_PRESENT_MODE_FIFO_KHR) /\
    (chain_presentMode info = VK_PRESENT_MODE_FIFO_RELAXED_KHR <->
     fst (vkGetPhysicalDeviceSurfacePresentModesKHR steady_window_driver 1 7) = VK_SUCCESS /\
     VK_PRESENT_MODE_FIFO_RELAXED_KHR ∈
       snd (vkGetPhysicalDeviceSurfacePresentModesKHR steady_window_driver 1 7)) /\
    ((length [0; 1] <= 1)%nat ->
     chain_imageSharingMode info = VK_SHARING_MODE_EXCLUSIVE /\
     chain_queueFamilyIndices info = []) /\
    ((2 <= length [0; 1])%nat ->
     chain_imageSharingMode info = VK_SHARING_MODE_CONCURRENT /\
     chain_queueFamilyIndices info = [0; 1]).
Proof.
  apply (create_swapchain_request steady_window_driver 1 7 2 3 [0; 1] 100 sample_world
           {| format := VK_FORMAT_B8G8R8A8_SRGB; colorSpace := 0 |} []
           (snd (vkGetPhysicalDeviceSurfaceCapabilitiesKHR steady_window_driver 1 7))).
  - reflexivity.
  - reflexivity.
Defined.

Lemma create_swapchain_image_views_partial_witness :
  let drv := faulty_window_driver VK_SUCCESS 203 in
  let w := {| w_window := with_images (with_views sample_window []) [201; 202; 203];
              w_log := [] |} in
  let r := create_swapchain_image_views drv 2 VK_FORMAT_B8G8R8A8_SRGB ([201; 202] ++ 203 :: []) w in
  fst r = Throw (MkError "Unable to create image view for swap chain image"
                   (Some VK_ERROR_DEVICE_LOST)) /\
  swapViews (w_window (snd r)) = [301; 302] /\
  length (swapViews (w_window (snd r))) = 2%nat /\
  swapImages (w_window (snd r)) = [201; 202; 203] /\
  w_log (snd r) =
    [] ++
    map (fun image => EvCreateImageView (swapchain_view_info VK_FORMAT_B8G8R8A8_SRGB image)
                        VK_SUCCESS (view_of drv 2 VK_FORMAT_B8G8R8A8_SRGB image)) [201; 202] ++
    [EvCreateImageView (swapchain_view_info VK_FORMAT_B8G8R8A8_SRGB 203)
       VK_ERROR_DEVICE_LOST VK_NULL_HANDLE].
Proof.
  cbv zeta.
  apply (create_swapchain_image_views_partial (faulty_window_driver VK_SUCCESS 203) 2
           VK_FORMAT_B8G8R8A8_SRGB [201; 202] 203 []
           {| w_window := with_images (with_views sample_window []) [201; 202; 203];
              w_log := [] |}).
  - reflexivity.
  - intros image Hin.
    apply elem_of_cons in Hin as [-> | Hin]; [reflexivity |].
    apply elem_of_cons in Hin as [-> | Hin]; [reflexivity | inversion Hin].
  - discriminate.
Defined.

Lemma recreate_swapchain_without_images_witness :
  let drv := faulty_window_driver VK_ERROR_DEVICE_LOST 0 in
  let r := recreate_swapchain drv sample_world in
  fst r = Ok {| changedSize := false; changedFormat := false |} /\
  swapchain (w_window (snd r)) = 101 /\
  swapImages (w_window (snd r)) = [] /\
  swapViews (w_window (snd r)) = [] /\
  w_log (snd r) =
    w_log (snd (creation_attempt drv sample_world)) ++ [EvDestroySwapchain 2 100].
Proof.
  cbv zeta.
  apply (recreate_swapchain_without_images (faulty_window_driver VK_ERROR_DEVICE_LOST 0)
           sample_world 101 VK_FORMAT_B8G8R8A8_SRGB {| width := 800; height := 600 |}).
  - reflexivity.
  - discriminate.
Defined.

(** ** main.cpp: the render loop over several passes *)

Section RenderLoop.

Lemma stale_not_success (res : VkResult) : is_stale res -> res <> VK_SUCCESS.
Proof. intros [-> | ->]; discriminate. Qed.

(** The body of the loop when the recreation flag is set. *)
Lemma render_loop_body_rebuild (drv : FrameDriver) :
  render_loop_body drv true = rebuild drv ≫= fun _ => Ok (false, FrameRecreated).
Proof. reflexivity. Qed.

(** The body of the loop from the acquisition on, when the calls between
    acquisition and presentation succeed. *)
Lemma render_loop_body_frame (drv : FrameDriver) :
  frame_work_succeeds drv ->
  render_loop_body drv false =
    if (VK_SUBOPTIMAL_KHR =? fst (vkAcquireNextImageKHR drv)) ||
       (VK_ERROR_OUT_OF_DATE_KHR =? fst (vkAcquireNextImageKHR drv))
    then Ok (true, FrameAbandoned)
    else if negb (VK_SUCCESS =? fst (vkAcquireNextImageKHR drv))
    then throw_result "Unable to acquire next swapchain image" (fst (vkAcquireNextImageKHR drv))
    else present_results (vkQueuePresentKHR drv) false ≫= fun recreate =>
         Ok (recreate, FramePresented).
Proof.
  unfold frame_work_succeeds, render_loop_body. cbv zeta.
  destruct (vkAcquireNextImageKHR drv) as [acquireRes imageIndex]. cbn [fst snd].
  intros (I1 & I2 & I3 & I4 & C1 & C2 & C3 & C4 & C5 & C6 & C7 & C8 & C9 & C10 & C11).
  destruct ((VK_SUBOPTIMAL_KHR =? acquireRes) || (VK_ERROR_OUT_OF_DATE_KHR =? acquireRes));
    [reflexivity |].
  destruct (negb (VK_SUCCESS =? acquireRes)); [reflexivity |].
  apply Z.ltb_lt in I1, I2, I3, I4.
  rewrite I1, I2, I3, I4, C1, C2, C3, C4, C5, C6, C7, C8, C9, C10, C11.
  destruct (present_results (vkQueuePresentKHR drv) false); reflexivity.
Qed.

(** A pass that returns rebuilt the swapchain exactly when the flag was set
    on entry, and leaves the flag set exactly when it found the swapchain
    stale. *)
Lemma render_loop_body_flag (pass : Pass) (flag flag' : bool) (how : FrameEnd) :
  render_loop_body (frame pass) flag = Ok (flag', how) ->
  (how = FrameRecreated <-> flag = true) /\
  (flag' = true <-> pass_found_stale pass how).
Proof.
  unfold pass_found_stale. destruct flag.
  - rewrite render_loop_body_rebuild. intros H.
    apply bind_Ok in H as (? & _ & H). injection H as <- <-.
    split; [split; reflexivity |].
    split; [discriminate |]. intros [H | [H _]]; discriminate H.
  - unfold render_loop_body.
    destruct (vkAcquireNextImageKHR (frame pass)) as [acquireRes imageIndex].
    destruct ((VK_SUBOPTIMAL_KHR =? acquireRes) || (VK_ERROR_OUT_OF_DATE_KHR =? acquireRes)).
    { intros H. injection H as <- <-.
      split; [split; discriminate |]. split; [left; reflexivity | reflexivity]. }
    destruct (negb (VK_SUCCESS =? acquireRes)); [discriminate |].
    intros H.
    do 14 (apply bind_Ok in H; destruct H as (? & _ & H)).
    apply bind_Ok in H. destruct H as (recreate & Hpres & H).
    apply bind_Ok in H. destruct H as (? & _ & H).
    injection H as <- <-.
    split; [split; discriminate |].
    split.
    + intros ->. right. split; [reflexivity |].
      apply present_results_sets_flag. exact Hpres.
    + intros [H | [_ Hs]]; [discriminate H |].
      destruct (present_results_cases (vkQueuePresentKHR (frame pass)) false) as (P1 & _ & _).
      rewrite (P1 Hs) in Hpres. injection Hpres as <-. reflexivity.
Qed.

Lemma render_loop_body_goes_through (pass : Pass) (flag : bool) :
  pass_goes_through pass ->
  exists r, render_loop_body (frame pass) flag = Ok r.
Proof.
  intros (Hrebuild & Hacq & Hpres & Hwork). destruct flag.
  - rewrite render_loop_body_rebuild, Hrebuild. eexists. reflexivity.
  - rewrite (render_loop_body_frame _ Hwork).
    pose proof (is_stale_test (fst (vkAcquireNextImageKHR (frame pass)))) as Hstale.
    destruct ((VK_SUBOPTIMAL_KHR =? fst (vkAcquireNextImageKHR (frame pass))) ||
              (VK_ERROR_OUT_OF_DATE_KHR =? fst (vkAcquireNextImageKHR (frame pass)))).
    { eexists. reflexivity. }
    destruct Hacq as [Hacq | Hacq]; [| apply Hstale in Hacq; discriminate Hacq].
    rewrite Hacq. cbn [VK_SUCCESS Z.eqb negb].
    destruct (present_results_cases (vkQueuePresentKHR (frame pass)) false) as (P1 & P2 & _).
    destruct Hpres as [Hp | Hp].
    + rewrite (P2 Hp). eexists. reflexivity.
    + rewrite (P1 Hp). eexists. reflexivity.
Qed.

Lemma main_loop_step (pass : Pass) (rest : list Pass) (st : InputState) (flag : bool)
    (ends : list FrameEnd) :
  main_loop (pass :: rest) st flag ends =
    if windowShouldClose st
    then Ok {| loop_exit := WindowClosed; loop_input := st;
               loop_recreateSwapchain := flag; loop_ends := ends |}
    else
      match render_loop_body (frame pass) flag with
      | Ok r => main_loop rest (glfwPollEvents (polled pass) st) (fst r) (ends ++ [snd r])
      | Throw e => Throw e
      | AssertFailed c => AssertFailed c
      end.
Proof.
  cbn [main_loop]. destruct (windowShouldClose st); [reflexivity |].
  destruct (render_loop_body (frame pass) flag); reflexivity.
Qed.

Lemma main_loop_nil (st : InputState) (flag : bool) (ends : list FrameEnd) :
  main_loop [] st flag ends =
    Ok {| loop_exit := if windowShouldClose st then WindowClosed else ScriptEnded;
          loop_input := st; loop_recreateSwapchain := flag; loop_ends := ends |}.
Proof. cbn [main_loop]. destruct (windowShouldClose st); reflexivity. Qed.

(** The ends of the passes a run of the loop adds to [ends]. *)
Lemma main_loop_trace (passes : list Pass) (st : InputState) (flag : bool)
    (ends : list FrameEnd) (r : LoopResult) :
  main_loop passes st flag ends = Ok r ->
  exists news,
    loop_ends r = ends ++ news /\
    (length news <= length passes)%nat /\
    (forall how, news !! 0%nat = Some how -> (how = FrameRecreated <-> flag = true)) /\
    (forall (i : nat) pass how next,
       passes !! i = Some pass -> news !! i = Some how -> news !! S i = Some next ->
       (next = FrameRecreated <-> pass_found_stale pass how)).
Proof.
  revert st flag ends.
  induction passes as [| pass rest IH]; intros st flag ends Hrun.
  - rewrite main_loop_nil in Hrun. injection Hrun as <-. cbn [loop_ends].
    exists []. rewrite app_nil_r. split; [reflexivity |]. split; [reflexivity |].
    split; [intros how H; discriminate H | intros i p how next H; discriminate H].
  - rewrite main_loop_step in Hrun.
    destruct (windowShouldClose st).
    { injection Hrun as <-. cbn [loop_ends].
      exists []. rewrite app_nil_r. split; [reflexivity |]. split; [cbn; lia |].
      split; [intros how H; discriminate H | intros i p how next _ H; discriminate H]. }
    destruct (render_loop_body (frame pass) flag) as [[flag' how] | e | c] eqn:Hbody;
      try discriminate Hrun.
    cbn [fst snd] in Hrun.
    destruct (render_loop_body_flag pass flag flag' how Hbody) as [Hrec Hstale].
    destruct (IH _ _ _ Hrun) as (news & Hends & Hlen & Hfirst & Hnext).
    exists (how :: news).
    split; [rewrite Hends, <- app_assoc; reflexivity |].
    split; [cbn [length]; lia |].
    split.
    + intros how0 H. cbn in H. injection H as <-. exact Hrec.
    + intros [| i] p h next Hp Hh Hn.
      * cbn in Hp, Hh, Hn. injection Hp as <-. injection Hh as <-.
        rewrite (Hfirst next Hn). exact Hstale.
      * cbn in Hp, Hh, Hn. apply (Hnext i p h next Hp Hh Hn).
Qed.

Lemma main_loop_goes_through (passes : list Pass) (st : InputState) (flag : bool)
    (ends : list FrameEnd) :
  Forall pass_goes_through passes ->
  exists r, main_loop passes st flag ends = Ok r.
Proof.
  intros Hall. revert st flag ends.
  induction Hall as [| pass rest Hpass _ IH]; intros st flag ends.
  - rewrite main_loop_nil. eexists. reflexivity.
  - rewrite main_loop_step.
    destruct (windowShouldClose st); [eexists; reflexivity |].
    destruct (render_loop_body_goes_through pass flag Hpass) as [r Hr].
    rewrite Hr. apply IH.
Qed.


End RenderLoop.

Lemma frame_driver_goes_through (events : list InputEvent) (acquireRes presentRes : VkResult) :
  acquireRes = VK_SUCCESS \/ is_stale acquireRes ->
  presentRes = VK_SUCCESS \/ is_stale presentRes ->
  pass_goes_through {| polled := events; frame := frame_driver acquireRes presentRes |}.
Proof.
  intros Hacq Hpres. unfold pass_goes_through, frame_work_succeeds. cbn.
  split; [reflexivity |]. split; [exact Hacq |]. split; [exact Hpres |].
  repeat split; reflexivity.
Qed.

Lemma sample_passes_go_through : Forall pass_goes_through sample_passes.
Proof.
  unfold sample_passes.
  repeat (apply Forall_cons; split;
          [apply frame_driver_goes_through;
           first [left; reflexivity | right; left; reflexivity | right; right; reflexivity] |]).
  apply Forall_nil. reflexivity.
Qed.


Example main_loop_sample :
  (main_loop sample_passes initial_input false [] ≫= fun r => Ok (loop_exit r, loop_ends r)) =
    Ok (WindowClosed,
        [FramePresented; FramePresented; FrameRecreated; FrameAbandoned; FrameRecreated]).
Proof. vm_compute. reflexivity. Qed.

(** ** main.cpp: input events *)

Section Input.

Lemma set_input_close (s : EInputState) (value : bool) (st : InputState) :
  windowShouldClose (set_input s value st) = windowShouldClose st /\
  cursorMode (set_input s value st) = cursorMode st /\
  length (inputMap (set_input s value st)) = length (inputMap st).
Proof.
  unfold set_input. cbn. rewrite length_insert. repeat split; reflexivity.
Qed.

Lemma set_input_other (s : EInputState) (value : bool) (st : InputState) (i : nat) :
  i <> input_index s -> inputMap (set_input s value st) !! i = inputMap st !! i.
Proof.
  intros Hne. unfold set_input. cbn [inputMap].
  apply list_lookup_insert_ne. congruence.
Qed.

(** What a key event leaves alone, and what it does to the close flag. *)
Lemma key_press_frame (key action : Z) (st : InputState) :
  let st' := glfw_callback_key_press key action st in
  windowShouldClose st' =
    windowShouldClose st || ((GLFW_KEY_ESCAPE =? key) && (GLFW_PRESS =? action)) /\
  cursorMode st' = cursorMode st /\
  length (inputMap st') = length (inputMap st) /\
  inputMap st' !! input_index mousing = inputMap st !! input_index mousing.
Proof.
  cbv zeta. unfold glfw_callback_key_press. cbv zeta.
  destruct ((GLFW_KEY_ESCAPE =? key) && (GLFW_PRESS =? action));
    repeat match goal with
           | |- context [if ?c then _ else _] => destruct c
           end;
    rewrite ?orb_true_r, ?orb_false_r;
    repeat split;
    first [ reflexivity
          | apply set_input_close
          | apply set_input_other; discriminate
          | rewrite set_input_other by discriminate; reflexivity
          | cbn; rewrite length_insert; reflexivity ].
Qed.

Lemma button_frame (button action : Z) (st : InputState) :
  let st' := glfw_callback_button button action st in
  windowShouldClose st' = windowShouldClose st /\
  (cursor_follows_mousing st -> cursor_follows_mousing st').
Proof.
  cbv zeta. unfold glfw_callback_button.
  destruct ((GLFW_MOUSE_BUTTON_RIGHT =? button) && (GLFW_PRESS =? action));
    [| split; [reflexivity | tauto]].
  cbv zeta. cbn [windowShouldClose]. split; [reflexivity |].
  unfold cursor_follows_mousing. cbn [inputMap cursorMode].
  intros [Hlen Hcase]. rewrite length_insert. split; [exact Hlen |].
  assert (Hlt : (input_index mousing < length (inputMap st))%nat)
    by (rewrite Hlen; cbn; unfold EInputState_max; lia).
  rewrite list_lookup_insert_eq by exact Hlt.
  destruct Hcase as [[Hm _] | [Hm _]]; rewrite Hm; cbn [default negb].
  - right. split; reflexivity.
  - left. split; reflexivity.
Qed.

Lemma dispatch_frame (ev : InputEvent) (st : InputState) :
  windowShouldClose (dispatch ev st) = windowShouldClose st || is_escape_press ev /\
  (cursor_follows_mousing st -> cursor_follows_mousing (dispatch ev st)).
Proof.
  destruct ev as [key action | button action]; cbn [dispatch is_escape_press].
  - destruct (key_press_frame key action st) as (Hclose & Hcursor & Hlen & Hmouse).
    split; [exact Hclose |].
    unfold cursor_follows_mousing. rewrite Hcursor, Hlen, Hmouse. tauto.
  - destruct (button_frame button action st) as (Hclose & Hinv).
    rewrite Hclose, orb_false_r. split; [reflexivity | exact Hinv].
Qed.

Lemma poll_frame (events : list InputEvent) (st : InputState) :
  windowShouldClose (glfwPollEvents events st) =
    windowShouldClose st || existsb is_escape_press events /\
  (cursor_follows_mousing st -> cursor_follows_mousing (glfwPollEvents events st)).
Proof.
  unfold glfwPollEvents. revert st.
  induction events as [| ev rest IH]; intros st; cbn [foldl existsb].
  - rewrite orb_false_r. split; [reflexivity | tauto].
  - destruct (IH (dispatch ev st)) as [Hclose Hinv].
    destruct (dispatch_frame ev st) as [Hc1 Hi1].
    rewrite Hclose, Hc1, orb_assoc. split; [reflexivity | tauto].
Qed.

(** X15: whatever key and mouse-button events arrive, in whatever order,
    the input array keeps its nine slots, the cursor is disabled exactly
    while the mousing slot is set (and normal while it is clear), and the
    window is asked to close exactly when one of the events was a press of
    Escape; a release or a repeat of Escape does not close it. *)
Theorem input_events_invariant (events : list InputEvent) :
  let st := glfwPollEvents events initial_input in
  length (inputMap st) = 9%nat /\
  (inputMap st !! input_index mousing = Some true <-> cursorMode st = GLFW_CURSOR_DISABLED) /\
  (inputMap st !! input_index mousing = Some false <-> cursorMode st = GLFW_CURSOR_NORMAL) /\
  windowShouldClose st = existsb is_escape_press events.
Proof.
  cbv zeta.
  destruct (poll_frame events initial_input) as [Hclose Hinv].
  assert (H0 : cursor_follows_mousing initial_input).
  { split; [reflexivity |]. right. split; reflexivity. }
  destruct (Hinv H0) as [Hlen Hcase].
  split; [exact Hlen |].
  split; [| split; [| exact Hclose]].
  - destruct Hcase as [[Hm Hc] | [Hm Hc]]; rewrite Hm, Hc;
      split; intros H; try reflexivity; discriminate H.
  - destruct Hcase as [[Hm Hc] | [Hm Hc]]; rewrite Hm, Hc;
      split; intros H; try reflexivity; discriminate H.
Qed.

Lemma main_loop_closed (passes : list Pass) (st : InputState) (flag : bool)
    (ends : list FrameEnd) :
  windowShouldClose st = true ->
  main_loop passes st flag ends =
    Ok {| loop_exit := WindowClosed; loop_input := st;
          loop_recreateSwapchain := flag; loop_ends := ends |}.
Proof.
  intros Hclose. destruct passes as [| pass rest].
  - rewrite main_loop_nil, Hclose. reflexivity.
  - rewrite main_loop_step, Hclose. reflexivity.
Qed.

(** The loop up to and including the pass that polls a press of Escape. *)
Lemma main_loop_until_escape (before : list Pass) (pass : Pass) (after : list Pass)
    (st : InputState) (flag : bool) (ends : list FrameEnd) :
  windowShouldClose st = false ->
  Forall pass_goes_through (before ++ [pass]) ->
  Forall (fun p => existsb is_escape_press (polled p) = false) before ->
  existsb is_escape_press (polled pass) = true ->
  exists r,
    main_loop (before ++ pass :: after) st flag ends = Ok r /\
    loop_exit r = WindowClosed /\
    windowShouldClose (loop_input r) = true /\
    length (loop_ends r) = (length ends + S (length before))%nat.
Proof.
  revert st flag ends.
  induction before as [| p rest IH]; intros st flag ends Hopen Hgo Hquiet Hesc.
  - cbn [app] in *. rewrite main_loop_step, Hopen.
    apply Forall_cons in Hgo as [Hpass _].
    destruct (render_loop_body_goes_through pass flag Hpass) as [r1 Hr1]. rewrite Hr1.
    rewrite main_loop_closed.
    + eexists. split; [reflexivity |]. cbn [loop_exit loop_input loop_ends].
      split; [reflexivity |].
      destruct (poll_frame (polled pass) st) as [Hclose _].
      split; [rewrite Hclose, Hesc, orb_true_r; reflexivity |].
      rewrite length_app. cbn. lia.
    + destruct (poll_frame (polled pass) st) as [Hclose _].
      rewrite Hclose, Hesc, orb_true_r. reflexivity.
  - cbn [app] in *. rewrite main_loop_step, Hopen.
    apply Forall_cons in Hgo as [Hp Hgo]. apply Forall_cons in Hquiet as [Hq Hquiet].
    destruct (render_loop_body_goes_through p flag Hp) as [r1 Hr1]. rewrite Hr1.
    destruct (IH (glfwPollEvents (polled p) st) (fst r1) (ends ++ [snd r1]))
      as (r & Hrun & Hexit & Hclose & Hlen); try assumption.
    { destruct (poll_frame (polled p) st) as [Hc _]. rewrite Hc, Hopen, Hq. reflexivity. }
    exists r. split; [exact Hrun |]. split; [exact Hexit |]. split; [exact Hclose |].
    rewrite Hlen, length_app. cbn. lia.
Qed.

(** X16: when a press of Escape is polled, the pass that polled it still
    runs to its end, and then the loop stops: no later pass is started, so
    the number of passes run is one more than the number before the one
    that polled the key. *)
Theorem escape_ends_main_loop (before : list Pass) (pass : Pass) (after : list Pass)
    (st : InputState) :
  windowShouldClose st = false ->
  Forall pass_goes_through (before ++ [pass]) ->
  Forall (fun p => existsb is_escape_press (polled p) = false) before ->
  existsb is_escape_press (polled pass) = true ->
  exists r,
    main_loop (before ++ pass :: after) st false [] = Ok r /\
    loop_exit r = WindowClosed /\
    windowShouldClose (loop_input r) = true /\
    length (loop_ends r) = S (length before).
Proof.
  intros Hopen Hgo Hquiet Hesc.
  destruct (main_loop_until_escape before pass after st false [] Hopen Hgo Hquiet Hesc)
    as (r & Hrun & Hexit & Hclose & Hlen).
  exists r. repeat split; assumption.
Qed.

End Input.

Lemma escape_ends_main_loop_witness :
  exists r,
    main_loop (firstn 1 sample_passes ++
               {| polled := [KeyEvent GLFW_KEY_ESCAPE GLFW_PRESS];
                  frame := frame_driver VK_SUCCESS VK_SUCCESS |} :: skipn 1 sample_passes)
      initial_input false [] = Ok r /\
    loop_exit r = WindowClosed /\
    windowShouldClose (loop_input r) = true /\
    length (loop_ends r) = S (length (firstn 1 sample_passes)).
Proof.
  apply (escape_ends_main_loop (firstn 1 sample_passes)
           {| polled := [KeyEvent GLFW_KEY_ESCAPE GLFW_PRESS];
              frame := frame_driver VK_SUCCESS VK_SUCCESS |}
           (skipn 1 sample_passes) initial_input).
  - reflexivity.
  - cbn [firstn sample_passes app].
    repeat (apply Forall_cons; split;
            [apply frame_driver_goes_through; left; reflexivity |]).
    apply Forall_nil. reflexivity.
  - cbn [firstn sample_passes].
    apply Forall_cons. split; [reflexivity |]. apply Forall_nil. reflexivity.
  - reflexivity.
Defined.

(** ** main.cpp: the meshes of the model and the draws of a frame *)

Section ModelMeshes.

Variable upload : nat -> BakedMeshData -> outcome Handle.
Variable materials : list BakedMaterialInfo.

Lemma has_alpha_mask_loop_spec (alphaTextures : list Z) (mesh : BakedMeshData) (b : bool) :
  has_alpha_mask_loop alphaTextures mesh b =
    b || existsb (fun index => materialId mesh =? index) alphaTextures.
Proof.
  revert b. induction alphaTextures as [| index rest IH]; intros b; cbn [has_alpha_mask_loop existsb].
  - rewrite orb_false_r. reflexivity.
  - rewrite IH. destruct (materialId mesh =? index), b; reflexivity.
Qed.

Lemma alpha_textures_from_spec (i : nat) (mats : list BakedMaterialInfo) (x : Z) :
  In x (alpha_textures_from i mats) <->
  exists (j : nat) (material : BakedMaterialInfo),
    mats !! j = Some material /\ alphaMaskTextureId material <> 0xffffffff /\
    x = U32.of_int (Z.of_nat (i + j)).
Proof.
  revert i. induction mats as [| material rest IH]; intros i; cbn [alpha_textures_from].
  - split; [intros [] | intros (j & m & H & _); destruct j; discriminate H].
  - destruct (Z.eqb_spec (alphaMaskTextureId material) 0xffffffff) as [Heq | Hne]; cbn [negb].
    + rewrite IH. split.
      * intros (j & m & Hj & Hm & Hx). exists (S j), m.
        split; [exact Hj |]. split; [exact Hm |]. rewrite Hx. f_equal. lia.
      * intros ([| j] & m & Hj & Hm & Hx).
        -- cbn in Hj. injection Hj as <-. contradiction.
        -- exists j, m. split; [exact Hj |]. split; [exact Hm |]. rewrite Hx. f_equal. lia.
    + cbn [In]. rewrite IH. split.
      * intros [Hx | (j & m & Hj & Hm & Hx)].
        -- exists 0%nat, material. split; [reflexivity |]. split; [exact Hne |].
           rewrite <- Hx. f_equal. lia.
        -- exists (S j), m. split; [exact Hj |]. split; [exact Hm |]. rewrite Hx. f_equal. lia.
      * intros ([| j] & m & Hj & Hm & Hx).
        -- left. rewrite Hx. f_equal. lia.
        -- right. exists j, m. split; [exact Hj |]. split; [exact Hm |]. rewrite Hx. f_equal. lia.
Qed.

(** The two loops together decide whether the material of the mesh exists
    and has an alpha mask. *)
Lemma has_alpha_mask_material (mesh : BakedMeshData) :
  Z.of_nat (length materials) <= U32.modulus ->
  0 <= materialId mesh < U32.modulus ->
  has_alpha_mask_loop (alpha_textures_from 0 materials) mesh false =
    material_has_alpha_mask materials mesh.
Proof.
  intros Hlen Hid. rewrite has_alpha_mask_loop_spec. cbn [orb].
  unfold material_has_alpha_mask.
  destruct (existsb (fun index => materialId mesh =? index) (alpha_textures_from 0 materials))
    eqn:Hex.
  - apply existsb_exists in Hex as (x & Hin & Heq).
    apply Z.eqb_eq in Heq.
    apply alpha_textures_from_spec in Hin as (j & m & Hj & Hm & Hx).
    assert (Hlt : (j < length materials)%nat) by (apply lookup_lt_Some in Hj; exact Hj).
    assert (Hwrap : x = Z.of_nat j).
    { rewrite Hx. unfold U32.of_int, U32.wrap. cbn [Nat.add].
      apply Z.mod_small. lia. }
    assert (Hnat : Z.to_nat (materialId mesh) = j) by lia.
    rewrite Hnat, Hj.
    destruct (Z.leb_spec 0 (materialId mesh)); [| lia].
    destruct (Z.eqb_spec (alphaMaskTextureId m) 0xffffffff); [contradiction | reflexivity].
  - destruct (materials !! Z.to_nat (materialId mesh)) as [m |] eqn:Hlook; [| reflexivity].
    destruct (Z.leb_spec 0 (materialId mesh)); [| lia]. cbn [andb].
    destruct (Z.eqb_spec (alphaMaskTextureId m) 0xffffffff) as [Heq | Hne]; [reflexivity |].
    exfalso.
    assert (Hlt : (Z.to_nat (materialId mesh) < length materials)%nat)
      by (apply lookup_lt_Some in Hlook; exact Hlook).
    assert (Hin : In (materialId mesh) (alpha_textures_from 0 materials)).
    { apply alpha_textures_from_spec. exists (Z.to_nat (materialId mesh)), m.
      split; [exact Hlook |]. split; [exact Hne |].
      unfold U32.of_int, U32.wrap. cbn [Nat.add].
      rewrite Z.mod_small by lia. lia. }
    assert (Htrue : existsb (fun index => materialId mesh =? index)
                      (alpha_textures_from 0 materials) = true).
    { apply existsb_exists. exists (materialId mesh). split; [exact Hin | apply Z.eqb_refl]. }
    congruence.
Qed.

Lemma create_mesh_run (call : nat) (mesh : BakedMeshData) :
  (forall call mesh, exists bufs, upload call mesh = Ok bufs) ->
  create_mesh upload call mesh = Ok (mesh_details upload call mesh).
Proof.
  intros Hup. unfold create_mesh, mesh_details.
  destruct (Hup call mesh) as [bufs ->]. reflexivity.
Qed.

(** The three lists after the loop over the meshes from position [k] on. *)
Lemma process_meshes_run (modelMeshes : list BakedMeshData) (k : nat) (lists : MeshLists) :
  Z.of_nat (length materials) <= U32.modulus ->
  Forall (fun mesh => 0 <= materialId mesh < U32.modulus) modelMeshes ->
  (forall call mesh, exists bufs, upload call mesh = Ok bufs) ->
  let numbered := zip (seq k (length modelMeshes)) modelMeshes in
  process_meshes upload (alpha_textures_from 0 materials) modelMeshes (2 * k) lists =
    Ok {| meshes :=
            meshes lists ++
            map (fun im => mesh_details upload (2 * fst im) (snd im))
              (List.filter (fun im => negb (material_has_alpha_mask materials (snd im))) numbered);
          alphaMaskedMeshes :=
            alphaMaskedMeshes lists ++
            map (fun im => mesh_details upload (2 * fst im) (snd im))
              (List.filter (fun im => material_has_alpha_mask materials (snd im)) numbered);
          notAlphaMaskedMeshes :=
            notAlphaMaskedMeshes lists ++
            map (fun im => mesh_details upload (2 * fst im + 1) (snd im)) numbered |}.
Proof.
  intros Hlen Hids Hup. cbv zeta. revert k lists.
  induction Hids as [| mesh rest Hid _ IH]; intros k lists.
  - cbn. rewrite !app_nil_r. destruct lists; reflexivity.
  - cbn [process_meshes length seq zip zip_with List.filter map fst snd].
    rewrite (has_alpha_mask_material mesh Hlen Hid).
    rewrite !create_mesh_run by exact Hup.
    replace (S (S (2 * k))) with (2 * S k)%nat by lia.
    replace (S (2 * k)) with (2 * k + 1)%nat by lia.
    destruct (material_has_alpha_mask materials mesh);
      cbn [mbind outcome_bind bind_outcome negb map fst snd
           meshes alphaMaskedMeshes notAlphaMaskedMeshes];
      rewrite IH;
      cbn [meshes alphaMaskedMeshes notAlphaMaskedMeshes];
      rewrite <- !app_assoc; reflexivity.
Qed.

Lemma drawn_with_meshes (bound : PipelineKind) (ms : list MeshDetails)
    (rest : list DrawCommand) :
  drawn_with bound (map CmdDrawMesh ms ++ rest) =
    map (fun mesh => (bound, mesh)) ms ++ drawn_with bound rest.
Proof.
  induction ms as [| mesh ms IH]; cbn [map app drawn_with]; [reflexivity |].
  rewrite IH. reflexivity.
Qed.


End ModelMeshes.


(** ** main.cpp: the textures of the model *)

Section TextureLoopRun.

Variable drv : TextureDriver.
Variable textures : list string.

(** The textures below [n] load. *)
Variable n : nat.
Hypothesis loads_below :
  forall k, (k < n)%nat -> (k < length textures)%nat ->
    exists image view, texture_loads drv textures k image view.

Lemma texture_format_group (i : nat) :
  (i mod 4 = 0)%nat ->
  texture_format i = VK_FORMAT_R8G8B8A8_SRGB /\
  texture_format (i + 1)%nat = VK_FORMAT_R8G8B8A8_UNORM /\
  texture_format (i + 2)%nat = VK_FORMAT_R8G8B8A8_UNORM /\
  texture_format (i + 3)%nat = VK_FORMAT_R8G8B8A8_UNORM.
Proof.
  intros Hi. unfold texture_format.
  assert (H1 : ((i + 1) mod 4 = 1)%nat).
  { rewrite Nat.Div0.add_mod, Hi. reflexivity. }
  assert (H2 : ((i + 2) mod 4 = 2)%nat).
  { rewrite Nat.Div0.add_mod, Hi. reflexivity. }
  assert (H3 : ((i + 3) mod 4 = 3)%nat).
  { rewrite Nat.Div0.add_mod, Hi. reflexivity. }
  rewrite Hi, H1, H2, H3. repeat split; reflexivity.
Qed.

(** A step of the body at an index whose texture loads. *)
Lemma load_step (k : nat) (fmt : VkFormat) (v : TextureVectors)
    (rest : TextureVectors -> LoopOutcome TextureVectors) :
  (k < n)%nat -> (k < length textures)%nat -> fmt = texture_format k ->
  vectors_filled drv textures k v ->
  exists v',
    loop_bind (load_texture_at drv textures k fmt v) rest = rest v' /\
    vectors_filled drv textures (S k) v'.
Proof.
  intros Hn Hlt -> (Hlen & Hlen' & Hfilled).
  destruct (loads_below k Hn Hlt) as (image & view & Hloads).
  pose proof Hloads as (path & Hpath & Himage & Hview).
  unfold load_texture_at. rewrite Hpath, Himage. cbn [of_outcome loop_bind].
  rewrite Hview. cbn [of_outcome loop_bind tex_images tex_imageViews].
  eexists. split; [reflexivity |].
  unfold vectors_filled. cbn [tex_images tex_imageViews].
  split; [rewrite length_insert; exact Hlen |].
  split; [rewrite length_insert; exact Hlen' |].
  intros j Hj Hjlt.
  destruct (Nat.eq_dec j k) as [-> | Hne].
  - exists image, view. split; [exact Hloads |].
    split; apply list_lookup_insert_eq; lia.
  - rewrite !list_lookup_insert_ne by congruence.
    apply Hfilled; [lia | exact Hjlt].
Qed.

(** A step of the body at the first index the vectors do not have. *)
Lemma load_step_past (fmt : VkFormat) (v : TextureVectors)
    (rest : TextureVectors -> LoopOutcome TextureVectors) :
  loop_bind (load_texture_at drv textures (length textures) fmt v) rest =
    PastTheEnd (length textures).
Proof.
  unfold load_texture_at.
  rewrite (lookup_ge_None_2 textures (length textures)) by lia. reflexivity.
Qed.

(** A step of the body at an index whose texture fails to load. *)
Lemma load_step_fail (k : nat) (fmt : VkFormat) (v : TextureVectors)
    (rest : TextureVectors -> LoopOutcome TextureVectors) (e : Error) :
  fmt = texture_format k -> texture_fails drv textures k e ->
  loop_bind (load_texture_at drv textures k fmt v) rest = Raised e.
Proof.
  intros -> (path & Hpath & [Himage | (image & Himage & Hview)]);
    unfold load_texture_at; rewrite Hpath, Himage; cbn [of_outcome loop_bind].
  - reflexivity.
  - rewrite Hview. reflexivity.
Qed.

Lemma load_textures_loop_run (fuel i : nat) (v : TextureVectors) :
  (length textures <= n)%nat ->
  (i mod 4 = 0)%nat -> (i <= length textures)%nat -> (length textures < i + 4 * fuel)%nat ->
  vectors_filled drv textures i v ->
  ((length textures mod 4 = 0)%nat ->
   exists v',
     load_textures_loop fuel drv textures i v = Finished v' /\
     vectors_filled drv textures (length textures) v') /\
  ((length textures mod 4 <> 0)%nat ->
   load_textures_loop fuel drv textures i v = PastTheEnd (length textures)).
Proof.
  intros Hall.
  revert i v. induction fuel as [| fuel IH]; intros i v Hi Hle Hfuel Hfilled.
  { exfalso. lia. }
  cbn [load_textures_loop].
  destruct (Nat.ltb_spec i (length textures)) as [Hlt | Hge].
  2:{ assert (i = length textures) by lia. subst i.
      split; [intros _; exists v; split; [reflexivity | exact Hfilled] |].
      intros Hne. contradiction. }
  destruct (texture_format_group i Hi) as (F0 & F1 & F2 & F3).
  assert (Hin : (i < n)%nat) by lia.
  destruct (load_step i VK_FORMAT_R8G8B8A8_SRGB v
              (fun v =>
                 loop_bind (load_texture_at drv textures (i + 1)%nat VK_FORMAT_R8G8B8A8_UNORM v) (fun v =>
                 loop_bind (load_texture_at drv textures (i + 2)%nat VK_FORMAT_R8G8B8A8_UNORM v) (fun v =>
                 loop_bind (load_texture_at drv textures (i + 3)%nat VK_FORMAT_R8G8B8A8_UNORM v) (fun v =>
                 load_textures_loop fuel drv textures (i + 4)%nat v))))
              Hin Hlt (eq_sym F0) Hfilled) as (s1 & -> & Hs1).
  replace (S i) with (i + 1)%nat in Hs1 by lia.
  destruct (Nat.eq_dec (i + 1)%nat (length textures)) as [E1 | N1].
  { rewrite E1, load_step_past. split; [| reflexivity].
    intros Hmod. exfalso. rewrite <- E1 in Hmod.
    rewrite Nat.Div0.add_mod, Hi in Hmod. discriminate Hmod. }
  assert (Hin1 : (i + 1 < n)%nat) by lia.
  assert (Hlt1 : (i + 1 < length textures)%nat) by lia.
  destruct (load_step (i + 1)%nat VK_FORMAT_R8G8B8A8_UNORM s1
              (fun v =>
                 loop_bind (load_texture_at drv textures (i + 2)%nat VK_FORMAT_R8G8B8A8_UNORM v) (fun v =>
                 loop_bind (load_texture_at drv textures (i + 3)%nat VK_FORMAT_R8G8B8A8_UNORM v) (fun v =>
                 load_textures_loop fuel drv textures (i + 4)%nat v)))
              Hin1 Hlt1 (eq_sym F1) Hs1) as (s2 & -> & Hs2).
  replace (S (i + 1)) with (i + 2)%nat in Hs2 by lia.
  destruct (Nat.eq_dec (i + 2)%nat (length textures)) as [E2 | N2].
  { rewrite E2, load_step_past. split; [| reflexivity].
    intros Hmod. exfalso. rewrite <- E2 in Hmod.
    rewrite Nat.Div0.add_mod, Hi in Hmod. discriminate Hmod. }
  assert (Hin2 : (i + 2 < n)%nat) by lia.
  assert (Hlt2 : (i + 2 < length textures)%nat) by lia.
  destruct (load_step (i + 2)%nat VK_FORMAT_R8G8B8A8_UNORM s2
              (fun v =>
                 loop_bind (load_texture_at drv textures (i + 3)%nat VK_FORMAT_R8G8B8A8_UNORM v) (fun v =>
                 load_textures_loop fuel drv textures (i + 4)%nat v))
              Hin2 Hlt2 (eq_sym F2) Hs2) as (s3 & -> & Hs3).
  replace (S (i + 2)) with (i + 3)%nat in Hs3 by lia.
  destruct (Nat.eq_dec (i + 3)%nat (length textures)) as [E3 | N3].
  { rewrite E3, load_step_past. split; [| reflexivity].
    intros Hmod. exfalso. rewrite <- E3 in Hmod.
    rewrite Nat.Div0.add_mod, Hi in Hmod. discriminate Hmod. }
  assert (Hin3 : (i + 3 < n)%nat) by lia.
  assert (Hlt3 : (i + 3 < length textures)%nat) by lia.
  destruct (load_step (i + 3)%nat VK_FORMAT_R8G8B8A8_UNORM s3
              (fun v => load_textures_loop fuel drv textures (i + 4)%nat v)
              Hin3 Hlt3 (eq_sym F3) Hs3) as (s4 & -> & Hs4).
  replace (S (i + 3)) with (i + 4)%nat in Hs4 by lia.
  apply IH; [| lia | lia | exact Hs4].
  rewrite Nat.Div0.add_mod, Hi. reflexivity.
Qed.

(** The loop throws the error of the texture at [n] when that fails. *)
Lemma load_textures_loop_fail (fuel i : nat) (v : TextureVectors) (e : Error) :
  texture_fails drv textures n e ->
  (i mod 4 = 0)%nat -> (i <= n)%nat -> (n < i + 4 * fuel)%nat ->
  vectors_filled drv textures i v ->
  load_textures_loop fuel drv textures i v = Raised e.
Proof.
  intros Hfail.
  assert (Hn : (n < length textures)%nat).
  { destruct Hfail as (path & Hpath & _). apply lookup_lt_Some in Hpath. exact Hpath. }
  revert i v. induction fuel as [| fuel IH]; intros i v Hi Hle Hfuel Hfilled.
  { exfalso. lia. }
  cbn [load_textures_loop].
  destruct (Nat.ltb_spec i (length textures)) as [Hlt | Hge]; [| lia].
  destruct (texture_format_group i Hi) as (F0 & F1 & F2 & F3).
  destruct (Nat.eq_dec i n) as [E0 | N0].
  { apply load_step_fail; [symmetry; exact F0 | rewrite E0; exact Hfail]. }
  assert (Hin : (i < n)%nat) by lia.
  destruct (load_step i VK_FORMAT_R8G8B8A8_SRGB v
              (fun v =>
                 loop_bind (load_texture_at drv textures (i + 1)%nat VK_FORMAT_R8G8B8A8_UNORM v) (fun v =>
                 loop_bind (load_texture_at drv textures (i + 2)%nat VK_FORMAT_R8G8B8A8_UNORM v) (fun v =>
                 loop_bind (load_texture_at drv textures (i + 3)%nat VK_FORMAT_R8G8B8A8_UNORM v) (fun v =>
                 load_textures_loop fuel drv textures (i + 4)%nat v))))
              Hin Hlt (eq_sym F0) Hfilled) as (s1 & -> & Hs1).
  replace (S i) with (i + 1)%nat in Hs1 by lia.
  destruct (Nat.eq_dec (i + 1)%nat n) as [E1 | N1].
  { apply load_step_fail; [symmetry; exact F1 | rewrite E1; exact Hfail]. }
  assert (Hin1 : (i + 1 < n)%nat) by lia.
  assert (Hlt1 : (i + 1 < length textures)%nat) by lia.
  destruct (load_step (i + 1)%nat VK_FORMAT_R8G8B8A8_UNORM s1
              (fun v =>
                 loop_bind (load_texture_at drv textures (i + 2)%nat VK_FORMAT_R8G8B8A8_UNORM v) (fun v =>
                 loop_bind (load_texture_at drv textures (i + 3)%nat VK_FORMAT_R8G8B8A8_UNORM v) (fun v =>
                 load_textures_loop fuel drv textures (i + 4)%nat v)))
              Hin1 Hlt1 (eq_sym F1) Hs1) as (s2 & -> & Hs2).
  replace (S (i + 1)) with (i + 2)%nat in Hs2 by lia.
  destruct (Nat.eq_dec (i + 2)%nat n) as [E2 | N2].
  { apply load_step_fail; [symmetry; exact F2 | rewrite E2; exact Hfail]. }
  assert (Hin2 : (i + 2 < n)%nat) by lia.
  assert (Hlt2 : (i + 2 < length textures)%nat) by lia.
  destruct (load_step (i + 2)%nat VK_FORMAT_R8G8B8A8_UNORM s2
              (fun v =>
                 loop_bind (load_texture_at drv textures (i + 3)%nat VK_FORMAT_R8G8B8A8_UNORM v) (fun v =>
                 load_textures_loop fuel drv textures (i + 4)%nat v))
              Hin2 Hlt2 (eq_sym F2) Hs2) as (s3 & -> & Hs3).
  replace (S (i + 2)) with (i + 3)%nat in Hs3 by lia.
  destruct (Nat.eq_dec (i + 3)%nat n) as [E3 | N3].
  { apply load_step_fail; [symmetry; exact F3 | rewrite E3; exact Hfail]. }
  assert (Hin3 : (i + 3 < n)%nat) by lia.
  assert (Hlt3 : (i + 3 < length textures)%nat) by lia.
  destruct (load_step (i + 3)%nat VK_FORMAT_R8G8B8A8_UNORM s3
              (fun v => load_textures_loop fuel drv textures (i + 4)%nat v)
              Hin3 Hlt3 (eq_sym F3) Hs3) as (s4 & -> & Hs4).
  replace (S (i + 3)) with (i + 4)%nat in Hs4 by lia.
  apply IH; [| lia | lia | exact Hs4].
  rewrite Nat.Div0.add_mod, Hi. reflexivity.
Qed.

End TextureLoopRun.

Section ModelTextures.

Variable drv : TextureDriver.
Variable textures : list string.

(** X18: the loop that loads the textures takes them four at a time, the
    first of each four in an sRGB format and the other three in a UNORM
    format, the view of an image in the format of the image.  When every
    texture loads and their number is a multiple of four, the loop ends with
    the image and the view of every texture in the two vectors.  When every
    texture loads and their number is not a multiple of four, the loop
    reaches past the end of [model.textures]: its first access outside the
    vector is at the index equal to its size.  And when the textures before
    some index load and the one at the index does not, the image or its view
    failing, the loop throws that error. *)
Theorem textures_loaded_in_fours :
  ((forall k, (k < length textures)%nat ->
      exists image view, texture_loads drv textures k image view) ->
   ((length textures mod 4 = 0)%nat ->
    exists v,
      load_textures drv textures = Finished v /\
      length (tex_images v) = length textures /\
      length (tex_imageViews v) = length textures /\
      forall k, (k < length textures)%nat ->
        exists image view,
          texture_loads drv textures k image view /\
          tex_images v !! k = Some (Some image) /\
          tex_imageViews v !! k = Some (Some view)) /\
   ((length textures mod 4 <> 0)%nat ->
    load_textures drv textures = PastTheEnd (length textures))) /\
  (forall (k : nat) (e : Error),
     (forall j, (j < k)%nat -> exists image view, texture_loads drv textures j image view) ->
     texture_fails drv textures k e ->
     load_textures drv textures = Raised e).
Proof.
  assert (H0 : vectors_filled drv textures 0
                 {| tex_images := replicate (length textures) None;
                    tex_imageViews := replicate (length textures) None |}).
  { split; [apply length_replicate |]. split; [apply length_replicate |].
    intros k Hk. lia. }
  split.
  - intros Hall.
    assert (Hbelow : forall k, (k < length textures)%nat -> (k < length textures)%nat ->
              exists image view, texture_loads drv textures k image view)
      by (intros k Hk _; apply Hall; exact Hk).
    assert (Hzero : (0 <= length textures)%nat) by lia.
    assert (Hfuel : (length textures < 0 + 4 * S (length textures))%nat) by lia.
    destruct (load_textures_loop_run drv textures (length textures) Hbelow
                (S (length textures)) 0 _ (Nat.le_refl _) eq_refl Hzero Hfuel H0)
      as [Hfour Hpast].
    split; [| exact Hpast].
    intros Hmod. destruct (Hfour Hmod) as (v & Hrun & Hlen & Hlen' & Hfilled).
    exists v. split; [exact Hrun |]. split; [exact Hlen |]. split; [exact Hlen' |].
    intros k Hk. apply Hfilled; exact Hk.
  - intros k e Hbefore Hfail.
    assert (Hk : (k < length textures)%nat).
    { destruct Hfail as (path & Hpath & _). apply lookup_lt_Some in Hpath. exact Hpath. }
    assert (Hbelow : forall j, (j < k)%nat -> (j < length textures)%nat ->
              exists image view, texture_loads drv textures j image view)
      by (intros j Hj _; apply Hbefore; exact Hj).
    assert (Hzero : (0 <= k)%nat) by lia.
    assert (Hfuel : (k < 0 + 4 * S (length textures))%nat) by lia.
    exact (load_textures_loop_fail drv textures k Hbelow (S (length textures)) 0 _ e
             Hfail eq_refl Hzero Hfuel H0).
Qed.

End ModelTextures.

Lemma sample_textures_load (paths : list string) (k : nat) :
  "missing.png"%string ∉ paths -> (k < length paths)%nat ->
  exists image view, texture_loads sample_texture_driver paths k image view.
Proof.
  intros Hmissing Hk.
  destruct (lookup_lt_is_Some_2 paths k Hk) as [path Hpath].
  assert (Hne : path <> "missing.png"%string).
  { intros ->. apply Hmissing. apply (list_elem_of_lookup_2 _ k). exact Hpath. }
  eexists. eexists. exists path. split; [exact Hpath |].
  cbn [sample_texture_driver load_image_texture2d_format create_image_view_texture2d].
  rewrite bool_decide_eq_false_2 by exact Hne.
  split; reflexivity.
Qed.

Lemma textures_loaded_in_fours_witness :
  load_textures sample_texture_driver
    ["base.png"; "rough.png"; "metal.png"; "normal.png"]%string =
    Finished {| tex_images := [Some 408; Some 409; Some 409; Some 410];
                tex_imageViews := [Some 43408; Some 37409; Some 37409; Some 37410] |} /\
  load_textures sample_texture_driver
    ["base.png"; "rough.png"; "metal.png"; "normal.png"; "mask.png"]%string = PastTheEnd 5 /\
  load_textures sample_texture_driver
    ["base.png"; "missing.png"; "metal.png"; "normal.png"; "mask.png"]%string =
    Raised (MkError "unable to load texture base image" None).
Proof.
  split; [| split].
  - destruct (textures_loaded_in_fours sample_texture_driver
                ["base.png"; "rough.png"; "metal.png"; "normal.png"]%string)
      as [Hall _].
    destruct Hall as [Hfour _].
    { intros k Hk. apply sample_textures_load; [| exact Hk].
      intros H. repeat (apply elem_of_cons in H as [H | H]; [discriminate H |]). inversion H. }
    destruct (Hfour eq_refl) as (v & Hrun & _).
    rewrite Hrun. vm_compute in Hrun. injection Hrun as <-. reflexivity.
  - apply (textures_loaded_in_fours sample_texture_driver
             ["base.png"; "rough.png"; "metal.png"; "normal.png"; "mask.png"]%string).
    + intros k Hk. apply sample_textures_load; [| exact Hk].
      intros H. repeat (apply elem_of_cons in H as [H | H]; [discriminate H |]). inversion H.
    + discriminate.
  - destruct (textures_loaded_in_fours sample_texture_driver
                ["base.png"; "missing.png"; "metal.png"; "normal.png"; "mask.png"]%string)
      as [_ Hfail].
    apply (Hfail 1%nat).
    2:{ exists "missing.png"%string. split; [reflexivity |]. left. reflexivity. }
    intros j Hj. assert (j = 0%nat) by lia. subst j.
    eexists. eexists. exists "base.png"%string.
    split; [reflexivity |]. split; reflexivity.
Defined.

(** ** main.cpp: the descriptor sets of the materials *)

Section MaterialDescriptors.

Variable alloc_desc_set : nat -> outcome Handle.
Variable imageViews : list Handle.

Lemma at_in_range (n : Z) :
  0 <= n < Z.of_nat (length imageViews) ->
  exists view, at_ imageViews n = Finished view /\ imageViews !! Z.to_nat n = Some view.
Proof.
  intros Hn. unfold at_.
  destruct (Z.leb_spec 0 n); [| lia]. destruct (Z.ltb_spec n (Z.of_nat (length imageViews))); [| lia].
  cbn [andb].
  destruct (lookup_lt_is_Some_2 imageViews (Z.to_nat n) ltac:(lia)) as [view Hview].
  rewrite Hview. exists view. split; reflexivity.
Qed.

Lemma at_out_of_range (n : Z) :
  ~ 0 <= n < Z.of_nat (length imageViews) -> at_ imageViews n = StdOutOfRange n.
Proof.
  intros Hn. unfold at_.
  destruct (Z.leb_spec 0 n); destruct (Z.ltb_spec n (Z.of_nat (length imageViews)));
    cbn [andb]; try reflexivity.
  lia.
Qed.

Lemma at_cases (n : Z) :
  (0 <= n < Z.of_nat (length imageViews) /\
   exists view, at_ imageViews n = Finished view /\ imageViews !! Z.to_nat n = Some view) \/
  (~ 0 <= n < Z.of_nat (length imageViews) /\ at_ imageViews n = StdOutOfRange n).
Proof.
  destruct (Z_le_dec 0 n) as [H0 | H0]; destruct (Z_lt_dec n (Z.of_nat (length imageViews))) as [H1 | H1];
    [left; split; [lia | apply at_in_range; lia] | right | right | right];
    (split; [lia | apply at_out_of_range; lia]).
Qed.

(** The views of one material: found when the four ids are indices of
    [imageViews], and otherwise the exception for the first id, in the order
    base colour, metalness, roughness, normal map, that is not. *)
Lemma material_image_views_cases (material : BakedMaterialInfo) :
  (material_ids_in_range (length imageViews) material /\
   exists base metalness roughness normalMap,
     material_image_views imageViews material =
       Finished [base; metalness; roughness; normalMap] /\
     imageViews !! Z.to_nat (baseColorTextureId material) = Some base /\
     imageViews !! Z.to_nat (metalnessTextureId material) = Some metalness /\
     imageViews !! Z.to_nat (roughnessTextureId material) = Some roughness /\
     imageViews !! Z.to_nat (normalMapTextureId material) = Some normalMap) \/
  (~ material_ids_in_range (length imageViews) material /\
   exists id,
     material_image_views imageViews material = StdOutOfRange id /\
     ~ 0 <= id < Z.of_nat (length imageViews) /\
     (id = baseColorTextureId material \/ id = metalnessTextureId material \/
      id = roughnessTextureId material \/ id = normalMapTextureId material)).
Proof.
  unfold material_image_views, material_ids_in_range.
  destruct (at_cases (baseColorTextureId material)) as [[Hb (b & -> & Hbv)] | [Hb ->]].
  2:{ right. split; [tauto |]. eexists. split; [reflexivity |]. split; [exact Hb | tauto]. }
  cbn [loop_bind].
  destruct (at_cases (metalnessTextureId material)) as [[Hm (m & -> & Hmv)] | [Hm ->]].
  2:{ right. split; [tauto |]. eexists. split; [reflexivity |]. split; [exact Hm | tauto]. }
  cbn [loop_bind].
  destruct (at_cases (roughnessTextureId material)) as [[Hr (r & -> & Hrv)] | [Hr ->]].
  2:{ right. split; [tauto |]. eexists. split; [reflexivity |]. split; [exact Hr | tauto]. }
  cbn [loop_bind].
  destruct (at_cases (normalMapTextureId material)) as [[Hn (n & -> & Hnv)] | [Hn ->]].
  2:{ right. split; [tauto |]. eexists. split; [reflexivity |]. split; [exact Hn | tauto]. }
  cbn [loop_bind].
  left. split; [tauto |]. exists b, m, r, n. repeat split; assumption.
Qed.

Hypothesis allocations_succeed : forall i, exists set, alloc_desc_set i = Ok set.

Lemma material_descriptor_sets_spec (materials : list BakedMaterialInfo) (i : nat) :
  (Forall (material_ids_in_range (length imageViews)) materials /\
   exists sets,
     material_descriptor_sets alloc_desc_set imageViews i materials = Finished sets /\
     length sets = length materials /\
     forall (j : nat) material set views,
       materials !! j = Some material -> sets !! j = Some (set, views) ->
       alloc_desc_set (i + j)%nat = Ok set /\
       material_image_views imageViews material = Finished views) \/
  (exists before material after id,
     materials = before ++ material :: after /\
     Forall (material_ids_in_range (length imageViews)) before /\
     ~ material_ids_in_range (length imageViews) material /\
     material_descriptor_sets alloc_desc_set imageViews i materials = StdOutOfRange id /\
     ~ 0 <= id < Z.of_nat (length imageViews) /\
     (id = baseColorTextureId material \/ id = metalnessTextureId material \/
      id = roughnessTextureId material \/ id = normalMapTextureId material)).
Proof.
  revert i. induction materials as [| material rest IH]; intros i.
  - left. split; [constructor |]. exists []. split; [reflexivity |]. split; [reflexivity |].
    intros j m s v H. discriminate H.
  - cbn [material_descriptor_sets].
    destruct (allocations_succeed i) as [set Hset]. rewrite Hset. cbn [of_outcome loop_bind].
    destruct (material_image_views_cases material)
      as [[Hin (b & m & r & n & Hviews & _)] | [Hout (id & Hviews & Hid & Hwhich)]].
    2:{ right. exists [], material, rest, id.
        split; [reflexivity |]. split; [constructor |]. split; [exact Hout |].
        rewrite Hviews. split; [reflexivity |]. split; assumption. }
    rewrite Hviews. cbn [loop_bind].
    destruct (IH (S i)) as [[Hall (sets & Hrun & Hlen & Hsets)] |
                            (before & bad & after & id & Hsplit & Hbefore & Hbad & Hrun & Hid & Hwhich)].
    + left. split; [constructor; assumption |].
      rewrite Hrun. cbn [loop_bind]. eexists. split; [reflexivity |].
      split; [cbn [length]; rewrite Hlen; reflexivity |].
      intros [| j] mat s v Hmat Hs.
      * cbn in Hmat, Hs. injection Hmat as <-. injection Hs as <- <-.
        rewrite Nat.add_0_r. split; assumption.
      * cbn in Hmat, Hs. replace (i + S j)%nat with (S i + j)%nat by lia.
        apply (Hsets j mat s v Hmat Hs).
    + right. exists (material :: before), bad, after, id.
      split; [rewrite Hsplit; reflexivity |].
      split; [constructor; assumption |]. split; [exact Hbad |].
      rewrite Hrun. split; [reflexivity |]. split; assumption.
Qed.


End MaterialDescriptors.


(** ** main.cpp: framebuffers, command buffers and fences *)

Section FrameObjects.

Variable drv : FrameObjectsDriver.
Hypothesis created : frame_objects_created drv.

Lemma swapchain_framebuffers_loop_run (aWindow : VulkanWindow) (aRenderPass aDepthView : Handle)
    (views fbs : list Handle) :
  exists new,
    swapchain_framebuffers_loop drv aWindow aRenderPass aDepthView views fbs = Ok (fbs ++ new) /\
    length new = length views.
Proof.
  destruct created as (Hfb & _ & _).
  revert fbs. induction views as [| view rest IH]; intros fbs.
  - exists []. rewrite app_nil_r. split; reflexivity.
  - cbn [swapchain_framebuffers_loop].
    match goal with
    | |- context [vkCreateFramebuffer drv ?d ?i] =>
        pose proof (Hfb d i) as Hres; destruct (vkCreateFramebuffer drv d i) as [res fb]
    end.
    cbn [fst] in Hres. subst res. cbn.
    destruct (IH (fbs ++ [fb])) as (new & Hrun & Hlen).
    exists (fb :: new). rewrite Hrun, <- app_assoc. split; [reflexivity |].
    cbn [length]. rewrite Hlen. reflexivity.
Qed.

Lemma imgui_framebuffers_loop_run (aWindow : VulkanWindow) (aRenderPass : Handle)
    (views fbs : list Handle) :
  exists new,
    imgui_framebuffers_loop drv aWindow aRenderPass views fbs = Ok (fbs ++ new) /\
    length new = length views.
Proof.
  destruct created as (Hfb & _ & _).
  revert fbs. induction views as [| view rest IH]; intros fbs.
  - exists []. rewrite app_nil_r. split; reflexivity.
  - cbn [imgui_framebuffers_loop].
    match goal with
    | |- context [vkCreateFramebuffer drv ?d ?i] =>
        pose proof (Hfb d i) as Hres; destruct (vkCreateFramebuffer drv d i) as [res fb]
    end.
    cbn [fst] in Hres. subst res. cbn.
    destruct (IH (fbs ++ [fb])) as (new & Hrun & Hlen).
    exists (fb :: new). rewrite Hrun, <- app_assoc. split; [reflexivity |].
    cbn [length]. rewrite Hlen. reflexivity.
Qed.

Lemma create_swapchain_framebuffers_run (aWindow : VulkanWindow)
    (aRenderPass aDepthView : Handle) :
  exists fbs,
    create_swapchain_framebuffers drv aWindow aRenderPass [] aDepthView = Ok fbs /\
    length fbs = length (swapViews aWindow).
Proof.
  unfold create_swapchain_framebuffers. cbn [length Z.of_nat Z.eqb assert_that].
  destruct (swapchain_framebuffers_loop_run aWindow aRenderPass aDepthView (swapViews aWindow) [])
    as (new & Hrun & Hlen).
  cbn [app] in Hrun. rewrite Hrun. cbn [mbind outcome_bind bind_outcome].
  rewrite Hlen, Z.eqb_refl. exists new. split; [reflexivity | exact Hlen].
Qed.

Lemma create_imgui_framebuffers_run (aWindow : VulkanWindow) (aRenderPass : Handle) :
  exists fbs,
    create_imgui_framebuffers drv aWindow aRenderPass [] = Ok fbs /\
    length fbs = length (swapViews aWindow).
Proof.
  unfold create_imgui_framebuffers. cbn [length Z.of_nat Z.eqb assert_that].
  destruct (imgui_framebuffers_loop_run aWindow aRenderPass (swapViews aWindow) [])
    as (new & Hrun & Hlen).
  cbn [app] in Hrun. rewrite Hrun. cbn [mbind outcome_bind bind_outcome].
  rewrite Hlen, Z.eqb_refl. exists new. split; [reflexivity | exact Hlen].
Qed.

Lemma buffers_and_fences_loop_run (count call : nat) (buffers fences : list Handle) :
  exists newBuffers newFences,
    buffers_and_fences_loop drv count call buffers fences =
      Ok (buffers ++ newBuffers, fences ++ newFences) /\
    length newBuffers = count /\ length newFences = count.
Proof.
  destruct created as (_ & Hcb & Hfence).
  revert call buffers fences. induction count as [| count IH]; intros call buffers fences.
  - exists [], []. rewrite !app_nil_r. repeat split; reflexivity.
  - cbn [buffers_and_fences_loop].
    destruct (Hcb call) as [buffer ->]. destruct (Hfence call) as [fence ->].
    cbn [mbind outcome_bind bind_outcome].
    destruct (IH (S call) (buffers ++ [buffer]) (fences ++ [fence]))
      as (nb & nf & Hrun & Hb & Hf).
    exists (buffer :: nb), (fence :: nf). rewrite Hrun, <- !app_assoc.
    split; [reflexivity |]. cbn [length]. rewrite Hb, Hf. split; reflexivity.
Qed.

(** The sizes of the vectors before the loop and after a recreation. *)
Lemma frame_resources_sizes (window : VulkanWindow)
    (renderPass depthBufferView imguiRenderPass : Handle) :
  exists resources,
    create_frame_resources drv window renderPass depthBufferView imguiRenderPass =
      Ok resources /\
    length (framebuffers resources) = length (swapViews window) /\
    length (cbuffers resources) = length (swapViews window) /\
    length (cbfences resources) = length (swapViews window) /\
    length (imguiFramebuffers resources) = length (swapViews window) /\
    length (imguicbuffers resources) = length (swapViews window) /\
    length (imguicbfences resources) = length (swapViews window) /\
    forall (window' : VulkanWindow) (renderPass' depthBufferView' imguiRenderPass' : Handle),
    exists resources',
      rebuild_frame_resources drv window' renderPass' depthBufferView' imguiRenderPass'
        resources = Ok resources' /\
      length (framebuffers resources') = length (swapViews window') /\
      length (imguiFramebuffers resources') = length (swapViews window') /\
      cbuffers resources' = cbuffers resources /\
      cbfences resources' = cbfences resources /\
      imguicbuffers resources' = imguicbuffers resources /\
      imguicbfences resources' = imguicbfences resources.
Proof.
  unfold create_frame_resources. cbv zeta.
  destruct (create_swapchain_framebuffers_run window renderPass depthBufferView)
    as (fbs & -> & Hfbs).
  cbn [mbind outcome_bind bind_outcome].
  destruct (buffers_and_fences_loop_run (length fbs) 0 [] []) as (cb & cf & -> & Hcb & Hcf).
  cbn [mbind outcome_bind bind_outcome app].
  destruct (create_imgui_framebuffers_run window imguiRenderPass) as (ifbs & -> & Hifbs).
  cbn [mbind outcome_bind bind_outcome].
  destruct (buffers_and_fences_loop_run (length ifbs) (length fbs) [] [])
    as (icb & icf & -> & Hicb & Hicf).
  cbn [mbind outcome_bind bind_outcome app fst snd].
  eexists. split; [reflexivity |].
  cbn [framebuffers cbuffers cbfences imguiFramebuffers imguicbuffers imguicbfences].
  split; [exact Hfbs |]. split; [congruence |]. split; [congruence |].
  split; [exact Hifbs |]. split; [congruence |]. split; [congruence |].
  intros window' renderPass' depthBufferView' imguiRenderPass'.
  unfold rebuild_frame_resources. cbv zeta.
  destruct (create_swapchain_framebuffers_run window' renderPass' depthBufferView')
    as (fbs' & -> & Hfbs').
  cbn [mbind outcome_bind bind_outcome].
  destruct (create_imgui_framebuffers_run window' imguiRenderPass') as (ifbs' & -> & Hifbs').
  cbn [mbind outcome_bind bind_outcome].
  eexists. split; [reflexivity |].
  cbn [framebuffers cbuffers cbfences imguiFramebuffers imguicbuffers imguicbfences].
  repeat split; assumption.
Qed.

(** X20: when the objects can be created, main() enters its loop with one
    framebuffer, one command buffer and one fence per swapchain image, for
    the scene and for the user interface alike.  The recreation branch makes
    the two vectors of framebuffers anew, one per image of the new
    swapchain, and leaves the command buffers and fences as they were. *)
Theorem frame_resources_per_image (window : VulkanWindow)
    (renderPass depthBufferView imguiRenderPass : Handle) :
  exists resources,
    create_frame_resources drv window renderPass depthBufferView imguiRenderPass =
      Ok resources /\
    length (framebuffers resources) = length (swapViews window) /\
    length (cbuffers resources) = length (swapViews window) /\
    length (cbfences resources) = length (swapViews window) /\
    length (imguiFramebuffers resources) = length (swapViews window) /\
    length (imguicbuffers resources) = length (swapViews window) /\
    length (imguicbfences resources) = length (swapViews window) /\
    forall (window' : VulkanWindow) (renderPass' depthBufferView' imguiRenderPass' : Handle),
    exists resources',
      rebuild_frame_resources drv window' renderPass' depthBufferView' imguiRenderPass'
        resources = Ok resources' /\
      length (framebuffers resources') = length (swapViews window') /\
      length (imguiFramebuffers resources') = length (swapViews window') /\
      cbuffers resources' = cbuffers resources /\
      cbfences resources' = cbfences resources /\
      imguicbuffers resources' = imguicbuffers resources /\
      imguicbfences resources' = imguicbfences resources.
Proof. apply frame_resources_sizes. Qed.

(** X21: the command buffers and fences are created once, for the images
    of the first swapchain, and a recreation does not touch them.  After a
    recreation that gives a swapchain with more images, an image index that
    the first swapchain did not have is an index of the new framebuffers but
    not of [cbfences], [cbuffers], [imguicbuffers] or [imguicbfences]: the
    condition of the assertion "imageIndex < cbfences.size()" is false for
    it, and the fence and the command buffer that the pass would use lie
    outside their vectors.  An index below both counts is an index of all
    six vectors, and the conditions of the four assertions of the loop body
    hold for it. *)
Theorem grown_swapchain_index_out_of_range (window window' : VulkanWindow)
    (renderPass depthBufferView imguiRenderPass : Handle)
    (renderPass' depthBufferView' imguiRenderPass' : Handle)
    (resources resources' : FrameResources) (imageIndex : Z) :
  create_frame_resources drv window renderPass depthBufferView imguiRenderPass = Ok resources ->
  rebuild_frame_resources drv window' renderPass' depthBufferView' imguiRenderPass' resources =
    Ok resources' ->
  0 <= imageIndex ->
  (Z.of_nat (length (swapViews window)) <= imageIndex ->
   cbfences resources' !! Z.to_nat imageIndex = None /\
   cbuffers resources' !! Z.to_nat imageIndex = None /\
   imguicbuffers resources' !! Z.to_nat imageIndex = None /\
   imguicbfences resources' !! Z.to_nat imageIndex = None /\
   (imageIndex < Z.of_nat (length (swapViews window')) ->
    is_Some (framebuffers resources' !! Z.to_nat imageIndex) /\
    is_Some (imguiFramebuffers resources' !! Z.to_nat imageIndex)) /\
   forall frameDrv : FrameDriver,
     (imageIndex <? cbfences_size (frame_with resources' frameDrv)) = false /\
     (imageIndex <? cbuffers_size (frame_with resources' frameDrv)) = false /\
     (imageIndex <? imguicbfences_size (frame_with resources' frameDrv)) = false) /\
  (imageIndex < Z.of_nat (length (swapViews window)) ->
   imageIndex < Z.of_nat (length (swapViews window')) ->
   is_Some (framebuffers resources' !! Z.to_nat imageIndex) /\
   is_Some (cbuffers resources' !! Z.to_nat imageIndex) /\
   is_Some (cbfences resources' !! Z.to_nat imageIndex) /\
   is_Some (imguiFramebuffers resources' !! Z.to_nat imageIndex) /\
   is_Some (imguicbuffers resources' !! Z.to_nat imageIndex) /\
   is_Some (imguicbfences resources' !! Z.to_nat imageIndex) /\
   forall frameDrv : FrameDriver,
     (imageIndex <? cbfences_size (frame_with resources' frameDrv)) = true /\
     (imageIndex <? cbuffers_size (frame_with resources' frameDrv)) = true /\
     (imageIndex <? framebuffers_size (frame_with resources' frameDrv)) = true /\
     (imageIndex <? imguicbfences_size (frame_with resources' frameDrv)) = true).
Proof.
  intros Hcreate Hrebuild Hpos.
  destruct (frame_resources_sizes window renderPass depthBufferView imguiRenderPass)
    as (r0 & Hr0 & L1 & L2 & L3 & L4 & L5 & L6 & Hre).
  rewrite Hcreate in Hr0. injection Hr0 as <-.
  destruct (Hre window' renderPass' depthBufferView' imguiRenderPass')
    as (r1 & Hr1 & M1 & M2 & M3 & M4 & M5 & M6).
  rewrite Hrebuild in Hr1. injection Hr1 as <-.
  split.
  - intros Hge.
    split; [apply lookup_ge_None_2; rewrite M4, L3; lia |].
    split; [apply lookup_ge_None_2; rewrite M3, L2; lia |].
    split; [apply lookup_ge_None_2; rewrite M5, L5; lia |].
    split; [apply lookup_ge_None_2; rewrite M6, L6; lia |].
    split.
    + intros Hlt. split; apply lookup_lt_is_Some_2; [rewrite M1 | rewrite M2]; lia.
    + intros frameDrv.
      cbn [frame_with cbfences_size cbuffers_size imguicbfences_size].
      rewrite M3, M4, M6, L2, L3, L6.
      repeat split; apply Z.ltb_ge; exact Hge.
  - intros Hlt Hlt'.
    split; [apply lookup_lt_is_Some_2; rewrite M1; lia |].
    split; [apply lookup_lt_is_Some_2; rewrite M3, L2; lia |].
    split; [apply lookup_lt_is_Some_2; rewrite M4, L3; lia |].
    split; [apply lookup_lt_is_Some_2; rewrite M2; lia |].
    split; [apply lookup_lt_is_Some_2; rewrite M5, L5; lia |].
    split; [apply lookup_lt_is_Some_2; rewrite M6, L6; lia |].
    intros frameDrv.
    cbn [frame_with cbfences_size cbuffers_size framebuffers_size imguicbfences_size].
    rewrite M1, M3, M4, M6, L2, L3, L6.
    repeat split; apply Z.ltb_lt; assumption.
Qed.

End FrameObjects.

Lemma sample_frame_objects_created : frame_objects_created sample_frame_objects_driver.
Proof.
  split; [intros dev info; reflexivity |].
  split; intros call; eexists; reflexivity.
Qed.

Lemma frame_resources_per_image_witness :
  exists resources,
    create_frame_resources sample_frame_objects_driver sample_window 61 62 63 = Ok resources /\
    length (framebuffers resources) = length (swapViews sample_window) /\
    length (cbuffers resources) = length (swapViews sample_window) /\
    length (cbfences resources) = length (swapViews sample_window) /\
    length (imguiFramebuffers resources) = length (swapViews sample_window) /\
    length (imguicbuffers resources) = length (swapViews sample_window) /\
    length (imguicbfences resources) = length (swapViews sample_window) /\
    forall (window' : VulkanWindow) (renderPass' depthBufferView' imguiRenderPass' : Handle),
    exists resources',
      rebuild_frame_resources sample_frame_objects_driver window' renderPass'
        depthBufferView' imguiRenderPass' resources = Ok resources' /\
      length (framebuffers resources') = length (swapViews window') /\
      length (imguiFramebuffers resources') = length (swapViews window') /\
      cbuffers resources' = cbuffers resources /\
      cbfences resources' = cbfences resources /\
      imguicbuffers resources' = imguicbuffers resources /\
      imguicbfences resources' = imguicbfences resources.
Proof.
  apply (frame_resources_per_image sample_frame_objects_driver sample_frame_objects_created
           sample_window 61 62 63).
Defined.

Lemma grown_swapchain_index_out_of_range_witness :
  let grown :=
    {| framebuffers := [2301; 2302; 2303]; cbuffers := [800; 801]; cbfences := [900; 901];
       imguiFramebuffers := [1301; 1302; 1303];
       imguicbuffers := [802; 803]; imguicbfences := [902; 903] |} in
  rebuild_frame_resources sample_frame_objects_driver
    (with_views sample_window [301; 302; 303]) 61 62 63
    {| framebuffers := [2291; 2292]; cbuffers := [800; 801]; cbfences := [900; 901];
       imguiFramebuffers := [1291; 1292];
       imguicbuffers := [802; 803]; imguicbfences := [902; 903] |} = Ok grown /\
  framebuffers grown !! 2%nat = Some 2303 /\
  cbfences grown !! 2%nat = None /\
  cbuffers grown !! 2%nat = None /\
  (2 <? cbfences_size (frame_with grown (acquiring 2))) = false.
Proof.
  cbv zeta.
  split; [reflexivity |]. split; [reflexivity |].
  destruct (grown_swapchain_index_out_of_range sample_frame_objects_driver
              sample_frame_objects_created sample_window
              (with_views sample_window [301; 302; 303])
              61 62 63 61 62 63
              {| framebuffers := [2291; 2292]; cbuffers := [800; 801]; cbfences := [900; 901];
                 imguiFramebuffers := [1291; 1292];
                 imguicbuffers := [802; 803]; imguicbfences := [902; 903] |}
              {| framebuffers := [2301; 2302; 2303]; cbuffers := [800; 801];
                 cbfences := [900; 901];
                 imguiFramebuffers := [1301; 1302; 1303];
                 imguicbuffers := [802; 803]; imguicbfences := [902; 903] |}
              2 eq_refl eq_refl) as [Hout _]; [lia |].
  destruct Hout as (Hfence & Hbuffer & _ & _ & _ & Hcond); [cbn; lia |].
  split; [exact Hfence |]. split; [exact Hbuffer |].
  apply (Hcond (acquiring 2)).
Defined.

(** * The asset baker *)

Section UniqueTextures.

Import Bake.

Lemma empty_spec (s : string) : empty s = true <-> s = ""%string.
Proof. unfold empty. apply bool_decide_eq_true. Qed.

(** One registration keeps the ids dense and the counter equal to the size
    of the map. *)
Lemma add_unique_dense (path : string) (chans : Z) (unique : gmap string TextureInfo_)
    (texid : Z) :
  ids_dense unique -> texid = Z.of_nat (size unique) -> texid + 1 < U32.modulus ->
  let after := add_unique_ path chans (unique, texid) in
  ids_dense (fst after) /\ snd after = Z.of_nat (size (fst after)) /\
  (size (fst after) <= S (size unique))%nat /\
  (forall q, is_Some (fst after !! q) <->
     is_Some (unique !! q) \/ (q = path /\ path <> ""%string)) /\
  (forall q info, unique !! q = Some info -> fst after !! q = Some info) /\
  (forall q info, fst after !! q = Some info -> newPath info = ""%string \/ unique !! q = Some info).
Proof.
  intros Hd Hid Hbound. pose proof Hd as (Hrange & Hinj & Hsurj).
  cbv zeta. unfold add_unique_.
  destruct (empty path) eqn:Hempty.
  { apply empty_spec in Hempty. cbn [fst snd].
    split; [exact Hd |]. split; [exact Hid |]. split; [lia |].
    split; [| split; [auto | auto]].
    intros q. split; [auto |]. intros [H | [_ H]]; [exact H | contradiction]. }
  assert (Hne : path <> ""%string).
  { intros E. apply empty_spec in E. congruence. }
  destruct (unique !! path) as [old |] eqn:Hlook; cbn [fst snd].
  { split; [exact Hd |]. split; [exact Hid |]. split; [lia |].
    split; [| split; [auto | auto]].
    intros q. split; [auto |]. intros [H | [-> _]]; [exact H | eauto]. }
  assert (Hsize : size (<[path := {| uniqueId := texid; channels := chans; newPath := "" |}]> unique)
                  = S (size unique)) by (apply map_size_insert_None; exact Hlook).
  split; [| split; [| split; [| split; [| split]]]].
  - split; [| split].
    + intros q info Hq. rewrite Hsize.
      destruct (decide (q = path)) as [-> | Hqp].
      * rewrite lookup_insert_eq in Hq. injection Hq as <-. cbn. lia.
      * rewrite lookup_insert_ne in Hq by congruence.
        specialize (Hrange q info Hq). lia.
    + intros q q' info info' Hq Hq' Heq.
      destruct (decide (q = path)) as [-> | Hqp]; destruct (decide (q' = path)) as [-> | Hqp'].
      * reflexivity.
      * rewrite lookup_insert_eq in Hq. injection Hq as <-.
        rewrite lookup_insert_ne in Hq' by congruence.
        specialize (Hrange q' info' Hq'). cbn in Heq. lia.
      * rewrite lookup_insert_eq in Hq'. injection Hq' as <-.
        rewrite lookup_insert_ne in Hq by congruence.
        specialize (Hrange q info Hq). cbn in Heq. lia.
      * rewrite lookup_insert_ne in Hq, Hq' by congruence.
        apply (Hinj q q' info info' Hq Hq' Heq).
    + intros i Hi. rewrite Hsize in Hi.
      destruct (Z.eq_dec i texid) as [-> | Hlt].
      * eexists path, _. rewrite lookup_insert_eq. split; reflexivity.
      * destruct (Hsurj i ltac:(lia)) as (q & info & Hq & Hidq).
        exists q, info. split; [| exact Hidq].
        rewrite lookup_insert_ne; [exact Hq |]. intros ->. congruence.
  - rewrite Hsize. unfold U32.add, U32.wrap, U32.modulus in *.
    rewrite Z.mod_small by lia. lia.
  - rewrite Hsize. lia.
  - intros q. destruct (decide (q = path)) as [-> | Hqp].
    + rewrite lookup_insert_eq. split; [intros _; right; split; [reflexivity | exact Hne] | eauto].
    + rewrite lookup_insert_ne by congruence.
      split; [auto |]. intros [H | [E _]]; [exact H | contradiction].
  - intros q info Hq. rewrite lookup_insert_ne; [exact Hq |]. intros ->. congruence.
  - intros q info Hq. destruct (decide (q = path)) as [-> | Hqp].
    + rewrite lookup_insert_eq in Hq. injection Hq as <-. left. reflexivity.
    + rewrite lookup_insert_ne in Hq by congruence. right. exact Hq.
Qed.

Lemma add_all_dense (l : list (string * Z)) (unique : gmap string TextureInfo_) (texid : Z) :
  ids_dense unique -> texid = Z.of_nat (size unique) ->
  texid + Z.of_nat (length l) < U32.modulus ->
  let after := add_all l (unique, texid) in
  ids_dense (fst after) /\ snd after = Z.of_nat (size (fst after)) /\
  (size (fst after) <= size unique + length l)%nat /\
  (forall q, is_Some (fst after !! q) <->
     is_Some (unique !! q) \/ (q <> ""%string /\ q ∈ map fst l)) /\
  (forall q info, unique !! q = Some info -> fst after !! q = Some info) /\
  (forall q info, fst after !! q = Some info -> newPath info = ""%string \/ unique !! q = Some info).
Proof.
  revert unique texid. induction l as [| [path chans] rest IH]; intros unique texid Hd Hid Hb.
  - cbn. split; [exact Hd |]. split; [exact Hid |]. split; [lia |].
    split; [| split; [auto | auto]].
    intros q. split; [auto |]. intros [H | [_ H]]; [exact H | inversion H].
  - cbv zeta. unfold add_all. cbn [foldl fst snd].
    cbn [length] in Hb.
    assert (Hb1 : texid + 1 < U32.modulus) by lia.
    destruct (add_unique_dense path chans unique texid Hd Hid Hb1)
      as (Hd1 & Hid1 & Hs1 & Hk1 & Hkeep1 & Hnew1).
    destruct (add_unique_ path chans (unique, texid)) as [u1 t1]. cbn [fst snd] in *.
    assert (Hb2 : t1 + Z.of_nat (length rest) < U32.modulus) by lia.
    specialize (IH u1 t1 Hd1 Hid1 Hb2). cbv zeta in IH. unfold add_all in IH.
    destruct IH as (Hd2 & Hid2 & Hs2 & Hk2 & Hkeep2 & Hnew2).
    split; [exact Hd2 |]. split; [exact Hid2 |]. split; [cbn [length]; lia |].
    split; [| split].
    + intros q. rewrite Hk2, Hk1. cbn [map fst]. rewrite elem_of_cons.
      split.
      * intros [[H | [-> Hne]] | [Hne Hin]]; [left; exact H | right | right]; split; auto.
      * intros [H | [Hne [-> | Hin]]]; [left; left; exact H | left; right; auto | right; auto].
    + intros q info Hq. apply Hkeep2, Hkeep1, Hq.
    + intros q info Hq. destruct (Hnew2 q info Hq) as [H | H]; [left; exact H |].
      apply (Hnew1 q info H).
Qed.

Lemma foldl_add_material (mats : list InputMaterialInfo)
    (captured : gmap string TextureInfo_ * Z) :
  foldl add_material_textures captured mats = add_all (concat (map registered mats)) captured.
Proof.
  revert captured. induction mats as [| mat rest IH]; intros captured; [reflexivity |].
  cbn [foldl map concat]. rewrite IH. unfold add_all. rewrite foldl_app. reflexivity.
Qed.

Lemma registered_paths (mats : list InputMaterialInfo) (path : string) :
  path ∈ map fst (concat (map registered mats)) <->
  exists mat, mat ∈ mats /\ path ∈ texture_paths mat.
Proof.
  induction mats as [| mat rest IH]; cbn [map concat].
  - split; [intros H; inversion H | intros (mat & H & _); inversion H].
  - rewrite map_app, elem_of_app, IH. split.
    + intros [H | (m & Hm & Hp)].
      * exists mat. split; [apply elem_of_cons; left; reflexivity | exact H].
      * exists m. split; [apply elem_of_cons; right; exact Hm | exact Hp].
    + intros (m & Hm & Hp). apply elem_of_cons in Hm as [-> | Hm].
      * left. exact Hp.
      * right. exists m. split; assumption.
Qed.

Lemma length_registered (mats : list InputMaterialInfo) :
  length (concat (map registered mats)) = (5 * length mats)%nat.
Proof.
  induction mats as [| mat rest IH]; [reflexivity |].
  cbn [map concat]. rewrite length_app, IH. cbn [registered length]. lia.
Qed.

Lemma ids_dense_empty : ids_dense (∅ : gmap string TextureInfo_).
Proof.
  split; [| split].
  - intros p info H. rewrite lookup_empty in H. discriminate H.
  - intros p p' info info' H. rewrite lookup_empty in H. discriminate H.
  - intros i Hi. rewrite map_size_empty in Hi. lia.
Qed.

(** What [find_unique_textures_] returns, for a model small enough that the
    counter does not wrap. *)
Lemma find_unique_textures_spec (aModel : InputModel) :
  5 * Z.of_nat (length (materials aModel)) < U32.modulus ->
  let unique := find_unique_textures_ aModel in
  keys_named (materials aModel) unique /\ ids_dense unique /\
  (size unique <= 5 * length (materials aModel))%nat /\
  (forall path info, unique !! path = Some info -> newPath info = ""%string).
Proof.
  intros Hbound. cbv zeta. unfold find_unique_textures_. rewrite foldl_add_material.
  destruct (add_all_dense (concat (map registered (materials aModel))) ∅ 0 ids_dense_empty)
    as (Hd & _ & Hs & Hk & _ & Hnew).
  { rewrite map_size_empty. reflexivity. }
  { rewrite length_registered. lia. }
  split; [| split; [exact Hd | split]].
  - intros path. rewrite Hk, registered_paths. rewrite lookup_empty. split.
    + intros [[x H] | H]; [discriminate H | exact H].
    + intros H. right. exact H.
  - rewrite length_registered, map_size_empty in Hs. lia.
  - intros path info Hp. destruct (Hnew path info Hp) as [H | H]; [exact H |].
    rewrite lookup_empty in H. discriminate H.
Qed.

(** X22: for a model with fewer than 2^32 / 5 materials, the textures that
    [find_unique_textures_] finds are exactly the non-empty paths that the
    materials name; their ids are all different and are exactly the numbers
    from 0 up to the number of textures, so that no id is used twice and
    none is left out. *)
Theorem unique_texture_ids_dense (aModel : InputModel) :
  5 * Z.of_nat (length (materials aModel)) < U32.modulus ->
  let unique := find_unique_textures_ aModel in
  (forall path, is_Some (unique !! path) <->
     path <> ""%string /\ exists mat, mat ∈ materials aModel /\ path ∈ texture_paths mat) /\
  (forall path info, unique !! path = Some info -> 0 <= uniqueId info < Z.of_nat (size unique)) /\
  (forall path path' info info',
     unique !! path = Some info -> unique !! path' = Some info' ->
     uniqueId info = uniqueId info' -> path = path') /\
  (forall i, 0 <= i < Z.of_nat (size unique) ->
     exists path info, unique !! path = Some info /\ uniqueId info = i) /\
  (size unique <= 5 * length (materials aModel))%nat.
Proof.
  intros Hbound. cbv zeta.
  destruct (find_unique_textures_spec aModel Hbound) as (Hk & (H1 & H2 & H3) & Hs & _).
  split; [exact Hk |]. split; [exact H1 |]. split; [exact H2 |]. split; [exact H3 | exact Hs].
Qed.

End UniqueTextures.

Section OrderedTextures.

Import Bake.

Variable filename : string -> string.
Variable append : string -> string -> string.

Lemma new_paths_lookup (unique : gmap string TextureInfo_) (dir path : string) :
  new_paths_ filename append unique dir !! path =
    (fun info => {| uniqueId := uniqueId info; channels := channels info;
                    newPath := append dir (filename path) |}) <$> unique !! path.
Proof.
  unfold new_paths_. rewrite map_lookup_imap.
  destruct (unique !! path); reflexivity.
Qed.

Lemma new_paths_size (unique : gmap string TextureInfo_) (dir : string) :
  size (new_paths_ filename append unique dir) = size unique.
Proof.
  unfold new_paths_.
  induction unique as [| path info unique Hnone _ IH] using map_first_key_ind.
  - rewrite map_imap_empty. reflexivity.
  - erewrite map_imap_insert_Some by reflexivity.
    rewrite !map_size_insert_None; [rewrite IH; reflexivity | exact Hnone |].
    rewrite map_lookup_imap, Hnone. reflexivity.
Qed.

Lemma new_paths_dense (unique : gmap string TextureInfo_) (dir : string) :
  ids_dense unique -> ids_dense (new_paths_ filename append unique dir).
Proof.
  intros (Hrange & Hinj & Hsurj). unfold ids_dense. rewrite new_paths_size.
  split; [| split].
  - intros path info Hp. rewrite new_paths_lookup in Hp.
    destruct (unique !! path) as [old |] eqn:Hold; [| discriminate Hp].
    injection Hp as <-. cbn. apply (Hrange path old Hold).
  - intros p p' info info' Hp Hp' Heq. rewrite new_paths_lookup in Hp, Hp'.
    destruct (unique !! p) as [old |] eqn:Hold; [| discriminate Hp].
    destruct (unique !! p') as [old' |] eqn:Hold'; [| discriminate Hp'].
    injection Hp as <-. injection Hp' as <-. cbn in Heq.
    apply (Hinj p p' old old' Hold Hold' Heq).
  - intros i Hi. destruct (Hsurj i Hi) as (p & old & Hold & Hid).
    eexists p, _. rewrite new_paths_lookup, Hold. split; [reflexivity | exact Hid].
Qed.

(** The loop that fills the table, for entries whose ids are different from
    each other, are indices of the table, and name slots that are still
    empty. *)
Lemma fill_ordered_run (entries : list (string * TextureInfo_))
    (ordered : list (option TextureInfo_)) :
  NoDup (map (fun tex => Z.to_nat (uniqueId (snd tex))) entries) ->
  Forall (fun tex => ordered !! Z.to_nat (uniqueId (snd tex)) = Some None) entries ->
  exists ordered',
    fill_ordered entries ordered = Finished ordered' /\
    length ordered' = length ordered /\
    (forall tex, tex ∈ entries ->
       ordered' !! Z.to_nat (uniqueId (snd tex)) = Some (Some (snd tex))) /\
    (forall i, i ∉ map (fun tex => Z.to_nat (uniqueId (snd tex))) entries ->
       ordered' !! i = ordered !! i).
Proof.
  revert ordered. induction entries as [| tex rest IH]; intros ordered Hnodup Hempty.
  - exists ordered. split; [reflexivity |]. split; [reflexivity |].
    split; [intros tex H; inversion H | reflexivity].
  - cbn [map] in Hnodup. apply NoDup_cons in Hnodup as [Hfresh Hnodup].
    apply Forall_cons in Hempty as [Hslot Hempty].
    cbn [fill_ordered]. cbv zeta. rewrite Hslot.
    set (i := Z.to_nat (uniqueId (snd tex))) in *.
    destruct (IH (<[i := Some (snd tex)]> ordered) Hnodup) as (ordered' & Hrun & Hlen & Hin & Hout).
    { rewrite Forall_forall in Hempty |- *. intros tex' Hin'.
      rewrite list_lookup_insert_ne; [apply Hempty; exact Hin' |].
      intros E. apply Hfresh. rewrite E.
      apply (list_elem_of_fmap_2 (fun tex => Z.to_nat (uniqueId (snd tex)))). exact Hin'. }
    exists ordered'. split; [exact Hrun |].
    split; [rewrite Hlen, length_insert; reflexivity |].
    split.
    + intros tex' Hin'. apply elem_of_cons in Hin' as [-> | Hin']; [| apply Hin; exact Hin'].
      fold i. rewrite (Hout i Hfresh).
      apply list_lookup_insert_eq. apply lookup_lt_Some in Hslot. exact Hslot.
    + intros j Hj. cbn [map] in Hj. rewrite not_elem_of_cons in Hj. destruct Hj as [Hne Hj].
      rewrite (Hout j Hj). apply list_lookup_insert_ne.
      intros E. apply Hne. symmetry. exact E.
Qed.

(** The table for a map with dense ids, whatever the order in which the map
    hands out its entries. *)
Lemma fill_ordered_dense (textures : gmap string TextureInfo_)
    (entries : list (string * TextureInfo_)) :
  ids_dense textures -> entries ≡ₚ map_to_list textures ->
  exists ordered,
    fill_ordered entries (replicate (size textures) None) = Finished ordered /\
    length ordered = size textures /\
    (forall path info, textures !! path = Some info ->
       ordered !! Z.to_nat (uniqueId info) = Some (Some info)) /\
    (forall i : nat, (i < size textures)%nat ->
       exists path info, textures !! path = Some info /\ uniqueId info = Z.of_nat i /\
                         ordered !! i = Some (Some info)).
Proof.
  intros (Hrange & Hinj & Hsurj) Hperm.
  assert (Hmem : forall path info, (path, info) ∈ entries <-> textures !! path = Some info).
  { intros path info. rewrite Hperm. apply elem_of_map_to_list. }
  assert (Hnd : NoDup entries).
  { rewrite Hperm. apply NoDup_map_to_list. }
  destruct (fill_ordered_run entries (replicate (size textures) None))
    as (ordered & Hrun & Hlen & Hin & _).
  { apply NoDup_fmap_2_strong; [| exact Hnd].
    intros [p info] [p' info'] Hp Hp' Heq. cbn [snd] in Heq.
    apply Hmem in Hp, Hp'.
    pose proof (Hrange p info Hp). pose proof (Hrange p' info' Hp').
    assert (Hids : uniqueId info = uniqueId info') by lia.
    assert (p = p') by (apply (Hinj p p' info info' Hp Hp' Hids)). subst p'.
    rewrite Hp in Hp'. injection Hp' as <-. reflexivity. }
  { rewrite Forall_forall. intros [p info] Hp. cbn [snd]. apply Hmem in Hp.
    pose proof (Hrange p info Hp).
    apply lookup_replicate_2. lia. }
  exists ordered. split; [exact Hrun |].
  split; [rewrite Hlen, length_replicate; reflexivity |].
  split.
  - intros path info Hp. apply (Hin (path, info)). apply Hmem. exact Hp.
  - intros i Hi. destruct (Hsurj (Z.of_nat i) ltac:(lia)) as (p & info & Hp & Hid).
    exists p, info. split; [exact Hp |]. split; [exact Hid |].
    assert (Hin' := Hin (p, info)). cbn [snd] in Hin'.
    rewrite Hid, Nat2Z.id in Hin'. apply Hin'. apply Hmem. exact Hp.
Qed.

(** X23: the table of textures that [write_model_data_] orders by id has
    no gap and no clash.  Whatever the order in which the map hands out its
    entries, the loop ends without tripping its assertion and without
    reaching past the table; afterwards the slot of every id holds the
    texture with that id, so the assertion of the writing loop holds for
    every slot. *)
Theorem ordered_textures_complete (aModel : InputModel) (aTexDir : string)
    (entries : list (string * TextureInfo_)) :
  5 * Z.of_nat (length (materials aModel)) < U32.modulus ->
  let textures := new_paths_ filename append (find_unique_textures_ aModel) aTexDir in
  entries ≡ₚ map_to_list textures ->
  exists ordered,
    fill_ordered entries (replicate (size textures) None) = Finished ordered /\
    length ordered = size textures /\
    (forall path info, textures !! path = Some info ->
       ordered !! Z.to_nat (uniqueId info) = Some (Some info)) /\
    (forall i : nat, (i < size textures)%nat ->
       exists path info, textures !! path = Some info /\ uniqueId info = Z.of_nat i /\
                         ordered !! i = Some (Some info)) /\
    Forall (fun slot => is_Some slot) ordered.
Proof.
  intros Hbound. cbv zeta. intros Hperm.
  destruct (find_unique_textures_spec aModel Hbound) as (_ & Hd & _ & _).
  destruct (fill_ordered_dense _ entries (new_paths_dense _ aTexDir Hd) Hperm)
    as (ordered & Hrun & Hlen & Hin & Hall).
  exists ordered. split; [exact Hrun |]. split; [exact Hlen |].
  split; [exact Hin |]. split; [exact Hall |].
  rewrite Forall_forall. intros slot Hslot.
  apply list_elem_of_lookup_1 in Hslot as [i Hi].
  assert (Hlt : (i < size (new_paths_ filename append (find_unique_textures_ aModel) aTexDir))%nat).
  { rewrite <- Hlen. apply lookup_lt_Some in Hi. exact Hi. }
  destruct (Hall i Hlt) as (p & info & _ & _ & Hsome).
  rewrite Hi in Hsome. injection Hsome as ->. eauto.
Qed.

End OrderedTextures.

Section WrittenIds.

Import Bake.

Variable filename : string -> string.
Variable append : string -> string -> string.

Lemma checked_write_run (aOut : File) (aBytes : Z) (item : Item) :
  aBytes <= room aOut ->
  checked_write_ aOut aBytes item =
    Ok {| written := written aOut ++ [item]; room := room aOut - aBytes |}.
Proof.
  intros Hroom. unfold checked_write_, fwrite. cbv zeta.
  rewrite Z.min_l by exact Hroom. rewrite Z.eqb_refl. reflexivity.
Qed.

Lemma checked_write_short (aOut : File) (aBytes : Z) (item : Item) :
  room aOut < aBytes ->
  checked_write_ aOut aBytes item = Throw (MkError "fwrite() failed" None).
Proof.
  intros Hroom. unfold checked_write_, fwrite. cbv zeta.
  rewrite Z.min_r by lia.
  destruct (Z.eqb_spec (room aOut) aBytes); [lia | reflexivity].
Qed.

Lemma normalize_required (input : InputModel) (mat : InputMaterialInfo) :
  mat ∈ materials (normalize_ input) ->
  baseColorTexturePath mat <> ""%string /\ roughnessTexturePath mat <> ""%string /\
  metalnessTexturePath mat <> ""%string.
Proof.
  unfold normalize_. cbn [materials]. intros Hin.
  apply list_elem_of_fmap in Hin as (old & -> & _). cbn.
  repeat split.
  - destruct (empty (baseColorTexturePath old)) eqn:E; [discriminate |].
    intros H. apply empty_spec in H. congruence.
  - destruct (empty (roughnessTexturePath old)) eqn:E; [discriminate |].
    intros H. apply empty_spec in H. congruence.
  - destruct (empty (metalnessTexturePath old)) eqn:E; [discriminate |].
    intros H. apply empty_spec in H. congruence.
Qed.

(** X24: in the file that the baker writes for a normalized model, the
    texture index of a material is the sentinel 0xffffffff exactly for an
    empty path, which the base-colour, roughness and metalness paths never
    are; for any other path it is the id of that texture, which is the slot
    of the table that holds the texture's new path.  The assertion that the
    path is in the map never fails. *)
Theorem written_texture_ids (input : InputModel) (aTexDir : string)
    (mat : InputMaterialInfo) (path : string) (aOut : File)
    (entries : list (string * TextureInfo_)) :
  5 * Z.of_nat (length (materials input)) < U32.modulus ->
  let aModel := normalize_ input in
  let textures := new_paths_ filename append (find_unique_textures_ aModel) aTexDir in
  mat ∈ materials aModel -> path ∈ texture_paths mat -> 4 <= room aOut ->
  entries ≡ₚ map_to_list textures ->
  exists value ordered,
    write_tex_ textures aOut path =
      Finished {| written := written aOut ++ [ItemU32 value]; room := room aOut - 4 |} /\
    fill_ordered entries (replicate (size textures) None) = Finished ordered /\
    (path = ""%string <-> value = U32.max_value) /\
    (path <> ""%string ->
     exists info,
       textures !! path = Some info /\ value = uniqueId info /\
       0 <= value < Z.of_nat (size textures) /\
       newPath info = append aTexDir (filename path) /\
       ordered !! Z.to_nat value = Some (Some info)) /\
    (path = baseColorTexturePath mat \/ path = roughnessTexturePath mat \/
     path = metalnessTexturePath mat -> path <> ""%string).
Proof.
  intros Hbound. cbv zeta. intros Hmat Hpath Hroom Hperm.
  assert (Hbound' : 5 * Z.of_nat (length (materials (normalize_ input))) < U32.modulus).
  { unfold normalize_. cbn [materials]. rewrite length_map. exact Hbound. }
  destruct (find_unique_textures_spec (normalize_ input) Hbound') as (Hkeys & Hd & Hsize & _).
  pose proof (new_paths_dense filename append _ aTexDir Hd) as Hd'.
  destruct (fill_ordered_dense _ entries Hd' Hperm) as (ordered & Hfill & _ & Hslots & _).
  destruct Hd' as (Hrange & _ & _).
  assert (Hrequired : path = baseColorTexturePath mat \/ path = roughnessTexturePath mat \/
                      path = metalnessTexturePath mat -> path <> ""%string).
  { destruct (normalize_required input mat Hmat) as (Hb & Hr & Hm).
    intros [-> | [-> | ->]]; assumption. }
  unfold write_tex_.
  destruct (empty path) eqn:Hempty.
  - apply empty_spec in Hempty. cbv zeta.
    rewrite checked_write_run by exact Hroom. cbn [of_outcome].
    exists U32.max_value, ordered.
    split; [reflexivity |]. split; [exact Hfill |].
    split; [split; [reflexivity | intros _; exact Hempty] |].
    split; [intros Hne; contradiction | exact Hrequired].
  - assert (Hne : path <> ""%string).
    { intros E. apply empty_spec in E. congruence. }
    assert (Hkey : is_Some (find_unique_textures_ (normalize_ input) !! path)).
    { apply Hkeys. split; [exact Hne |]. exists mat. split; assumption. }
    destruct Hkey as [old Hold].
    rewrite new_paths_lookup, Hold. cbn [fmap option_fmap option_map].
    rewrite checked_write_run by exact Hroom. cbn [of_outcome uniqueId].
    assert (Hlook : new_paths_ filename append (find_unique_textures_ (normalize_ input)) aTexDir
                      !! path =
                    Some {| uniqueId := uniqueId old; channels := channels old;
                            newPath := append aTexDir (filename path) |}).
    { rewrite new_paths_lookup, Hold. reflexivity. }
    pose proof (Hrange _ _ Hlook) as Hr. cbn [uniqueId] in Hr.
    exists (uniqueId old), ordered.
    split; [reflexivity |]. split; [exact Hfill |].
    split.
    { split; [intros E; contradiction |].
      intros E. exfalso.
      rewrite new_paths_size in Hr.
      unfold U32.max_value, U32.modulus in *. lia. }
    split; [| exact Hrequired].
    intros _. eexists. split; [reflexivity |]. cbn [uniqueId newPath].
    split; [reflexivity |]. split; [exact Hr |]. split; [reflexivity |].
    apply (Hslots _ _ Hlook).
Qed.

End WrittenIds.

Lemma unique_texture_ids_dense_witness :
  let unique := Bake.find_unique_textures_ Bake.sample_model in
  (forall path, is_Some (unique !! path) <->
     path <> ""%string /\
     exists mat, mat ∈ Bake.materials Bake.sample_model /\ path ∈ Bake.texture_paths mat) /\
  (forall path info,
     unique !! path = Some info -> 0 <= Bake.uniqueId info < Z.of_nat (size unique)) /\
  (forall path path' info info',
     unique !! path = Some info -> unique !! path' = Some info' ->
     Bake.uniqueId info = Bake.uniqueId info' -> path = path') /\
  (forall i, 0 <= i < Z.of_nat (size unique) ->
     exists path info, unique !! path = Some info /\ Bake.uniqueId info = i) /\
  (size unique <= 5 * length (Bake.materials Bake.sample_model))%nat.
Proof.
  apply (unique_texture_ids_dense Bake.sample_model).
  vm_compute. reflexivity.
Defined.

Lemma ordered_textures_complete_witness :
  let textures :=
    Bake.new_paths_ Bake.sample_filename Bake.sample_append
      (Bake.find_unique_textures_ Bake.sample_model) "tex" in
  exists ordered,
    Bake.fill_ordered (reverse (map_to_list textures)) (replicate (size textures) None) =
      Finished ordered /\
    length ordered = size textures /\
    (forall path info, textures !! path = Some info ->
       ordered !! Z.to_nat (Bake.uniqueId info) = Some (Some info)) /\
    (forall i : nat, (i < size textures)%nat ->
       exists path info, textures !! path = Some info /\ Bake.uniqueId info = Z.of_nat i /\
                         ordered !! i = Some (Some info)) /\
    Forall (fun slot => is_Some slot) ordered.
Proof.
  apply (ordered_textures_complete Bake.sample_filename Bake.sample_append Bake.sample_model
           "tex").
  - vm_compute. reflexivity.
  - apply reverse_Permutation.
Defined.

Lemma written_texture_ids_witness :
  let aModel := Bake.normalize_ Bake.sample_model in
  let textures :=
    Bake.new_paths_ Bake.sample_filename Bake.sample_append
      (Bake.find_unique_textures_ aModel) "tex" in
  let aOut := {| Bake.written := []; Bake.room := 4 |} in
  exists value ordered,
    Bake.write_tex_ textures aOut "leaf.png" =
      Finished {| Bake.written := [] ++ [Bake.ItemU32 value]; Bake.room := 4 - 4 |} /\
    Bake.fill_ordered (map_to_list textures) (replicate (size textures) None) =
      Finished ordered /\
    ("leaf.png"%string = ""%string <-> value = U32.max_value) /\
    ("leaf.png"%string <> ""%string ->
     exists info,
       textures !! "leaf.png"%string = Some info /\ value = Bake.uniqueId info /\
       0 <= value < Z.of_nat (size textures) /\
       Bake.newPath info = Bake.sample_append "tex" (Bake.sample_filename "leaf.png") /\
       ordered !! Z.to_nat value = Some (Some info)) /\
    ("leaf.png"%string = "assets-src/src/rgba1111.png"%string \/
     "leaf.png"%string = "rough.png"%string \/
     "leaf.png"%string = "assets-src/src/r1.png"%string -> "leaf.png"%string <> ""%string).
Proof.
  cbv zeta.
  apply (written_texture_ids Bake.sample_filename Bake.sample_append Bake.sample_model "tex"
           {| Bake.baseColorTexturePath := "assets-src/src/rgba1111.png";
              Bake.roughnessTexturePath := "rough.png";
              Bake.metalnessTexturePath := "assets-src/src/r1.png";
              Bake.alphaMaskTexturePath := "leaf.png";
              Bake.normalMapTexturePath := "" |}
           "leaf.png" {| Bake.written := []; Bake.room := 4 |}).
  - vm_compute. reflexivity.
  - apply elem_of_cons. right. apply elem_of_cons. left. reflexivity.
  - do 3 (apply elem_of_cons; right). apply elem_of_cons. left. reflexivity.
  - cbn. lia.
  - reflexivity.
Defined.

(** ** vulkan_window.cpp: the balance of views and swapchains *)

Section ResourceBalance.

Variable drv : WindowDriver.

Lemma log_shows_app (evs1 evs2 : list Event) (cv1 dv1 cc1 dc1 cv2 dv2 cc2 dc2 : list Handle) :
  log_shows evs1 cv1 dv1 cc1 dc1 -> log_shows evs2 cv2 dv2 cc2 dc2 ->
  log_shows (evs1 ++ evs2) (cv1 ++ cv2) (dv1 ++ dv2) (cc1 ++ cc2) (dc1 ++ dc2).
Proof.
  unfold log_shows, created_views, destroyed_views, created_chains, destroyed_chains,
    destroyed_images.
  intros (A1 & A2 & A3 & A4 & A5) (B1 & B2 & B3 & B4 & B5).
  rewrite !omap_app, A1, A2, A3, A4, A5, B1, B2, B3, B4, B5. repeat split; reflexivity.
Qed.

Lemma log_shows_nil : log_shows [] [] [] [] [].
Proof. repeat split; reflexivity. Qed.

Lemma log_shows_destroy_views (dev : Handle) (views : list Handle) :
  log_shows (map (EvDestroyImageView dev) views) [] views [] [].
Proof.
  induction views as [| view rest IH]; [apply log_shows_nil |].
  apply (log_shows_app [EvDestroyImageView dev view] _ [] [view] [] [] _ _ _ _);
    [repeat split; reflexivity | exact IH].
Qed.

Lemma log_shows_destroy_chain (dev chain : Handle) :
  log_shows [EvDestroySwapchain dev chain] [] [] [] [chain].
Proof. repeat split; reflexivity. Qed.

Lemma log_shows_create_chain (info : VkSwapchainCreateInfoKHR) (res : VkResult)
    (chain : Handle) :
  log_shows [EvCreateSwapchain info res chain] [] []
    (if res =? VK_SUCCESS then [chain] else []) [].
Proof.
  unfold log_shows, created_views, destroyed_views, created_chains, destroyed_chains,
    destroyed_images. cbn [omap list_omap].
  destruct (res =? VK_SUCCESS); repeat split; reflexivity.
Qed.

Lemma log_shows_create_view (info : VkImageViewCreateInfo) (res : VkResult) (view : Handle) :
  log_shows [EvCreateImageView info res view]
    (if res =? VK_SUCCESS then [view] else []) [] [] [].
Proof.
  unfold log_shows, created_views, destroyed_views, created_chains, destroyed_chains,
    destroyed_images. cbn [omap list_omap].
  destruct (res =? VK_SUCCESS); repeat split; reflexivity.
Qed.

(** The view loop appends to the window exactly the views that the log shows
    as created, destroys nothing, and fails no assertion. *)
Lemma image_views_loop_balance (dev : Handle) (fmt : VkFormat) (images : list Handle)
    (w : World) :
  let r := image_views_loop drv dev fmt images w in
  (forall c, fst r <> AssertFailed c) /\
  device (w_window (snd r)) = device (w_window w) /\
  swapchain (w_window (snd r)) = swapchain (w_window w) /\
  exists evs views,
    w_log (snd r) = w_log w ++ evs /\
    swapViews (w_window (snd r)) = swapViews (w_window w) ++ views /\
    log_shows evs views [] [] [] /\
    (forall u, fst r = Ok u -> length views = length images).
Proof.
  cbv zeta. revert w. induction images as [| image rest IH]; intros w.
  - cbn. split; [discriminate |]. split; [reflexivity |]. split; [reflexivity |].
    exists [], []. rewrite !app_nil_r.
    split; [reflexivity |]. split; [reflexivity |]. split; [apply log_shows_nil | reflexivity].
  - rewrite image_views_loop_step. cbv zeta.
    destruct (vkCreateImageView drv dev (swapchain_view_info fmt image)) as [res view].
    cbn [fst snd].
    pose proof (log_shows_create_view (swapchain_view_info fmt image) res view) as Hev.
    destruct (res =? VK_SUCCESS).
    + match goal with
      | |- context [image_views_loop drv dev fmt rest ?w1] =>
          destruct (IH w1) as (Hassert & Hdev & Hchain & evs & views & Hlog & Hviews & Hshow & Hlen)
      end.
      cbn [w_window w_log with_views device swapchain swapViews] in Hdev, Hchain, Hlog, Hviews.
      split; [exact Hassert |]. split; [exact Hdev |]. split; [exact Hchain |].
      exists (EvCreateImageView (swapchain_view_info fmt image) res view :: evs), (view :: views).
      split; [rewrite Hlog, <- app_assoc; reflexivity |].
      split; [rewrite Hviews, <- app_assoc; reflexivity |].
      split.
      * apply (log_shows_app [_] evs [view] [] [] [] views [] [] [] Hev Hshow).
      * intros u Hu. cbn [length]. rewrite (Hlen u Hu). reflexivity.
    + cbn [fst snd w_window w_log]. unfold throw_result.
      split; [discriminate |]. split; [reflexivity |]. split; [reflexivity |].
      exists [EvCreateImageView (swapchain_view_info fmt image) res view], [].
      rewrite app_nil_r.
      split; [reflexivity |]. split; [reflexivity |]. split; [exact Hev |].
      intros u Hu. discriminate Hu.
Qed.

Lemma destructor_run (w : World) :
  VulkanWindow_destructor w =
    (Ok tt,
     {| w_window := w_window w;
        w_log := w_log w ++
                 map (EvDestroyImageView (device (w_window w))) (swapViews (w_window w)) ++
                 (if negb (VK_NULL_HANDLE =? swapchain (w_window w))
                  then [EvDestroySwapchain (device (w_window w)) (swapchain (w_window w))]
                  else []) |}).
Proof.
  unfold VulkanWindow_destructor, act_bind, get_window.
  rewrite destroy_views_run. cbn [w_window w_log].
  destruct (negb (VK_NULL_HANDLE =? swapchain (w_window w))).
  - unfold emit. cbn [w_window w_log]. rewrite <- app_assoc. reflexivity.
  - unfold act_ret. rewrite app_nil_r. reflexivity.
Qed.

Lemma log_shows_destructor (win : VulkanWindow) :
  swapchain win <> VK_NULL_HANDLE ->
  log_shows
    (map (EvDestroyImageView (device win)) (swapViews win) ++
     (if negb (VK_NULL_HANDLE =? swapchain win)
      then [EvDestroySwapchain (device win) (swapchain win)] else []))
    [] (swapViews win) [] [swapchain win].
Proof.
  intros Hne.
  destruct (Z.eqb_spec VK_NULL_HANDLE (swapchain win)) as [E | _]; [congruence |].
  cbn [negb].
  pose proof (log_shows_app _ _ _ _ _ _ _ _ _ _
                (log_shows_destroy_views (device win) (swapViews win))
                (log_shows_destroy_chain (device win) (swapchain win))) as H.
  cbn [app] in H. rewrite app_nil_r in H. exact H.
Qed.

Lemma get_swapchain_images_empty (dev chain : Handle) (w : World) :
  swapImages (w_window w) = [] ->
  exists images,
    get_swapchain_images drv dev chain w =
      (Ok tt, {| w_window := with_images (w_window w) images; w_log := w_log w |}).
Proof.
  intros Hempty.
  destruct (vkGetSwapchainImagesKHR drv dev chain) as [res images] eqn:Hq.
  destruct (Z.eq_dec res VK_SUCCESS) as [-> | Hres].
  - exists images. apply get_swapchain_images_ok; assumption.
  - exists []. rewrite get_swapchain_images_failed; [| exact Hempty | rewrite Hq; exact Hres].
    destruct w as [win log]. cbn [w_window w_log] in *.
    destruct win. cbn in Hempty. subst. reflexivity.
Qed.

(** A failed assertion in [create_swapchain] ends the recreation. *)
Lemma recreate_swapchain_asserts (w : World) (c : string) :
  fst (creation_attempt drv w) = AssertFailed c ->
  fst (recreate_swapchain drv w) = AssertFailed c.
Proof.
  intros Hfail.
  unfold recreate_swapchain.
  unfold act_bind at 1. unfold get_window at 1.
  unfold act_bind at 1. rewrite destroy_views_run.
  unfold act_bind at 1. unfold set_window at 1. cbn [w_window w_log].
  unfold act_bind at 1. unfold try_catch_rethrow.
  unfold act_bind at 1.
  unfold creation_attempt, views_destroyed, recreate_queue_families in Hfail |- *.
  destruct (create_swapchain drv _ _ _ _ _ _ _) as [[created | e' | c'] w2];
    cbn [fst snd] in Hfail; try discriminate Hfail.
  injection Hfail as ->. reflexivity.
Qed.

(** The recreation and the destructor together, in terms of what the new
    part of the log shows. *)
Lemma recreate_then_destroy (w : World) :
  swapchain (w_window w) <> VK_NULL_HANDLE ->
  (forall chain fmt ext,
     fst (creation_attempt drv w) = Ok (chain, fmt, ext) -> chain <> VK_NULL_HANDLE) ->
  (forall c, fst (recreate_swapchain drv w) <> AssertFailed c) ->
  exists news cv cc,
    w_log (snd (VulkanWindow_destructor (snd (recreate_swapchain drv w)))) = w_log w ++ news /\
    log_shows news cv (swapViews (w_window w) ++ cv) cc (swapchain (w_window w) :: cc).
Proof.
  intros Hold Hnew Hassert.
  pose proof (create_swapchain_cases drv
                (physicalDevice (w_window w)) (surface (w_window w))
                (device (w_window w)) (window (w_window w))
                (recreate_queue_families (w_window w)) (swapchain (w_window w))
                (views_destroyed w)) as Hcases.
  cbv zeta in Hcases. fold (creation_attempt drv w) in Hcases.
  destruct Hcases as [Hwin Hlog].
  pose proof (log_shows_destroy_views (device (w_window w)) (swapViews (w_window w))) as Hgone.
  set (viewsGone := map (EvDestroyImageView (device (w_window w))) (swapViews (w_window w))) in *.
  assert (Hvd : w_log (views_destroyed w) = w_log w ++ viewsGone) by reflexivity.
  destruct (fst (creation_attempt drv w)) as [[[chain fmt] ext] | e | c] eqn:Hattempt.
  - (* the chain was created *)
    destruct Hlog as (info & Hlog & _ & _ & _).
    specialize (Hnew chain fmt ext eq_refl).
    pose proof (recreate_swapchain_success drv w chain fmt ext Hattempt) as Hrun.
    cbv zeta in Hrun. rewrite Hrun. clear Hrun Hassert.
    match goal with
    | |- context [get_swapchain_images drv ?d ?c ?w3] =>
        destruct (get_swapchain_images_empty d c w3) as [images Himages]; [reflexivity |];
        rewrite Himages; clear Himages
    end.
    cbn [w_window w_log].
    rewrite create_swapchain_image_views_eq.
    cbn [w_window w_log with_images with_swapchain views_destroyed with_views swapViews
         swapImages swapchainFormat device length Z.of_nat Z.eqb].
    change (Z.of_nat 0 =? 0) with true. cbv iota.
    match goal with
    | |- context [image_views_loop drv ?d ?f ?imgs ?w4] =>
        pose proof (image_views_loop_balance d f imgs w4) as Hloop;
        cbv zeta in Hloop;
        destruct (image_views_loop drv d f imgs w4) as [[[] | e | c] w5]
    end;
      cbn [fst snd w_window w_log with_images with_swapchain with_views swapViews device
           swapchain] in Hloop;
      destruct Hloop as (Hnoassert & Hdev & Hchain & evs & views & Hlog5 & Hviews5 & Hshow & Hlen);
      cbn [app] in Hviews5;
      [| | exfalso; apply (Hnoassert c); reflexivity].
    + (* all views were created *)
      rewrite Hviews5, (Hlen tt eq_refl). unfold assert_that. rewrite Z.eqb_refl.
      cbn [fst snd]. rewrite destructor_run. cbn [snd w_log].
      rewrite Hlog5, Hlog, Hvd, Hdev, Hchain, Hviews5.
      exists (viewsGone ++ [EvCreateSwapchain info VK_SUCCESS chain] ++
              [EvDestroySwapchain (device (w_window w)) (swapchain (w_window w))] ++ evs ++
              map (EvDestroyImageView (device (w_window w))) views ++
              (if negb (VK_NULL_HANDLE =? chain)
               then [EvDestroySwapchain (device (w_window w)) chain] else [])),
             views, [chain].
      split; [rewrite <- !app_assoc; reflexivity |].
      destruct (Z.eqb_spec VK_NULL_HANDLE chain) as [E | _]; [congruence |]. cbn [negb].
      pose proof (log_shows_app _ _ _ _ _ _ _ _ _ _ Hgone
                    (log_shows_app _ _ _ _ _ _ _ _ _ _
                       (log_shows_create_chain info VK_SUCCESS chain)
                       (log_shows_app _ _ _ _ _ _ _ _ _ _
                          (log_shows_destroy_chain (device (w_window w)) (swapchain (w_window w)))
                          (log_shows_app _ _ _ _ _ _ _ _ _ _ Hshow
                             (log_shows_app _ _ _ _ _ _ _ _ _ _
                                (log_shows_destroy_views (device (w_window w)) views)
                                (log_shows_destroy_chain (device (w_window w)) chain))))))
        as H.
      cbn [app VK_SUCCESS Z.eqb] in H. rewrite !app_nil_r in H. exact H.
    + (* a view was refused *)
      cbn [fst snd]. rewrite destructor_run. cbn [snd w_log].
      rewrite Hlog5, Hlog, Hvd, Hdev, Hchain, Hviews5.
      exists (viewsGone ++ [EvCreateSwapchain info VK_SUCCESS chain] ++
              [EvDestroySwapchain (device (w_window w)) (swapchain (w_window w))] ++ evs ++
              map (EvDestroyImageView (device (w_window w))) views ++
              (if negb (VK_NULL_HANDLE =? chain)
               then [EvDestroySwapchain (device (w_window w)) chain] else [])),
             views, [chain].
      split; [rewrite <- !app_assoc; reflexivity |].
      destruct (Z.eqb_spec VK_NULL_HANDLE chain) as [E | _]; [congruence |]. cbn [negb].
      pose proof (log_shows_app _ _ _ _ _ _ _ _ _ _ Hgone
                    (log_shows_app _ _ _ _ _ _ _ _ _ _
                       (log_shows_create_chain info VK_SUCCESS chain)
                       (log_shows_app _ _ _ _ _ _ _ _ _ _
                          (log_shows_destroy_chain (device (w_window w)) (swapchain (w_window w)))
                          (log_shows_app _ _ _ _ _ _ _ _ _ _ Hshow
                             (log_shows_app _ _ _ _ _ _ _ _ _ _
                                (log_shows_destroy_views (device (w_window w)) views)
                                (log_shows_destroy_chain (device (w_window w)) chain))))))
        as H.
      cbn [app VK_SUCCESS Z.eqb] in H. rewrite !app_nil_r in H. exact H.
  - (* the creation threw *)
    rewrite (recreate_swapchain_failure drv w e Hattempt).
    cbn [snd]. rewrite destructor_run.
    cbn [w_window w_log views_destroyed with_images with_views swapViews device swapchain map app].
    destruct (Z.eqb_spec VK_NULL_HANDLE (swapchain (w_window w))) as [E | _]; [congruence |].
    cbn [negb].
    destruct Hlog as [Hlog | (info & res & chain & Hres & Hlog)]; rewrite Hlog, Hvd.
    + exists (viewsGone ++ [EvDestroySwapchain (device (w_window w)) (swapchain (w_window w))]),
             [], [].
      split; [rewrite <- !app_assoc; reflexivity |].
      pose proof (log_shows_app _ _ _ _ _ _ _ _ _ _ Hgone
                    (log_shows_destroy_chain (device (w_window w)) (swapchain (w_window w)))) as H.
      cbn [app] in H. exact H.
    + exists (viewsGone ++ [EvCreateSwapchain info res chain] ++
              [EvDestroySwapchain (device (w_window w)) (swapchain (w_window w))]), [], [].
      split; [rewrite <- !app_assoc; reflexivity |].
      pose proof (log_shows_app _ _ _ _ _ _ _ _ _ _ Hgone
                    (log_shows_app _ _ _ _ _ _ _ _ _ _
                       (log_shows_create_chain info res chain)
                       (log_shows_destroy_chain (device (w_window w)) (swapchain (w_window w)))))
        as H.
      destruct (Z.eqb_spec res VK_SUCCESS) as [E | _]; [congruence |].
      cbn [app] in H. exact H.
  - (* the creation failed an assertion *)
    exfalso. apply (Hassert c). apply recreate_swapchain_asserts. exact Hattempt.
Qed.

(** X25: through a recreation of the swapchain, whether it succeeds or
    throws, and the destructor of the window after it, every view that the
    window held or that was created is destroyed exactly once, in the order
    of creation; the old swapchain and the new one, if one was created, are
    each destroyed exactly once; and no swapchain image is destroyed, since
    the images belong to their chain. *)
Theorem views_and_chains_balanced (w : World) :
  swapchain (w_window w) <> VK_NULL_HANDLE ->
  (forall chain fmt ext,
     fst (creation_attempt drv w) = Ok (chain, fmt, ext) -> chain <> VK_NULL_HANDLE) ->
  (forall c, fst (recreate_swapchain drv w) <> AssertFailed c) ->
  exists news,
    w_log (snd (VulkanWindow_destructor (snd (recreate_swapchain drv w)))) = w_log w ++ news /\
    destroyed_views news = swapViews (w_window w) ++ created_views news /\
    destroyed_chains news = swapchain (w_window w) :: created_chains news /\
    destroyed_images news = [].
Proof.
  intros Hold Hnew Hassert.
  destruct (recreate_then_destroy w Hold Hnew Hassert) as (news & cv & cc & Hlog & Hshow).
  destruct Hshow as (Hcv & Hdv & Hcc & Hdc & Hdi).
  exists news. split; [exact Hlog |].
  rewrite Hcv, Hcc. repeat split; assumption.
Qed.

End ResourceBalance.

Lemma views_and_chains_balanced_witness :
  exists news,
    w_log (snd (VulkanWindow_destructor
                  (snd (recreate_swapchain steady_window_driver sample_world)))) =
      w_log sample_world ++ news /\
    destroyed_views news = swapViews (w_window sample_world) ++ created_views news /\
    destroyed_chains news = swapchain (w_window sample_world) :: created_chains news /\
    destroyed_images news = [].
Proof.
  apply (views_and_chains_balanced steady_window_driver sample_world).
  - discriminate.
  - intros chain fmt ext H. vm_compute in H. injection H as <- _ _. discriminate.
  - intros c H. vm_compute in H. discriminate H.
Defined.

Example balance_sample :
  let news := w_log (snd (VulkanWindow_destructor
                            (snd (recreate_swapchain steady_window_driver sample_world)))) in
  destroyed_views news = [291; 292; 301; 302; 303] /\
  created_views news = [301; 302; 303] /\
  destroyed_chains news = [100; 101] /\ created_chains news = [101].
Proof. vm_compute. repeat split; reflexivity. Qed.

(** ** vulkan_window.cpp: instance layers and extensions *)

Section InstanceRequest.

Variable supportedLayers supportedExtensions : gset string.

Lemma required_extensions_loop_spec (requiredExt enabled : list string) :
  (Forall (fun ext => ext ∈ supportedExtensions) requiredExt /\
   required_extensions_loop supportedExtensions requiredExt enabled =
     Ok (enabled ++ requiredExt)) \/
  (~ Forall (fun ext => ext ∈ supportedExtensions) requiredExt /\
   required_extensions_loop supportedExtensions requiredExt enabled =
     Throw (MkError "GLFW/Vulkan: required instance extension not supported" None)).
Proof.
  revert enabled. induction requiredExt as [| ext rest IH]; intros enabled.
  - left. split; [constructor |]. cbn. rewrite app_nil_r. reflexivity.
  - cbn [required_extensions_loop].
    destruct (bool_decide_reflect (ext ∈ supportedExtensions)) as [Hin | Hout]; cbn [negb].
    + destruct (IH (enabled ++ [ext])) as [[Hall Hrun] | [Hnot Hrun]].
      * left. split; [constructor; assumption |]. rewrite Hrun, <- app_assoc. reflexivity.
      * right. split; [| exact Hrun]. intros Hall. apply Hnot.
        apply Forall_cons in Hall as [_ Hall]. exact Hall.
    + right. split; [| reflexivity]. intros Hall.
      apply Forall_cons in Hall as [Hin _]. contradiction.
Qed.


End InstanceRequest.

Example instance_request_sample :
  instance_request true {[ "VK_LAYER_KHRONOS_validation"%string ]}
    {[ "VK_KHR_surface"%string; "VK_KHR_xcb_surface"%string; "VK_EXT_debug_utils"%string ]}
    ["VK_KHR_surface"%string; "VK_KHR_xcb_surface"%string] =
    Ok (["VK_LAYER_KHRONOS_validation"%string],
        ["VK_KHR_surface"%string; "VK_KHR_xcb_surface"%string; "VK_EXT_debug_utils"%string],
        true) /\
  instance_request false ∅ {[ "VK_KHR_surface"%string ]}
    ["VK_KHR_surface"%string; "VK_KHR_xcb_surface"%string] =
    Throw (MkError "GLFW/Vulkan: required instance extension not supported" None).
Proof. split; vm_compute; reflexivity. Qed.
